(** * Babylon.js: pointer-drag behaviour, thin instances and WebXR hand tracking

    A shallow embedding of three pieces of the engine and the properties
    the specification states about them (C1 to C10), followed by further
    properties read off the code (X1 and following):

    - [PointerDrag]: [PointerDragBehavior], that is the constructor,
      [_pickWithRayOnDragPlane], [_updateDragPlanePosition], [_moveDrag],
      the [enabled] setter, [attach] with its two observers, [releaseDrag],
      [_startDrag], [startDrag] and [detach];
    - [ThinInstance]: the thin-instance extension methods of [Mesh]
      ([thinInstanceAdd], [thinInstanceSetMatrixAt], the [thinInstanceCount]
      accessor, [_thinInstanceUpdateBufferSize],
      [thinInstanceRegisterAttribute], [thinInstanceSetAttributeAt],
      [thinInstanceSetBuffer], [thinInstanceGetWorldMatrices]);
    - [HandTracking]: the registries of [WebXRHandTracking] ([attach],
      [_attachHand], [_detachHandById], [detach] and the two getters), the
      joint tables with [getJointMesh] and [getHandPartMeshes], and the rig
      mappings.

    Conventions.  A JavaScript [number] holding a coordinate is a real
    number: arithmetic is exact, so rounding, NaN and infinities are outside
    the model.  A [number] holding a count, a size or an index is an integer
    of [Z].  A member that is [null] or [undefined] is [None].  A method that
    can throw returns a [Completion]. *)

From Stdlib Require Import Reals Lra Psatz ZArith QArith List String Bool.
From stdpp Require Import gmap strings list.

(** ** Completion of a method call: a value or a thrown exception *)

Inductive Completion (A : Type) : Type :=
| Normal (a : A)
| Throw (msg : string).
Arguments Normal {A} a.
Arguments Throw {A} msg.

Definition bindC {A B : Type} (c : Completion A) (k : A -> Completion B) : Completion B :=
  match c with
  | Normal a => k a
  | Throw msg => Throw msg
  end.

Notation "'let!' x ':=' c 'in' k" := (bindC c (fun x => k))
  (at level 10, x pattern, c at level 100, k at level 200).

(** Reading a member of an object that is [undefined]. *)
Definition TypeError : string := "TypeError".

Definition defined {A : Type} (o : option A) : Completion A :=
  match o with
  | Some a => Normal a
  | None => Throw TypeError
  end.

(** A member that holds an object is truthy; [null] and [undefined] are not. *)
Definition isSet {A : Type} (o : option A) : bool :=
  match o with Some _ => true | None => false end.

(* ===================================================================== *)
(** * PointerDragBehavior *)
(* ===================================================================== *)

Module PointerDrag.
Local Open Scope R_scope.

(** ** Vectors *)

(** Modelled from the spec: [Vector3] (Maths/math.vector) is not among the
    sources.  Its elementary operations are taken with the meaning the
    specification's formulas give them: dot product, sum, difference,
    scaling by a number, cross product and Euclidean length. *)
Record Vector3 := mkVector3 { x : R; y : R; z : R }.

Definition Dot (a b : Vector3) : R := x a * x b + y a * y b + z a * z b.
Definition add (a b : Vector3) : Vector3 := mkVector3 (x a + x b) (y a + y b) (z a + z b).
Definition subtract (a b : Vector3) : Vector3 := mkVector3 (x a - x b) (y a - y b) (z a - z b).
Definition scale (a : Vector3) (s : R) : Vector3 := mkVector3 (x a * s) (y a * s) (z a * s).
Definition Cross (a b : Vector3) : Vector3 :=
  mkVector3 (y a * z b - z a * y b) (z a * x b - x a * z b) (x a * y b - y a * x b).
Definition length (a : Vector3) : R := sqrt (x a * x a + y a * y a + z a * z a).

Definition Zero : Vector3 := mkVector3 0 0 0.
Definition UpReadOnly : Vector3 := mkVector3 0 1 0.
Definition Right : Vector3 := mkVector3 1 0 0.

(** ** Objects the behaviour works on *)

Record Ray := mkRay { origin : Vector3; direction : Vector3 }.

(** The drag plane mesh: its [position] and its [forward] vector. *)
Record DragPlane := mkDragPlane { position : Vector3; forward : Vector3 }.

(** The attached mesh: its absolute position, and [rotate], which stands for
    [Vector3.TransformCoordinates(v, getWorldMatrix().getRotationMatrix())]. *)
Record Node := mkNode { absolutePosition : Vector3; rotate : Vector3 -> Vector3 }.

Record Options := mkOptions {
  dragAxis : option Vector3;
  dragPlaneNormal : option Vector3
}.

(** The object handed to the observers of [onDragObservable]. *)
Record DragInfo := mkDragInfo {
  dragDistance : R;
  delta : Vector3;
  dragPlanePoint : Vector3;
  planeNormal : Vector3;
  pointerId : Z
}.

Record Behavior := mkBehavior {
  _options : Options;
  maxDragAngle : R;
  _useAlternatePickedPointAboveMaxDragAngle : bool;
  _useAlternatePickedPointAboveMaxDragAngleDragSpeed : R;
  updateDragPlane : bool;
  useObjectOrientationForDragging : bool;
  _moving : bool;
  currentDraggingPointerId : Z;
  attachedNode : option Node;
  _dragPlane : option DragPlane;
  lastDragPosition : option Vector3;
  _targetPosition : Vector3;
  _dragDelta : Vector3;
  _worldDragAxis : Vector3;
  _tmpVector : Vector3;
  _alternatePickedPoint : Vector3;
  _pointA : Vector3;
  _pointC : Vector3;
  _localAxis : Vector3;
  _lookAt : Vector3;
  activeCameraForward : option Vector3;
  onDragObservable : list DragInfo
}.

Definition set__moving (v : bool) (b : Behavior) : Behavior :=
  {| _options := _options b; maxDragAngle := maxDragAngle b;
     _useAlternatePickedPointAboveMaxDragAngle := _useAlternatePickedPointAboveMaxDragAngle b;
     _useAlternatePickedPointAboveMaxDragAngleDragSpeed := _useAlternatePickedPointAboveMaxDragAngleDragSpeed b;
     updateDragPlane := updateDragPlane b;
     useObjectOrientationForDragging := useObjectOrientationForDragging b; _moving := v;
     currentDraggingPointerId := currentDraggingPointerId b; attachedNode := attachedNode b;
     _dragPlane := _dragPlane b; lastDragPosition := lastDragPosition b;
     _targetPosition := _targetPosition b; _dragDelta := _dragDelta b;
     _worldDragAxis := _worldDragAxis b; _tmpVector := _tmpVector b;
     _alternatePickedPoint := _alternatePickedPoint b; _pointA := _pointA b; _pointC := _pointC b;
     _localAxis := _localAxis b; _lookAt := _lookAt b;
     activeCameraForward := activeCameraForward b; onDragObservable := onDragObservable b |}.

Definition set__dragPlane (v : option DragPlane) (b : Behavior) : Behavior :=
  {| _options := _options b; maxDragAngle := maxDragAngle b;
     _useAlternatePickedPointAboveMaxDragAngle := _useAlternatePickedPointAboveMaxDragAngle b;
     _useAlternatePickedPointAboveMaxDragAngleDragSpeed := _useAlternatePickedPointAboveMaxDragAngleDragSpeed b;
     updateDragPlane := updateDragPlane b;
     useObjectOrientationForDragging := useObjectOrientationForDragging b; _moving := _moving b;
     currentDraggingPointerId := currentDraggingPointerId b; attachedNode := attachedNode b;
     _dragPlane := v; lastDragPosition := lastDragPosition b;
     _targetPosition := _targetPosition b; _dragDelta := _dragDelta b;
     _worldDragAxis := _worldDragAxis b; _tmpVector := _tmpVector b;
     _alternatePickedPoint := _alternatePickedPoint b; _pointA := _pointA b; _pointC := _pointC b;
     _localAxis := _localAxis b; _lookAt := _lookAt b;
     activeCameraForward := activeCameraForward b; onDragObservable := onDragObservable b |}.

Definition set_lastDragPosition (v : option Vector3) (b : Behavior) : Behavior :=
  {| _options := _options b; maxDragAngle := maxDragAngle b;
     _useAlternatePickedPointAboveMaxDragAngle := _useAlternatePickedPointAboveMaxDragAngle b;
     _useAlternatePickedPointAboveMaxDragAngleDragSpeed := _useAlternatePickedPointAboveMaxDragAngleDragSpeed b;
     updateDragPlane := updateDragPlane b;
     useObjectOrientationForDragging := useObjectOrientationForDragging b; _moving := _moving b;
     currentDraggingPointerId := currentDraggingPointerId b; attachedNode := attachedNode b;
     _dragPlane := _dragPlane b; lastDragPosition := v; _targetPosition := _targetPosition b;
     _dragDelta := _dragDelta b; _worldDragAxis := _worldDragAxis b; _tmpVector := _tmpVector b;
     _alternatePickedPoint := _alternatePickedPoint b; _pointA := _pointA b; _pointC := _pointC b;
     _localAxis := _localAxis b; _lookAt := _lookAt b;
     activeCameraForward := activeCameraForward b; onDragObservable := onDragObservable b |}.

Definition set__targetPosition (v : Vector3) (b : Behavior) : Behavior :=
  {| _options := _options b; maxDragAngle := maxDragAngle b;
     _useAlternatePickedPointAboveMaxDragAngle := _useAlternatePickedPointAboveMaxDragAngle b;
     _useAlternatePickedPointAboveMaxDragAngleDragSpeed := _useAlternatePickedPointAboveMaxDragAngleDragSpeed b;
     updateDragPlane := updateDragPlane b;
     useObjectOrientationForDragging := useObjectOrientationForDragging b; _moving := _moving b;
     currentDraggingPointerId := currentDraggingPointerId b; attachedNode := attachedNode b;
     _dragPlane := _dragPlane b; lastDragPosition := lastDragPosition b; _targetPosition := v;
     _dragDelta := _dragDelta b; _worldDragAxis := _worldDragAxis b; _tmpVector := _tmpVector b;
     _alternatePickedPoint := _alternatePickedPoint b; _pointA := _pointA b; _pointC := _pointC b;
     _localAxis := _localAxis b; _lookAt := _lookAt b;
     activeCameraForward := activeCameraForward b; onDragObservable := onDragObservable b |}.

Definition set__dragDelta (v : Vector3) (b : Behavior) : Behavior :=
  {| _options := _options b; maxDragAngle := maxDragAngle b;
     _useAlternatePickedPointAboveMaxDragAngle := _useAlternatePickedPointAboveMaxDragAngle b;
     _useAlternatePickedPointAboveMaxDragAngleDragSpeed := _useAlternatePickedPointAboveMaxDragAngleDragSpeed b;
     updateDragPlane := updateDragPlane b;
     useObjectOrientationForDragging := useObjectOrientationForDragging b; _moving := _moving b;
     currentDraggingPointerId := currentDraggingPointerId b; attachedNode := attachedNode b;
     _dragPlane := _dragPlane b; lastDragPosition := lastDragPosition b;
     _targetPosition := _targetPosition b; _dragDelta := v; _worldDragAxis := _worldDragAxis b;
     _tmpVector := _tmpVector b; _alternatePickedPoint := _alternatePickedPoint b;
     _pointA := _pointA b; _pointC := _pointC b; _localAxis := _localAxis b; _lookAt := _lookAt b;
     activeCameraForward := activeCameraForward b; onDragObservable := onDragObservable b |}.

Definition set__worldDragAxis (v : Vector3) (b : Behavior) : Behavior :=
  {| _options := _options b; maxDragAngle := maxDragAngle b;
     _useAlternatePickedPointAboveMaxDragAngle := _useAlternatePickedPointAboveMaxDragAngle b;
     _useAlternatePickedPointAboveMaxDragAngleDragSpeed := _useAlternatePickedPointAboveMaxDragAngleDragSpeed b;
     updateDragPlane := updateDragPlane b;
     useObjectOrientationForDragging := useObjectOrientationForDragging b; _moving := _moving b;
     currentDraggingPointerId := currentDraggingPointerId b; attachedNode := attachedNode b;
     _dragPlane := _dragPlane b; lastDragPosition := lastDragPosition b;
     _targetPosition := _targetPosition b; _dragDelta := _dragDelta b; _worldDragAxis := v;
     _tmpVector := _tmpVector b; _alternatePickedPoint := _alternatePickedPoint b;
     _pointA := _pointA b; _pointC := _pointC b; _localAxis := _localAxis b; _lookAt := _lookAt b;
     activeCameraForward := activeCameraForward b; onDragObservable := onDragObservable b |}.

Definition set__tmpVector (v : Vector3) (b : Behavior) : Behavior :=
  {| _options := _options b; maxDragAngle := maxDragAngle b;
     _useAlternatePickedPointAboveMaxDragAngle := _useAlternatePickedPointAboveMaxDragAngle b;
     _useAlternatePickedPointAboveMaxDragAngleDragSpeed := _useAlternatePickedPointAboveMaxDragAngleDragSpeed b;
     updateDragPlane := updateDragPlane b;
     useObjectOrientationForDragging := useObjectOrientationForDragging b; _moving := _moving b;
     currentDraggingPointerId := currentDraggingPointerId b; attachedNode := attachedNode b;
     _dragPlane := _dragPlane b; lastDragPosition := lastDragPosition b;
     _targetPosition := _targetPosition b; _dragDelta := _dragDelta b;
     _worldDragAxis := _worldDragAxis b; _tmpVector := v;
     _alternatePickedPoint := _alternatePickedPoint b; _pointA := _pointA b; _pointC := _pointC b;
     _localAxis := _localAxis b; _lookAt := _lookAt b;
     activeCameraForward := activeCameraForward b; onDragObservable := onDragObservable b |}.

Definition set__alternatePickedPoint (v : Vector3) (b : Behavior) : Behavior :=
  {| _options := _options b; maxDragAngle := maxDragAngle b;
     _useAlternatePickedPointAboveMaxDragAngle := _useAlternatePickedPointAboveMaxDragAngle b;
     _useAlternatePickedPointAboveMaxDragAngleDragSpeed := _useAlternatePickedPointAboveMaxDragAngleDragSpeed b;
     updateDragPlane := updateDragPlane b;
     useObjectOrientationForDragging := useObjectOrientationForDragging b; _moving := _moving b;
     currentDraggingPointerId := currentDraggingPointerId b; attachedNode := attachedNode b;
     _dragPlane := _dragPlane b; lastDragPosition := lastDragPosition b;
     _targetPosition := _targetPosition b; _dragDelta := _dragDelta b;
     _worldDragAxis := _worldDragAxis b; _tmpVector := _tmpVector b; _alternatePickedPoint := v;
     _pointA := _pointA b; _pointC := _pointC b; _localAxis := _localAxis b; _lookAt := _lookAt b;
     activeCameraForward := activeCameraForward b; onDragObservable := onDragObservable b |}.

Definition set__pointA (v : Vector3) (b : Behavior) : Behavior :=
  {| _options := _options b; maxDragAngle := maxDragAngle b;
     _useAlternatePickedPointAboveMaxDragAngle := _useAlternatePickedPointAboveMaxDragAngle b;
     _useAlternatePickedPointAboveMaxDragAngleDragSpeed := _useAlternatePickedPointAboveMaxDragAngleDragSpeed b;
     updateDragPlane := updateDragPlane b;
     useObjectOrientationForDragging := useObjectOrientationForDragging b; _moving := _moving b;
     currentDraggingPointerId := currentDraggingPointerId b; attachedNode := attachedNode b;
     _dragPlane := _dragPlane b; lastDragPosition := lastDragPosition b;
     _targetPosition := _targetPosition b; _dragDelta := _dragDelta b;
     _worldDragAxis := _worldDragAxis b; _tmpVector := _tmpVector b;
     _alternatePickedPoint := _alternatePickedPoint b; _pointA := v; _pointC := _pointC b;
     _localAxis := _localAxis b; _lookAt := _lookAt b;
     activeCameraForward := activeCameraForward b; onDragObservable := onDragObservable b |}.

Definition set__pointC (v : Vector3) (b : Behavior) : Behavior :=
  {| _options := _options b; maxDragAngle := maxDragAngle b;
     _useAlternatePickedPointAboveMaxDragAngle := _useAlternatePickedPointAboveMaxDragAngle b;
     _useAlternatePickedPointAboveMaxDragAngleDragSpeed := _useAlternatePickedPointAboveMaxDragAngleDragSpeed b;
     updateDragPlane := updateDragPlane b;
     useObjectOrientationForDragging := useObjectOrientationForDragging b; _moving := _moving b;
     currentDraggingPointerId := currentDraggingPointerId b; attachedNode := attachedNode b;
     _dragPlane := _dragPlane b; lastDragPosition := lastDragPosition b;
     _targetPosition := _targetPosition b; _dragDelta := _dragDelta b;
     _worldDragAxis := _worldDragAxis b; _tmpVector := _tmpVector b;
     _alternatePickedPoint := _alternatePickedPoint b; _pointA := _pointA b; _pointC := v;
     _localAxis := _localAxis b; _lookAt := _lookAt b;
     activeCameraForward := activeCameraForward b; onDragObservable := onDragObservable b |}.

Definition set__localAxis (v : Vector3) (b : Behavior) : Behavior :=
  {| _options := _options b; maxDragAngle := maxDragAngle b;
     _useAlternatePickedPointAboveMaxDragAngle := _useAlternatePickedPointAboveMaxDragAngle b;
     _useAlternatePickedPointAboveMaxDragAngleDragSpeed := _useAlternatePickedPointAboveMaxDragAngleDragSpeed b;
     updateDragPlane := updateDragPlane b;
     useObjectOrientationForDragging := useObjectOrientationForDragging b; _moving := _moving b;
     currentDraggingPointerId := currentDraggingPointerId b; attachedNode := attachedNode b;
     _dragPlane := _dragPlane b; lastDragPosition := lastDragPosition b;
     _targetPosition := _targetPosition b; _dragDelta := _dragDelta b;
     _worldDragAxis := _worldDragAxis b; _tmpVector := _tmpVector b;
     _alternatePickedPoint := _alternatePickedPoint b; _pointA := _pointA b; _pointC := _pointC b;
     _localAxis := v; _lookAt := _lookAt b; activeCameraForward := activeCameraForward b;
     onDragObservable := onDragObservable b |}.

Definition set__lookAt (v : Vector3) (b : Behavior) : Behavior :=
  {| _options := _options b; maxDragAngle := maxDragAngle b;
     _useAlternatePickedPointAboveMaxDragAngle := _useAlternatePickedPointAboveMaxDragAngle b;
     _useAlternatePickedPointAboveMaxDragAngleDragSpeed := _useAlternatePickedPointAboveMaxDragAngleDragSpeed b;
     updateDragPlane := updateDragPlane b;
     useObjectOrientationForDragging := useObjectOrientationForDragging b; _moving := _moving b;
     currentDraggingPointerId := currentDraggingPointerId b; attachedNode := attachedNode b;
     _dragPlane := _dragPlane b; lastDragPosition := lastDragPosition b;
     _targetPosition := _targetPosition b; _dragDelta := _dragDelta b;
     _worldDragAxis := _worldDragAxis b; _tmpVector := _tmpVector b;
     _alternatePickedPoint := _alternatePickedPoint b; _pointA := _pointA b; _pointC := _pointC b;
     _localAxis := _localAxis b; _lookAt := v; activeCameraForward := activeCameraForward b;
     onDragObservable := onDragObservable b |}.

Definition set_onDragObservable (v : list DragInfo) (b : Behavior) : Behavior :=
  {| _options := _options b; maxDragAngle := maxDragAngle b;
     _useAlternatePickedPointAboveMaxDragAngle := _useAlternatePickedPointAboveMaxDragAngle b;
     _useAlternatePickedPointAboveMaxDragAngleDragSpeed := _useAlternatePickedPointAboveMaxDragAngleDragSpeed b;
     updateDragPlane := updateDragPlane b;
     useObjectOrientationForDragging := useObjectOrientationForDragging b; _moving := _moving b;
     currentDraggingPointerId := currentDraggingPointerId b; attachedNode := attachedNode b;
     _dragPlane := _dragPlane b; lastDragPosition := lastDragPosition b;
     _targetPosition := _targetPosition b; _dragDelta := _dragDelta b;
     _worldDragAxis := _worldDragAxis b; _tmpVector := _tmpVector b;
     _alternatePickedPoint := _alternatePickedPoint b; _pointA := _pointA b; _pointC := _pointC b;
     _localAxis := _localAxis b; _lookAt := _lookAt b;
     activeCameraForward := activeCameraForward b; onDragObservable := v |}.

(** ** Parts of the engine the behaviour calls *)

Section Behaviour.

(** [Epsilon] of Maths/math.constants. *)
Variable Epsilon : R.

(** [Vector3.normalize] of Maths/math.vector. *)
Variable normalize : Vector3 -> Vector3.

(** [lookAtForward p target] is the [forward] vector of the drag plane after
    [lookAt(target)] was called while the plane stood at [p] and its world
    matrix was recomputed (TransformNode.lookAt, computeWorldMatrix). *)
Variable lookAtForward : Vector3 -> Vector3 -> Vector3.

(** ** The constructor *)

Definition emptyOptions : Options := mkOptions None None.

(** The members as their initialisers leave them; [attachedNode],
    [_dragPlane], [lastDragPosition] and the scene are assigned by [attach]
    only. *)
Definition initialBehavior (options : Options) : Behavior :=
  {| _options := options; maxDragAngle := 0;
     _useAlternatePickedPointAboveMaxDragAngle := false;
     _useAlternatePickedPointAboveMaxDragAngleDragSpeed := - (11 / 10);
     updateDragPlane := true; useObjectOrientationForDragging := true; _moving := false;
     currentDraggingPointerId := (-1)%Z; attachedNode := None; _dragPlane := None;
     lastDragPosition := None; _targetPosition := Zero; _dragDelta := Zero;
     _worldDragAxis := Zero; _tmpVector := Zero; _alternatePickedPoint := Zero;
     _pointA := Zero; _pointC := Zero; _localAxis := Zero; _lookAt := Zero;
     activeCameraForward := None; onDragObservable := [] |}.

Definition constructor (options : option Options) : Completion Behavior :=
  let this := initialBehavior (match options with Some o => o | None => emptyOptions end) in
  let optionCount := 0%Z in
  let optionCount := if isSet (dragAxis (_options this)) then (optionCount + 1)%Z else optionCount in
  let optionCount :=
    if isSet (dragPlaneNormal (_options this)) then (optionCount + 1)%Z else optionCount in
  if (1 <? optionCount)%Z
  then Throw "Multiple drag modes specified in dragBehavior options. Only one expected"
  else Normal this.

(** ** [_pickWithRayOnDragPlane] *)

(** The comparisons [a > b] and [a < b] of the source, as booleans. *)
Definition gtb (a b : R) : bool := if Rgt_dec a b then true else false.
Definition ltb (a b : R) : bool := if Rlt_dec a b then true else false.

(** The angle between the plane normal and the ray, brought back under a
    right angle when the ray comes from the other side.  For a dot product
    beyond [-1, 1] [Math.acos] is NaN and every comparison of the source
    fails; [acos] of the reals is then 0 or [PI], the folded angle is 0, and
    the comparison with a positive [maxDragAngle] fails as well. *)
Definition foldedAngle (plane : DragPlane) (ray : Ray) : R :=
  let angle := acos (Dot (forward plane) (direction ray)) in
  if Rgt_dec angle (PI / 2) then PI - angle else angle.

(** The scratch vector [TmpVectors.Vector3[0]] is written before it is read
    and read by nothing else here: it is the local [tmp0]. *)
Definition _pickWithRayOnDragPlane (this : Behavior) (ray : option Ray)
  : Completion (option Vector3 * Behavior) :=
  match ray with
  | None => Normal (None, this)
  | Some ray =>
    let! plane := defined (_dragPlane this) in
    let angle := foldedAngle plane ray in
    if gtb (maxDragAngle this) 0 && gtb angle (maxDragAngle this) then
      if _useAlternatePickedPointAboveMaxDragAngle this then
        let this := set__tmpVector (direction ray) this in
        let! node := defined (attachedNode this) in
        let this := set__alternatePickedPoint
                      (subtract (absolutePosition node) (origin ray)) this in
        let this := set__alternatePickedPoint (normalize (_alternatePickedPoint this)) this in
        let this := set__alternatePickedPoint
                      (scale (_alternatePickedPoint this)
                         (_useAlternatePickedPointAboveMaxDragAngleDragSpeed this
                          * Dot (_alternatePickedPoint this) (_tmpVector this))) this in
        let this := set__tmpVector (add (_tmpVector this) (_alternatePickedPoint this)) this in
        let dot := Dot (forward plane) (_tmpVector this) in
        let this := set__alternatePickedPoint (scale (forward plane) (- dot)) this in
        let this := set__alternatePickedPoint
                      (add (_alternatePickedPoint this) (_tmpVector this)) this in
        let this := set__alternatePickedPoint
                      (add (_alternatePickedPoint this) (absolutePosition node)) this in
        Normal (Some (_alternatePickedPoint this), this)
      else Normal (None, this)
    else
      let planeNormal := forward plane in
      let planePosition := position plane in
      let dotProduct := Dot (direction ray) planeNormal in
      if ltb (Rabs dotProduct) Epsilon then Normal (None, this)
      else
        let tmp0 := subtract planePosition (origin ray) in
        let t := Dot tmp0 planeNormal / dotProduct in
        if ltb t 0 then Normal (None, this)
        else
          let tmp0 := scale (direction ray) t in
          let intersectionPoint := add (origin ray) tmp0 in
          Normal (Some intersectionPoint, this)
  end.

(** ** [_updateDragPlanePosition] *)

(** [lookAt] turns the plane while it stands at [_pointA]; the plane is then
    moved to the absolute position of the attached mesh. *)
Definition _updateDragPlanePosition (this : Behavior) (ray : Ray) (dragPlanePosition : Vector3)
  : Completion Behavior :=
  let this := set__pointA dragPlanePosition this in
  let! this :=
    match dragAxis (_options this), dragPlaneNormal (_options this) with
    | Some axis, _ =>
      let! this :=
        (if useObjectOrientationForDragging this
         then let! node := defined (attachedNode this) in
              Normal (set__localAxis (rotate node axis) this)
         else Normal (set__localAxis axis this)) in
      let this := set__pointC (subtract (origin ray) (_pointA this)) this in
      let this := set__pointC (normalize (_pointC this)) this in
      let this :=
        if gtb (Rabs (Dot (_localAxis this) (_pointC this))) (999 / 1000) then
          if gtb (Rabs (Dot UpReadOnly (_pointC this))) (999 / 1000)
          then set__lookAt Right this
          else set__lookAt UpReadOnly this
        else
          let this := set__lookAt (Cross (_localAxis this) (_pointC this)) this in
          let this := set__lookAt (Cross (_localAxis this) (_lookAt this)) this in
          set__lookAt (normalize (_lookAt this)) this in
      let! plane := defined (_dragPlane this) in
      let plane := mkDragPlane (_pointA this) (forward plane) in
      let this := set__lookAt (add (_pointA this) (_lookAt this)) this in
      let plane := mkDragPlane (position plane) (lookAtForward (position plane) (_lookAt this)) in
      Normal (set__dragPlane (Some plane) this)
    | None, Some normal =>
      let! this :=
        (if useObjectOrientationForDragging this
         then let! node := defined (attachedNode this) in
              Normal (set__localAxis (rotate node normal) this)
         else Normal (set__localAxis normal this)) in
      let! plane := defined (_dragPlane this) in
      let plane := mkDragPlane (_pointA this) (forward plane) in
      let this := set__lookAt (add (_pointA this) (_localAxis this)) this in
      let plane := mkDragPlane (position plane) (lookAtForward (position plane) (_lookAt this)) in
      Normal (set__dragPlane (Some plane) this)
    | None, None =>
      let this :=
        match activeCameraForward this with
        | Some dir => set__localAxis (normalize dir) this
        | None => this
        end in
      let! plane := defined (_dragPlane this) in
      let plane := mkDragPlane (_pointA this) (forward plane) in
      let plane := mkDragPlane (position plane)
                     (lookAtForward (position plane) (add (_pointA this) (_localAxis this))) in
      Normal (set__dragPlane (Some plane) this)
    end in
  let! plane := defined (_dragPlane this) in
  let! node := defined (attachedNode this) in
  Normal (set__dragPlane (Some (mkDragPlane (absolutePosition node) (forward plane))) this).

(** ** [_moveDrag] *)

(** [PivotTools._RemoveAndStorePivotPoint] and [_RestorePivotPoint] need the
    attached mesh and leave the members modelled here as they were. *)
Definition _moveDrag (this : Behavior) (ray : Ray) : Completion Behavior :=
  let this := set__moving true this in
  let! (pickedPoint, this) := _pickWithRayOnDragPlane this (Some ray) in
  match pickedPoint with
  | Some pickedPoint =>
    let! _ := defined (attachedNode this) in
    let! this :=
      (if updateDragPlane this then _updateDragPlanePosition this ray pickedPoint
       else Normal this) in
    let dragLength := 0 in
    let! (dragLength, this) :=
      match dragAxis (_options this) with
      | Some axis =>
        let! this :=
          (if useObjectOrientationForDragging this
           then let! node := defined (attachedNode this) in
                Normal (set__worldDragAxis (rotate node axis) this)
           else Normal (set__worldDragAxis axis this)) in
        let! last := defined (lastDragPosition this) in
        let this := set__tmpVector (subtract pickedPoint last) this in
        let this := set__worldDragAxis (normalize (_worldDragAxis this)) this in
        let dragLength := Dot (_tmpVector this) (_worldDragAxis this) in
        let this := set__dragDelta (scale (_worldDragAxis this) dragLength) this in
        Normal (dragLength, this)
      | None =>
        let dragLength := length (_dragDelta this) in
        let! last := defined (lastDragPosition this) in
        let this := set__dragDelta (subtract pickedPoint last) this in
        Normal (dragLength, this)
      end in
    let this := set__targetPosition (add (_targetPosition this) (_dragDelta this)) this in
    let! plane := defined (_dragPlane this) in
    let this :=
      set_onDragObservable
        (onDragObservable this ++
         [ {| dragDistance := dragLength; delta := _dragDelta this;
              dragPlanePoint := pickedPoint; planeNormal := forward plane;
              pointerId := currentDraggingPointerId this |} ]) this in
    let this := set_lastDragPosition (Some pickedPoint) this in
    Normal this
  | None => Normal this
  end.

End Behaviour.

(** ** Notions the properties are stated with *)

(** The parameter of the intersection of a ray with a plane. *)
Definition hitParameter (plane : DragPlane) (ray : Ray) : R :=
  Dot (subtract (position plane) (origin ray)) (forward plane)
  / Dot (direction ray) (forward plane).

(** The angle between two vectors, and the angle between the ray and the
    plane normal, folded into [0, pi/2], in the words of the specification.
    The code takes the arc cosine of the dot product itself ([foldedAngle]):
    that is this angle when both vectors have length 1. *)
Definition angleBetween (a b : Vector3) : R := acos (Dot a b / (length a * length b)).

Definition foldedAngle_as_specified (plane : DragPlane) (ray : Ray) : R :=
  let angle := angleBetween (forward plane) (direction ray) in
  if Rgt_dec angle (PI / 2) then PI - angle else angle.

(** The members a drag step reads besides the scratch vectors. *)
Definition sameDrag (a b : Behavior) : Prop :=
  _options a = _options b
  /\ attachedNode a = attachedNode b
  /\ lastDragPosition a = lastDragPosition b
  /\ _targetPosition a = _targetPosition b
  /\ _dragDelta a = _dragDelta b
  /\ onDragObservable a = onDragObservable b
  /\ useObjectOrientationForDragging a = useObjectOrientationForDragging b
  /\ updateDragPlane a = updateDragPlane b
  /\ currentDraggingPointerId a = currentDraggingPointerId b.

(** ** A concrete drag *)

Definition exampleEpsilon : R := 1 / 1000.

(** Scaling to unit length, leaving the zero vector alone. *)
Definition exampleNormalize (v : Vector3) : Vector3 :=
  if Req_dec_T (length v) 0 then v else scale v (1 / length v).

Definition exampleLookAtForward (p target : Vector3) : Vector3 :=
  exampleNormalize (subtract target p).

Definition examplePlane : DragPlane := mkDragPlane (mkVector3 0 0 5) (mkVector3 0 0 1).
Definition exampleNode : Node := mkNode (mkVector3 0 0 5) (fun v => v).
Definition exampleRay : Ray := mkRay (mkVector3 1 2 0) (mkVector3 0 0 1).
Definition sidewaysRay : Ray := mkRay (mkVector3 1 2 0) (mkVector3 1 0 0).


(** A behaviour attached to [exampleNode], as [attach] leaves it. *)
Definition exampleBehavior (options : Options) (angle : R) : Behavior :=
  {| _options := options; maxDragAngle := angle;
     _useAlternatePickedPointAboveMaxDragAngle := false;
     _useAlternatePickedPointAboveMaxDragAngleDragSpeed := - (11 / 10);
     updateDragPlane := false; useObjectOrientationForDragging := true; _moving := false;
     currentDraggingPointerId := 7%Z; attachedNode := Some exampleNode;
     _dragPlane := Some examplePlane; lastDragPosition := Some (mkVector3 0 0 5);
     _targetPosition := mkVector3 0 0 5; _dragDelta := Zero;
     _worldDragAxis := Zero; _tmpVector := Zero; _alternatePickedPoint := Zero;
     _pointA := Zero; _pointC := Zero; _localAxis := Zero; _lookAt := Zero;
     activeCameraForward := None; onDragObservable := [] |}.

(** The same behaviour with the alternate picked point switched on. *)
Definition alternateBehavior (angle : R) : Behavior :=
  {| _options := emptyOptions; maxDragAngle := angle;
     _useAlternatePickedPointAboveMaxDragAngle := true;
     _useAlternatePickedPointAboveMaxDragAngleDragSpeed := - (11 / 10);
     updateDragPlane := false; useObjectOrientationForDragging := true; _moving := false;
     currentDraggingPointerId := 7%Z; attachedNode := Some exampleNode;
     _dragPlane := Some examplePlane; lastDragPosition := Some (mkVector3 0 0 5);
     _targetPosition := mkVector3 0 0 5; _dragDelta := Zero;
     _worldDragAxis := Zero; _tmpVector := Zero; _alternatePickedPoint := Zero;
     _pointA := Zero; _pointC := Zero; _localAxis := Zero; _lookAt := Zero;
     activeCameraForward := None; onDragObservable := [] |}.

Definition set_currentDraggingPointerId (v : Z) (b : Behavior) : Behavior :=
  {| _options := _options b; maxDragAngle := maxDragAngle b;
     _useAlternatePickedPointAboveMaxDragAngle := _useAlternatePickedPointAboveMaxDragAngle b;
     _useAlternatePickedPointAboveMaxDragAngleDragSpeed := _useAlternatePickedPointAboveMaxDragAngleDragSpeed b;
     updateDragPlane := updateDragPlane b;
     useObjectOrientationForDragging := useObjectOrientationForDragging b; _moving := _moving b;
     currentDraggingPointerId := v; attachedNode := attachedNode b; _dragPlane := _dragPlane b;
     lastDragPosition := lastDragPosition b; _targetPosition := _targetPosition b;
     _dragDelta := _dragDelta b; _worldDragAxis := _worldDragAxis b; _tmpVector := _tmpVector b;
     _alternatePickedPoint := _alternatePickedPoint b; _pointA := _pointA b;
     _pointC := _pointC b; _localAxis := _localAxis b; _lookAt := _lookAt b;
     activeCameraForward := activeCameraForward b; onDragObservable := onDragObservable b |}.

Definition set_attachedNode (v : option Node) (b : Behavior) : Behavior :=
  {| _options := _options b; maxDragAngle := maxDragAngle b;
     _useAlternatePickedPointAboveMaxDragAngle := _useAlternatePickedPointAboveMaxDragAngle b;
     _useAlternatePickedPointAboveMaxDragAngleDragSpeed := _useAlternatePickedPointAboveMaxDragAngleDragSpeed b;
     updateDragPlane := updateDragPlane b;
     useObjectOrientationForDragging := useObjectOrientationForDragging b; _moving := _moving b;
     currentDraggingPointerId := currentDraggingPointerId b; attachedNode := v;
     _dragPlane := _dragPlane b; lastDragPosition := lastDragPosition b;
     _targetPosition := _targetPosition b; _dragDelta := _dragDelta b;
     _worldDragAxis := _worldDragAxis b; _tmpVector := _tmpVector b;
     _alternatePickedPoint := _alternatePickedPoint b; _pointA := _pointA b;
     _pointC := _pointC b; _localAxis := _localAxis b; _lookAt := _lookAt b;
     activeCameraForward := activeCameraForward b; onDragObservable := onDragObservable b |}.

Definition set_activeCameraForward (v : option Vector3) (b : Behavior) : Behavior :=
  {| _options := _options b; maxDragAngle := maxDragAngle b;
     _useAlternatePickedPointAboveMaxDragAngle := _useAlternatePickedPointAboveMaxDragAngle b;
     _useAlternatePickedPointAboveMaxDragAngleDragSpeed := _useAlternatePickedPointAboveMaxDragAngleDragSpeed b;
     updateDragPlane := updateDragPlane b;
     useObjectOrientationForDragging := useObjectOrientationForDragging b; _moving := _moving b;
     currentDraggingPointerId := currentDraggingPointerId b; attachedNode := attachedNode b;
     _dragPlane := _dragPlane b; lastDragPosition := lastDragPosition b;
     _targetPosition := _targetPosition b; _dragDelta := _dragDelta b;
     _worldDragAxis := _worldDragAxis b; _tmpVector := _tmpVector b;
     _alternatePickedPoint := _alternatePickedPoint b; _pointA := _pointA b;
     _pointC := _pointC b; _localAxis := _localAxis b; _lookAt := _lookAt b;
     activeCameraForward := v; onDragObservable := onDragObservable b |}.

(** ** The rest of the behaviour: starting, following and releasing a drag *)

(** The pointer event of a [PointerInfo]. *)
Module IPointerEvent.
Record t := mk {
  pointerId : Z;
  button : Z;
  pointerType : string;
  (** [evt instanceof MouseEvent] *)
  instanceofMouseEvent : bool
}.
End IPointerEvent.

(** The picked mesh is told by its [uniqueId]. *)
Module PickingInfo.
Record t := mk {
  hit : bool;
  pickedMesh : option Z;
  pickedPoint : option Vector3;
  ray : option Ray
}.
End PickingInfo.

Inductive PointerEventTypes :=
| POINTERDOWN | POINTERUP | POINTERMOVE | POINTERWHEEL | POINTERPICK | POINTERTAP
| POINTERDOUBLETAP.

Record PointerInfo := mkPointerInfo {
  type : PointerEventTypes;
  event : IPointerEvent.t;
  pickInfo : option PickingInfo.t
}.

(** What the behaviour reads of the active camera: [forwardRayDirection] is
    [getForwardRay().direction], [leftCamera] tells whether the camera has a
    left camera, [className] is [getClassName()]; the last two members are
    those of an [ArcRotateCamera]. *)
Module Camera.
Record Inputs := mkInputs { attachedToElement : bool; noPreventDefault : bool }.
Record t := mk {
  position : Vector3;
  forwardRayDirection : Vector3;
  inputs : option Inputs;
  leftCamera : bool;
  className : string;
  _useCtrlForPanning : bool;
  _panningMouseButton : Z
}.
End Camera.

(** The scene: its active camera, and [getEngine().hostInformation.isMobile]. *)
Record Scene := mkScene { activeCamera : option Camera.t; isMobile : bool }.

(** What the behaviour does to the outside, in the order it happens: the
    notifications of [onDragStartObservable], [onDragEndObservable] and
    [onEnabledObservable], and the calls of [detachControl] and
    [attachControl] on the active camera.  [attachControl] is called with
    [noPreventDefault] alone, or with the two panning members of an
    [ArcRotateCamera] as well. *)
Inductive Effect :=
| DragStarted (dragPlanePoint : Vector3) (pointerId : Z) (pointerInfo : option PointerInfo)
| DragEnded (dragPlanePoint : option Vector3) (pointerId : Z)
    (pointerInfo : option PointerInfo)
| EnabledChanged (value : bool)
| detachControl
| attachControl (noPreventDefault : bool) (panning : option (bool * Z)).

(** The behaviour with all its members: [members] holds those of [Behavior],
    with [activeCameraForward] the forward direction of the active camera of
    [_scene].  [_pointerObserver] and [_beforeRenderObserver] tell whether
    the observer is registered in the scene; [pickPredicate] is the
    predicate [attach] builds; [_lastPointerRay] lists its properties in the
    order of their creation. *)
Record PointerDragBehavior := mkPointerDragBehavior {
  members : Behavior;
  _scene : option Scene;
  _pointerObserver : bool;
  _beforeRenderObserver : bool;
  _activeDragButton : Z;
  _activePointerInfo : option PointerInfo;
  dragButtons : list Z;
  dragging : bool;
  dragDeltaRatio : R;
  moveAttached : bool;
  _enabled : bool;
  startAndReleaseDragOnPointerEvents : bool;
  detachCameraControls : bool;
  allowOtherButtonsDuringDrag : bool;
  validateDrag : Vector3 -> bool;
  _attachedToElement : bool;
  _startDragRay : Ray;
  _lastPointerRay : list (Z * Ray);
  pickPredicate : Z -> bool;
  effects : list Effect
}.

Definition set_members (v : Behavior) (this : PointerDragBehavior) : PointerDragBehavior :=
  {| members := v; _scene := _scene this; _pointerObserver := _pointerObserver this;
     _beforeRenderObserver := _beforeRenderObserver this;
     _activeDragButton := _activeDragButton this; _activePointerInfo := _activePointerInfo this;
     dragButtons := dragButtons this; dragging := dragging this;
     dragDeltaRatio := dragDeltaRatio this; moveAttached := moveAttached this;
     _enabled := _enabled this;
     startAndReleaseDragOnPointerEvents := startAndReleaseDragOnPointerEvents this;
     detachCameraControls := detachCameraControls this;
     allowOtherButtonsDuringDrag := allowOtherButtonsDuringDrag this;
     validateDrag := validateDrag this; _attachedToElement := _attachedToElement this;
     _startDragRay := _startDragRay this; _lastPointerRay := _lastPointerRay this;
     pickPredicate := pickPredicate this; effects := effects this |}.

Definition set__scene (v : option Scene) (this : PointerDragBehavior) : PointerDragBehavior :=
  {| members := members this; _scene := v; _pointerObserver := _pointerObserver this;
     _beforeRenderObserver := _beforeRenderObserver this;
     _activeDragButton := _activeDragButton this; _activePointerInfo := _activePointerInfo this;
     dragButtons := dragButtons this; dragging := dragging this;
     dragDeltaRatio := dragDeltaRatio this; moveAttached := moveAttached this;
     _enabled := _enabled this;
     startAndReleaseDragOnPointerEvents := startAndReleaseDragOnPointerEvents this;
     detachCameraControls := detachCameraControls this;
     allowOtherButtonsDuringDrag := allowOtherButtonsDuringDrag this;
     validateDrag := validateDrag this; _attachedToElement := _attachedToElement this;
     _startDragRay := _startDragRay this; _lastPointerRay := _lastPointerRay this;
     pickPredicate := pickPredicate this; effects := effects this |}.

Definition set__pointerObserver (v : bool) (this : PointerDragBehavior) : PointerDragBehavior :=
  {| members := members this; _scene := _scene this; _pointerObserver := v;
     _beforeRenderObserver := _beforeRenderObserver this;
     _activeDragButton := _activeDragButton this; _activePointerInfo := _activePointerInfo this;
     dragButtons := dragButtons this; dragging := dragging this;
     dragDeltaRatio := dragDeltaRatio this; moveAttached := moveAttached this;
     _enabled := _enabled this;
     startAndReleaseDragOnPointerEvents := startAndReleaseDragOnPointerEvents this;
     detachCameraControls := detachCameraControls this;
     allowOtherButtonsDuringDrag := allowOtherButtonsDuringDrag this;
     validateDrag := validateDrag this; _attachedToElement := _attachedToElement this;
     _startDragRay := _startDragRay this; _lastPointerRay := _lastPointerRay this;
     pickPredicate := pickPredicate this; effects := effects this |}.

Definition set__beforeRenderObserver (v : bool) (this : PointerDragBehavior) : PointerDragBehavior :=
  {| members := members this; _scene := _scene this;
     _pointerObserver := _pointerObserver this; _beforeRenderObserver := v;
     _activeDragButton := _activeDragButton this; _activePointerInfo := _activePointerInfo this;
     dragButtons := dragButtons this; dragging := dragging this;
     dragDeltaRatio := dragDeltaRatio this; moveAttached := moveAttached this;
     _enabled := _enabled this;
     startAndReleaseDragOnPointerEvents := startAndReleaseDragOnPointerEvents this;
     detachCameraControls := detachCameraControls this;
     allowOtherButtonsDuringDrag := allowOtherButtonsDuringDrag this;
     validateDrag := validateDrag this; _attachedToElement := _attachedToElement this;
     _startDragRay := _startDragRay this; _lastPointerRay := _lastPointerRay this;
     pickPredicate := pickPredicate this; effects := effects this |}.

Definition set__activeDragButton (v : Z) (this : PointerDragBehavior) : PointerDragBehavior :=
  {| members := members this; _scene := _scene this;
     _pointerObserver := _pointerObserver this;
     _beforeRenderObserver := _beforeRenderObserver this; _activeDragButton := v;
     _activePointerInfo := _activePointerInfo this; dragButtons := dragButtons this;
     dragging := dragging this; dragDeltaRatio := dragDeltaRatio this;
     moveAttached := moveAttached this; _enabled := _enabled this;
     startAndReleaseDragOnPointerEvents := startAndReleaseDragOnPointerEvents this;
     detachCameraControls := detachCameraControls this;
     allowOtherButtonsDuringDrag := allowOtherButtonsDuringDrag this;
     validateDrag := validateDrag this; _attachedToElement := _attachedToElement this;
     _startDragRay := _startDragRay this; _lastPointerRay := _lastPointerRay this;
     pickPredicate := pickPredicate this; effects := effects this |}.

Definition set__activePointerInfo (v : option PointerInfo) (this : PointerDragBehavior) : PointerDragBehavior :=
  {| members := members this; _scene := _scene this;
     _pointerObserver := _pointerObserver this;
     _beforeRenderObserver := _beforeRenderObserver this;
     _activeDragButton := _activeDragButton this; _activePointerInfo := v;
     dragButtons := dragButtons this; dragging := dragging this;
     dragDeltaRatio := dragDeltaRatio this; moveAttached := moveAttached this;
     _enabled := _enabled this;
     startAndReleaseDragOnPointerEvents := startAndReleaseDragOnPointerEvents this;
     detachCameraControls := detachCameraControls this;
     allowOtherButtonsDuringDrag := allowOtherButtonsDuringDrag this;
     validateDrag := validateDrag this; _attachedToElement := _attachedToElement this;
     _startDragRay := _startDragRay this; _lastPointerRay := _lastPointerRay this;
     pickPredicate := pickPredicate this; effects := effects this |}.

Definition set_dragging (v : bool) (this : PointerDragBehavior) : PointerDragBehavior :=
  {| members := members this; _scene := _scene this;
     _pointerObserver := _pointerObserver this;
     _beforeRenderObserver := _beforeRenderObserver this;
     _activeDragButton := _activeDragButton this; _activePointerInfo := _activePointerInfo this;
     dragButtons := dragButtons this; dragging := v; dragDeltaRatio := dragDeltaRatio this;
     moveAttached := moveAttached this; _enabled := _enabled this;
     startAndReleaseDragOnPointerEvents := startAndReleaseDragOnPointerEvents this;
     detachCameraControls := detachCameraControls this;
     allowOtherButtonsDuringDrag := allowOtherButtonsDuringDrag this;
     validateDrag := validateDrag this; _attachedToElement := _attachedToElement this;
     _startDragRay := _startDragRay this; _lastPointerRay := _lastPointerRay this;
     pickPredicate := pickPredicate this; effects := effects this |}.

Definition set__enabled (v : bool) (this : PointerDragBehavior) : PointerDragBehavior :=
  {| members := members this; _scene := _scene this;
     _pointerObserver := _pointerObserver this;
     _beforeRenderObserver := _beforeRenderObserver this;
     _activeDragButton := _activeDragButton this; _activePointerInfo := _activePointerInfo this;
     dragButtons := dragButtons this; dragging := dragging this;
     dragDeltaRatio := dragDeltaRatio this; moveAttached := moveAttached this; _enabled := v;
     startAndReleaseDragOnPointerEvents := startAndReleaseDragOnPointerEvents this;
     detachCameraControls := detachCameraControls this;
     allowOtherButtonsDuringDrag := allowOtherButtonsDuringDrag this;
     validateDrag := validateDrag this; _attachedToElement := _attachedToElement this;
     _startDragRay := _startDragRay this; _lastPointerRay := _lastPointerRay this;
     pickPredicate := pickPredicate this; effects := effects this |}.

Definition set__attachedToElement (v : bool) (this : PointerDragBehavior) : PointerDragBehavior :=
  {| members := members this; _scene := _scene this;
     _pointerObserver := _pointerObserver this;
     _beforeRenderObserver := _beforeRenderObserver this;
     _activeDragButton := _activeDragButton this; _activePointerInfo := _activePointerInfo this;
     dragButtons := dragButtons this; dragging := dragging this;
     dragDeltaRatio := dragDeltaRatio this; moveAttached := moveAttached this;
     _enabled := _enabled this;
     startAndReleaseDragOnPointerEvents := startAndReleaseDragOnPointerEvents this;
     detachCameraControls := detachCameraControls this;
     allowOtherButtonsDuringDrag := allowOtherButtonsDuringDrag this;
     validateDrag := validateDrag this; _attachedToElement := v;
     _startDragRay := _startDragRay this; _lastPointerRay := _lastPointerRay this;
     pickPredicate := pickPredicate this; effects := effects this |}.

Definition set__startDragRay (v : Ray) (this : PointerDragBehavior) : PointerDragBehavior :=
  {| members := members this; _scene := _scene this;
     _pointerObserver := _pointerObserver this;
     _beforeRenderObserver := _beforeRenderObserver this;
     _activeDragButton := _activeDragButton this; _activePointerInfo := _activePointerInfo this;
     dragButtons := dragButtons this; dragging := dragging this;
     dragDeltaRatio := dragDeltaRatio this; moveAttached := moveAttached this;
     _enabled := _enabled this;
     startAndReleaseDragOnPointerEvents := startAndReleaseDragOnPointerEvents this;
     detachCameraControls := detachCameraControls this;
     allowOtherButtonsDuringDrag := allowOtherButtonsDuringDrag this;
     validateDrag := validateDrag this; _attachedToElement := _attachedToElement this;
     _startDragRay := v; _lastPointerRay := _lastPointerRay this;
     pickPredicate := pickPredicate this; effects := effects this |}.

Definition set__lastPointerRay (v : list (Z * Ray)) (this : PointerDragBehavior) : PointerDragBehavior :=
  {| members := members this; _scene := _scene this;
     _pointerObserver := _pointerObserver this;
     _beforeRenderObserver := _beforeRenderObserver this;
     _activeDragButton := _activeDragButton this; _activePointerInfo := _activePointerInfo this;
     dragButtons := dragButtons this; dragging := dragging this;
     dragDeltaRatio := dragDeltaRatio this; moveAttached := moveAttached this;
     _enabled := _enabled this;
     startAndReleaseDragOnPointerEvents := startAndReleaseDragOnPointerEvents this;
     detachCameraControls := detachCameraControls this;
     allowOtherButtonsDuringDrag := allowOtherButtonsDuringDrag this;
     validateDrag := validateDrag this; _attachedToElement := _attachedToElement this;
     _startDragRay := _startDragRay this; _lastPointerRay := v;
     pickPredicate := pickPredicate this; effects := effects this |}.

Definition set_pickPredicate (v : Z -> bool) (this : PointerDragBehavior) : PointerDragBehavior :=
  {| members := members this; _scene := _scene this;
     _pointerObserver := _pointerObserver this;
     _beforeRenderObserver := _beforeRenderObserver this;
     _activeDragButton := _activeDragButton this; _activePointerInfo := _activePointerInfo this;
     dragButtons := dragButtons this; dragging := dragging this;
     dragDeltaRatio := dragDeltaRatio this; moveAttached := moveAttached this;
     _enabled := _enabled this;
     startAndReleaseDragOnPointerEvents := startAndReleaseDragOnPointerEvents this;
     detachCameraControls := detachCameraControls this;
     allowOtherButtonsDuringDrag := allowOtherButtonsDuringDrag this;
     validateDrag := validateDrag this; _attachedToElement := _attachedToElement this;
     _startDragRay := _startDragRay this; _lastPointerRay := _lastPointerRay this;
     pickPredicate := v; effects := effects this |}.

Definition set_effects (v : list Effect) (this : PointerDragBehavior) : PointerDragBehavior :=
  {| members := members this; _scene := _scene this;
     _pointerObserver := _pointerObserver this;
     _beforeRenderObserver := _beforeRenderObserver this;
     _activeDragButton := _activeDragButton this; _activePointerInfo := _activePointerInfo this;
     dragButtons := dragButtons this; dragging := dragging this;
     dragDeltaRatio := dragDeltaRatio this; moveAttached := moveAttached this;
     _enabled := _enabled this;
     startAndReleaseDragOnPointerEvents := startAndReleaseDragOnPointerEvents this;
     detachCameraControls := detachCameraControls this;
     allowOtherButtonsDuringDrag := allowOtherButtonsDuringDrag this;
     validateDrag := validateDrag this; _attachedToElement := _attachedToElement this;
     _startDragRay := _startDragRay this; _lastPointerRay := _lastPointerRay this;
     pickPredicate := pickPredicate this; effects := v |}.

Section Dragging.

Variable Epsilon : R.
Variable normalize : Vector3 -> Vector3.
Variable lookAtForward : Vector3 -> Vector3 -> Vector3.

Definition emit (e : Effect) (this : PointerDragBehavior) : PointerDragBehavior :=
  set_effects (effects this ++ [e]) this.

Definition update (f : Behavior -> Behavior) (this : PointerDragBehavior)
  : PointerDragBehavior :=
  set_members (f (members this)) this.

(** The members [constructor] leaves to their initialisers. *)
Definition newPointerDragBehavior (members : Behavior) : PointerDragBehavior :=
  {| members := members; _scene := None; _pointerObserver := false;
     _beforeRenderObserver := false; _activeDragButton := (-1)%Z; _activePointerInfo := None;
     dragButtons := [0; 1; 2]%Z; dragging := false; dragDeltaRatio := 2 / 10;
     moveAttached := true; _enabled := true; startAndReleaseDragOnPointerEvents := true;
     detachCameraControls := true; allowOtherButtonsDuringDrag := false;
     validateDrag := fun _ => true; _attachedToElement := false;
     _startDragRay := mkRay Zero Zero; _lastPointerRay := []; pickPredicate := fun _ => false;
     effects := [] |}.

Definition _AnyMouseId : Z := (-2)%Z.

(** *** The object [_lastPointerRay] *)

Definition rayOf (rays : list (Z * Ray)) (key : Z) : option Ray :=
  match List.find (fun entry => (fst entry =? key)%Z) rays with
  | Some entry => Some (snd entry)
  | None => None
  end.

Fixpoint assignRay (rays : list (Z * Ray)) (key : Z) (value : Ray) : list (Z * Ray) :=
  match rays with
  | [] => [(key, value)]
  | (k, v) :: rest =>
    if (k =? key)%Z then (k, value) :: rest else (k, v) :: assignRay rest key value
  end.

Definition deleteRay (rays : list (Z * Ray)) (key : Z) : list (Z * Ray) :=
  List.filter (fun entry => negb (fst entry =? key)%Z) rays.

(** [Object.keys] lists the keys that are array indices, the integers from
    0 to 2^32 - 2, in ascending order, and then the other keys in the order
    of their creation.  [firstKey] is [Object.keys(rays)[0]]. *)
Definition isArrayIndex (key : Z) : bool := (0 <=? key)%Z && (key <? 2 ^ 32 - 1)%Z.

Definition firstKey (rays : list (Z * Ray)) : option Z :=
  match List.filter isArrayIndex (map fst rays) with
  | k :: ks => Some (fold_left Z.min ks k)
  | [] => head (map fst rays)
  end.

(** *** [set enabled] *)

Definition set_enabled (this : PointerDragBehavior) (value : bool) : PointerDragBehavior :=
  let this :=
    if negb (Bool.eqb value (_enabled this)) then emit (EnabledChanged value) this
    else this in
  set__enabled value this.

(** *** [releaseDrag] *)

Definition releaseDrag (this : PointerDragBehavior) : Completion PointerDragBehavior :=
  let this :=
    if dragging this then
      let this := set_dragging false this in
      emit (DragEnded (lastDragPosition (members this))
              (currentDraggingPointerId (members this)) (_activePointerInfo this)) this
    else this in
  let this := update (set_currentDraggingPointerId (-1)) this in
  let this := set__activeDragButton (-1) this in
  let this := set__activePointerInfo None this in
  let this := update (set__moving false) this in
  if detachCameraControls this && _attachedToElement this then
    let! scene := defined (_scene this) in
    match activeCamera scene with
    | Some camera =>
      if negb (Camera.leftCamera camera) then
        let noPreventDefault :=
          match Camera.inputs camera with
          | Some inputs => Camera.noPreventDefault inputs
          | None => true
          end in
        let this :=
          if String.eqb (Camera.className camera) "ArcRotateCamera"
          then emit (attachControl noPreventDefault
                       (Some (Camera._useCtrlForPanning camera,
                              Camera._panningMouseButton camera))) this
          else emit (attachControl noPreventDefault None) this in
        Normal (set__attachedToElement false this)
      else Normal this
    | None => Normal this
    end
  else Normal this.

(** *** [_startDrag] and [startDrag] *)

(** [getWorldMatrix().getTranslationToRef] reads the translation of the
    world matrix of the mesh, its absolute position. *)
Definition _startDrag (this : PointerDragBehavior) (pointerId : Z) (fromRay : option Ray)
    (startPickedPoint : option Vector3) : Completion PointerDragBehavior :=
  let! scene := defined (_scene this) in
  match activeCamera scene, dragging this, attachedNode (members this) with
  | Some camera, false, Some node =>
    let this :=
      match fromRay with
      | Some fromRay =>
        let this :=
          set__startDragRay (mkRay (origin (_startDragRay this)) (direction fromRay)) this in
        set__startDragRay (mkRay (origin fromRay) (direction (_startDragRay this))) this
      | None =>
        let this :=
          set__startDragRay
            (mkRay (Camera.position camera) (direction (_startDragRay this))) this in
        let this := update (set__tmpVector (absolutePosition node)) this in
        set__startDragRay
          (mkRay (origin (_startDragRay this))
             (subtract (_tmpVector (members this)) (Camera.position camera))) this
      end in
    let! behavior :=
      _updateDragPlanePosition normalize lookAtForward (members this) (_startDragRay this)
        (match startPickedPoint with
         | Some startPickedPoint => startPickedPoint
         | None => _tmpVector (members this)
         end) in
    let this := set_members behavior this in
    let! (pickedPoint, behavior) :=
      _pickWithRayOnDragPlane Epsilon normalize (members this) (Some (_startDragRay this)) in
    let this := set_members behavior this in
    let! this :=
      match pickedPoint with
      | Some pickedPoint =>
        let this := set_dragging true this in
        let this := update (set_currentDraggingPointerId pointerId) this in
        let! _ := defined (lastDragPosition (members this)) in
        let this := update (set_lastDragPosition (Some pickedPoint)) this in
        let this :=
          emit (DragStarted pickedPoint (currentDraggingPointerId (members this))
                  (_activePointerInfo this)) this in
        let! node := defined (attachedNode (members this)) in
        let this := update (set__targetPosition (absolutePosition node)) this in
        match Camera.inputs camera with
        | Some inputs =>
          if detachCameraControls this && negb (Camera.leftCamera camera) then
            if Camera.attachedToElement inputs
            then Normal (set__attachedToElement true (emit detachControl this))
            else Normal (set__attachedToElement false this)
          else Normal this
        | None => Normal this
        end
      | None => releaseDrag this
      end in
    Normal this
  | _, _, _ => Normal this
  end.

Definition startDrag (this : PointerDragBehavior) (pointerId : option Z)
    (fromRay : option Ray) (startPickedPoint : option Vector3)
  : Completion PointerDragBehavior :=
  let pointerId := match pointerId with Some id => id | None => _AnyMouseId end in
  let! this := _startDrag this pointerId fromRay startPickedPoint in
  let lastRay := rayOf (_lastPointerRay this) pointerId in
  let lastRay :=
    if (pointerId =? _AnyMouseId)%Z then
      match firstKey (_lastPointerRay this) with
      | Some key => rayOf (_lastPointerRay this) key
      | None => None
      end
    else lastRay in
  match lastRay with
  | Some lastRay =>
    let! behavior := _moveDrag Epsilon normalize lookAtForward (members this) lastRay in
    Normal (set_members behavior this)
  | None => Normal this
  end.

(** *** The observers [attach] registers *)

(** The observer of [onPointerObservable]. *)
Definition pointerObserver (this : PointerDragBehavior) (pointerInfo : PointerInfo)
  : Completion PointerDragBehavior :=
  let evt := event pointerInfo in
  if negb (_enabled this) then
    if _attachedToElement this then releaseDrag this else Normal this
  else if dragging this
          && (currentDraggingPointerId (members this) =? IPointerEvent.pointerId evt)%Z
          && negb (IPointerEvent.button evt =? -1)%Z
          && negb (IPointerEvent.button evt =? _activeDragButton this)%Z
          && negb (allowOtherButtonsDuringDrag this)
  then releaseDrag this
  else
    match type pointerInfo with
    | POINTERDOWN =>
      if startAndReleaseDragOnPointerEvents this && negb (dragging this) then
        match pickInfo pointerInfo with
        | Some pick =>
          match PickingInfo.pickedMesh pick, PickingInfo.pickedPoint pick,
                PickingInfo.ray pick with
          | Some pickedMesh, Some pickedPoint, Some ray =>
            if PickingInfo.hit pick && pickPredicate this pickedMesh then
              if (_activeDragButton this =? -1)%Z
                 && existsb (Z.eqb (IPointerEvent.button evt)) (dragButtons this)
              then
                let this := set__activeDragButton (IPointerEvent.button evt) this in
                let this := set__activePointerInfo (Some pointerInfo) this in
                _startDrag this (IPointerEvent.pointerId evt) (Some ray) (Some pickedPoint)
              else Normal this
            else Normal this
          | _, _, _ => Normal this
          end
        | None => Normal this
        end
      else Normal this
    | POINTERUP =>
      if startAndReleaseDragOnPointerEvents this
         && (currentDraggingPointerId (members this) =? IPointerEvent.pointerId evt)%Z
         && ((_activeDragButton this =? IPointerEvent.button evt)%Z
             || (_activeDragButton this =? -1)%Z)
      then releaseDrag this
      else Normal this
    | POINTERMOVE =>
      let pointerId := IPointerEvent.pointerId evt in
      let! this :=
        (if (currentDraggingPointerId (members this) =? _AnyMouseId)%Z
            && negb (pointerId =? _AnyMouseId)%Z
         then
           let! isMouseEvent :=
             (if String.eqb (IPointerEvent.pointerType evt) "mouse" then Normal true
              else
                let! scene := defined (_scene this) in
                Normal (negb (isMobile scene) && IPointerEvent.instanceofMouseEvent evt)) in
           if isMouseEvent then
             let current := currentDraggingPointerId (members this) in
             let this :=
               match rayOf (_lastPointerRay this) current with
               | Some lastRay =>
                 let this :=
                   set__lastPointerRay (assignRay (_lastPointerRay this) pointerId lastRay)
                     this in
                 set__lastPointerRay (deleteRay (_lastPointerRay this) current) this
               | None => this
               end in
             Normal (update (set_currentDraggingPointerId pointerId) this)
           else Normal this
         else Normal this) in
      let this :=
        match rayOf (_lastPointerRay this) pointerId with
        | Some _ => this
        | None =>
          set__lastPointerRay (assignRay (_lastPointerRay this) pointerId (mkRay Zero Zero))
            this
        end in
      match pickInfo pointerInfo with
      | Some pick =>
        match PickingInfo.ray pick with
        | Some ray =>
          let this :=
            set__lastPointerRay
              (assignRay (_lastPointerRay this) pointerId (mkRay (origin ray) (direction ray)))
              this in
          if (currentDraggingPointerId (members this) =? pointerId)%Z && dragging this then
            let! behavior := _moveDrag Epsilon normalize lookAtForward (members this) ray in
            Normal (set_members behavior this)
          else Normal this
        | None => Normal this
        end
      | None => Normal this
      end
    | _ => Normal this
    end.

(** [setAbsolutePosition] moves the mesh to the given absolute position. *)
Definition setAbsolutePosition (node : Node) (absolutePosition : Vector3) : Node :=
  mkNode absolutePosition (rotate node).

(** The observer of [onBeforeRenderObservable]. *)
Definition beforeRenderObserver (this : PointerDragBehavior)
  : Completion PointerDragBehavior :=
  if _moving (members this) && moveAttached this then
    let! node := defined (attachedNode (members this)) in
    let this :=
      update (fun members =>
                set__tmpVector (subtract (_targetPosition members) (absolutePosition node))
                  members) this in
    let this :=
      update (fun members =>
                set__tmpVector (scale (_tmpVector members) (dragDeltaRatio this)) members)
        this in
    let this :=
      update (fun members =>
                set__tmpVector (add (absolutePosition node) (_tmpVector members)) members)
        this in
    if validateDrag this (_tmpVector (members this)) then
      Normal (update (set_attachedNode
                        (Some (setAbsolutePosition node (_tmpVector (members this))))) this)
    else Normal this
  else Normal this.

(** *** [attach] and [detach] *)

(** The scene as the behaviour finds it. *)
Definition inScene (scene : Scene) (this : PointerDragBehavior) : PointerDragBehavior :=
  let this := set__scene (Some scene) this in
  update (set_activeCameraForward
            (match activeCamera scene with
             | Some camera => Some (Camera.forwardRayDirection camera)
             | None => None
             end)) this.

(** [scene] is [ownerNode.getScene()], [plane] the mesh [CreatePlane]
    returns, and [isOwnerOrDescendant m] tells whether [m] is the attached
    mesh or one of its descendants. *)
Definition attach (this : PointerDragBehavior) (ownerNode : Node) (scene : Scene)
    (plane : DragPlane) (predicate : option (Z -> bool)) (isOwnerOrDescendant : Z -> bool)
  : PointerDragBehavior :=
  let this := inScene scene this in
  let this := update (set_attachedNode (Some ownerNode)) this in
  let this := update (set__dragPlane (Some plane)) this in
  let this := update (set_lastDragPosition (Some Zero)) this in
  let this :=
    set_pickPredicate
      (match predicate with Some predicate => predicate | None => isOwnerOrDescendant end)
      this in
  let this := set__pointerObserver true this in
  set__beforeRenderObserver true this.

Definition detach (this : PointerDragBehavior) : Completion PointerDragBehavior :=
  let this := set__lastPointerRay [] this in
  let this := set__pointerObserver false this in
  let this := set__beforeRenderObserver false this in
  releaseDrag this.

(** *** What happens to an attached behaviour *)

(** The scene notifies its observers, the application calls the public
    methods, and it moves the camera and the mesh. *)
Inductive Event :=
| PointerEvent (pointerInfo : PointerInfo)
| BeforeRender
| ReleaseDrag
| StartDrag (pointerId : option Z) (fromRay : option Ray) (startPickedPoint : option Vector3)
| SetEnabled (value : bool)
| Detach
| World (scene : Scene) (node : Node).

Definition step (this : PointerDragBehavior) (e : Event) : Completion PointerDragBehavior :=
  match e with
  | PointerEvent pointerInfo =>
    if _pointerObserver this then pointerObserver this pointerInfo else Normal this
  | BeforeRender =>
    if _beforeRenderObserver this then beforeRenderObserver this else Normal this
  | ReleaseDrag => releaseDrag this
  | StartDrag pointerId fromRay startPickedPoint =>
    startDrag this pointerId fromRay startPickedPoint
  | SetEnabled value => Normal (set_enabled this value)
  | Detach => detach this
  | World scene node => Normal (update (set_attachedNode (Some node)) (inScene scene this))
  end.

Fixpoint run (this : PointerDragBehavior) (events : list Event)
  : Completion PointerDragBehavior :=
  match events with
  | [] => Normal this
  | e :: events => let! this := step this e in run this events
  end.

(** Pointer moves of one drag, one after the other. *)
Fixpoint moveDrags (this : Behavior) (rays : list Ray) : Completion Behavior :=
  match rays with
  | [] => Normal this
  | ray :: rays =>
    let! this := _moveDrag Epsilon normalize lookAtForward this ray in
    moveDrags this rays
  end.

End Dragging.

(** *** Notions the properties of a drag are stated with *)

(** The drag notifications of a log: [true] for a start, [false] for an end. *)
Definition dragNotifications (log : list Effect) : list bool :=
  flat_map (fun e => match e with
                     | DragStarted _ _ _ => [true]
                     | DragEnded _ _ _ => [false]
                     | _ => []
                     end) log.

Definition enabledNotifications (log : list Effect) : list bool :=
  flat_map (fun e => match e with EnabledChanged value => [value] | _ => [] end) log.

(** [alternating b l]: [l] is [b], [negb b], [b], ... *)
Fixpoint alternating (b : bool) (l : list bool) : Prop :=
  match l with
  | [] => True
  | a :: l => a = b /\ alternating (negb b) l
  end.

Definition detachments (log : list Effect) : nat :=
  List.length (List.filter (fun e => match e with detachControl => true | _ => false end) log).

Definition attachments (log : list Effect) : nat :=
  List.length
    (List.filter (fun e => match e with attachControl _ _ => true | _ => false end) log).

(** No beginning of the log holds more calls of [attachControl] than of
    [detachControl]. *)
Definition balanced (log : list Effect) : Prop :=
  forall before after,
    log = before ++ after -> (attachments before <= detachments before)%nat.

(** The members [attach] assigns are there, and [activeCameraForward] is
    the forward direction of the active camera. *)
Definition attached (this : PointerDragBehavior) : Prop :=
  (exists scene,
     _scene this = Some scene
     /\ activeCameraForward (members this)
        = match activeCamera scene with
          | Some camera => Some (Camera.forwardRayDirection camera)
          | None => None
          end)
  /\ (exists node, attachedNode (members this) = Some node)
  /\ (exists plane, _dragPlane (members this) = Some plane)
  /\ (exists last, lastDragPosition (members this) = Some last).

(** A log that fits the members [dragging], [_attachedToElement] and
    [_enabled]: drags start and end in turn, beginning with a start, and
    [dragging] tells whether one is under way; the camera controls are not
    attached more often than they were detached, and less often while
    [_attachedToElement] is set; the notified values of [enabled] change
    each time, and the last one is the current one.  [enabled0] is the value
    of [enabled] at the time of [attach]. *)
Definition consistent (enabled0 : bool) (log : list Effect)
    (dragging attachedToElement enabled : bool) : Prop :=
  alternating true (dragNotifications log)
  /\ dragging = List.last (dragNotifications log) false
  /\ balanced log
  /\ (attachments log + (if attachedToElement then 1 else 0) <= detachments log)%nat
  /\ alternating (negb enabled0) (enabledNotifications log)
  /\ enabled = List.last (enabledNotifications log) enabled0.

(** What every state of an attached behaviour satisfies. *)
Definition orderly (enabled0 : bool) (this : PointerDragBehavior) : Prop :=
  attached this
  /\ (dragging this = false -> currentDraggingPointerId (members this) = (-1)%Z)
  /\ consistent enabled0 (effects this) (dragging this) (_attachedToElement this)
       (_enabled this).

(** A behaviour no drag was started on. *)
Definition unused (this : PointerDragBehavior) : Prop :=
  dragging this = false
  /\ _attachedToElement this = false
  /\ currentDraggingPointerId (members this) = (-1)%Z
  /\ effects this = [].

(** *** A concrete scene *)

Definition exampleCamera : Camera.t :=
  {| Camera.position := mkVector3 0 0 0; Camera.forwardRayDirection := mkVector3 0 0 1;
     Camera.inputs := Some (Camera.mkInputs true false); Camera.leftCamera := false;
     Camera.className := "FreeCamera"; Camera._useCtrlForPanning := false;
     Camera._panningMouseButton := 0%Z |}.

Definition exampleScene : Scene := mkScene (Some exampleCamera) false.

(** A new behaviour without options, attached to [exampleNode]. *)
Definition attachedBehavior : PointerDragBehavior :=
  attach (newPointerDragBehavior (initialBehavior emptyOptions)) exampleNode exampleScene
    (mkDragPlane Zero (mkVector3 0 0 1)) None (fun m => (m =? 1)%Z).

(** The pointer goes down on the mesh, moves, and goes up. *)
Definition pointerAt (type : PointerEventTypes) (px py : R) : PointerInfo :=
  mkPointerInfo type (IPointerEvent.mk 3 0 "mouse" true)
    (Some (PickingInfo.mk true (Some 1%Z) (Some (mkVector3 px py 5))
             (Some (mkRay (mkVector3 px py 0) (mkVector3 0 0 1))))).

Definition exampleGesture : list Event :=
  [ PointerEvent (pointerAt POINTERDOWN 0 0);
    PointerEvent (pointerAt POINTERMOVE 1 2);
    BeforeRender;
    PointerEvent (pointerAt POINTERUP 1 2) ].

End PointerDrag.

(* ===================================================================== *)
(** * Thin instances of a mesh *)
(* ===================================================================== *)

Module ThinInstance.
Local Open Scope Z_scope.

(** The numbers a [Float32Array] and a [Matrix] hold; [zero] fills a new
    array. *)
Class Float32 (F : Type) := zero : F.

(** [VertexBuffer.ColorKind] and [VertexBuffer.ColorInstanceKind] of
    Buffers/buffer. *)
Class VertexBufferKinds := {
  ColorKind : string;
  ColorInstanceKind : string
}.

Section Storage.

Context {F : Type} {float32 : Float32 F} {kinds : VertexBufferKinds}.

(** ** Typed arrays and matrices *)

(** A [Float32Array] is the list of its elements.  Reading or writing
    outside of it, before its start as well as past its end, does nothing. *)
Definition getAt (array : list F) (k : Z) : option F :=
  if 0 <=? k then array !! Z.to_nat k else None.

Definition writeAt (array : list F) (k : Z) (v : F) : list F :=
  if 0 <=? k then <[Z.to_nat k := v]> array else array.

(** [new Float32Array(n)]. *)
Definition newFloat32Array (n : Z) : Completion (list F) :=
  if n <? 0 then Throw "RangeError" else Normal (replicate (Z.to_nat n) zero).

(** [target.set(source, 0)]. *)
Definition setArray (target source : list F) : Completion (list F) :=
  if (length target <? length source)%nat then Throw "RangeError"
  else Normal (source ++ drop (length source) target).

(** Modelled from the spec: [Matrix] (Maths/math.vector) is not among the
    sources.  A matrix holds its 16 floats in [_m], and [copyToArray] writes
    them to the 16 consecutive elements of the array that start at the
    offset. *)
Record Matrix := mkMatrix { _m : list F }.

Definition copyToArray (matrix : Matrix) (array : list F) (offset : Z) : list F :=
  foldl (fun array i => writeAt array (offset + Z.of_nat i) (nth i (_m matrix) zero))
        array (seq 0 16).

(** ** The mesh *)

Record ThinInstanceDataStorage := mkStorage {
  instancesCount : Z;
  matrixBufferSize : Z;
  matrixData : option (list F);
  previousMatrixData : option (list F);
  worldMatrices : option (gmap Z Matrix)
}.

(** The objects [data], [sizes] and [strides] of the user storage, each as
    the finite map of its own properties.  A kind is a name that assignment
    stores as a property of the object, that is every name but [__proto__].
    A read under a name the map lacks is [undefined], except where the code
    tests [data[kind]] before it writes: there the members inherited from
    [Object.prototype] count ([inherited] below). *)
Record UserStorage := mkUserStorage {
  data : gmap string (list F);
  sizes : gmap string Z;
  strides : gmap string Z
}.

(** Calls into the engine, recorded in the order they are made:
    [Logger.Error], [_thinInstanceCreateMatrixBuffer], [new VertexBuffer]
    with [setVerticesBuffer], [removeVerticesData],
    [thinInstanceBufferUpdated], [thinInstanceRefreshBoundingInfo(false)]
    and [refreshBoundingInfo()].  They work on the GPU buffers and on the
    bounding info, and leave the members modelled here alone. *)
Inductive EngineCall :=
| LoggerError (msg : string)
| CreateMatrixBuffer (kind : string) (buffer : list F)
| CreateVertexBuffer (kind : string) (buffer : list F)
| RemoveVerticesData (kind : string)
| BufferUpdated (kind : string)
| RefreshBoundingInfo
| RefreshMeshBoundingInfo.

(** [source] is the mesh this one was cloned from, of which only the
    [_thinInstanceDataStorage] is read. *)
Record Mesh := mkMesh {
  instancedArrays : bool;
  needsPreviousWorldMatrices : bool;
  doNotSyncBoundingInfo : bool;
  _thinInstanceDataStorage : ThinInstanceDataStorage;
  _userThinInstanceBuffersStorage : option UserStorage;
  source : option ThinInstanceDataStorage;
  engineCalls : list EngineCall
}.

Definition set_instancesCount (v : Z) (s : ThinInstanceDataStorage) :=
  {| instancesCount := v; matrixBufferSize := matrixBufferSize s;
     matrixData := matrixData s; previousMatrixData := previousMatrixData s;
     worldMatrices := worldMatrices s |}.

Definition set_matrixBufferSize (v : Z) (s : ThinInstanceDataStorage) :=
  {| instancesCount := instancesCount s; matrixBufferSize := v;
     matrixData := matrixData s; previousMatrixData := previousMatrixData s;
     worldMatrices := worldMatrices s |}.

Definition set_matrixData (v : option (list F)) (s : ThinInstanceDataStorage) :=
  {| instancesCount := instancesCount s; matrixBufferSize := matrixBufferSize s;
     matrixData := v; previousMatrixData := previousMatrixData s;
     worldMatrices := worldMatrices s |}.

Definition set_previousMatrixData (v : option (list F)) (s : ThinInstanceDataStorage) :=
  {| instancesCount := instancesCount s; matrixBufferSize := matrixBufferSize s;
     matrixData := matrixData s; previousMatrixData := v;
     worldMatrices := worldMatrices s |}.

Definition set_worldMatrices (v : option (gmap Z Matrix)) (s : ThinInstanceDataStorage) :=
  {| instancesCount := instancesCount s; matrixBufferSize := matrixBufferSize s;
     matrixData := matrixData s; previousMatrixData := previousMatrixData s;
     worldMatrices := v |}.

Definition set__thinInstanceDataStorage (v : ThinInstanceDataStorage) (this : Mesh) :=
  {| instancedArrays := instancedArrays this;
     needsPreviousWorldMatrices := needsPreviousWorldMatrices this;
     doNotSyncBoundingInfo := doNotSyncBoundingInfo this;
     _thinInstanceDataStorage := v;
     _userThinInstanceBuffersStorage := _userThinInstanceBuffersStorage this;
     source := source this; engineCalls := engineCalls this |}.

Definition set__userThinInstanceBuffersStorage (v : option UserStorage) (this : Mesh) :=
  {| instancedArrays := instancedArrays this;
     needsPreviousWorldMatrices := needsPreviousWorldMatrices this;
     doNotSyncBoundingInfo := doNotSyncBoundingInfo this;
     _thinInstanceDataStorage := _thinInstanceDataStorage this;
     _userThinInstanceBuffersStorage := v;
     source := source this; engineCalls := engineCalls this |}.

Definition call (c : EngineCall) (this : Mesh) :=
  {| instancedArrays := instancedArrays this;
     needsPreviousWorldMatrices := needsPreviousWorldMatrices this;
     doNotSyncBoundingInfo := doNotSyncBoundingInfo this;
     _thinInstanceDataStorage := _thinInstanceDataStorage this;
     _userThinInstanceBuffersStorage := _userThinInstanceBuffersStorage this;
     source := source this; engineCalls := engineCalls this ++ [c] |}.

(** Assignment to a member of [this._thinInstanceDataStorage]. *)
Definition update (f : ThinInstanceDataStorage -> ThinInstanceDataStorage) (this : Mesh) :=
  set__thinInstanceDataStorage (f (_thinInstanceDataStorage this)) this.

(** ** [thinInstanceSetMatrixAt] *)

Definition thinInstanceSetMatrixAt (this : Mesh) (index : Z) (matrix : Matrix)
    (refresh : bool) : bool * Mesh :=
  match matrixData (_thinInstanceDataStorage this) with
  | None => (false, this)
  | Some matrixData =>
    if instancesCount (_thinInstanceDataStorage this) <=? index then (false, this)
    else
      let this := update (set_matrixData (Some (copyToArray matrix matrixData (index * 16)))) this in
      let this :=
        match worldMatrices (_thinInstanceDataStorage this) with
        | Some worldMatrices =>
          update (set_worldMatrices (Some (<[index := matrix]> worldMatrices))) this
        | None => this
        end in
      let this :=
        if refresh then
          let this := call (BufferUpdated "matrix") this in
          if negb (doNotSyncBoundingInfo this) then call RefreshBoundingInfo this else this
        else this in
      (true, this)
  end.

(** ** The [thinInstanceCount] accessor *)

Definition get_thinInstanceCount (this : Mesh) : Z :=
  instancesCount (_thinInstanceDataStorage this).

(** [matrixData.length / 16] is a division of numbers, not of integers: the
    capacity is a rational. *)
Definition set_thinInstanceCount (this : Mesh) (value : Z) : Mesh :=
  let matrixData :=
    match matrixData (_thinInstanceDataStorage this) with
    | Some d => Some d
    | None =>
      match source this with
      | Some source => matrixData source
      | None => None
      end
    end in
  let numMaxInstances : Q :=
    match matrixData with
    | Some d => (inject_Z (Z.of_nat (length d)) / 16)%Q
    | None => 0%Q
    end in
  if Qle_bool (inject_Z value) numMaxInstances
  then update (set_instancesCount value) this
  else this.

(** ** [_thinInstanceUpdateBufferSize] *)

(** [while (newSize < bufferSize) newSize *= 2], with [fuel] bounding the
    number of iterations: [None] when the fuel runs out before the loop
    ends. *)
Fixpoint growSize (fuel : nat) (newSize bufferSize : Z) : option Z :=
  if newSize <? bufferSize then
    match fuel with
    | O => None
    | S fuel => growSize fuel (newSize * 2) bufferSize
    end
  else Some newSize.

Definition truthy (n : option Z) : bool :=
  match n with Some n => negb (n =? 0) | None => false end.

Definition aliasKind (kind : string) : string :=
  if String.eqb kind ColorKind then ColorInstanceKind else kind.

(** The new contents of the buffer: a fresh array when there was none, the
    old contents at the front of a fresh array otherwise. *)
Definition reallocate (data : option (list F)) (newSize : Z) : Completion (list F) :=
  match data with
  | None => newFloat32Array newSize
  | Some data =>
    let! newData := newFloat32Array newSize in
    setArray newData data
  end.

Definition _thinInstanceUpdateBufferSize (fuel : nat) (this : Mesh) (kind : string)
    (numInstances : Z) : option (Completion Mesh) :=
  let kind := aliasKind kind in
  let kindIsMatrix := String.eqb kind "matrix" in
  if kindIsMatrix then
    let storage := _thinInstanceDataStorage this in
    let stride := 16 in
    let currentSize := matrixBufferSize storage in
    let data := matrixData storage in
    let bufferSize := (instancesCount storage + numInstances) * stride in
    match growSize fuel currentSize bufferSize with
    | None => None
    | Some newSize =>
      Some (
        if negb (isSet data) || negb (currentSize =? newSize) then
          let! data := reallocate data newSize in
          let this := call (CreateMatrixBuffer "world" data) this in
          let this := update (set_matrixData (Some data)) this in
          let this := update (set_matrixBufferSize newSize) this in
          let this :=
            if needsPreviousWorldMatrices this
               && negb (isSet (previousMatrixData (_thinInstanceDataStorage this)))
            then call (CreateMatrixBuffer "previousWorld" data) this
            else this in
          Normal this
        else Normal this)
    end
  else
    match _userThinInstanceBuffersStorage this with
    | None => Some (Normal this)
    | Some user =>
      if negb (truthy (strides user !! kind)) then Some (Normal this)
      else
        let stride := default 0 (strides user !! kind) in
        let data_ := data user !! kind in
        let bufferSize := (instancesCount (_thinInstanceDataStorage this) + numInstances) * stride in
        match sizes user !! kind with
        | None =>
          (* an undefined size compares false with every number *)
          Some (
            match data_ with
            | None =>
              let newData : list F := [] in
              let this := set__userThinInstanceBuffersStorage
                            (Some (mkUserStorage (<[kind := newData]> (data user))
                                     (sizes user) (strides user))) this in
              Normal (call (CreateVertexBuffer kind newData) this)
            | Some _ => Normal this
            end)
        | Some currentSize =>
          match growSize fuel currentSize bufferSize with
          | None => None
          | Some newSize =>
            Some (
              if negb (isSet data_) || negb (currentSize =? newSize) then
                let! newData := reallocate data_ newSize in
                let this := set__userThinInstanceBuffersStorage
                              (Some (mkUserStorage (<[kind := newData]> (data user))
                                       (<[kind := newSize]> (sizes user)) (strides user))) this in
                Normal (call (CreateVertexBuffer kind newData) this)
              else Normal this)
          end
        end
    end.

(** ** [thinInstanceAdd] *)

(** The loop over an array of matrices: the [i]-th is written at the current
    count, which is incremented before the call. *)
Fixpoint addEach (this : Mesh) (matrices : list Matrix) (i : Z) (length : Z)
    (refresh : bool) : Mesh :=
  match matrices with
  | [] => this
  | matrix :: rest =>
    let index := instancesCount (_thinInstanceDataStorage this) in
    let this := update (set_instancesCount (index + 1)) this in
    let '(_, this) :=
      thinInstanceSetMatrixAt this index matrix ((i =? length - 1) && refresh) in
    addEach this rest (i + 1) length refresh
  end.

Definition thinInstanceAdd (fuel : nat) (this : Mesh) (matrix : Matrix + list Matrix)
    (refresh : bool) : option (Completion (Z * Mesh)) :=
  if negb (instancedArrays this) then
    Some (Normal (-1, call (LoggerError
      "Thin Instances are not supported on this device as Instanced Array extension not supported")
      this))
  else
    let numInstances :=
      match matrix with inl _ => 1 | inr matrices => Z.of_nat (length matrices) end in
    match _thinInstanceUpdateBufferSize fuel this "matrix" numInstances with
    | None => None
    | Some (Throw msg) => Some (Throw msg)
    | Some (Normal this) =>
      let index := instancesCount (_thinInstanceDataStorage this) in
      let this :=
        match matrix with
        | inr matrices => addEach this matrices 0 (Z.of_nat (length matrices)) refresh
        | inl matrix =>
          let this := update (set_instancesCount (index + 1)) this in
          snd (thinInstanceSetMatrixAt this index matrix refresh)
        end in
      Some (Normal (index, this))
    end.

(** ** Names inherited from [Object.prototype] *)

(** The names of the members every object inherits from [Object.prototype].
    [data] is a plain object: read under such a name, when it has no buffer
    of that name of its own, it gives the inherited member, which is truthy
    and is no typed array. *)
Definition ObjectPrototype : list string :=
  ["constructor"; "__defineGetter__"; "__defineSetter__"; "hasOwnProperty";
   "__lookupGetter__"; "__lookupSetter__"; "isPrototypeOf"; "propertyIsEnumerable";
   "toString"; "valueOf"; "__proto__"; "toLocaleString"].

Definition inherited (key : string) : bool := existsb (String.eqb key) ObjectPrototype.

(** ** [thinInstanceSetBuffer] *)

(** [buffer.length / stride] is a division of numbers: the result is [None]
    when the count would not be an integer, which [Z] cannot hold.
    [staticBuffer] only reaches the vertex buffers and is left out.  With
    [null] for an inherited name that has no buffer the test of [data[kind]]
    passes: the vertex data is removed, and the four [delete] find nothing. *)
Definition thinInstanceSetBuffer (this : Mesh) (kind : string) (buffer : option (list F))
    (stride : Z) : option Mesh :=
  let stride := if stride =? 0 then 16 else stride in
  if String.eqb kind "matrix" then
    let this :=
      update (set_matrixBufferSize
                (match buffer with
                 | Some buffer => Z.of_nat (length buffer)
                 | None => 32 * stride
                 end)) this in
    let this := update (set_matrixData buffer) this in
    let this := update (set_worldMatrices None) this in
    match buffer with
    | Some buffer =>
      if Z.of_nat (length buffer) mod stride =? 0 then
        let this := update (set_instancesCount (Z.of_nat (length buffer) / stride)) this in
        let this := call (CreateMatrixBuffer "world" buffer) this in
        Some (if negb (doNotSyncBoundingInfo this) then call RefreshBoundingInfo this
              else this)
      else None
    | None =>
      let this := update (set_instancesCount 0) this in
      Some (if negb (doNotSyncBoundingInfo this) then call RefreshMeshBoundingInfo this
            else this)
    end
  else if String.eqb kind "previousMatrix" then
    let this := update (set_previousMatrixData buffer) this in
    Some (match buffer with
          | Some buffer => call (CreateMatrixBuffer "previousWorld" buffer) this
          | None => this
          end)
  else
    let kind := aliasKind kind in
    match buffer with
    | None =>
      match _userThinInstanceBuffersStorage this with
      | Some user =>
        if isSet (data user !! kind) || inherited kind then
          let this := call (RemoveVerticesData kind) this in
          Some (set__userThinInstanceBuffersStorage
                  (Some (mkUserStorage (delete kind (data user)) (delete kind (sizes user))
                           (delete kind (strides user)))) this)
        else Some this
      | None => Some this
      end
    | Some buffer =>
      let user :=
        match _userThinInstanceBuffersStorage this with
        | Some user => user
        | None => mkUserStorage ∅ ∅ ∅
        end in
      let this :=
        set__userThinInstanceBuffersStorage
          (Some (mkUserStorage (<[kind := buffer]> (data user))
                   (<[kind := Z.of_nat (length buffer)]> (sizes user))
                   (<[kind := stride]> (strides user)))) this in
      Some (call (CreateVertexBuffer kind buffer) this)
    end.

(** ** Notions the properties are stated with *)

(** The first [n] writes of [copyToArray]. *)
Definition copyFirst (n : nat) (matrix : Matrix) (array : list F) (offset : Z) : list F :=
  foldl (fun array i => writeAt array (offset + Z.of_nat i) (nth i (_m matrix) zero))
        array (seq 0 n).

(** [after] is [before] with the 16 floats of [matrix] written at [offset]
    and every other element unchanged. *)
Definition writesMatrixAt (before after : list F) (offset : Z) (matrix : Matrix) : Prop :=
  length after = length before
  /\ (forall j, 0 <= j < 16 ->
        getAt after (offset + j) = Some (nth (Z.to_nat j) (_m matrix) zero))
  /\ (forall k, k < offset \/ offset + 16 <= k -> getAt after k = getAt before k).

(** What the specification says of [thinInstanceSetMatrixAt], for one call. *)
Definition setMatrixAt_as_specified (this : Mesh) (index : Z) (matrix : Matrix)
    (refresh : bool) : Prop :=
  let storage := _thinInstanceDataStorage this in
  let result := thinInstanceSetMatrixAt this index matrix refresh in
  let storage' := _thinInstanceDataStorage (snd result) in
  match matrixData storage with
  | None => fst result = false /\ storage' = storage
  | Some before =>
    if instancesCount storage <=? index then fst result = false /\ storage' = storage
    else
      fst result = true
      /\ (exists after, matrixData storage' = Some after
            /\ writesMatrixAt before after (index * 16) matrix)
      /\ worldMatrices storage' = (fun cache => <[index := matrix]> cache) <$> worldMatrices storage
  end.

(** The matrix data the setter measures the capacity on: the mesh's own, or
    else its source's. *)
Definition capacityData (this : Mesh) : option (list F) :=
  match matrixData (_thinInstanceDataStorage this) with
  | Some d => Some d
  | None =>
    match source this with
    | Some source => matrixData source
    | None => None
    end
  end.

Definition capacityLength (this : Mesh) : Z :=
  match capacityData this with
  | Some d => Z.of_nat (length d)
  | None => 0
  end.

(** The buffer a call leaves for a wanted size [newSize]. *)
Definition grown (data : option (list F)) (newSize : Z) : list F :=
  match data with
  | Some d => d ++ replicate (Z.to_nat (newSize - Z.of_nat (length d))) zero
  | None => replicate (Z.to_nat newSize) zero
  end.

(** The buffer, its recorded size and its stride, for a kind after aliasing. *)
Definition bufferOf (this : Mesh) (kind : string) : option (list F) :=
  if String.eqb kind "matrix" then matrixData (_thinInstanceDataStorage this)
  else user ← _userThinInstanceBuffersStorage this; data user !! kind.

Definition sizeOf (this : Mesh) (kind : string) : option Z :=
  if String.eqb kind "matrix" then Some (matrixBufferSize (_thinInstanceDataStorage this))
  else user ← _userThinInstanceBuffersStorage this; sizes user !! kind.

Definition strideOf (this : Mesh) (kind : string) : option Z :=
  if String.eqb kind "matrix" then Some 16
  else user ← _userThinInstanceBuffersStorage this; strides user !! kind.

(** The matrices a call adds. *)
Definition matricesOf (matrix : Matrix + list Matrix) : list Matrix :=
  match matrix with inl matrix => [matrix] | inr matrices => matrices end.

(** What the specification says of [thinInstanceAdd], for one call on a mesh
    whose engine supports instanced arrays. *)
Definition add_as_specified (this : Mesh) (matrix : Matrix + list Matrix) (refresh : bool)
  : Prop :=
  let index := instancesCount (_thinInstanceDataStorage this) in
  exists (fuel : nat) (this' : Mesh) (d' : list F),
    thinInstanceAdd fuel this matrix refresh = Some (Normal (index, this'))
    /\ instancesCount (_thinInstanceDataStorage this')
       = index + Z.of_nat (length (matricesOf matrix))
    /\ matrixData (_thinInstanceDataStorage this') = Some d'
    /\ forall (i : nat) (m : Matrix) (j : Z),
         matricesOf matrix !! i = Some m -> 0 <= j < 16 ->
         getAt d' ((index + Z.of_nat i) * 16 + j) = Some (nth (Z.to_nat j) (_m m) zero).

(** ** Custom attributes *)

(** [target.set(source, offset)] of a typed array: a negative offset and a
    source that does not fit behind the offset are range errors. *)
Definition setArrayAt (target source : list F) (offset : Z) : Completion (list F) :=
  if (offset <? 0) || (Z.of_nat (length target) <? Z.of_nat (length source) + offset)
  then Throw "RangeError"
  else Normal (take (Z.to_nat offset) target ++ source
               ++ drop (Z.to_nat offset + length source) target).

Definition _thinInstanceInitializeUserStorage (this : Mesh) : Mesh :=
  if negb (isSet (_userThinInstanceBuffersStorage this))
  then set__userThinInstanceBuffersStorage (Some (mkUserStorage ∅ ∅ ∅)) this
  else this.

(** The members are assigned one after the other, so that a [stride] whose
    size the array constructor refuses leaves the stride and the size
    behind; the mesh is not given back in that case. *)
Definition thinInstanceRegisterAttribute (this : Mesh) (kind : string) (stride : Z)
  : Completion Mesh :=
  let kind := aliasKind kind in
  let this := call (RemoveVerticesData kind) this in
  let this := _thinInstanceInitializeUserStorage this in
  let! user := defined (_userThinInstanceBuffersStorage this) in
  let size := stride * Z.max 32 (instancesCount (_thinInstanceDataStorage this)) in
  let user := mkUserStorage (data user) (sizes user) (<[kind := stride]> (strides user)) in
  let user := mkUserStorage (data user) (<[kind := size]> (sizes user)) (strides user) in
  let! newData := newFloat32Array size in
  let user := mkUserStorage (<[kind := newData]> (data user)) (sizes user) (strides user) in
  let this := set__userThinInstanceBuffersStorage (Some user) this in
  Normal (call (CreateVertexBuffer kind newData) this).

(** [value] holds numbers that a [Float32Array] stores as they are.  A stride
    that is [undefined] makes the offset NaN, which [set] reads as 0.  For an
    inherited name without a buffer of its own the test of [data[kind]]
    passes, and the call of [set] on the inherited member throws. *)
Definition thinInstanceSetAttributeAt (fuel : nat) (this : Mesh) (kind : string) (index : Z)
    (value : list F) (refresh : bool) : option (Completion (bool * Mesh)) :=
  let kind := aliasKind kind in
  let registered :=
    match _userThinInstanceBuffersStorage this with
    | Some user => isSet (data user !! kind) || inherited kind
    | None => false
    end in
  if negb registered || (instancesCount (_thinInstanceDataStorage this) <=? index)
  then Some (Normal (false, this))
  else
    match _thinInstanceUpdateBufferSize fuel this kind 0 with
    | None => None
    | Some (Throw msg) => Some (Throw msg)
    | Some (Normal this) =>
      Some (
        let! user := defined (_userThinInstanceBuffersStorage this) in
        let! target := defined (data user !! kind) in
        let offset :=
          match strides user !! kind with
          | Some stride => index * stride
          | None => 0
          end in
        let! target := setArrayAt target value offset in
        let this :=
          set__userThinInstanceBuffersStorage
            (Some (mkUserStorage (<[kind := target]> (data user)) (sizes user) (strides user)))
            this in
        let this := if refresh then call (BufferUpdated kind) this else this in
        Normal (true, this))
    end.

(** ** The cache of world matrices *)

Section WorldMatrices.

(** The float an [undefined] element is stored as. *)
Variable NaN : F.

(** Modelled from its documentation: [Matrix.FromArray] (Maths/math.vector)
    is not among the sources.  The matrix holds the 16 elements of the array
    that start at the offset. *)
Definition FromArray (array : list F) (offset : Z) : Matrix :=
  mkMatrix (map (fun i => default NaN (getAt array (offset + Z.of_nat i))) (seq 0 16)).

(** [for (i = 0; i < instancesCount; ++i) worldMatrices[i] = FromArray(matrixData, i * 16)]
    on an empty array. *)
Definition buildWorldMatrices (matrixData : list F) (instancesCount : Z) : gmap Z Matrix :=
  foldl (fun worldMatrices i =>
           <[Z.of_nat i := FromArray matrixData (Z.of_nat i * 16)]> worldMatrices)
        ∅ (seq 0 (Z.to_nat instancesCount)).

(** [matrixBuffer] tells whether the mesh has the GPU buffer of its matrices
    ([_thinInstanceDataStorage.matrixBuffer]), a member that is not modelled.
    The array returned is the cache itself. *)
Definition thinInstanceGetWorldMatrices (this : Mesh) (matrixBuffer : bool)
  : gmap Z Matrix * Mesh :=
  match matrixData (_thinInstanceDataStorage this) with
  | None => (∅, this)
  | Some matrixData =>
    if negb matrixBuffer then (∅, this)
    else
      let this :=
        if negb (isSet (worldMatrices (_thinInstanceDataStorage this))) then
          update (set_worldMatrices
                    (Some (buildWorldMatrices matrixData
                             (instancesCount (_thinInstanceDataStorage this))))) this
        else this in
      (default ∅ (worldMatrices (_thinInstanceDataStorage this)), this)
  end.

(** The storage is in order: the count is not negative, the recorded size of
    the matrix buffer is positive and is the length of the matrix data, the
    sixteen floats of every counted instance are inside the data, and the
    cache, when there is one, holds for each counted instance the matrix
    these floats make. *)
Definition storageInOrder (this : Mesh) : Prop :=
  let storage := _thinInstanceDataStorage this in
  0 <= instancesCount storage
  /\ 0 < matrixBufferSize storage
  /\ match matrixData storage with
     | None => worldMatrices storage = None
     | Some d =>
       Z.of_nat (length d) = matrixBufferSize storage
       /\ instancesCount storage * 16 <= Z.of_nat (length d)
       /\ forall cache, worldMatrices storage = Some cache ->
            forall i, 0 <= i < instancesCount storage ->
              cache !! i = Some (FromArray d (i * 16))
     end.

End WorldMatrices.

End Storage.

(** ** A concrete mesh *)

Definition float32_Z : Float32 Z := 0.
Definition exampleKinds : VertexBufferKinds :=
  {| ColorKind := "color"; ColorInstanceKind := "instanceColor" |}.

(** A matrix of sixteen ones and the buffer of one instance, all zero. *)
Definition ones : @Matrix Z := mkMatrix (replicate 16 1).
Definition zeros : list Z := replicate 16 0.

(** A mesh with one instance in a buffer of sixteen floats. *)
Definition exampleMesh : @Mesh Z :=
  mkMesh true false false (mkStorage 1 16 (Some zeros) None None) None None [].

(** The same mesh after [thinInstanceCount = -1], which the setter accepts. *)
Definition negativeCountMesh : @Mesh Z := set_thinInstanceCount exampleMesh (-1).

(** A mesh whose matrix buffer is an empty array, as
    [thinInstanceSetBuffer("matrix", new Float32Array(0))] leaves its
    storage. *)
Definition emptyBufferMesh : @Mesh Z :=
  mkMesh true false false (mkStorage 0 0 (Some []) None None) None None [].

(** A mesh that counts two instances in a buffer of sixteen floats, as
    [thinInstanceSetBuffer("matrix", buffer, 8)] leaves its storage. *)
Definition overcountedMesh : @Mesh Z :=
  mkMesh true false false (mkStorage 2 16 (Some zeros) None None) None None [].

(** [exampleMesh] with a colour of four floats for each instance, as
    [thinInstanceRegisterAttribute("color", 4)] leaves it. *)
Definition colouredMesh : @Mesh Z :=
  mkMesh true false false (mkStorage 1 16 (Some zeros) None None)
    (Some (mkUserStorage {["instanceColor" := replicate 128 0]} {["instanceColor" := 128]}
             {["instanceColor" := 4]}))
    None
    [RemoveVerticesData "instanceColor";
     CreateVertexBuffer "instanceColor" (replicate 128 0)].

End ThinInstance.

(* ===================================================================== *)
(** * WebXR hand tracking *)
(* ===================================================================== *)

Module HandTracking.

(** ** Controllers and hands *)

Inductive XRHandedness := handNone | handLeft | handRight.

Definition handedness_eqb (a b : XRHandedness) : bool :=
  match a, b with
  | handNone, handNone | handLeft, handLeft | handRight, handRight => true
  | _, _ => false
  end.

(** [hand] tells whether the input source has an [XRHand]. *)
Record XRInputSource := mkXRInputSource {
  hand : bool;
  handedness : XRHandedness
}.

Record WebXRInputSource := mkWebXRInputSource {
  uniqueId : string;
  inputSource : XRInputSource
}.

(** Meshes and rig mappings are engine objects, known by a number only. *)
Definition Resource := nat.

(** A [WebXRHand] object: its controller, which never changes, and [serial],
    which numbers the objects in the order they are constructed (two hands
    built for one controller are two objects).  The meshes handed to its
    constructor, which [setHandMesh] replaces later, play no part in the
    registries and are left out. *)
Record WebXRHand := mkWebXRHand {
  xrController : WebXRInputSource;
  serial : nat
}.

(** ** Objects used as dictionaries *)

(** [_attachedHands] is an object whose keys are kept in insertion order:
    assigning to a key that exists keeps its place, [delete] removes it. *)
Definition Dictionary := list (string * WebXRHand).

Fixpoint lookup (key : string) (d : Dictionary) : option WebXRHand :=
  match d with
  | [] => None
  | (k, v) :: d => if String.eqb k key then Some v else lookup key d
  end.

Fixpoint assign (key : string) (v : WebXRHand) (d : Dictionary) : Dictionary :=
  match d with
  | [] => [(key, v)]
  | (k, w) :: d => if String.eqb k key then (k, v) :: d else (k, w) :: assign key v d
  end.

Definition remove (key : string) (d : Dictionary) : Dictionary :=
  List.filter (fun kv => negb (String.eqb (fst kv) key)) d.

Definition keys (d : Dictionary) : list string := map fst d.

Record TrackingHands := mkTrackingHands {
  left : option WebXRHand;
  right : option WebXRHand
}.

(** [_trackingHands[handedness]]; the object has no key "none". *)
Definition tracked (h : XRHandedness) (t : TrackingHands) : option WebXRHand :=
  match h with
  | handLeft => left t
  | handRight => right t
  | handNone => None
  end.

Definition track (h : XRHandedness) (v : option WebXRHand) (t : TrackingHands)
  : TrackingHands :=
  match h with
  | handLeft => mkTrackingHands v (right t)
  | handRight => mkTrackingHands (left t) v
  | handNone => t
  end.

(** ** The feature *)

Record HandResources := mkHandResources {
  jointMeshes : option Resource;
  handMeshes : option Resource;
  rigMappings : option Resource
}.

(** The options the registries depend on. *)
Record IWebXRHandTrackingOptions := mkOptions {
  xrInput_controllers : list WebXRInputSource;
  customMeshes : option Resource;
  customRigMappings : option Resource;
  disableDefaultMeshes : bool;
  disposeOnSessionEnd : bool
}.

Inductive Observable := onControllerAddedObservable | onControllerRemovedObservable.
Inductive Callback := attachHandCallback | detachHandCallback.

(** What the observers of the feature and the engine get to see, in order. *)
Inductive Effect :=
| HandAdded (h : WebXRHand)
| HandRemoved (h : WebXRHand)
| HandDisposed (h : WebXRHand) (disposeMesh : bool)
| ResourcesDisposed.

Record WebXRHandTracking := mkFeature {
  options : IWebXRHandTrackingOptions;
  _attachedHands : Dictionary;
  _trackingHands : TrackingHands;
  _handResources : HandResources;
  attachObservers : list (Observable * Callback);
  defaultMeshesRequested : bool;
  constructed : nat;
  effects : list Effect
}.

Definition set__attachedHands (v : Dictionary) (this : WebXRHandTracking) :=
  {| options := options this; _attachedHands := v; _trackingHands := _trackingHands this;
     _handResources := _handResources this; attachObservers := attachObservers this;
     defaultMeshesRequested := defaultMeshesRequested this;
     constructed := constructed this; effects := effects this |}.

Definition set__trackingHands (v : TrackingHands) (this : WebXRHandTracking) :=
  {| options := options this; _attachedHands := _attachedHands this; _trackingHands := v;
     _handResources := _handResources this; attachObservers := attachObservers this;
     defaultMeshesRequested := defaultMeshesRequested this;
     constructed := constructed this; effects := effects this |}.

Definition set__handResources (v : HandResources) (this : WebXRHandTracking) :=
  {| options := options this; _attachedHands := _attachedHands this;
     _trackingHands := _trackingHands this; _handResources := v;
     attachObservers := attachObservers this;
     defaultMeshesRequested := defaultMeshesRequested this;
     constructed := constructed this; effects := effects this |}.

Definition set_attachObservers (v : list (Observable * Callback)) (this : WebXRHandTracking) :=
  {| options := options this; _attachedHands := _attachedHands this;
     _trackingHands := _trackingHands this; _handResources := _handResources this;
     attachObservers := v; defaultMeshesRequested := defaultMeshesRequested this;
     constructed := constructed this; effects := effects this |}.

Definition set_defaultMeshesRequested (v : bool) (this : WebXRHandTracking) :=
  {| options := options this; _attachedHands := _attachedHands this;
     _trackingHands := _trackingHands this; _handResources := _handResources this;
     attachObservers := attachObservers this; defaultMeshesRequested := v;
     constructed := constructed this; effects := effects this |}.

Definition set_constructed (v : nat) (this : WebXRHandTracking) :=
  {| options := options this; _attachedHands := _attachedHands this;
     _trackingHands := _trackingHands this; _handResources := _handResources this;
     attachObservers := attachObservers this;
     defaultMeshesRequested := defaultMeshesRequested this;
     constructed := v; effects := effects this |}.

Definition emit (e : Effect) (this : WebXRHandTracking) :=
  {| options := options this; _attachedHands := _attachedHands this;
     _trackingHands := _trackingHands this; _handResources := _handResources this;
     attachObservers := attachObservers this;
     defaultMeshesRequested := defaultMeshesRequested this;
     constructed := constructed this; effects := effects this ++ [e] |}.

(** The members as the constructor leaves them. *)
Definition constructor (options : IWebXRHandTrackingOptions) : WebXRHandTracking :=
  {| options := options; _attachedHands := [];
     _trackingHands := mkTrackingHands None None;
     _handResources := mkHandResources None None None;
     attachObservers := []; defaultMeshesRequested := false;
     constructed := 0; effects := [] |}.

(** ** The getters *)

Definition getHandByControllerId (this : WebXRHandTracking) (controllerId : string)
  : option WebXRHand :=
  lookup controllerId (_attachedHands this).

Definition getHandByHandedness (this : WebXRHandTracking) (handedness : XRHandedness)
  : option WebXRHand :=
  if handedness_eqb handedness handNone then None
  else tracked handedness (_trackingHands this).

(** ** [_attachHand] *)

Definition _attachHand (this : WebXRHandTracking) (xrController : WebXRInputSource)
  : WebXRHandTracking :=
  match jointMeshes (_handResources this) with
  | Some joints =>
    if negb (hand (inputSource xrController))
       || handedness_eqb (handedness (inputSource xrController)) handNone
    then this
    else
      let handedness := handedness (inputSource xrController) in
      let webxrHand := {| xrController := xrController; serial := constructed this |} in
      let this := set_constructed (S (constructed this)) this in
      let this :=
        set__attachedHands (assign (uniqueId xrController) webxrHand (_attachedHands this))
          this in
      let this := set__trackingHands (track handedness (Some webxrHand) (_trackingHands this))
                    this in
      emit (HandAdded webxrHand) this
  | None => this
  end.

(** ** [_detachHandById] and [_detachHand] *)

Definition _detachHandById (this : WebXRHandTracking) (controllerId : string)
    (disposeMesh : bool) : WebXRHandTracking :=
  match getHandByControllerId this controllerId with
  | Some hand =>
    let handedness :=
      if handedness_eqb (handedness (inputSource (xrController hand))) handLeft
      then handLeft else handRight in
    let this :=
      match tracked handedness (_trackingHands this) with
      | Some t =>
        if String.eqb (uniqueId (xrController t)) controllerId
        then set__trackingHands (track handedness None (_trackingHands this)) this
        else this
      | None => this
      end in
    let this := emit (HandRemoved hand) this in
    let this := emit (HandDisposed hand disposeMesh) this in
    set__attachedHands (remove controllerId (_attachedHands this)) this
  | None => this
  end.

(** [disposeMesh] is left out by [_detachHand]: it is [undefined], which
    [dispose] takes as false. *)
Definition _detachHand (this : WebXRHandTracking) (xrController : WebXRInputSource)
  : WebXRHandTracking :=
  _detachHandById this (uniqueId xrController) false.

(** ** [attach] and [detach] *)

(** [superAttach] is the result of [super.attach()] and [superDetach] that of
    [super.detach()], of WebXRAbstractFeature.  The base class keeps the
    observers added with [_addNewAttachObserver] and drops them in its
    [detach]. *)
Definition _addNewAttachObserver (observable : Observable) (callback : Callback)
    (this : WebXRHandTracking) : WebXRHandTracking :=
  set_attachObservers (attachObservers this ++ [(observable, callback)]) this.

(** [_GenerateTrackedJointMeshes] returns the joint meshes, an engine
    object. *)
Definition generatedJointMeshes : Resource := 0.

Definition attach (this : WebXRHandTracking) (superAttach : bool)
  : bool * WebXRHandTracking :=
  if negb superAttach then (false, this)
  else
    let this :=
      if negb (isSet (jointMeshes (_handResources this)))
      then set__handResources
             (mkHandResources (Some generatedJointMeshes)
                (handMeshes (_handResources this)) (rigMappings (_handResources this))) this
      else this in
    let this :=
      set__handResources
        (mkHandResources (jointMeshes (_handResources this))
           (customMeshes (options this)) (customRigMappings (options this))) this in
    let this :=
      if negb (isSet (customMeshes (options this))) && negb (disableDefaultMeshes (options this))
      then set_defaultMeshesRequested true this
      else this in
    let this := foldl _attachHand this (xrInput_controllers (options this)) in
    let this := _addNewAttachObserver onControllerAddedObservable attachHandCallback this in
    let this := _addNewAttachObserver onControllerRemovedObservable detachHandCallback this in
    (true, this).

Definition detach (this : WebXRHandTracking) (superDetach : bool)
  : bool * WebXRHandTracking :=
  if negb superDetach then (false, this)
  else
    let this := set_attachObservers [] this in
    let keys := keys (_attachedHands this) in
    let this :=
      foldl (fun this uniqueId =>
               _detachHandById this uniqueId (disposeOnSessionEnd (options this)))
            this keys in
    let this :=
      if disposeOnSessionEnd (options this) then
        let this :=
          set__handResources
            (mkHandResources None None (rigMappings (_handResources this))) this in
        emit ResourcesDisposed this
      else this in
    (true, this).

(** ** Events *)

(** The default hand meshes arrive some time after [attach] asked for them:
    the resources change and the tracked hands are given their mesh; the
    registries stay as they are. *)
Definition defaultHandMeshes : Resource := 1.
Definition defaultRigMappings : Resource := 2.

Definition defaultHandMeshesLoaded (this : WebXRHandTracking) : WebXRHandTracking :=
  if defaultMeshesRequested this then
    set__handResources
      (mkHandResources (jointMeshes (_handResources this))
         (Some defaultHandMeshes) (Some defaultRigMappings)) this
  else this.

Definition runCallback (callback : Callback) (this : WebXRHandTracking)
    (xrController : WebXRInputSource) : WebXRHandTracking :=
  match callback with
  | attachHandCallback => _attachHand this xrController
  | detachHandCallback => _detachHand this xrController
  end.

Definition observable_eqb (a b : Observable) : bool :=
  match a, b with
  | onControllerAddedObservable, onControllerAddedObservable
  | onControllerRemovedObservable, onControllerRemovedObservable => true
  | _, _ => false
  end.

(** [observable.notifyObservers(xrController)]: the registered callbacks run
    in the order they were added. *)
Definition notifyObservers (observable : Observable) (this : WebXRHandTracking)
    (xrController : WebXRInputSource) : WebXRHandTracking :=
  foldl (fun this oc =>
           if observable_eqb (fst oc) observable then runCallback (snd oc) this xrController
           else this)
        this (attachObservers this).

(** What can happen to the feature. *)
Inductive Event :=
| Attach (superAttach : bool)
| Detach (superDetach : bool)
| ControllerAdded (xrController : WebXRInputSource)
| ControllerRemoved (xrController : WebXRInputSource)
| DefaultHandMeshesLoaded.

Definition step (this : WebXRHandTracking) (e : Event) : WebXRHandTracking :=
  match e with
  | Attach superAttach => snd (attach this superAttach)
  | Detach superDetach => snd (detach this superDetach)
  | ControllerAdded c => notifyObservers onControllerAddedObservable this c
  | ControllerRemoved c => notifyObservers onControllerRemovedObservable this c
  | DefaultHandMeshesLoaded => defaultHandMeshesLoaded this
  end.

Definition run (this : WebXRHandTracking) (events : list Event) : WebXRHandTracking :=
  foldl step this events.

(** ** The joints of a hand *)

(** The enumeration [HandPart]. *)
Module HandPart.
Inductive t := WRIST | THUMB | INDEX | MIDDLE | RING | LITTLE.
End HandPart.

(** The enumeration [WebXRHandJoint]; [value] is the string a member stands
    for. *)
Module WebXRHandJoint.
Inductive t :=
| WRIST
| THUMB_METACARPAL | THUMB_PHALANX_PROXIMAL | THUMB_PHALANX_DISTAL | THUMB_TIP
| INDEX_FINGER_METACARPAL | INDEX_FINGER_PHALANX_PROXIMAL
| INDEX_FINGER_PHALANX_INTERMEDIATE | INDEX_FINGER_PHALANX_DISTAL | INDEX_FINGER_TIP
| MIDDLE_FINGER_METACARPAL | MIDDLE_FINGER_PHALANX_PROXIMAL
| MIDDLE_FINGER_PHALANX_INTERMEDIATE | MIDDLE_FINGER_PHALANX_DISTAL | MIDDLE_FINGER_TIP
| RING_FINGER_METACARPAL | RING_FINGER_PHALANX_PROXIMAL
| RING_FINGER_PHALANX_INTERMEDIATE | RING_FINGER_PHALANX_DISTAL | RING_FINGER_TIP
| PINKY_FINGER_METACARPAL | PINKY_FINGER_PHALANX_PROXIMAL
| PINKY_FINGER_PHALANX_INTERMEDIATE | PINKY_FINGER_PHALANX_DISTAL | PINKY_FINGER_TIP.

Definition value (joint : t) : string :=
  match joint with
  | WRIST => "wrist"
  | THUMB_METACARPAL => "thumb-metacarpal"
  | THUMB_PHALANX_PROXIMAL => "thumb-phalanx-proximal"
  | THUMB_PHALANX_DISTAL => "thumb-phalanx-distal"
  | THUMB_TIP => "thumb-tip"
  | INDEX_FINGER_METACARPAL => "index-finger-metacarpal"
  | INDEX_FINGER_PHALANX_PROXIMAL => "index-finger-phalanx-proximal"
  | INDEX_FINGER_PHALANX_INTERMEDIATE => "index-finger-phalanx-intermediate"
  | INDEX_FINGER_PHALANX_DISTAL => "index-finger-phalanx-distal"
  | INDEX_FINGER_TIP => "index-finger-tip"
  | MIDDLE_FINGER_METACARPAL => "middle-finger-metacarpal"
  | MIDDLE_FINGER_PHALANX_PROXIMAL => "middle-finger-phalanx-proximal"
  | MIDDLE_FINGER_PHALANX_INTERMEDIATE => "middle-finger-phalanx-intermediate"
  | MIDDLE_FINGER_PHALANX_DISTAL => "middle-finger-phalanx-distal"
  | MIDDLE_FINGER_TIP => "middle-finger-tip"
  | RING_FINGER_METACARPAL => "ring-finger-metacarpal"
  | RING_FINGER_PHALANX_PROXIMAL => "ring-finger-phalanx-proximal"
  | RING_FINGER_PHALANX_INTERMEDIATE => "ring-finger-phalanx-intermediate"
  | RING_FINGER_PHALANX_DISTAL => "ring-finger-phalanx-distal"
  | RING_FINGER_TIP => "ring-finger-tip"
  | PINKY_FINGER_METACARPAL => "pinky-finger-metacarpal"
  | PINKY_FINGER_PHALANX_PROXIMAL => "pinky-finger-phalanx-proximal"
  | PINKY_FINGER_PHALANX_INTERMEDIATE => "pinky-finger-phalanx-intermediate"
  | PINKY_FINGER_PHALANX_DISTAL => "pinky-finger-phalanx-distal"
  | PINKY_FINGER_TIP => "pinky-finger-tip"
  end.
End WebXRHandJoint.

Definition HandJointReferenceArray : list WebXRHandJoint.t :=
  [ WebXRHandJoint.WRIST;
    WebXRHandJoint.THUMB_METACARPAL;
    WebXRHandJoint.THUMB_PHALANX_PROXIMAL;
    WebXRHandJoint.THUMB_PHALANX_DISTAL;
    WebXRHandJoint.THUMB_TIP;
    WebXRHandJoint.INDEX_FINGER_METACARPAL;
    WebXRHandJoint.INDEX_FINGER_PHALANX_PROXIMAL;
    WebXRHandJoint.INDEX_FINGER_PHALANX_INTERMEDIATE;
    WebXRHandJoint.INDEX_FINGER_PHALANX_DISTAL;
    WebXRHandJoint.INDEX_FINGER_TIP;
    WebXRHandJoint.MIDDLE_FINGER_METACARPAL;
    WebXRHandJoint.MIDDLE_FINGER_PHALANX_PROXIMAL;
    WebXRHandJoint.MIDDLE_FINGER_PHALANX_INTERMEDIATE;
    WebXRHandJoint.MIDDLE_FINGER_PHALANX_DISTAL;
    WebXRHandJoint.MIDDLE_FINGER_TIP;
    WebXRHandJoint.RING_FINGER_METACARPAL;
    WebXRHandJoint.RING_FINGER_PHALANX_PROXIMAL;
    WebXRHandJoint.RING_FINGER_PHALANX_INTERMEDIATE;
    WebXRHandJoint.RING_FINGER_PHALANX_DISTAL;
    WebXRHandJoint.RING_FINGER_TIP;
    WebXRHandJoint.PINKY_FINGER_METACARPAL;
    WebXRHandJoint.PINKY_FINGER_PHALANX_PROXIMAL;
    WebXRHandJoint.PINKY_FINGER_PHALANX_INTERMEDIATE;
    WebXRHandJoint.PINKY_FINGER_PHALANX_DISTAL;
    WebXRHandJoint.PINKY_FINGER_TIP ].

Definition HandPartsDefinition (part : HandPart.t) : list WebXRHandJoint.t :=
  match part with
  | HandPart.WRIST => [WebXRHandJoint.WRIST]
  | HandPart.THUMB =>
    [ WebXRHandJoint.THUMB_METACARPAL; WebXRHandJoint.THUMB_PHALANX_PROXIMAL;
      WebXRHandJoint.THUMB_PHALANX_DISTAL; WebXRHandJoint.THUMB_TIP ]
  | HandPart.INDEX =>
    [ WebXRHandJoint.INDEX_FINGER_METACARPAL;
      WebXRHandJoint.INDEX_FINGER_PHALANX_PROXIMAL;
      WebXRHandJoint.INDEX_FINGER_PHALANX_INTERMEDIATE;
      WebXRHandJoint.INDEX_FINGER_PHALANX_DISTAL;
      WebXRHandJoint.INDEX_FINGER_TIP ]
  | HandPart.MIDDLE =>
    [ WebXRHandJoint.MIDDLE_FINGER_METACARPAL;
      WebXRHandJoint.MIDDLE_FINGER_PHALANX_PROXIMAL;
      WebXRHandJoint.MIDDLE_FINGER_PHALANX_INTERMEDIATE;
      WebXRHandJoint.MIDDLE_FINGER_PHALANX_DISTAL;
      WebXRHandJoint.MIDDLE_FINGER_TIP ]
  | HandPart.RING =>
    [ WebXRHandJoint.RING_FINGER_METACARPAL;
      WebXRHandJoint.RING_FINGER_PHALANX_PROXIMAL;
      WebXRHandJoint.RING_FINGER_PHALANX_INTERMEDIATE;
      WebXRHandJoint.RING_FINGER_PHALANX_DISTAL;
      WebXRHandJoint.RING_FINGER_TIP ]
  | HandPart.LITTLE =>
    [ WebXRHandJoint.PINKY_FINGER_METACARPAL;
      WebXRHandJoint.PINKY_FINGER_PHALANX_PROXIMAL;
      WebXRHandJoint.PINKY_FINGER_PHALANX_INTERMEDIATE;
      WebXRHandJoint.PINKY_FINGER_PHALANX_DISTAL;
      WebXRHandJoint.PINKY_FINGER_TIP ]
  end.

#[export] Instance WebXRHandJoint_eq_dec : EqDecision WebXRHandJoint.t.
Proof. solve_decision. Defined.

(** [array.indexOf(x)]: the first index that holds [x], or -1. *)
Fixpoint indexOf {A : Type} `{EqDecision A} (array : list A) (x : A) : Z :=
  match array with
  | [] => -1
  | y :: array =>
    if decide (y = x) then 0
    else let index := indexOf array x in if index <? 0 then -1 else index + 1
  end%Z.

(** [array[index]]: [undefined] outside of the array. *)
Definition element {A : Type} (array : list A) (index : Z) : option A :=
  if (index <? 0)%Z then None else array !! Z.to_nat index.

Section JointMeshes.

(** The meshes of the engine. *)
Context {AbstractMesh : Type}.

(** Both methods read [_jointMeshes], the meshes the hand was constructed
    with, one for each joint. *)
Definition getHandPartMeshes (_jointMeshes : list AbstractMesh) (part : HandPart.t)
  : list (option AbstractMesh) :=
  map (fun name => element _jointMeshes (indexOf HandJointReferenceArray name))
      (HandPartsDefinition part).

Definition getJointMesh (_jointMeshes : list AbstractMesh) (jointName : WebXRHandJoint.t)
  : option AbstractMesh :=
  element _jointMeshes (indexOf HandJointReferenceArray jointName).

End JointMeshes.

(** ** Rig mappings *)

(** An [XRHandMeshRigMapping] is an object whose keys are the names of the
    joints. *)
Abbreviation XRHandMeshRigMapping := (gmap string string).

(** An object literal: the properties are assigned in the order they are
    written. *)
Definition object (properties : list (string * string)) : gmap string string :=
  foldl (fun o property => <[fst property := snd property]> o) ∅ properties.

Definition _GenerateDefaultHandMeshRigMapping (handedness : XRHandedness)
  : XRHandMeshRigMapping :=
  let h := if handedness_eqb handedness handRight then "R" else "L" in
  let bone (prefix : string) : string := (prefix ++ h)%string in
  object
    [ (WebXRHandJoint.value WebXRHandJoint.WRIST, bone "wrist_");
      (WebXRHandJoint.value WebXRHandJoint.THUMB_METACARPAL, bone "thumb_metacarpal_");
      (WebXRHandJoint.value WebXRHandJoint.THUMB_PHALANX_PROXIMAL, bone "thumb_proxPhalanx_");
      (WebXRHandJoint.value WebXRHandJoint.THUMB_PHALANX_DISTAL, bone "thumb_distPhalanx_");
      (WebXRHandJoint.value WebXRHandJoint.THUMB_TIP, bone "thumb_tip_");
      (WebXRHandJoint.value WebXRHandJoint.INDEX_FINGER_METACARPAL, bone "index_metacarpal_");
      (WebXRHandJoint.value WebXRHandJoint.INDEX_FINGER_PHALANX_PROXIMAL,
       bone "index_proxPhalanx_");
      (WebXRHandJoint.value WebXRHandJoint.INDEX_FINGER_PHALANX_INTERMEDIATE,
       bone "index_intPhalanx_");
      (WebXRHandJoint.value WebXRHandJoint.INDEX_FINGER_PHALANX_DISTAL,
       bone "index_distPhalanx_");
      (WebXRHandJoint.value WebXRHandJoint.INDEX_FINGER_TIP, bone "index_tip_");
      (WebXRHandJoint.value WebXRHandJoint.MIDDLE_FINGER_METACARPAL,
       bone "middle_metacarpal_");
      (WebXRHandJoint.value WebXRHandJoint.MIDDLE_FINGER_PHALANX_PROXIMAL,
       bone "middle_proxPhalanx_");
      (WebXRHandJoint.value WebXRHandJoint.MIDDLE_FINGER_PHALANX_INTERMEDIATE,
       bone "middle_intPhalanx_");
      (WebXRHandJoint.value WebXRHandJoint.MIDDLE_FINGER_PHALANX_DISTAL,
       bone "middle_distPhalanx_");
      (WebXRHandJoint.value WebXRHandJoint.MIDDLE_FINGER_TIP, bone "middle_tip_");
      (WebXRHandJoint.value WebXRHandJoint.RING_FINGER_METACARPAL, bone "ring_metacarpal_");
      (WebXRHandJoint.value WebXRHandJoint.RING_FINGER_PHALANX_PROXIMAL,
       bone "ring_proxPhalanx_");
      (WebXRHandJoint.value WebXRHandJoint.RING_FINGER_PHALANX_INTERMEDIATE,
       bone "ring_intPhalanx_");
      (WebXRHandJoint.value WebXRHandJoint.RING_FINGER_PHALANX_DISTAL,
       bone "ring_distPhalanx_");
      (WebXRHandJoint.value WebXRHandJoint.RING_FINGER_TIP, bone "ring_tip_");
      (WebXRHandJoint.value WebXRHandJoint.PINKY_FINGER_METACARPAL,
       bone "little_metacarpal_");
      (WebXRHandJoint.value WebXRHandJoint.PINKY_FINGER_PHALANX_PROXIMAL,
       bone "little_proxPhalanx_");
      (WebXRHandJoint.value WebXRHandJoint.PINKY_FINGER_PHALANX_INTERMEDIATE,
       bone "little_intPhalanx_");
      (WebXRHandJoint.value WebXRHandJoint.PINKY_FINGER_PHALANX_DISTAL,
       bone "little_distPhalanx_");
      (WebXRHandJoint.value WebXRHandJoint.PINKY_FINGER_TIP, bone "little_tip_") ].

(** The loop of the constructor that turns a legacy rig mapping, an array of
    bone names in the order of the joints, into a mapping.  An index past
    the joints reads [undefined] from [HandJointReferenceArray], which as a
    key is the string "undefined". *)
Fixpoint convertLegacyFrom (index : nat) (legacyRigMapping : list string)
    (rigMapping : XRHandMeshRigMapping) : XRHandMeshRigMapping :=
  match legacyRigMapping with
  | [] => rigMapping
  | modelJointName :: legacyRigMapping =>
    let key :=
      match element HandJointReferenceArray (Z.of_nat index) with
      | Some joint => WebXRHandJoint.value joint
      | None => "undefined"
      end in
    convertLegacyFrom (S index) legacyRigMapping (<[key := modelJointName]> rigMapping)
  end.

Definition convertLegacyRigMapping (legacyRigMapping : list string) : XRHandMeshRigMapping :=
  convertLegacyFrom 0 legacyRigMapping ∅.

(** ** The hands the observers were told about *)

Definition addedHands (effects : list Effect) : list WebXRHand :=
  flat_map (fun e => match e with HandAdded h => [h] | _ => [] end) effects.

Definition removedHands (effects : list Effect) : list WebXRHand :=
  flat_map (fun e => match e with HandRemoved h => [h] | _ => [] end) effects.

Definition disposedHands (effects : list Effect) : list WebXRHand :=
  flat_map (fun e => match e with HandDisposed h _ => [h] | _ => [] end) effects.

(** The books are in order: no hand was added twice or removed twice, the
    removed hands were added and are the disposed ones, the hands added were
    constructed, and each registered hand stands under the id of its
    controller, was added and was not removed. *)
Definition accounted (this : WebXRHandTracking) : Prop :=
  let added := addedHands (effects this) in
  let removed := removedHands (effects this) in
  List.NoDup added
  /\ List.NoDup removed
  /\ incl removed added
  /\ disposedHands (effects this) = removed
  /\ (forall h, In h added -> serial h < constructed this)
  /\ (forall id h, lookup id (_attachedHands this) = Some h ->
        uniqueId (xrController h) = id /\ In h added /\ ~ In h removed).

(** ** Notions the properties are stated with *)

#[export] Instance XRHandedness_eq_dec : EqDecision XRHandedness.
Proof. solve_decision. Defined.

(** A controller for which a hand is created. *)
Definition eligible (c : WebXRInputSource) : bool :=
  hand (inputSource c) && negb (handedness_eqb (handedness (inputSource c)) handNone).

(** The hand [_attachHand] constructs for a controller. *)
Definition newHand (this : WebXRHandTracking) (c : WebXRInputSource) : WebXRHand :=
  {| xrController := c; serial := constructed this |}.

(** The feature when [attach] starts its loop over the controllers. *)
Definition withResources (this : WebXRHandTracking) : WebXRHandTracking :=
  let this :=
    if negb (isSet (jointMeshes (_handResources this)))
    then set__handResources
           (mkHandResources (Some generatedJointMeshes)
              (handMeshes (_handResources this)) (rigMappings (_handResources this))) this
    else this in
  let this :=
    set__handResources
      (mkHandResources (jointMeshes (_handResources this))
         (customMeshes (options this)) (customRigMappings (options this))) this in
  if negb (isSet (customMeshes (options this))) && negb (disableDefaultMeshes (options this))
  then set_defaultMeshesRequested true this
  else this.

(** Each tracked hand belongs to a controller whose id is a key of
    [_attachedHands]. *)
Definition consistent (this : WebXRHandTracking) : Prop :=
  forall (h : XRHandedness) (t : WebXRHand),
    tracked h (_trackingHands this) = Some t ->
    In (uniqueId (xrController t)) (keys (_attachedHands this)).

(** [uniqueId] identifies the controller. *)
Definition distinctIds (cs : list WebXRInputSource) : Prop :=
  forall c1 c2, In c1 cs -> In c2 cs -> uniqueId c1 = uniqueId c2 -> c1 = c2.

Definition controllersOf (events : list Event) : list WebXRInputSource :=
  flat_map (fun e => match e with
                     | ControllerAdded c | ControllerRemoved c => [c]
                     | _ => []
                     end) events.

(** Every registered hand is stored under the id of its controller, every
    tracked hand under the handedness of its controller, and the controller
    of a tracked hand is registered. *)
Definition invariant (known : list WebXRInputSource) (this : WebXRHandTracking) : Prop :=
  incl (xrInput_controllers (options this)) known
  /\ (forall id hd,
        lookup id (_attachedHands this) = Some hd ->
        uniqueId (xrController hd) = id
        /\ In (xrController hd) known
        /\ eligible (xrController hd) = true)
  /\ (forall h t,
        tracked h (_trackingHands this) = Some t ->
        handedness (inputSource (xrController t)) = h
        /\ In (xrController t) known
        /\ lookup (uniqueId (xrController t)) (_attachedHands this) <> None).

(** ** A concrete session *)

Definition leftController : WebXRInputSource :=
  mkWebXRInputSource "controller-0-tracked-pointer-left" (mkXRInputSource true handLeft).
Definition rightController : WebXRInputSource :=
  mkWebXRInputSource "controller-1-tracked-pointer-right" (mkXRInputSource true handRight).
Definition gamepad : WebXRInputSource :=
  mkWebXRInputSource "controller-2-tracked-pointer-right" (mkXRInputSource false handRight).
Definition gaze : WebXRInputSource :=
  mkWebXRInputSource "controller-3-gaze-none" (mkXRInputSource true handNone).

Definition exampleOptions : IWebXRHandTrackingOptions :=
  mkOptions [leftController; gamepad] None None false false.

Definition exampleFeature : WebXRHandTracking := constructor exampleOptions.
Definition attachedFeature : WebXRHandTracking := snd (attach exampleFeature true).

Definition exampleEvents : list Event :=
  [Attach true; ControllerAdded rightController; ControllerAdded gaze;
   ControllerRemoved leftController; DefaultHandMeshesLoaded; Detach true].

End HandTracking.

(* ===================================================================== *)
(** * Properties of PointerDragBehavior *)
(* ===================================================================== *)

Module PointerDragFacts.
Import PointerDrag.
Local Open Scope R_scope.

Section Properties.

Variable Epsilon : R.
Variable normalize : Vector3 -> Vector3.
Variable lookAtForward : Vector3 -> Vector3 -> Vector3.

Local Abbreviation pick := (_pickWithRayOnDragPlane Epsilon normalize).
Local Abbreviation updatePlane := (_updateDragPlanePosition normalize lookAtForward).
Local Abbreviation moveDrag := (_moveDrag Epsilon normalize lookAtForward).

Lemma gtb_true (a b : R) : gtb a b = true <-> a > b.
Proof. unfold gtb. destruct (Rgt_dec a b); split; intros; try easy; discriminate. Qed.

Lemma gtb_false (a b : R) : gtb a b = false <-> ~ a > b.
Proof. unfold gtb. destruct (Rgt_dec a b); split; intros; try easy; discriminate. Qed.

Lemma ltb_true (a b : R) : ltb a b = true <-> a < b.
Proof. unfold ltb. destruct (Rlt_dec a b); split; intros; try easy; discriminate. Qed.

Lemma ltb_false (a b : R) : ltb a b = false <-> ~ a < b.
Proof. unfold ltb. destruct (Rlt_dec a b); split; intros; try easy; discriminate. Qed.

Lemma gtb_irrefl (a : R) : gtb a a = false.
Proof. apply gtb_false. lra. Qed.

(** With [maxDragAngle] at zero the angle test is skipped and the pick is the
    intersection with the infinite plane. *)
Lemma pick_without_angle (this : Behavior) (plane : DragPlane) (ray : Ray) :
  _dragPlane this = Some plane ->
  maxDragAngle this = 0 ->
  pick this (Some ray) =
    if ltb (Rabs (Dot (direction ray) (forward plane))) Epsilon then Normal (None, this)
    else if ltb (hitParameter plane ray) 0 then Normal (None, this)
    else Normal (Some (add (origin ray) (scale (direction ray) (hitParameter plane ray))), this).
Proof.
  intros Hplane Hangle. unfold _pickWithRayOnDragPlane.
  rewrite Hplane, Hangle. cbn [defined bindC]. rewrite gtb_irrefl. reflexivity.
Qed.

(** The point [o + t d] is on the plane when [t] is the hit parameter. *)
Lemma hit_on_plane (plane : DragPlane) (ray : Ray) :
  Dot (direction ray) (forward plane) <> 0 ->
  Dot (subtract (add (origin ray) (scale (direction ray) (hitParameter plane ray)))
         (position plane)) (forward plane) = 0.
Proof.
  intros Hdot. unfold hitParameter.
  destruct plane as [[px py pz] [nx ny nz]], ray as [[ox oy oz] [dx dy dz]].
  unfold Dot, subtract, add, scale in *. cbn in *. field. exact Hdot.
Qed.

(** C1.  Ray/plane intersection: with [maxDragAngle = 0], for a plane at [p]
    with forward normal [n] and a ray from [o] along [d] with
    [|d . n| >= Epsilon] and [t = ((p - o) . n) / (d . n) >= 0],
    [_pickWithRayOnDragPlane] returns [o + t d], and that point satisfies the
    plane equation [(result - p) . n = 0].  [Epsilon] is a positive constant. *)
Theorem pick_returns_intersection (this : Behavior) (plane : DragPlane) (ray : Ray) :
  0 < Epsilon ->
  _dragPlane this = Some plane ->
  maxDragAngle this = 0 ->
  Rabs (Dot (direction ray) (forward plane)) >= Epsilon ->
  hitParameter plane ray >= 0 ->
  let t := hitParameter plane ray in
  let result := add (origin ray) (scale (direction ray) t) in
  pick this (Some ray) = Normal (Some result, this)
  /\ Dot (subtract result (position plane)) (forward plane) = 0.
Proof.
  intros Heps Hplane Hangle Hdot Ht t result. split.
  - rewrite (pick_without_angle this plane ray Hplane Hangle).
    assert (H1 : ltb (Rabs (Dot (direction ray) (forward plane))) Epsilon = false)
      by (apply ltb_false; lra).
    assert (H2 : ltb (hitParameter plane ray) 0 = false) by (apply ltb_false; lra).
    rewrite H1, H2. reflexivity.
  - apply hit_on_plane. intros H0. rewrite H0, Rabs_R0 in Hdot. lra.
Qed.


(** Beyond [-1, 1], where [Math.acos] is NaN, the folded angle is 0. *)
Lemma foldedAngle_beyond_unit (plane : DragPlane) (ray : Ray) :
  Rabs (Dot (forward plane) (direction ray)) >= 1 -> foldedAngle plane ray = 0.
Proof.
  intros Hd. unfold foldedAngle, acos. pose proof PI_RGT_0 as Hpi.
  destruct (Rle_dec (Dot (forward plane) (direction ray)) (-1)) as [Hlo|Hlo].
  - destruct (Rgt_dec PI (PI / 2)); lra.
  - destruct (Rle_dec 1 (Dot (forward plane) (direction ray))) as [Hhi|Hhi].
    + destruct (Rgt_dec 0 (PI / 2)); lra.
    + exfalso. unfold Rabs in Hd. destruct (Rcase_abs _); lra.
Qed.

(** For unit vectors the code's angle is the angle of the specification. *)
Lemma foldedAngle_unit (plane : DragPlane) (ray : Ray) :
  length (forward plane) = 1 ->
  length (direction ray) = 1 ->
  foldedAngle plane ray = foldedAngle_as_specified plane ray.
Proof.
  intros Hn Hd. unfold foldedAngle, foldedAngle_as_specified, angleBetween.
  rewrite Hn, Hd.
  replace (Dot (forward plane) (direction ray) / (1 * 1))
    with (Dot (forward plane) (direction ray)) by field.
  reflexivity.
Qed.



(** C8.  The constructor throws exactly when both [dragAxis] and
    [dragPlaneNormal] are given; otherwise it succeeds and stores the given
    options, or the empty object when none were given. *)
Theorem constructor_throws_iff_both (options : option Options) :
  ((exists msg, constructor options = Throw msg) <->
   (exists o axis normal,
      options = Some o /\ dragAxis o = Some axis /\ dragPlaneNormal o = Some normal))
  /\ ((forall o, options = Some o -> dragAxis o = None \/ dragPlaneNormal o = None) ->
      exists this, constructor options = Normal this
        /\ _options this = match options with Some o => o | None => emptyOptions end).
Proof.
  unfold constructor.
  destruct options as [[[axis|] [normal|]]|]; cbn; split.
  all: try (split; [intros [msg H]; discriminate
                   | intros (o & a & n & Ho & Ha & Hn); injection Ho as <-; discriminate]).
  all: try (intros _; eexists; split; reflexivity).
  - split; [intros _; do 3 eexists; repeat split | intros _; eexists; reflexivity].
  - intros H. destruct (H _ eq_refl); discriminate.
  - split; [intros [msg H]; discriminate | intros (o & a & n & Ho & _); discriminate].
Qed.

(** *** What a pick and a plane update leave alone *)

Lemma sameDrag_refl (a : Behavior) : sameDrag a a.
Proof. repeat split. Qed.

Lemma sameDrag_set__tmpVector (v : Vector3) (a b : Behavior) :
  sameDrag a b -> sameDrag a (set__tmpVector v b).
Proof. exact (fun H => H). Qed.

Lemma sameDrag_set__alternatePickedPoint (v : Vector3) (a b : Behavior) :
  sameDrag a b -> sameDrag a (set__alternatePickedPoint v b).
Proof. exact (fun H => H). Qed.

Lemma sameDrag_set__pointA (v : Vector3) (a b : Behavior) :
  sameDrag a b -> sameDrag a (set__pointA v b).
Proof. exact (fun H => H). Qed.

Lemma sameDrag_set__pointC (v : Vector3) (a b : Behavior) :
  sameDrag a b -> sameDrag a (set__pointC v b).
Proof. exact (fun H => H). Qed.

Lemma sameDrag_set__localAxis (v : Vector3) (a b : Behavior) :
  sameDrag a b -> sameDrag a (set__localAxis v b).
Proof. exact (fun H => H). Qed.

Lemma sameDrag_set__lookAt (v : Vector3) (a b : Behavior) :
  sameDrag a b -> sameDrag a (set__lookAt v b).
Proof. exact (fun H => H). Qed.

Lemma sameDrag_set__dragPlane (v : option DragPlane) (a b : Behavior) :
  sameDrag a b -> sameDrag a (set__dragPlane v b).
Proof. exact (fun H => H). Qed.

Create HintDb frame.
#[local] Hint Resolve sameDrag_refl sameDrag_set__tmpVector sameDrag_set__alternatePickedPoint
  sameDrag_set__pointA sameDrag_set__pointC sameDrag_set__localAxis sameDrag_set__lookAt
  sameDrag_set__dragPlane : frame.

(** Reading a member after a chain of assignments. *)
Ltac simpl_fields :=
  cbn [set__moving set__dragPlane set_lastDragPosition set__targetPosition
       set__dragDelta set__worldDragAxis set__tmpVector set__alternatePickedPoint
       set__pointA set__pointC set__localAxis set__lookAt set_onDragObservable
       _options maxDragAngle _useAlternatePickedPointAboveMaxDragAngle
       _useAlternatePickedPointAboveMaxDragAngleDragSpeed updateDragPlane
       useObjectOrientationForDragging _moving currentDraggingPointerId attachedNode
       _dragPlane lastDragPosition _targetPosition _dragDelta _worldDragAxis _tmpVector
       _alternatePickedPoint _pointA _pointC _localAxis _lookAt activeCameraForward
       onDragObservable].

(** Case analysis along the control flow of a method that completed. *)
Ltac case_completion H :=
  repeat first
  [ discriminate H
  | progress cbn [bindC defined] in H
  | match type of H with
    | context [bindC (defined ?o) _] =>
        let E := fresh "E" in destruct o eqn:E
    | context [if ?c then _ else _] =>
        let E := fresh "E" in destruct c eqn:E
    | context [match ?o with Some _ => _ | None => _ end] =>
        let E := fresh "E" in destruct o eqn:E
    end ].

Lemma pick_frame (this this' : Behavior) (ray : option Ray) (r : option Vector3) :
  pick this ray = Normal (r, this') ->
  sameDrag this this' /\ _dragPlane this' = _dragPlane this
  /\ (r <> None -> exists plane, _dragPlane this = Some plane).
Proof.
  unfold _pickWithRayOnDragPlane. intros H. destruct ray as [ray|].
  - case_completion H; injection H as <- <-;
      (split; [auto 20 with frame
             | split; [first [reflexivity | assumption] | intros Hr; eauto; congruence]]).
  - injection H as <- <-. split; [auto with frame | split; [reflexivity | congruence]].
Qed.

Lemma updatePlane_frame (this this' : Behavior) (ray : Ray) (p : Vector3) :
  updatePlane this ray p = Normal this' ->
  sameDrag this this' /\ exists plane, _dragPlane this' = Some plane.
Proof.
  unfold _updateDragPlanePosition. intros H.
  case_completion H; injection H as <-;
    (split; [auto 30 with frame | eexists; reflexivity]).
Qed.

Lemma updatePlane_total (this : Behavior) (ray : Ray) (p : Vector3) (node : Node)
    (plane : DragPlane) :
  attachedNode this = Some node ->
  _dragPlane this = Some plane ->
  exists this', updatePlane this ray p = Normal this'.
Proof.
  intros Hn Hp. unfold _updateDragPlanePosition.
  repeat first
    [ progress cbn [bindC defined]
    | progress simpl_fields
    | rewrite Hn | rewrite Hp
    | match goal with
      | |- context [if ?c then _ else _] => destruct c
      | |- context [match ?o with Some _ => _ | None => _ end] => destruct o
      end ].
  all: eauto.
Qed.

Lemma sameDrag_trans (a b c : Behavior) : sameDrag a b -> sameDrag b c -> sameDrag a c.
Proof.
  unfold sameDrag. intros H1 H2.
  decompose [and] H1. decompose [and] H2. repeat split; congruence.
Qed.

(** After a successful pick, the optional plane update of [_moveDrag]
    completes and keeps the members the projection reads. *)
Lemma moveDrag_plane_update (this this1 : Behavior) (ray : Ray) (pickedPoint : Vector3)
    (node : Node) :
  pick (set__moving true this) (Some ray) = Normal (Some pickedPoint, this1) ->
  attachedNode this = Some node ->
  exists this2 plane,
    (if updateDragPlane this1 then updatePlane this1 ray pickedPoint else Normal this1)
      = Normal this2
    /\ sameDrag this this2 /\ _dragPlane this2 = Some plane.
Proof.
  intros Hpick Hnode.
  destruct (pick_frame _ _ _ _ Hpick) as (Hsame & Hplane & Hsome).
  destruct Hsome as [plane Hp]; [discriminate|].
  assert (Hs1 : sameDrag this this1) by exact Hsame.
  assert (Hn1 : attachedNode this1 = Some node).
  { destruct Hs1 as (_ & <- & _). exact Hnode. }
  assert (Hp1 : _dragPlane this1 = Some plane) by (rewrite Hplane; exact Hp).
  destruct (updateDragPlane this1).
  - destruct (updatePlane_total this1 ray pickedPoint node plane Hn1 Hp1) as [this2 H2].
    destruct (updatePlane_frame _ _ _ _ H2) as (Hs2 & plane2 & Hp2).
    exists this2, plane2. split; [exact H2 | split; [|exact Hp2]].
    eapply sameDrag_trans; eassumption.
  - exists this1, plane. split; [reflexivity | split; assumption].
Qed.

(** C2.  Axis projection in [_moveDrag]: when [options.dragAxis] is set and
    the plane pick succeeds, the drag delta is the normalized world drag axis
    scaled by [dragLength = dot(pickedPoint - lastDragPosition, axis)], the
    observers of [onDragObservable] receive that [dragLength] as
    [dragDistance] together with that delta, [_targetPosition] grows by the
    delta, and [lastDragPosition] becomes [pickedPoint]. *)
Theorem moveDrag_projects_on_axis (this this1 : Behavior) (ray : Ray)
    (axis pickedPoint last : Vector3) (node : Node) :
  dragAxis (_options this) = Some axis ->
  pick (set__moving true this) (Some ray) = Normal (Some pickedPoint, this1) ->
  attachedNode this = Some node ->
  lastDragPosition this = Some last ->
  let worldDragAxis :=
    normalize (if useObjectOrientationForDragging this then rotate node axis else axis) in
  let dragLength := Dot (subtract pickedPoint last) worldDragAxis in
  let dragDelta := scale worldDragAxis dragLength in
  exists this' plane,
    moveDrag this ray = Normal this'
    /\ _dragDelta this' = dragDelta
    /\ (exists k, _dragDelta this' = scale worldDragAxis k)
    /\ _dragPlane this' = Some plane
    /\ onDragObservable this' =
         onDragObservable this ++
         [ {| dragDistance := dragLength; delta := dragDelta;
              dragPlanePoint := pickedPoint; planeNormal := forward plane;
              pointerId := currentDraggingPointerId this |} ]
    /\ _targetPosition this' = add (_targetPosition this) dragDelta
    /\ lastDragPosition this' = Some pickedPoint.
Proof.
  intros Haxis Hpick Hnode Hlast worldDragAxis dragLength dragDelta.
  destruct (moveDrag_plane_update this this1 ray pickedPoint node Hpick Hnode)
    as (this2 & plane & Hupd & Hsame & Hplane).
  destruct (pick_frame _ _ _ _ Hpick) as ((_ & Hn1 & _) & _).
  destruct Hsame as (Ho & Hn & Hl & Ht & Hd & Hobs & Hu & _ & Hid).
  unfold _moveDrag. rewrite Hpick. cbn [bindC].
  change (attachedNode (set__moving true this)) with (attachedNode this) in Hn1.
  rewrite <- Hn1, Hnode. cbn [bindC defined]. rewrite Hupd. cbn [bindC].
  rewrite <- Ho, Haxis, <- Hu.
  exists (set_lastDragPosition (Some pickedPoint)
            (set_onDragObservable
               (onDragObservable this ++
                [ {| dragDistance := dragLength; delta := dragDelta;
                     dragPlanePoint := pickedPoint; planeNormal := forward plane;
                     pointerId := currentDraggingPointerId this |} ])
               (set__targetPosition (add (_targetPosition this) dragDelta)
                  (set__dragDelta dragDelta
                     (set__worldDragAxis worldDragAxis
                        (set__tmpVector (subtract pickedPoint last) this2)))))).
  exists plane. split; [|repeat split; try assumption; exists dragLength; reflexivity].
  subst worldDragAxis dragLength dragDelta.
  destruct (useObjectOrientationForDragging this);
    cbn [bindC defined]; simpl_fields; rewrite <- ?Hn, ?Hnode; cbn [bindC defined];
    simpl_fields; rewrite <- Hl, Hlast; cbn [bindC defined]; simpl_fields;
    rewrite Hplane; cbn [bindC defined]; simpl_fields; rewrite <- Ht, <- Hobs, <- Hid;
    reflexivity.
Qed.

(** *** More on the three geometric methods *)

Lemma vector_eq (a b : Vector3) : x a = x b -> y a = y b -> z a = z b -> a = b.
Proof. destruct a, b; cbn; intros; subst; reflexivity. Qed.

(** Once the plane and the mesh are there, a pick completes. *)
Lemma pick_total (this : Behavior) (ray : option Ray) (plane : DragPlane) (node : Node) :
  _dragPlane this = Some plane ->
  attachedNode this = Some node ->
  exists r this', pick this ray = Normal (r, this').
Proof.
  intros Hp Hn. unfold _pickWithRayOnDragPlane. destruct ray as [ray|]; [|eauto].
  rewrite Hp. cbn [defined bindC].
  destruct (gtb (maxDragAngle this) 0 && gtb (foldedAngle plane ray) (maxDragAngle this)).
  - destruct (_useAlternatePickedPointAboveMaxDragAngle this); [|eauto].
    simpl_fields. rewrite Hn. cbn [defined bindC]. eauto.
  - destruct (ltb _ Epsilon); [eauto|]. destruct (ltb _ 0); eauto.
Qed.

Lemma pick_moving (this this' : Behavior) (ray : option Ray) (r : option Vector3) :
  pick this ray = Normal (r, this') -> _moving this' = _moving this.
Proof.
  unfold _pickWithRayOnDragPlane. intros H. destruct ray as [ray|].
  - case_completion H; injection H as <- <-; reflexivity.
  - injection H as <- <-. reflexivity.
Qed.

Lemma updatePlane_moving (this this' : Behavior) (ray : Ray) (p : Vector3) :
  updatePlane this ray p = Normal this' -> _moving this' = _moving this.
Proof.
  unfold _updateDragPlanePosition. intros H.
  case_completion H; injection H as <-; reflexivity.
Qed.

(** X16.  Without a drag axis the target position keeps its offset to the last
    drag position: a ray that misses changes neither, a ray that hits at [p]
    moves both by [p - lastDragPosition].  The distance handed to the
    observers is the length of the delta of the previous move. *)
Theorem moveDrag_free_keeps_offset (this : Behavior) (ray : Ray) (node : Node)
    (plane : DragPlane) (last : Vector3) :
  dragAxis (_options this) = None ->
  attachedNode this = Some node ->
  _dragPlane this = Some plane ->
  lastDragPosition this = Some last ->
  exists this' last',
    moveDrag this ray = Normal this'
    /\ _moving this' = true
    /\ lastDragPosition this' = Some last'
    /\ subtract (_targetPosition this') last' = subtract (_targetPosition this) last
    /\ (((exists this1, pick (set__moving true this) (Some ray) = Normal (None, this1))
         /\ last' = last
         /\ _targetPosition this' = _targetPosition this
         /\ _dragDelta this' = _dragDelta this
         /\ onDragObservable this' = onDragObservable this)
        \/ exists this1 plane',
             pick (set__moving true this) (Some ray) = Normal (Some last', this1)
             /\ _dragPlane this' = Some plane'
             /\ _dragDelta this' = subtract last' last
             /\ _targetPosition this' = add (_targetPosition this) (subtract last' last)
             /\ onDragObservable this' =
                  onDragObservable this ++
                  [ {| dragDistance := length (_dragDelta this); delta := subtract last' last;
                       dragPlanePoint := last'; planeNormal := forward plane';
                       pointerId := currentDraggingPointerId this |} ]).
Proof.
  intros Hfree Hnode Hplane Hlast.
  destruct (pick_total (set__moving true this) (Some ray) plane node Hplane Hnode)
    as (r & this1 & Hpick).
  destruct (pick_frame _ _ _ _ Hpick) as (Hsame1 & _ & _).
  pose proof (pick_moving _ _ _ _ Hpick) as Hm1.
  destruct r as [p|].
  - destruct (moveDrag_plane_update this this1 ray p node Hpick Hnode)
      as (this2 & plane2 & Hupd & Hsame & Hplane2).
    assert (Hm2 : _moving this2 = true).
    { destruct (updateDragPlane this1).
      - rewrite (updatePlane_moving _ _ _ _ Hupd). exact Hm1.
      - injection Hupd as <-. exact Hm1. }
    destruct Hsame1 as (_ & Hn1 & _).
    destruct Hsame as (Ho & Hn & Hl & Ht & Hd & Hobs & Hu & _ & Hid).
    exists (set_lastDragPosition (Some p)
              (set_onDragObservable
                 (onDragObservable this ++
                  [ {| dragDistance := length (_dragDelta this); delta := subtract p last;
                       dragPlanePoint := p; planeNormal := forward plane2;
                       pointerId := currentDraggingPointerId this |} ])
                 (set__targetPosition (add (_targetPosition this) (subtract p last))
                    (set__dragDelta (subtract p last) this2)))), p.
    split.
    { unfold _moveDrag. rewrite Hpick. cbn [bindC].
      change (attachedNode (set__moving true this)) with (attachedNode this) in Hn1.
      rewrite <- Hn1, Hnode. cbn [bindC defined]. rewrite Hupd. cbn [bindC].
      rewrite <- Ho, Hfree, <- Hl, Hlast. cbn [bindC defined]. simpl_fields.
      rewrite Hplane2. cbn [bindC defined]. simpl_fields.
      rewrite <- Ht, <- Hd, <- Hobs, <- Hid. reflexivity. }
    simpl_fields. split; [exact Hm2|]. split; [reflexivity|]. split.
    { apply vector_eq; unfold subtract, add; cbn; lra. }
    right. exists this1, plane2. repeat split; assumption.
  - exists this1, last.
    destruct Hsame1 as (_ & _ & Hl & Ht & Hd & Hobs & _).
    split; [unfold _moveDrag; rewrite Hpick; reflexivity|].
    split; [exact Hm1|]. split; [rewrite <- Hl; exact Hlast|].
    split; [rewrite <- Ht; reflexivity|].
    left. split; [eauto|]. repeat split; symmetry; assumption.
Qed.

(** A vector less its component along a unit normal lies in the plane. *)
Lemma projection_on_plane (f v n : Vector3) :
  Dot f f = 1 ->
  Dot (subtract (add (add (scale f (- Dot f v)) v) n) n) f = 0.
Proof.
  destruct f as [fx fy fz], v as [vx vy vz], n as [nx ny nz].
  unfold Dot, subtract, add, scale. cbn. intros Hunit.
  replace (_ + _ + _)
    with ((fx * vx + fy * vy + fz * vz) * (1 - (fx * fx + fy * fy + fz * fz))) by ring.
  rewrite Hunit. ring.
Qed.

(** X17.  When the arc cosine of the dot product of plane normal and ray
    direction, folded into [0, pi/2], is above a positive [maxDragAngle] (the
    test of the code; for a normal and a direction of length 1 this is the
    angle between them), and the alternate picked point is switched on, the
    pick is the ray direction, bent along the line from the ray origin to the
    mesh, then projected along the plane normal and carried to the mesh: for
    a unit normal it lies in the plane through the mesh position. *)
Theorem alternate_point_on_plane_through_mesh (this : Behavior) (plane : DragPlane)
    (node : Node) (ray : Ray) :
  _dragPlane this = Some plane ->
  attachedNode this = Some node ->
  maxDragAngle this > 0 ->
  foldedAngle plane ray > maxDragAngle this ->
  _useAlternatePickedPointAboveMaxDragAngle this = true ->
  let towards := normalize (subtract (absolutePosition node) (origin ray)) in
  let bent :=
    add (direction ray)
      (scale towards
         (_useAlternatePickedPointAboveMaxDragAngleDragSpeed this
          * Dot towards (direction ray))) in
  let p := add (add (scale (forward plane) (- Dot (forward plane) bent)) bent)
             (absolutePosition node) in
  exists this',
    pick this (Some ray) = Normal (Some p, this')
    /\ _alternatePickedPoint this' = p
    /\ sameDrag this this'
    /\ _dragPlane this' = Some plane
    /\ (Dot (forward plane) (forward plane) = 1 ->
        Dot (subtract p (absolutePosition node)) (forward plane) = 0)
    /\ (length (forward plane) = 1 -> length (direction ray) = 1 ->
        foldedAngle plane ray = foldedAngle_as_specified plane ray).
Proof.
  intros Hplane Hnode Hmax Hfold Halt towards bent p.
  assert (H1 : gtb (maxDragAngle this) 0 = true) by now apply gtb_true.
  assert (H2 : gtb (foldedAngle plane ray) (maxDragAngle this) = true) by now apply gtb_true.
  eexists. split.
  { unfold _pickWithRayOnDragPlane. rewrite Hplane. cbn [defined bindC].
    rewrite H1, H2, Halt. cbn [andb]. simpl_fields. rewrite Hnode. cbn [defined bindC].
    simpl_fields. reflexivity. }
  simpl_fields. split; [reflexivity|]. split; [repeat split|]. split; [exact Hplane|].
  split; [|intros Hn Hd; now apply foldedAngle_unit].
  intros Hunit. apply projection_on_plane. exact Hunit.
Qed.

(** X18.  [_updateDragPlanePosition] completes once the plane and the mesh are
    there.  The point it is given only serves to orient the plane: the plane
    ends at the absolute position of the mesh.  With a plane normal the plane
    looks from the given point along the normal, without options along the
    camera direction; with a drag axis it looks along a vector perpendicular
    to the axis, unless the axis points to the ray origin. *)
Theorem updateDragPlanePosition_follows_mesh (this : Behavior) (ray : Ray) (p : Vector3)
    (node : Node) (plane : DragPlane) :
  attachedNode this = Some node ->
  _dragPlane this = Some plane ->
  exists this' target,
    updatePlane this ray p = Normal this'
    /\ _dragPlane this' = Some (mkDragPlane (absolutePosition node) (lookAtForward p (add p target)))
    /\ sameDrag this this'
    /\ _moving this' = _moving this
    /\ (forall normal,
          dragAxis (_options this) = None -> dragPlaneNormal (_options this) = Some normal ->
          target = if useObjectOrientationForDragging this then rotate node normal else normal)
    /\ (dragAxis (_options this) = None -> dragPlaneNormal (_options this) = None ->
        target = match activeCameraForward this with
                 | Some dir => normalize dir
                 | None => _localAxis this
                 end)
    /\ (forall axis,
          dragAxis (_options this) = Some axis ->
          let a := if useObjectOrientationForDragging this then rotate node axis else axis in
          let c := normalize (subtract (origin ray) p) in
          (Rabs (Dot a c) > 999 / 1000 ->
           target = if gtb (Rabs (Dot UpReadOnly c)) (999 / 1000) then Right else UpReadOnly)
          /\ (~ Rabs (Dot a c) > 999 / 1000 ->
              target = normalize (Cross a (Cross a c))
              /\ ((forall v, exists k, normalize v = scale v k) -> Dot a target = 0))).
Proof.
  intros Hnode Hplane.
  destruct (updatePlane_total this ray p node plane Hnode Hplane) as [this' Hupd].
  destruct (updatePlane_frame _ _ _ _ Hupd) as (Hsame & _).
  pose proof (updatePlane_moving _ _ _ _ Hupd) as Hmoving.
  pose proof Hupd as Hupd0.
  revert Hupd. unfold _updateDragPlanePosition at 1. simpl_fields.
  destruct (dragAxis (_options this)) as [axis|] eqn:Haxis.
  - destruct (useObjectOrientationForDragging this) eqn:Hobj;
      simpl_fields; rewrite ?Hnode; cbn [bindC defined]; simpl_fields.
    all: match goal with
         | |- context [gtb (Rabs (Dot ?a ?c)) (999 / 1000)] =>
             destruct (gtb (Rabs (Dot a c)) (999 / 1000)) eqn:Hcol
         end.
    all: try match goal with
         | |- context [gtb (Rabs (Dot UpReadOnly ?c)) (999 / 1000)] =>
             destruct (gtb (Rabs (Dot UpReadOnly c)) (999 / 1000)) eqn:Hup
         end.
    all: simpl_fields; rewrite ?Hplane; cbn [bindC defined]; simpl_fields;
      rewrite ?Hnode; cbn [bindC defined]; simpl_fields; intros Hupd; injection Hupd as <-.
    all: eexists; eexists; split; [exact Hupd0|]; split; [simpl_fields; reflexivity|];
      split; [exact Hsame|]; split; [exact Hmoving|];
      split; [intros normal Hd; discriminate|]; split; [intros Hd; discriminate|];
      intros axis0 Ha0; injection Ha0 as <-; cbv zeta; split.
    all: try (intros Hgt; apply gtb_true in Hgt + apply gtb_false in Hcol;
              first [rewrite Hup; reflexivity | contradiction | congruence]).
    all: try (intros Hle; split; [reflexivity|]; intros Hscale;
              match goal with
              | |- Dot ?a (normalize ?v) = 0 =>
                  destruct (Hscale v) as [k ->]; generalize (subtract (origin ray) p);
                  intros w; destruct (Hscale w) as [k' ->];
                  destruct a as [ax ay az], w as [wx wy wz];
                  unfold Dot, Cross, scale; cbn; ring
              end).
    all: try (intros Hle; apply gtb_true in Hcol; contradiction).
  - destruct (dragPlaneNormal (_options this)) as [normal|] eqn:Hnormal.
    + destruct (useObjectOrientationForDragging this) eqn:Hobj;
        simpl_fields; rewrite ?Hnode; cbn [bindC defined]; simpl_fields;
        rewrite ?Hplane; cbn [bindC defined]; simpl_fields;
        rewrite ?Hnode; cbn [bindC defined]; simpl_fields;
        intros Hupd; injection Hupd as <-.
      all: eexists; eexists; split; [exact Hupd0|]; split; [simpl_fields; reflexivity|];
        split; [exact Hsame|]; split; [exact Hmoving|];
        split; [intros n0 _ Hn0; injection Hn0 as <-; reflexivity|];
        split; [intros _ Hd; discriminate | intros a0 Hd; discriminate].
    + destruct (activeCameraForward this) as [dir|] eqn:Hcam;
        simpl_fields; rewrite ?Hplane; cbn [bindC defined]; simpl_fields;
        rewrite ?Hnode; cbn [bindC defined]; simpl_fields;
        intros Hupd; injection Hupd as <-.
      all: eexists; eexists; split; [exact Hupd0|]; split; [simpl_fields; reflexivity|];
        split; [exact Hsame|]; split; [exact Hmoving|];
        split; [intros n0 _ Hn0; discriminate|];
        split; [intros _ _; reflexivity | intros a0 Hd; discriminate].
Qed.

(** *** The drag as a whole *)

Local Abbreviation beginDrag := (_startDrag Epsilon normalize lookAtForward).
Local Abbreviation simulateDrag := (startDrag Epsilon normalize lookAtForward).
Local Abbreviation onPointer := (pointerObserver Epsilon normalize lookAtForward).
Local Abbreviation stepOf := (step Epsilon normalize lookAtForward).
Local Abbreviation runOf := (run Epsilon normalize lookAtForward).

(** Reading a member of the behaviour after a chain of assignments. *)
Ltac simpl_drag :=
  cbn [set_members set__scene set__pointerObserver set__beforeRenderObserver
       set__activeDragButton set__activePointerInfo set_dragging set__enabled
       set__attachedToElement set__startDragRay set__lastPointerRay set_pickPredicate
       set_effects members _scene _pointerObserver _beforeRenderObserver _activeDragButton
       _activePointerInfo dragButtons dragging dragDeltaRatio moveAttached _enabled
       startAndReleaseDragOnPointerEvents detachCameraControls allowOtherButtonsDuringDrag
       validateDrag _attachedToElement _startDragRay _lastPointerRay pickPredicate effects
       emit update set_currentDraggingPointerId set_attachedNode set_activeCameraForward
       set__moving set__dragPlane set_lastDragPosition set__targetPosition
       set__dragDelta set__worldDragAxis set__tmpVector set__alternatePickedPoint
       set__pointA set__pointC set__localAxis set__lookAt set_onDragObservable
       _options maxDragAngle _useAlternatePickedPointAboveMaxDragAngle
       _useAlternatePickedPointAboveMaxDragAngleDragSpeed updateDragPlane
       useObjectOrientationForDragging _moving currentDraggingPointerId attachedNode
       _dragPlane lastDragPosition _targetPosition _dragDelta _worldDragAxis _tmpVector
       _alternatePickedPoint _pointA _pointC _localAxis _lookAt activeCameraForward
       onDragObservable].

Ltac simpl_drag_in H :=
  cbn [set_members set__scene set__pointerObserver set__beforeRenderObserver
       set__activeDragButton set__activePointerInfo set_dragging set__enabled
       set__attachedToElement set__startDragRay set__lastPointerRay set_pickPredicate
       set_effects members _scene _pointerObserver _beforeRenderObserver _activeDragButton
       _activePointerInfo dragButtons dragging dragDeltaRatio moveAttached _enabled
       startAndReleaseDragOnPointerEvents detachCameraControls allowOtherButtonsDuringDrag
       validateDrag _attachedToElement _startDragRay _lastPointerRay pickPredicate effects
       emit update set_currentDraggingPointerId set_attachedNode set_activeCameraForward
       set__moving set__dragPlane set_lastDragPosition set__targetPosition
       set__dragDelta set__worldDragAxis set__tmpVector set__alternatePickedPoint
       set__pointA set__pointC set__localAxis set__lookAt set_onDragObservable
       _options maxDragAngle _useAlternatePickedPointAboveMaxDragAngle
       _useAlternatePickedPointAboveMaxDragAngleDragSpeed updateDragPlane
       useObjectOrientationForDragging _moving currentDraggingPointerId attachedNode
       _dragPlane lastDragPosition _targetPosition _dragDelta _worldDragAxis _tmpVector
       _alternatePickedPoint _pointA _pointC _localAxis _lookAt activeCameraForward
       onDragObservable] in H.

Lemma dragNotifications_app (l1 l2 : list Effect) :
  dragNotifications (l1 ++ l2) = dragNotifications l1 ++ dragNotifications l2.
Proof. apply flat_map_app. Qed.

Lemma enabledNotifications_app (l1 l2 : list Effect) :
  enabledNotifications (l1 ++ l2) = enabledNotifications l1 ++ enabledNotifications l2.
Proof. apply flat_map_app. Qed.

Lemma detachments_app (l1 l2 : list Effect) :
  detachments (l1 ++ l2) = (detachments l1 + detachments l2)%nat.
Proof. unfold detachments. rewrite List.filter_app. apply List.length_app. Qed.

Lemma attachments_app (l1 l2 : list Effect) :
  attachments (l1 ++ l2) = (attachments l1 + attachments l2)%nat.
Proof. unfold attachments. rewrite List.filter_app. apply List.length_app. Qed.

Lemma last_nonempty (a : bool) (l : list bool) (d d' : bool) :
  List.last (a :: l) d = List.last (a :: l) d'.
Proof.
  revert a. induction l as [|c l IH]; intros a; [reflexivity|].
  change (List.last (c :: l) d = List.last (c :: l) d'). apply IH.
Qed.

Lemma alternating_snoc (b a : bool) (l : list bool) :
  alternating b l -> a = negb (List.last l (negb b)) -> alternating b (l ++ [a]).
Proof.
  revert b. induction l as [|c l IH]; intros b Hl Ha.
  - cbn in *. rewrite negb_involutive in Ha. auto.
  - destruct Hl as [-> Hl]. split; [reflexivity|]. apply IH; [exact Hl|].
    rewrite Ha. destruct l as [|c' l]; [cbn; now rewrite negb_involutive|].
    f_equal. exact (last_nonempty c' l _ _).
Qed.

Lemma last_snoc (l : list bool) (a d : bool) : List.last (l ++ [a]) d = a.
Proof. apply List.last_last. Qed.

Lemma balanced_nil : balanced [].
Proof.
  intros before after H. symmetry in H. apply List.app_eq_nil in H as [-> _]. cbn. lia.
Qed.

Lemma balanced_snoc (log : list Effect) (e : Effect) :
  balanced log ->
  (attachments (log ++ [e]) <= detachments (log ++ [e]))%nat ->
  balanced (log ++ [e]).
Proof.
  intros Hlog He before after Heq.
  destruct after as [|a after _] using List.rev_ind.
  - rewrite List.app_nil_r in Heq. subst before. exact He.
  - rewrite List.app_assoc in Heq. apply List.app_inj_tail in Heq as [Heq _].
    exact (Hlog before after Heq).
Qed.

(** A log grown by something that is no call on the camera. *)
Lemma balanced_quiet (log : list Effect) (e : Effect) :
  balanced log ->
  attachments [e] = 0%nat ->
  balanced (log ++ [e]).
Proof.
  intros Hlog He. apply balanced_snoc; [exact Hlog|].
  rewrite attachments_app, detachments_app, He.
  pose proof (Hlog log [] (eq_sym (List.app_nil_r log))). lia.
Qed.

Lemma log_DragStarted (log : list Effect) (p : Vector3) (id : Z) (info : option PointerInfo) :
  dragNotifications (log ++ [DragStarted p id info]) = dragNotifications log ++ [true]
  /\ enabledNotifications (log ++ [DragStarted p id info]) = enabledNotifications log
  /\ attachments (log ++ [DragStarted p id info]) = attachments log
  /\ detachments (log ++ [DragStarted p id info]) = detachments log.
Proof.
  rewrite dragNotifications_app, enabledNotifications_app, attachments_app, detachments_app.
  cbn. rewrite !List.app_nil_r, !Nat.add_0_r. auto.
Qed.

Lemma log_DragEnded (log : list Effect) (p : option Vector3) (id : Z)
    (info : option PointerInfo) :
  dragNotifications (log ++ [DragEnded p id info]) = dragNotifications log ++ [false]
  /\ enabledNotifications (log ++ [DragEnded p id info]) = enabledNotifications log
  /\ attachments (log ++ [DragEnded p id info]) = attachments log
  /\ detachments (log ++ [DragEnded p id info]) = detachments log.
Proof.
  rewrite dragNotifications_app, enabledNotifications_app, attachments_app, detachments_app.
  cbn. rewrite !List.app_nil_r, !Nat.add_0_r. auto.
Qed.

Lemma log_EnabledChanged (log : list Effect) (value : bool) :
  dragNotifications (log ++ [EnabledChanged value]) = dragNotifications log
  /\ enabledNotifications (log ++ [EnabledChanged value]) = enabledNotifications log ++ [value]
  /\ attachments (log ++ [EnabledChanged value]) = attachments log
  /\ detachments (log ++ [EnabledChanged value]) = detachments log.
Proof.
  rewrite dragNotifications_app, enabledNotifications_app, attachments_app, detachments_app.
  cbn. rewrite !List.app_nil_r, !Nat.add_0_r. auto.
Qed.

Lemma log_detachControl (log : list Effect) :
  dragNotifications (log ++ [detachControl]) = dragNotifications log
  /\ enabledNotifications (log ++ [detachControl]) = enabledNotifications log
  /\ attachments (log ++ [detachControl]) = attachments log
  /\ detachments (log ++ [detachControl]) = S (detachments log).
Proof.
  rewrite dragNotifications_app, enabledNotifications_app, attachments_app, detachments_app.
  cbn. rewrite !List.app_nil_r, !Nat.add_0_r, Nat.add_1_r. auto.
Qed.

Lemma log_attachControl (log : list Effect) (a : bool) (b : option (bool * Z)) :
  dragNotifications (log ++ [attachControl a b]) = dragNotifications log
  /\ enabledNotifications (log ++ [attachControl a b]) = enabledNotifications log
  /\ attachments (log ++ [attachControl a b]) = S (attachments log)
  /\ detachments (log ++ [attachControl a b]) = detachments log.
Proof.
  rewrite dragNotifications_app, enabledNotifications_app, attachments_app, detachments_app.
  cbn. rewrite !List.app_nil_r, !Nat.add_0_r, Nat.add_1_r. auto.
Qed.

(** How the log may grow. *)
Lemma consistent_start (enabled0 : bool) (log : list Effect) (f en : bool) (p : Vector3)
    (id : Z) (info : option PointerInfo) :
  consistent enabled0 log false f en ->
  consistent enabled0 (log ++ [DragStarted p id info]) true f en.
Proof.
  intros (H1 & H2 & H3 & H4 & H5 & H6). unfold consistent.
  destruct (log_DragStarted log p id info) as (-> & -> & E3 & E4).
  split; [apply alternating_snoc; [exact H1 | cbn; rewrite <- H2; reflexivity]|].
  split; [now rewrite last_snoc|].
  split; [apply balanced_quiet; [exact H3 | reflexivity]|].
  rewrite E3, E4. auto.
Qed.

Lemma consistent_end (enabled0 : bool) (log : list Effect) (f en : bool)
    (p : option Vector3) (id : Z) (info : option PointerInfo) :
  consistent enabled0 log true f en ->
  consistent enabled0 (log ++ [DragEnded p id info]) false f en.
Proof.
  intros (H1 & H2 & H3 & H4 & H5 & H6). unfold consistent.
  destruct (log_DragEnded log p id info) as (-> & -> & E3 & E4).
  split; [apply alternating_snoc; [exact H1 | cbn; rewrite <- H2; reflexivity]|].
  split; [now rewrite last_snoc|].
  split; [apply balanced_quiet; [exact H3 | reflexivity]|].
  rewrite E3, E4. auto.
Qed.

Lemma consistent_enabled (enabled0 : bool) (log : list Effect) (d f en value : bool) :
  consistent enabled0 log d f en ->
  value <> en ->
  consistent enabled0 (log ++ [EnabledChanged value]) d f value.
Proof.
  intros (H1 & H2 & H3 & H4 & H5 & H6) Hv. unfold consistent.
  destruct (log_EnabledChanged log value) as (-> & -> & E3 & E4).
  split; [exact H1|]. split; [exact H2|].
  split; [apply balanced_quiet; [exact H3 | reflexivity]|].
  rewrite E3, E4. split; [exact H4|].
  split; [|now rewrite last_snoc].
  apply alternating_snoc; [exact H5|].
  destruct (enabledNotifications log) as [|a l] eqn:El.
  - cbn in *. subst en. destruct value, enabled0; cbn; congruence.
  - rewrite (last_nonempty a l (negb (negb enabled0)) enabled0), <- H6.
    destruct value, en; cbn; congruence.
Qed.

Lemma consistent_detach (enabled0 : bool) (log : list Effect) (d f en : bool) :
  consistent enabled0 log d f en ->
  consistent enabled0 (log ++ [detachControl]) d true en.
Proof.
  intros (H1 & H2 & H3 & H4 & H5 & H6). unfold consistent.
  destruct (log_detachControl log) as (-> & -> & E3 & E4).
  split; [exact H1|]. split; [exact H2|].
  split; [apply balanced_quiet; [exact H3 | reflexivity]|].
  rewrite E3, E4. split; [|auto]. destruct f; lia.
Qed.

Lemma consistent_attach (enabled0 : bool) (log : list Effect) (d en a : bool)
    (b : option (bool * Z)) :
  consistent enabled0 log d true en ->
  consistent enabled0 (log ++ [attachControl a b]) d false en.
Proof.
  intros (H1 & H2 & H3 & H4 & H5 & H6). unfold consistent.
  destruct (log_attachControl log a b) as (E1 & E2 & E3 & E4).
  rewrite E1, E2. split; [exact H1|]. split; [exact H2|].
  split; [apply balanced_snoc; [exact H3 | rewrite E3, E4; lia]|].
  rewrite E3, E4. split; [lia | auto].
Qed.

Lemma consistent_unflag (enabled0 : bool) (log : list Effect) (d f en : bool) :
  consistent enabled0 log d f en ->
  consistent enabled0 log d false en.
Proof.
  intros (H1 & H2 & H3 & H4 & H5 & H6). repeat split; try assumption. destruct f; lia.
Qed.

Create HintDb drag.
#[local] Hint Resolve consistent_start consistent_end consistent_detach consistent_attach
  consistent_unflag : drag.

Lemma releaseDrag_orderly (enabled0 : bool) (this : PointerDragBehavior) :
  orderly enabled0 this ->
  exists this',
    releaseDrag this = Normal this' /\ orderly enabled0 this' /\ dragging this' = false.
Proof.
  intros (Hatt & Hid & Hlog).
  assert (Hs := Hatt). destruct Hs as ((scene & Hscene & _) & _).
  unfold releaseDrag.
  revert Hlog. destruct (dragging this) eqn:Hd; intros Hlog; simpl_drag;
    destruct (detachCameraControls this); cbn [andb];
    (revert Hlog; destruct (_attachedToElement this) eqn:Hf; intros Hlog); simpl_drag;
    rewrite ?Hscene; cbn [bindC defined];
    try destruct (activeCamera scene) as [camera|];
    try destruct (Camera.leftCamera camera); cbn [negb];
    try destruct (String.eqb _ _);
    (eexists; split; [reflexivity|]; split; [|simpl_drag; first [reflexivity | exact Hd]];
     split; [exact Hatt|]; split; [intros _; reflexivity|];
     simpl_drag; rewrite ?Hd, ?Hf; eauto 6 with drag).
Qed.

Lemma pick_camera (this this' : Behavior) (ray : option Ray) (r : option Vector3) :
  pick this ray = Normal (r, this') -> activeCameraForward this' = activeCameraForward this.
Proof.
  unfold _pickWithRayOnDragPlane. intros H. destruct ray as [ray|].
  - case_completion H; injection H as <- <-; reflexivity.
  - injection H as <- <-. reflexivity.
Qed.

Lemma updatePlane_camera (this this' : Behavior) (ray : Ray) (p : Vector3) :
  updatePlane this ray p = Normal this' ->
  activeCameraForward this' = activeCameraForward this.
Proof.
  unfold _updateDragPlanePosition. intros H.
  case_completion H; injection H as <-; reflexivity.
Qed.

(** [_moveDrag] completes on an attached behaviour and keeps what [attach]
    assigned. *)
Lemma moveDrag_keeps (this : Behavior) (ray : Ray) (node : Node) (plane : DragPlane)
    (last : Vector3) :
  attachedNode this = Some node ->
  _dragPlane this = Some plane ->
  lastDragPosition this = Some last ->
  exists this',
    moveDrag this ray = Normal this'
    /\ attachedNode this' = Some node
    /\ (exists plane', _dragPlane this' = Some plane')
    /\ (exists last', lastDragPosition this' = Some last')
    /\ currentDraggingPointerId this' = currentDraggingPointerId this
    /\ activeCameraForward this' = activeCameraForward this
    /\ _moving this' = true.
Proof.
  intros Hnode Hplane Hlast.
  destruct (pick_total (set__moving true this) (Some ray) plane node Hplane Hnode)
    as (r & this1 & Hpick).
  destruct (pick_frame _ _ _ _ Hpick) as (Hsame1 & Hp1 & _).
  pose proof (pick_moving _ _ _ _ Hpick) as Hm1.
  pose proof (pick_camera _ _ _ _ Hpick) as Hc1.
  destruct r as [p|].
  - destruct (moveDrag_plane_update this this1 ray p node Hpick Hnode)
      as (this2 & plane2 & Hupd & Hsame & Hplane2).
    assert (Hm2 : _moving this2 = true
                  /\ activeCameraForward this2 = activeCameraForward this).
    { destruct (updateDragPlane this1).
      - rewrite (updatePlane_moving _ _ _ _ Hupd), (updatePlane_camera _ _ _ _ Hupd). auto.
      - injection Hupd as <-. auto. }
    destruct Hm2 as [Hm2 Hc2].
    destruct Hsame1 as (_ & Hn1 & _).
    destruct Hsame as (Ho & Hn & Hl & Ht & Hd & Hobs & Hu & _ & Hid).
    unfold _moveDrag. rewrite Hpick. cbn [bindC].
    change (attachedNode (set__moving true this)) with (attachedNode this) in Hn1.
    rewrite <- Hn1, Hnode. cbn [bindC defined]. rewrite Hupd. cbn [bindC].
    destruct (dragAxis (_options this2)) as [axis|];
      [destruct (useObjectOrientationForDragging this2); rewrite <- ?Hn, ?Hnode|];
      cbn [bindC defined]; simpl_fields; rewrite <- Hl, Hlast; cbn [bindC defined];
      simpl_fields; rewrite Hplane2; cbn [bindC defined];
      (eexists; split; [reflexivity|]; simpl_fields; rewrite <- Hn, <- Hid; eauto 10).
  - exists this1. destruct Hsame1 as (_ & Hn1 & Hl1 & _ & _ & _ & _ & _ & Hid1).
    split; [unfold _moveDrag; rewrite Hpick; reflexivity|].
    split; [rewrite <- Hn1; exact Hnode|].
    split; [exists plane; rewrite Hp1; exact Hplane|].
    split; [exists last; rewrite <- Hl1; exact Hlast|].
    split; [symmetry; exact Hid1|]. split; [exact Hc1 | exact Hm1].
Qed.

(** Members that kept what the invariant reads of them. *)
Lemma orderly_members (enabled0 : bool) (this : PointerDragBehavior) (behavior : Behavior) :
  orderly enabled0 this ->
  attachedNode behavior <> None ->
  _dragPlane behavior <> None ->
  lastDragPosition behavior <> None ->
  currentDraggingPointerId behavior = currentDraggingPointerId (members this) ->
  activeCameraForward behavior = activeCameraForward (members this) ->
  orderly enabled0 (set_members behavior this).
Proof.
  intros (((scene & Hscene & Hcam) & _) & Hid & Hlog) Hn Hp Hl Hi Hc.
  split; [|split; [simpl_drag; rewrite Hi; exact Hid | exact Hlog]].
  split; [exists scene; split; [exact Hscene | simpl_drag; rewrite Hc; exact Hcam]|].
  simpl_drag. destruct (attachedNode behavior); [|contradiction].
  destruct (_dragPlane behavior); [|contradiction].
  destruct (lastDragPosition behavior); [|contradiction].
  split; [eexists; reflexivity | split; eexists; reflexivity].
Qed.

Lemma moveDrag_orderly (enabled0 : bool) (this : PointerDragBehavior) (ray : Ray) :
  orderly enabled0 this ->
  exists behavior,
    moveDrag (members this) ray = Normal behavior
    /\ orderly enabled0 (set_members behavior this).
Proof.
  intros H. pose proof H as ((_ & (node & Hn) & (plane & Hp) & (last & Hl)) & _).
  destruct (moveDrag_keeps (members this) ray node plane last Hn Hp Hl)
    as (behavior & Hmove & Hn' & (plane' & Hp') & (last' & Hl') & Hid & Hcam & _).
  exists behavior. split; [exact Hmove|].
  apply orderly_members; try assumption; congruence.
Qed.

Lemma updatePlane_orderly (enabled0 : bool) (this : PointerDragBehavior) (ray : Ray)
    (p : Vector3) :
  orderly enabled0 this ->
  exists behavior,
    updatePlane (members this) ray p = Normal behavior
    /\ orderly enabled0 (set_members behavior this).
Proof.
  intros H. pose proof H as ((_ & (node & Hn) & (plane & Hp) & (last & Hl)) & _).
  destruct (updatePlane_total (members this) ray p node plane Hn Hp) as [behavior Hupd].
  destruct (updatePlane_frame _ _ _ _ Hupd)
    as ((_ & Hn' & Hl' & _ & _ & _ & _ & _ & Hid) & plane' & Hp').
  exists behavior. split; [exact Hupd|].
  apply orderly_members; try congruence.
  exact (updatePlane_camera _ _ _ _ Hupd).
Qed.

Lemma pick_orderly (enabled0 : bool) (this : PointerDragBehavior) (ray : option Ray) :
  orderly enabled0 this ->
  exists r behavior,
    pick (members this) ray = Normal (r, behavior)
    /\ orderly enabled0 (set_members behavior this)
    /\ lastDragPosition behavior = lastDragPosition (members this)
    /\ attachedNode behavior = attachedNode (members this).
Proof.
  intros H. pose proof H as ((_ & (node & Hn) & (plane & Hp) & (last & Hl)) & _).
  destruct (pick_total (members this) ray plane node Hp Hn) as (r & behavior & Hpick).
  destruct (pick_frame _ _ _ _ Hpick)
    as ((_ & Hn' & Hl' & _ & _ & _ & _ & _ & Hid) & Hp' & _).
  exists r, behavior. split; [exact Hpick|]. split; [|split; congruence].
  apply orderly_members; try congruence.
  exact (pick_camera _ _ _ _ Hpick).
Qed.

Lemma beginDrag_orderly (enabled0 : bool) (this : PointerDragBehavior) (pointerId : Z)
    (fromRay : option Ray) (startPickedPoint : option Vector3) :
  orderly enabled0 this ->
  exists this',
    beginDrag this pointerId fromRay startPickedPoint = Normal this'
    /\ orderly enabled0 this'.
Proof.
  intros H. pose proof H as (((scene & Hscene & _) & (node & Hn) & _) & _).
  unfold _startDrag. rewrite Hscene. cbn [bindC defined].
  destruct (activeCamera scene) as [camera|]; [|eauto].
  destruct (dragging this) eqn:Hd; [eauto|]. rewrite Hn.
  match goal with
  | |- context [match fromRay with Some _ => _ | None => _ end] =>
      set (this1 := match fromRay with Some _ => _ | None => _ end)
  end.
  assert (H1 : orderly enabled0 this1 /\ dragging this1 = false
               /\ effects this1 = effects this).
  { subst this1. destruct fromRay; (split; [exact H | split; [exact Hd | reflexivity]]). }
  clearbody this1. destruct H1 as (H1 & Hd1 & He1).
  destruct (updatePlane_orderly enabled0 this1 (_startDragRay this1)
              (match startPickedPoint with
               | Some startPickedPoint => startPickedPoint
               | None => _tmpVector (members this1)
               end) H1) as (behavior2 & Hupd & H2).
  rewrite Hupd. cbn [bindC].
  destruct (pick_orderly enabled0 (set_members behavior2 this1)
              (Some (_startDragRay (set_members behavior2 this1))) H2)
    as (r & behavior3 & Hpick & H3 & Hl3 & Hn3).
  rewrite Hpick. cbn [bindC].
  destruct r as [pickedPoint|].
  - pose proof H3 as ((Hs3 & (node3 & Hnode3) & Hp3 & (last3 & Hlast3)) & _ & Hlog3).
    simpl_drag.
    cbn [set_members members effects dragging _attachedToElement _enabled]
      in Hlast3, Hnode3, Hlog3, Hs3, Hp3.
    rewrite Hlast3. cbn [bindC defined]. simpl_drag. rewrite Hnode3. cbn [bindC defined].
    rewrite Hd1 in Hlog3.
    assert (Hatt : forall that,
               _scene that = _scene this1 ->
               activeCameraForward (members that) = activeCameraForward behavior3 ->
               attachedNode (members that) = attachedNode behavior3 ->
               _dragPlane (members that) = _dragPlane behavior3 ->
               lastDragPosition (members that) = Some pickedPoint ->
               attached that).
    { intros that E1 E2 E3 E4 E5. unfold attached. rewrite E1, E2, E3, E4, E5.
      split; [exact Hs3|]. split; [exists node3; exact Hnode3|].
      split; [exact Hp3 | eexists; reflexivity]. }
    destruct (Camera.inputs camera) as [inputs|];
      [destruct (detachCameraControls this1); cbn [andb];
       [destruct (Camera.leftCamera camera); cbn [negb];
        [|destruct (Camera.attachedToElement inputs)]|]|];
      cbn [bindC]; (eexists; split; [reflexivity|]);
      (split; [apply Hatt; reflexivity|]);
      (split; [simpl_drag; discriminate|]); simpl_drag; eauto 6 with drag.
  - destruct (releaseDrag_orderly enabled0 _ H3) as (this' & Hrel & H' & _).
    cbn [set_members members] in Hrel |- *. rewrite Hrel. cbn [bindC]. eauto.
Qed.

Lemma simulateDrag_orderly (enabled0 : bool) (this : PointerDragBehavior)
    (pointerId : option Z) (fromRay : option Ray) (startPickedPoint : option Vector3) :
  orderly enabled0 this ->
  exists this',
    simulateDrag this pointerId fromRay startPickedPoint = Normal this'
    /\ orderly enabled0 this'.
Proof.
  intros H. unfold startDrag.
  destruct (beginDrag_orderly enabled0 this
              (match pointerId with Some id => id | None => _AnyMouseId end)
              fromRay startPickedPoint H) as (this1 & Hbegin & H1).
  rewrite Hbegin. cbn [bindC].
  match goal with
  | |- context [match ?found with Some _ => _ | None => Normal this1 end] =>
      destruct found as [lastRay|]; [|eauto]
  end.
  destruct (moveDrag_orderly enabled0 this1 lastRay H1) as (behavior & Hmove & H2).
  rewrite Hmove. cbn [bindC]. eauto.
Qed.

Lemma onPointer_orderly (enabled0 : bool) (this : PointerDragBehavior)
    (pointerInfo : PointerInfo) :
  orderly enabled0 this ->
  exists this', onPointer this pointerInfo = Normal this' /\ orderly enabled0 this'.
Proof.
  intros H. unfold pointerObserver.
  destruct (_enabled this); cbn [negb].
  2: { destruct (_attachedToElement this); [|eauto].
       destruct (releaseDrag_orderly enabled0 this H) as (this' & Hrel & H' & _). eauto. }
  match goal with
  | |- context [if ?c then releaseDrag this else _] => destruct c
  end.
  { destruct (releaseDrag_orderly enabled0 this H) as (this' & Hrel & H' & _). eauto. }
  destruct (type pointerInfo); try (eexists; split; [reflexivity | exact H]).
  - destruct (startAndReleaseDragOnPointerEvents this && negb (dragging this)); [|eauto].
    destruct (pickInfo pointerInfo) as [pick|]; [|eauto].
    destruct (PickingInfo.pickedMesh pick) as [pickedMesh|]; [|eauto].
    destruct (PickingInfo.pickedPoint pick) as [pickedPoint|]; [|eauto].
    destruct (PickingInfo.ray pick) as [ray|]; [|eauto].
    destruct (PickingInfo.hit pick && pickPredicate this pickedMesh); [|eauto].
    match goal with
    | |- context [if ?c then _ else Normal this] => destruct c; [|eauto]
    end.
    apply beginDrag_orderly. exact H.
  - match goal with
    | |- context [if ?c then releaseDrag this else _] => destruct c; [|eauto]
    end.
    destruct (releaseDrag_orderly enabled0 this H) as (this' & Hrel & H' & _). eauto.
  - pose proof H as (((scene & Hscene & _) & _) & Hid & _).
    match goal with
    | |- context [bindC ?first _] =>
        assert (H1 : exists this1, first = Normal this1 /\ orderly enabled0 this1
                                   /\ dragging this1 = dragging this)
    end.
    { destruct ((currentDraggingPointerId (members this) =? _AnyMouseId)%Z) eqn:Hany;
        cbn [andb]; [|eauto].
      destruct (negb (IPointerEvent.pointerId (event pointerInfo) =? _AnyMouseId)%Z);
        [|eauto].
      assert (Hd : dragging this = true).
      { destruct (dragging this); [reflexivity|].
        apply Z.eqb_eq in Hany. rewrite (Hid eq_refl) in Hany. discriminate. }
      rewrite Hscene.
      destruct (String.eqb _ "mouse"); cbn [bindC defined];
        [|destruct (negb (isMobile scene) && _); [|eauto]].
      all: eexists; split; [reflexivity|]; split; [|destruct (rayOf _ _); reflexivity].
      all: destruct H as (Hatt & _ & Hlog).
      all: destruct (rayOf _ _); (split; [exact Hatt|]);
        (split; [simpl_drag; rewrite Hd; discriminate | exact Hlog]). }
    destruct H1 as (this1 & -> & H1 & Hd1). cbn [bindC].
    match goal with
    | |- context [match pickInfo pointerInfo with Some _ => _ | None => Normal ?that end] =>
        assert (H2 : orderly enabled0 that) by (destruct (rayOf _ _); exact H1);
        generalize dependent that; intros this2 H2
    end.
    destruct (pickInfo pointerInfo) as [pick|]; [|eauto].
    destruct (PickingInfo.ray pick) as [ray|]; [|eauto].
    match goal with
    | |- context [if ?c then _ else Normal ?that] =>
        destruct c; [|exists that; split; [reflexivity | exact H2]]
    end.
    match goal with
    | |- context [moveDrag (members ?that) ray] =>
        destruct (moveDrag_orderly enabled0 that ray H2) as (behavior & Hmove & H3)
    end.
    rewrite Hmove. cbn [bindC]. eauto.
Qed.

Lemma beforeRender_orderly (enabled0 : bool) (this : PointerDragBehavior) :
  orderly enabled0 this ->
  exists this', beforeRenderObserver this = Normal this' /\ orderly enabled0 this'.
Proof.
  intros H. pose proof H as ((Hs & (node & Hn) & Hp & Hl) & Hid & Hlog).
  unfold beforeRenderObserver.
  destruct (_moving (members this) && moveAttached this); [|eauto].
  rewrite Hn. cbn [bindC defined].
  destruct (validateDrag _ _); (eexists; split; [reflexivity|]).
  - split; [|split; [exact Hid | exact Hlog]].
    split; [exact Hs|]. split; [eexists; reflexivity | split; [exact Hp | exact Hl]].
  - exact H.
Qed.

Lemma set_enabled_orderly (enabled0 : bool) (this : PointerDragBehavior) (value : bool) :
  orderly enabled0 this -> orderly enabled0 (set_enabled this value).
Proof.
  intros (Hatt & Hid & Hlog). unfold set_enabled.
  destruct (Bool.eqb value (_enabled this)) eqn:Hv; cbn [negb].
  - apply Bool.eqb_prop in Hv. subst value.
    split; [exact Hatt | split; [exact Hid | exact Hlog]].
  - apply Bool.eqb_false_iff in Hv.
    split; [exact Hatt | split; [exact Hid|]]. simpl_drag.
    apply consistent_enabled with (en := _enabled this); assumption.
Qed.

Lemma detach_orderly (enabled0 : bool) (this : PointerDragBehavior) :
  orderly enabled0 this ->
  exists this', detach this = Normal this' /\ orderly enabled0 this'.
Proof.
  intros H. unfold detach.
  destruct (releaseDrag_orderly enabled0
              (set__beforeRenderObserver false
                 (set__pointerObserver false (set__lastPointerRay [] this))) H)
    as (this' & Hrel & H' & _).
  eauto.
Qed.

Lemma world_orderly (enabled0 : bool) (this : PointerDragBehavior) (scene : Scene)
    (node : Node) :
  orderly enabled0 this ->
  orderly enabled0 (update (set_attachedNode (Some node)) (inScene scene this)).
Proof.
  intros ((_ & _ & Hp & Hl) & Hid & Hlog).
  split; [|split; [exact Hid | exact Hlog]].
  split; [exists scene; split; reflexivity|].
  split; [eexists; reflexivity | split; [exact Hp | exact Hl]].
Qed.

Lemma step_orderly (enabled0 : bool) (this : PointerDragBehavior) (e : Event) :
  orderly enabled0 this ->
  exists this', stepOf this e = Normal this' /\ orderly enabled0 this'.
Proof.
  intros H. destruct e as [pointerInfo| | |id fromRay point|value| |scene node]; cbn [step].
  - destruct (_pointerObserver this); [apply onPointer_orderly; exact H | eauto].
  - destruct (_beforeRenderObserver this); [apply beforeRender_orderly; exact H | eauto].
  - destruct (releaseDrag_orderly enabled0 this H) as (this' & Hrel & H' & _). eauto.
  - apply simulateDrag_orderly. exact H.
  - eexists. split; [reflexivity|]. apply set_enabled_orderly. exact H.
  - apply detach_orderly. exact H.
  - eexists. split; [reflexivity|]. apply world_orderly. exact H.
Qed.

Lemma run_orderly (enabled0 : bool) (events : list Event) (this : PointerDragBehavior) :
  orderly enabled0 this ->
  exists this', runOf this events = Normal this' /\ orderly enabled0 this'.
Proof.
  revert this. induction events as [|e events IH]; intros this H; [cbn; eauto|].
  destruct (step_orderly enabled0 this e H) as (this1 & Hstep & H1).
  cbn [run]. rewrite Hstep. cbn [bindC]. apply IH. exact H1.
Qed.

Lemma attach_orderly (this : PointerDragBehavior) (ownerNode : Node) (scene : Scene)
    (plane : DragPlane) (predicate : option (Z -> bool)) (isOwnerOrDescendant : Z -> bool) :
  unused this ->
  orderly (_enabled this)
    (attach this ownerNode scene plane predicate isOwnerOrDescendant).
Proof.
  intros (Hd & Hf & Hid & Hlog).
  split; [|split].
  - split; [exists scene; split; reflexivity|].
    split; [eexists; reflexivity | split; eexists; reflexivity].
  - intros _. exact Hid.
  - unfold attach, inScene. simpl_drag. rewrite Hd, Hf, Hlog.
    repeat split; [apply balanced_nil | cbn; lia].
Qed.

(** A behaviour at rest is left as it is. *)
Lemma releaseDrag_at_rest (this : PointerDragBehavior) :
  dragging this = false ->
  currentDraggingPointerId (members this) = (-1)%Z ->
  _activeDragButton this = (-1)%Z ->
  _activePointerInfo this = None ->
  _moving (members this) = false ->
  (detachCameraControls this && _attachedToElement this = true ->
   exists scene, _scene this = Some scene
     /\ match activeCamera scene with
        | Some camera => Camera.leftCamera camera = true
        | None => True
        end) ->
  releaseDrag this = Normal this.
Proof.
  destruct this as [m sc po bo button info buttons d ratio ma en sr dc ao vd f sray rays pp log].
  destruct m as [o a1 a2 a3 a4 a5 mv id n pl l t dd w tv ap pa pc la lk cam obs].
  cbn. intros -> -> -> -> -> Hcam. unfold releaseDrag. cbn.
  destruct (dc && f); [|reflexivity].
  destruct (Hcam eq_refl) as (scene & -> & Hleft). cbn.
  destruct (activeCamera scene) as [camera|]; [|reflexivity].
  rewrite Hleft. reflexivity.
Qed.

(** X19.  [releaseDrag] ends the drag if there is one, telling the observers
    of [onDragEndObservable] the last drag position and the pointer, forgets
    the pointer, the button and the move, and attaches the camera controls
    again at most once, and only if [_attachedToElement] was set.  Calling it
    again changes nothing. *)
Theorem releaseDrag_settles (this : PointerDragBehavior) (scene : Scene) :
  _scene this = Some scene ->
  exists this' reattached,
    releaseDrag this = Normal this'
    /\ dragging this' = false
    /\ currentDraggingPointerId (members this') = (-1)%Z
    /\ _activeDragButton this' = (-1)%Z
    /\ _activePointerInfo this' = None
    /\ _moving (members this') = false
    /\ effects this'
       = effects this
         ++ (if dragging this
             then [DragEnded (lastDragPosition (members this))
                     (currentDraggingPointerId (members this)) (_activePointerInfo this)]
             else [])
         ++ reattached
    /\ ((reattached = [] /\ _attachedToElement this' = _attachedToElement this)
        \/ ((exists a b, reattached = [attachControl a b])
            /\ _attachedToElement this = true /\ _attachedToElement this' = false))
    /\ releaseDrag this' = Normal this'.
Proof.
  intros Hscene.
  assert (Hagain : forall this' : PointerDragBehavior,
             dragging this' = false /\ currentDraggingPointerId (members this') = (-1)%Z
             /\ _activeDragButton this' = (-1)%Z /\ _activePointerInfo this' = None
             /\ _moving (members this') = false ->
             _scene this' = Some scene ->
             (detachCameraControls this' && _attachedToElement this' = false
              \/ match activeCamera scene with
                 | Some camera => Camera.leftCamera camera = true
                 | None => True
                 end) ->
             releaseDrag this' = Normal this').
  { intros this' (H1 & H2 & H3 & H4 & H5) H6 H7.
    apply releaseDrag_at_rest; try assumption.
    intros Hboth. destruct H7 as [H7|H7]; [congruence|].
    exists scene. split; [exact H6 | exact H7]. }
  unfold releaseDrag at 1.
  destruct (dragging this) eqn:Hd; simpl_drag;
    destruct (detachCameraControls this) eqn:Hc; cbn [andb];
    destruct (_attachedToElement this) eqn:Hf; simpl_drag;
    rewrite ?Hscene; cbn [bindC defined];
    try destruct (activeCamera scene) as [camera|] eqn:Hcam;
    try destruct (Camera.leftCamera camera) eqn:Hleft; cbn [negb];
    try destruct (String.eqb _ _).
  all: eexists; eexists; split; [reflexivity|]; simpl_drag.
  all: split; [first [reflexivity | exact Hd]|].
  all: do 4 (split; [reflexivity|]).
  all: rewrite <- ?List.app_assoc; cbn [app].
  all: split; [first [reflexivity | rewrite List.app_nil_r; reflexivity]|].
  all: split; [first [left; split; [reflexivity | first [reflexivity | exact Hf]]
                     | right; split; [eauto | split; reflexivity]]|].
  all: apply Hagain; [| |].
  all: try exact Hscene.
  all: try (simpl_drag; repeat split; first [reflexivity | exact Hd]).
  all: simpl_drag; rewrite ?Hc, ?Hf.
  all: try (left; reflexivity).
  all: right; first [exact I | reflexivity].
Qed.

(** X20.  After [attach], whatever the scene and the application do, no
    handler fails; drags start and end in turn, beginning with a start, and
    [dragging] tells whether the last notification was a start; while no drag
    is under way [currentDraggingPointerId] is -1. *)
Theorem drags_start_and_end_in_turn (this0 : PointerDragBehavior) (ownerNode : Node)
    (scene : Scene) (plane : DragPlane) (predicate : option (Z -> bool))
    (isOwnerOrDescendant : Z -> bool) (events : list Event) :
  unused this0 ->
  exists this,
    runOf (attach this0 ownerNode scene plane predicate isOwnerOrDescendant) events
      = Normal this
    /\ alternating true (dragNotifications (effects this))
    /\ dragging this = List.last (dragNotifications (effects this)) false
    /\ (dragging this = false -> currentDraggingPointerId (members this) = (-1)%Z).
Proof.
  intros Hunused.
  destruct (run_orderly (_enabled this0) events _
              (attach_orderly this0 ownerNode scene plane predicate isOwnerOrDescendant
                 Hunused))
    as (this & Hrun & _ & Hid & Hstart & Hlast & _).
  exists this. split; [exact Hrun | split; [exact Hstart | split; [exact Hlast | exact Hid]]].
Qed.

(** X21.  After [attach], whatever happens, the behaviour has at no time
    called [attachControl] on the camera more often than [detachControl], and
    while [_attachedToElement] is set it has called it less often. *)
Theorem camera_controls_attached_after_detached (this0 : PointerDragBehavior)
    (ownerNode : Node) (scene : Scene) (plane : DragPlane) (predicate : option (Z -> bool))
    (isOwnerOrDescendant : Z -> bool) (events : list Event) :
  unused this0 ->
  exists this,
    runOf (attach this0 ownerNode scene plane predicate isOwnerOrDescendant) events
      = Normal this
    /\ balanced (effects this)
    /\ (attachments (effects this) <= detachments (effects this))%nat
    /\ (_attachedToElement this = true ->
        (attachments (effects this) < detachments (effects this))%nat).
Proof.
  intros Hunused.
  destruct (run_orderly (_enabled this0) events _
              (attach_orderly this0 ownerNode scene plane predicate isOwnerOrDescendant
                 Hunused))
    as (this & Hrun & _ & _ & _ & _ & Hbalanced & Hcount & _).
  exists this. split; [exact Hrun | split; [exact Hbalanced|]].
  destruct (_attachedToElement this); split; try lia; intros; try lia; discriminate.
Qed.

(** X22.  After [attach], whatever happens, the observers of
    [onEnabledObservable] are told a value only when it differs from the one
    before, so the values they are told change each time, and the last one is
    the current value of [enabled]. *)
Theorem enabled_notified_on_change (this0 : PointerDragBehavior) (ownerNode : Node)
    (scene : Scene) (plane : DragPlane) (predicate : option (Z -> bool))
    (isOwnerOrDescendant : Z -> bool) (events : list Event) :
  unused this0 ->
  exists this,
    runOf (attach this0 ownerNode scene plane predicate isOwnerOrDescendant) events
      = Normal this
    /\ alternating (negb (_enabled this0)) (enabledNotifications (effects this))
    /\ _enabled this = List.last (enabledNotifications (effects this)) (_enabled this0).
Proof.
  intros Hunused.
  destruct (run_orderly (_enabled this0) events _
              (attach_orderly this0 ownerNode scene plane predicate isOwnerOrDescendant
                 Hunused))
    as (this & Hrun & _ & _ & _ & _ & _ & _ & Hturn & Hlast).
  exists this. split; [exact Hrun | split; [exact Hturn | exact Hlast]].
Qed.

Lemma updatePlane_at_mesh (this this' : Behavior) (ray : Ray) (p : Vector3) (node : Node) :
  updatePlane this ray p = Normal this' ->
  attachedNode this = Some node ->
  maxDragAngle this' = maxDragAngle this
  /\ exists forward', _dragPlane this' = Some (mkDragPlane (absolutePosition node) forward').
Proof.
  unfold _updateDragPlanePosition. intros H Hnode.
  case_completion H; injection H as <-; simpl_fields; (split; [reflexivity|]);
    repeat match goal with
           | E : attachedNode _ = Some _ |- _ =>
               progress simpl_drag_in E; rewrite Hnode in E; injection E as <-
           end;
    eexists; reflexivity.
Qed.

(** [releaseDrag] on a behaviour that is not dragging. *)
Lemma releaseDrag_idle (this : PointerDragBehavior) (scene : Scene) :
  dragging this = false ->
  _scene this = Some scene ->
  exists this',
    releaseDrag this = Normal this'
    /\ dragging this' = false
    /\ currentDraggingPointerId (members this') = (-1)%Z
    /\ lastDragPosition (members this') = lastDragPosition (members this)
    /\ _targetPosition (members this') = _targetPosition (members this)
    /\ _dragPlane (members this') = _dragPlane (members this)
    /\ _startDragRay this' = _startDragRay this
    /\ dragNotifications (effects this') = dragNotifications (effects this).
Proof.
  intros Hd Hscene. unfold releaseDrag. rewrite Hd. simpl_drag.
  destruct (detachCameraControls this && _attachedToElement this);
    rewrite ?Hscene; cbn [bindC defined];
    try destruct (activeCamera scene) as [camera|];
    try destruct (Camera.leftCamera camera); cbn [negb];
    try destruct (String.eqb _ _).
  all: eexists; split; [reflexivity|]; simpl_drag; rewrite ?Hd.
  all: repeat (split; [reflexivity|]).
  all: first [reflexivity | apply log_attachControl].
Qed.

(** X23.  With [maxDragAngle] at zero, [_startDrag] on an attached behaviour
    that is not dragging, in a scene with a camera: the start ray is the given
    ray, or the ray from the camera to the mesh; the plane is put at the mesh;
    the drag starts exactly when the start ray meets the plane, and then at
    the point where it does, a point of the plane through the mesh position,
    with the target at the mesh position. *)
Theorem drag_starts_on_plane_through_mesh (this : PointerDragBehavior) (pointerId : Z)
    (fromRay : option Ray) (startPickedPoint : option Vector3) (scene : Scene)
    (camera : Camera.t) (node : Node) (plane : DragPlane) (last : Vector3) :
  0 < Epsilon ->
  _scene this = Some scene ->
  activeCamera scene = Some camera ->
  dragging this = false ->
  attachedNode (members this) = Some node ->
  _dragPlane (members this) = Some plane ->
  lastDragPosition (members this) = Some last ->
  maxDragAngle (members this) = 0 ->
  let startRay :=
    match fromRay with
    | Some fromRay => fromRay
    | None =>
      mkRay (Camera.position camera)
        (subtract (absolutePosition node) (Camera.position camera))
    end in
  exists this' plane',
    beginDrag this pointerId fromRay startPickedPoint = Normal this'
    /\ _startDragRay this' = startRay
    /\ _dragPlane (members this') = Some plane'
    /\ position plane' = absolutePosition node
    /\ (dragging this' = true <->
        Rabs (Dot (direction startRay) (forward plane')) >= Epsilon
        /\ hitParameter plane' startRay >= 0)
    /\ (dragging this' = true ->
        let p := add (origin startRay)
                   (scale (direction startRay) (hitParameter plane' startRay)) in
        lastDragPosition (members this') = Some p
        /\ Dot (subtract p (absolutePosition node)) (forward plane') = 0
        /\ _targetPosition (members this') = absolutePosition node
        /\ currentDraggingPointerId (members this') = pointerId
        /\ exists detached,
             effects this'
             = effects this ++ DragStarted p pointerId (_activePointerInfo this) :: detached
             /\ (detached = [] \/ detached = [detachControl]))
    /\ (dragging this' = false ->
        currentDraggingPointerId (members this') = (-1)%Z
        /\ lastDragPosition (members this') = Some last
        /\ _targetPosition (members this') = _targetPosition (members this)
        /\ dragNotifications (effects this') = dragNotifications (effects this)).
Proof.
  intros Heps Hscene Hcam Hd Hnode Hplane Hlast Hangle startRay.
  unfold _startDrag. rewrite Hscene. cbn [bindC defined]. rewrite Hcam, Hd, Hnode.
  match goal with
  | |- context [match fromRay with Some _ => _ | None => _ end] =>
      set (this1 := match fromRay with Some _ => _ | None => _ end)
  end.
  assert (H1 : _startDragRay this1 = startRay
               /\ attachedNode (members this1) = Some node
               /\ _dragPlane (members this1) = Some plane
               /\ lastDragPosition (members this1) = Some last
               /\ maxDragAngle (members this1) = 0
               /\ _targetPosition (members this1) = _targetPosition (members this)
               /\ _scene this1 = Some scene /\ dragging this1 = false
               /\ effects this1 = effects this
               /\ _activePointerInfo this1 = _activePointerInfo this
               /\ detachCameraControls this1 = detachCameraControls this).
  { subst this1 startRay. destruct fromRay as [[o d]|]; simpl_drag; repeat split; assumption. }
  clearbody this1.
  destruct H1 as (Hray & Hn1 & Hp1 & Hl1 & Ha1 & Ht1 & Hs1 & Hd1 & He1 & Hi1 & Hc1).
  match goal with
  | |- context [updatePlane (members this1) ?r ?q] =>
      destruct (updatePlane_total (members this1) r q node plane Hn1 Hp1) as [behavior2 Hupd];
      destruct (updatePlane_at_mesh _ _ _ _ _ Hupd Hn1) as (Ha2 & forward2 & Hp2);
      destruct (updatePlane_frame _ _ _ _ Hupd)
        as ((_ & Hn2 & Hl2 & Ht2 & _) & _)
  end.
  rewrite Hupd. cbn [bindC]. simpl_drag. rewrite Hray.
  rewrite (pick_without_angle behavior2 _ startRay Hp2 (eq_trans Ha2 Ha1)).
  set (plane2 := mkDragPlane (absolutePosition node) forward2) in *.
  destruct (ltb (Rabs (Dot (direction startRay) (forward plane2))) Epsilon) eqn:Hpar;
    [|destruct (ltb (hitParameter plane2 startRay) 0) eqn:Hback]; cbn [bindC].
  1, 2: destruct (releaseDrag_idle (set_members behavior2 (set_members behavior2 this1))
                    scene Hd1 Hs1)
          as (this' & Hrel & Hd' & Hid' & Hl' & Ht' & Hp' & Hr' & Hn');
    rewrite Hrel; cbn [bindC]; exists this', plane2;
    simpl_drag_in Hl'; simpl_drag_in Ht'; simpl_drag_in Hp'; simpl_drag_in Hr';
    simpl_drag_in Hn';
    (split; [reflexivity|]); (split; [congruence|]); (split; [congruence|]);
    (split; [reflexivity|]);
    (split; [rewrite Hd'; split; [discriminate|]; intros [Habs Hpos]; exfalso;
             first [apply ltb_true in Hpar | apply ltb_true in Hback]; lra|]);
    (split; [rewrite Hd'; discriminate|]); intros _;
    (split; [exact Hid'|]); (split; [congruence|]); (split; [congruence|]);
    rewrite Hn', He1; reflexivity.
  rewrite <- Hl2, Hl1. cbn [bindC defined]. rewrite <- Hn2, Hn1. cbn [bindC defined].
  apply ltb_false in Hpar. apply ltb_false in Hback.
  assert (Hdot : Dot (direction startRay) (forward plane2) <> 0).
  { intros H0. rewrite H0, Rabs_R0 in Hpar. lra. }
  pose proof (hit_on_plane plane2 startRay Hdot) as Hon.
  destruct (Camera.inputs camera) as [inputs|];
    [destruct (detachCameraControls this1); cbn [andb];
     [destruct (Camera.leftCamera camera); cbn [negb];
      [|destruct (Camera.attachedToElement inputs)]|]|];
    cbn [bindC]; eexists; exists plane2; (split; [reflexivity|]); simpl_drag;
    (split; [exact Hray|]); (split; [exact Hp2|]); (split; [reflexivity|]);
    (split; [split; [intros _; split; lra | reflexivity]|]);
    (split; [|discriminate]); intros _; cbv zeta;
    (split; [reflexivity|]); (split; [exact Hon|]); (split; [reflexivity|]);
    (split; [reflexivity|]); rewrite He1, Hi1, <- ?List.app_assoc; cbn [app];
    eexists; (split; [reflexivity|]); auto.
Qed.

(** X24.  While the behaviour is moving the mesh and [validateDrag] accepts
    every position, each frame takes the mesh the fraction [dragDeltaRatio] of
    the way to the target position: after [n] frames the vector from the mesh
    to the target is the first one scaled by [(1 - dragDeltaRatio) ^ n].
    Nothing else changes, and nobody is notified. *)
Theorem frames_approach_target (this : PointerDragBehavior) (node : Node) (n : nat) :
  _beforeRenderObserver this = true ->
  _moving (members this) = true ->
  moveAttached this = true ->
  attachedNode (members this) = Some node ->
  (forall v, validateDrag this v = true) ->
  exists this' node',
    runOf this (replicate n BeforeRender) = Normal this'
    /\ attachedNode (members this') = Some node'
    /\ subtract (_targetPosition (members this')) (absolutePosition node')
       = scale (subtract (_targetPosition (members this)) (absolutePosition node))
           ((1 - dragDeltaRatio this) ^ n)
    /\ rotate node' = rotate node
    /\ _targetPosition (members this') = _targetPosition (members this)
    /\ lastDragPosition (members this') = lastDragPosition (members this)
    /\ dragging this' = dragging this
    /\ effects this' = effects this.
Proof.
  revert this node. induction n as [|n IH]; intros this node Hobs Hmov Hatt Hnode Hvalid.
  - exists this, node. split; [reflexivity|]. split; [exact Hnode|].
    split; [|repeat split].
    apply vector_eq; unfold scale, subtract; cbn; lra.
  - cbn [replicate run step]. rewrite Hobs. unfold beforeRenderObserver.
    rewrite Hmov, Hatt. cbn [andb]. rewrite Hnode. cbn [bindC defined]. simpl_drag.
    rewrite Hvalid. cbn [bindC].
    match goal with
    | |- context [run _ _ _ ?that _] => set (this1 := that)
    end.
    set (node1 := setAbsolutePosition node
                    (add (absolutePosition node)
                       (scale (subtract (_targetPosition (members this))
                                 (absolutePosition node)) (dragDeltaRatio this)))).
    destruct (IH this1 node1 Hobs Hmov Hatt eq_refl Hvalid)
      as (this' & node' & Hrun & Hnode' & Hvec & Hrot & Ht & Hl & Hd & He).
    exists this', node'. split; [exact Hrun|]. split; [exact Hnode'|].
    split; [|split; [exact Hrot|split; [exact Ht|split; [exact Hl|split; [exact Hd|exact He]]]]].
    rewrite Hvec. subst this1 node1. simpl_drag. unfold setAbsolutePosition.
    cbn [absolutePosition pow].
    apply vector_eq; unfold scale, subtract, add; cbn; ring.
Qed.

(** *** The last ray of each pointer *)

Lemma rayOf_assignRay_eq (rays : list (Z * Ray)) (key : Z) (value : Ray) :
  rayOf (assignRay rays key value) key = Some value.
Proof.
  unfold rayOf. induction rays as [|[k v] rays IH]; cbn.
  - rewrite Z.eqb_refl. reflexivity.
  - destruct (Z.eqb_spec k key) as [->|Hne]; cbn.
    + rewrite Z.eqb_refl. reflexivity.
    + destruct (Z.eqb_spec k key); [contradiction | exact IH].
Qed.

Lemma rayOf_assignRay_ne (rays : list (Z * Ray)) (key other : Z) (value : Ray) :
  other <> key ->
  rayOf (assignRay rays key value) other = rayOf rays other.
Proof.
  intros Hne. unfold rayOf. induction rays as [|[k v] rays IH]; cbn.
  - destruct (Z.eqb_spec key other); [congruence | reflexivity].
  - destruct (Z.eqb_spec k key) as [->|Hk]; cbn.
    + destruct (Z.eqb_spec key other); [congruence | reflexivity].
    + destruct (Z.eqb_spec k other); [reflexivity | exact IH].
Qed.

Lemma rayOf_In (rays : list (Z * Ray)) (key : Z) :
  In key (map fst rays) -> exists value, rayOf rays key = Some value.
Proof.
  unfold rayOf. induction rays as [|[k v] rays IH]; cbn; [contradiction|].
  intros [->|Hin].
  - rewrite Z.eqb_refl. eauto.
  - destruct (Z.eqb_spec k key); [eauto | apply IH; exact Hin].
Qed.

Lemma fold_left_min (ks : list Z) (k : Z) :
  In (fold_left Z.min ks k) (k :: ks)
  /\ forall other, In other (k :: ks) -> (fold_left Z.min ks k <= other)%Z.
Proof.
  revert k. induction ks as [|a ks IH]; intros k; cbn [fold_left].
  - split; [left; reflexivity | intros other [<-|[]]; lia].
  - destruct (IH (Z.min k a)) as [Hin Hle]. split.
    + destruct Hin as [Hin|Hin]; [|right; right; exact Hin].
      rewrite <- Hin. destruct (Z.min_spec k a) as [[_ ->]|[_ ->]];
        [left | right; left]; reflexivity.
    + intros other [<-|[<-|Hin']].
      * specialize (Hle (Z.min k a) (or_introl eq_refl)). lia.
      * specialize (Hle (Z.min k a) (or_introl eq_refl)). lia.
      * apply Hle. right. exact Hin'.
Qed.

(** [Object.keys(rays)[0]] is a key of [rays], the least array index if
    there is one, and is missing only when [rays] is empty. *)
Lemma firstKey_spec (rays : list (Z * Ray)) :
  match firstKey rays with
  | Some key =>
    In key (map fst rays)
    /\ (forall other,
          In other (map fst rays) -> isArrayIndex other = true ->
          isArrayIndex key = true /\ (key <= other)%Z)
  | None => rays = []
  end.
Proof.
  unfold firstKey.
  destruct (List.filter isArrayIndex (map fst rays)) as [|k ks] eqn:Hf.
  - destruct rays as [|[k v] rays]; [reflexivity|]. cbn [map head fst].
    split; [left; reflexivity|]. intros other Hin Hidx. exfalso.
    assert (Hin' : In other (List.filter isArrayIndex (map fst ((k, v) :: rays))))
      by (apply List.filter_In; split; assumption).
    rewrite Hf in Hin'. exact Hin'.
  - destruct (fold_left_min ks k) as [Hin Hle].
    assert (Hall : forall a, In a (k :: ks) ->
                             In a (map fst rays) /\ isArrayIndex a = true).
    { intros a Ha. rewrite <- Hf in Ha. apply List.filter_In in Ha. exact Ha. }
    split; [apply Hall; exact Hin|].
    intros other Ho Hidx. split; [apply Hall; exact Hin|].
    apply Hle. rewrite <- Hf. apply List.filter_In. split; assumption.
Qed.

Lemma releaseDrag_rays (this this' : PointerDragBehavior) :
  releaseDrag this = Normal this' -> _lastPointerRay this' = _lastPointerRay this.
Proof.
  unfold releaseDrag. intros H.
  destruct (dragging this); simpl_drag_in H;
    case_completion H; injection H as <-; reflexivity.
Qed.

Lemma beginDrag_rays (this this' : PointerDragBehavior) (pointerId : Z)
    (fromRay : option Ray) (startPickedPoint : option Vector3) :
  beginDrag this pointerId fromRay startPickedPoint = Normal this' ->
  _lastPointerRay this' = _lastPointerRay this.
Proof.
  unfold _startDrag. intros H.
  destruct (_scene this) as [scene|]; [|discriminate H]. cbn [bindC defined] in H.
  destruct (activeCamera scene) as [camera|]; [|injection H as <-; reflexivity].
  destruct (dragging this); [injection H as <-; reflexivity|].
  destruct (attachedNode (members this)) as [node|]; [|injection H as <-; reflexivity].
  match type of H with
  | context [match fromRay with Some _ => _ | None => _ end] =>
      set (this1 := match fromRay with Some _ => _ | None => _ end) in H;
      assert (H1 : _lastPointerRay this1 = _lastPointerRay this)
        by (subst this1; destruct fromRay; reflexivity);
      clearbody this1
  end.
  rewrite <- H1.
  destruct (updatePlane _ _ _) as [behavior2|]; [|discriminate H]. cbn [bindC] in H.
  destruct (pick _ _) as [[r behavior3]|]; [|discriminate H]. cbn [bindC] in H.
  destruct r as [pickedPoint|].
  - simpl_drag_in H. case_completion H; injection H as <-; reflexivity.
  - destruct (releaseDrag _) as [this2|] eqn:Hrel; [|discriminate H].
    injection H as <-. exact (releaseDrag_rays _ _ Hrel).
Qed.

(** X25.  While the behaviour is enabled and at rest, a move of a pointer only
    records the ray of the pointer, and [startDrag] for that pointer, after
    [_startDrag], moves the drag along the ray recorded last. *)
Theorem startDrag_replays_last_ray (this : PointerDragBehavior) (pointerInfo : PointerInfo)
    (pick : PickingInfo.t) (ray : Ray) (fromRay : option Ray)
    (startPickedPoint : option Vector3) :
  type pointerInfo = POINTERMOVE ->
  pickInfo pointerInfo = Some pick ->
  PickingInfo.ray pick = Some ray ->
  _enabled this = true ->
  dragging this = false ->
  currentDraggingPointerId (members this) = (-1)%Z ->
  let id := IPointerEvent.pointerId (event pointerInfo) in
  id <> _AnyMouseId ->
  exists this1,
    onPointer this pointerInfo = Normal this1
    /\ members this1 = members this
    /\ dragging this1 = false
    /\ effects this1 = effects this
    /\ rayOf (_lastPointerRay this1) id = Some (mkRay (origin ray) (direction ray))
    /\ (forall other,
          other <> id ->
          rayOf (_lastPointerRay this1) other = rayOf (_lastPointerRay this) other)
    /\ simulateDrag this1 (Some id) fromRay startPickedPoint
       = (let! this2 := beginDrag this1 id fromRay startPickedPoint in
          let! behavior :=
            moveDrag (members this2) (mkRay (origin ray) (direction ray)) in
          Normal (set_members behavior this2)).
Proof.
  intros Htype Hpick Hray Hen Hd Hcur id Hid.
  set (recorded := mkRay (origin ray) (direction ray)).
  assert (Hrays : forall this1,
             _lastPointerRay this1
             = assignRay (match rayOf (_lastPointerRay this) id with
                          | Some _ => _lastPointerRay this
                          | None => assignRay (_lastPointerRay this) id (mkRay Zero Zero)
                          end) id recorded ->
             rayOf (_lastPointerRay this1) id = Some recorded
             /\ (forall other,
                   other <> id ->
                   rayOf (_lastPointerRay this1) other = rayOf (_lastPointerRay this) other)
             /\ simulateDrag this1 (Some id) fromRay startPickedPoint
                = (let! this2 := beginDrag this1 id fromRay startPickedPoint in
                   let! behavior := moveDrag (members this2) recorded in
                   Normal (set_members behavior this2))).
  { intros this1 E.
    assert (Hsame : rayOf (_lastPointerRay this1) id = Some recorded)
      by (rewrite E; apply rayOf_assignRay_eq).
    split; [exact Hsame|]. split.
    - intros other Hother. rewrite E, rayOf_assignRay_ne by exact Hother.
      destruct (rayOf (_lastPointerRay this) id); [reflexivity|].
      apply rayOf_assignRay_ne. exact Hother.
    - unfold startDrag.
      destruct (beginDrag this1 id fromRay startPickedPoint) as [this2|msg] eqn:Hbegin;
        [|reflexivity].
      cbn [bindC]. rewrite (beginDrag_rays _ _ _ _ _ Hbegin), Hsame.
      destruct (Z.eqb_spec id _AnyMouseId); [contradiction | reflexivity]. }
  unfold pointerObserver. rewrite Hen, Hd, Htype, Hcur, Hpick, Hray.
  cbn [negb andb bindC]. change ((-1 =? _AnyMouseId)%Z) with false. cbn [andb bindC].
  fold id. fold recorded.
  destruct (rayOf (_lastPointerRay this) id) eqn:Hold; simpl_drag;
    rewrite Hd, Bool.andb_false_r;
    (eexists; split; [reflexivity|]); (split; [reflexivity|]); (split; [exact Hd|]);
    (split; [reflexivity|]); apply Hrays; reflexivity.
Qed.

(** X26.  [startDrag] without a pointer id: when no pointer has moved yet it
    is [_startDrag] for any mouse; otherwise it goes on with a move along the
    ray recorded for the first key of [_lastPointerRay], the least pointer id
    that is an array index if there is one. *)
Theorem startDrag_without_pointer_id (this : PointerDragBehavior) (fromRay : option Ray)
    (startPickedPoint : option Vector3) :
  (_lastPointerRay this = [] ->
   simulateDrag this None fromRay startPickedPoint
   = beginDrag this _AnyMouseId fromRay startPickedPoint)
  /\ (_lastPointerRay this <> [] ->
      exists key ray,
        firstKey (_lastPointerRay this) = Some key
        /\ rayOf (_lastPointerRay this) key = Some ray
        /\ (forall other,
              In other (map fst (_lastPointerRay this)) -> isArrayIndex other = true ->
              isArrayIndex key = true /\ (key <= other)%Z)
        /\ simulateDrag this None fromRay startPickedPoint
           = (let! this2 := beginDrag this _AnyMouseId fromRay startPickedPoint in
              let! behavior := moveDrag (members this2) ray in
              Normal (set_members behavior this2))).
Proof.
  split.
  - intros Hempty. unfold startDrag.
    destruct (beginDrag this _AnyMouseId fromRay startPickedPoint) as [this2|msg] eqn:Hbegin;
      [|reflexivity].
    cbn [bindC]. rewrite (beginDrag_rays _ _ _ _ _ Hbegin), Hempty. reflexivity.
  - intros Hsome. pose proof (firstKey_spec (_lastPointerRay this)) as Hfirst.
    destruct (firstKey (_lastPointerRay this)) as [key|] eqn:Hkey; [|contradiction].
    destruct Hfirst as [Hin Hleast]. destruct (rayOf_In _ _ Hin) as [ray Hray].
    exists key, ray. split; [reflexivity|]. split; [exact Hray|]. split; [exact Hleast|].
    unfold startDrag.
    destruct (beginDrag this _AnyMouseId fromRay startPickedPoint) as [this2|msg] eqn:Hbegin;
      [|reflexivity].
    cbn [bindC]. rewrite (beginDrag_rays _ _ _ _ _ Hbegin), Hkey, Hray. reflexivity.
Qed.

(** *** Several moves *)

(** One move, in either mode: the target moves by the travel of the drag
    position, or by its projection on the world drag axis. *)
Lemma moveDrag_step (this : Behavior) (ray : Ray) (node : Node) (plane : DragPlane)
    (last : Vector3) :
  attachedNode this = Some node ->
  _dragPlane this = Some plane ->
  lastDragPosition this = Some last ->
  exists this' last' plane',
    moveDrag this ray = Normal this'
    /\ attachedNode this' = Some node
    /\ _dragPlane this' = Some plane'
    /\ lastDragPosition this' = Some last'
    /\ _options this' = _options this
    /\ useObjectOrientationForDragging this' = useObjectOrientationForDragging this
    /\ _targetPosition this'
       = add (_targetPosition this)
           match dragAxis (_options this) with
           | None => subtract last' last
           | Some axis =>
             let a := normalize (if useObjectOrientationForDragging this
                                 then rotate node axis else axis) in
             scale a (Dot (subtract last' last) a)
           end.
Proof.
  intros Hnode Hplane Hlast.
  destruct (pick_total (set__moving true this) (Some ray) plane node Hplane Hnode)
    as (r & this1 & Hpick).
  destruct (pick_frame _ _ _ _ Hpick) as (Hsame1 & Hp1 & _).
  destruct r as [p|].
  - destruct (moveDrag_plane_update this this1 ray p node Hpick Hnode)
      as (this2 & plane2 & Hupd & Hsame & Hplane2).
    destruct Hsame1 as (_ & Hn1 & _).
    destruct Hsame as (Ho & Hn & Hl & Ht & Hd & Hobs & Hu & _ & Hid).
    unfold _moveDrag. rewrite Hpick. cbn [bindC].
    change (attachedNode (set__moving true this)) with (attachedNode this) in Hn1.
    rewrite <- Hn1, Hnode. cbn [bindC defined]. rewrite Hupd. cbn [bindC].
    rewrite <- Ho, <- Hu.
    destruct (dragAxis (_options this)) as [axis|];
      [destruct (useObjectOrientationForDragging this); rewrite <- ?Hn, ?Hnode|];
      cbn [bindC defined]; simpl_fields; rewrite <- Hl, Hlast; cbn [bindC defined];
      simpl_fields; rewrite Hplane2; cbn [bindC defined];
      (eexists; exists p, plane2; split; [reflexivity|]; simpl_fields;
       rewrite <- Hn, <- Ho, <- Hu, <- Ht; repeat split; assumption).
  - exists this1, last, plane. destruct Hsame1 as (Ho & Hn1 & Hl1 & Ht1 & _ & _ & Hu & _).
    split; [unfold _moveDrag; rewrite Hpick; reflexivity|].
    split; [rewrite <- Hn1; exact Hnode|].
    split; [rewrite Hp1; exact Hplane|].
    split; [rewrite <- Hl1; exact Hlast|].
    split; [symmetry; exact Ho|]. split; [symmetry; exact Hu|].
    rewrite <- Ht1. simpl_fields.
    destruct (dragAxis (_options this)); cbv zeta;
      apply vector_eq; unfold add, subtract, scale, Dot; cbn; ring.
Qed.

(** X27.  Moves add up.  After any number of moves of one drag on an attached
    behaviour, [_targetPosition] has moved by the travel of
    [lastDragPosition], from its value before the first move to the last hit,
    when there is no drag axis, whatever the way in between and whether or not
    the plane was updated, and by the projection of that travel on the
    normalized world drag axis when there is one. *)
Theorem moves_add_up (this : Behavior) (rays : list Ray) (node : Node)
    (plane : DragPlane) (last : Vector3) :
  attachedNode this = Some node ->
  _dragPlane this = Some plane ->
  lastDragPosition this = Some last ->
  exists this' last',
    moveDrags Epsilon normalize lookAtForward this rays = Normal this'
    /\ lastDragPosition this' = Some last'
    /\ attachedNode this' = Some node
    /\ _targetPosition this'
       = add (_targetPosition this)
           match dragAxis (_options this) with
           | None => subtract last' last
           | Some axis =>
             let a := normalize (if useObjectOrientationForDragging this
                                 then rotate node axis else axis) in
             scale a (Dot (subtract last' last) a)
           end.
Proof.
  revert this plane last.
  induction rays as [|ray rays IH]; intros this plane last Hnode Hplane Hlast.
  - exists this, last. split; [reflexivity|]. split; [exact Hlast|]. split; [exact Hnode|].
    destruct (dragAxis (_options this)); cbv zeta;
      apply vector_eq; unfold add, subtract, scale, Dot; cbn; ring.
  - destruct (moveDrag_step this ray node plane last Hnode Hplane Hlast)
      as (this1 & last1 & plane1 & Hmove & Hn1 & Hp1 & Hl1 & Ho1 & Hu1 & Ht1).
    destruct (IH this1 plane1 last1 Hn1 Hp1 Hl1) as (this' & last' & Hrun & Hl' & Hn' & Ht').
    exists this', last'. split; [cbn [moveDrags]; rewrite Hmove; exact Hrun|].
    split; [exact Hl'|]. split; [exact Hn'|].
    rewrite Ht', Ht1, Ho1, Hu1.
    destruct (dragAxis (_options this)); cbv zeta;
      apply vector_eq; unfold add, subtract, scale, Dot; cbn; ring.
Qed.

End Properties.

(** ** The theorems at a concrete drag *)

Section Examples.

Lemma example_dot : Dot (direction exampleRay) (forward examplePlane) = 1.
Proof. unfold Dot. cbn. lra. Qed.

Lemma example_hitParameter : hitParameter examplePlane exampleRay = 5.
Proof. unfold hitParameter. rewrite example_dot. unfold Dot. cbn. lra. Qed.

Lemma example_not_parallel :
  Rabs (Dot (direction exampleRay) (forward examplePlane)) >= exampleEpsilon.
Proof. rewrite example_dot, Rabs_R1. unfold exampleEpsilon. lra. Qed.

Lemma example_folded_angle : foldedAngle examplePlane sidewaysRay = PI / 2.
Proof.
  unfold foldedAngle.
  replace (Dot (forward examplePlane) (direction sidewaysRay)) with 0
    by (unfold Dot; cbn; lra).
  rewrite acos_0. destruct (Rgt_dec (PI / 2) (PI / 2)); [lra | reflexivity].
Qed.

Lemma example_unit_normal : length (forward examplePlane) = 1.
Proof.
  unfold length. cbn. replace (0 * 0 + 0 * 0 + 1 * 1) with 1 by lra. apply sqrt_1.
Qed.

Lemma example_unit_sideways : length (direction sidewaysRay) = 1.
Proof.
  unfold length. cbn. replace (1 * 1 + 0 * 0 + 0 * 0) with 1 by lra. apply sqrt_1.
Qed.

Lemma example_pick (options : Options) :
  _pickWithRayOnDragPlane exampleEpsilon exampleNormalize
    (set__moving true (exampleBehavior options 0)) (Some exampleRay)
  = Normal (Some (add (origin exampleRay)
                    (scale (direction exampleRay) (hitParameter examplePlane exampleRay))),
            set__moving true (exampleBehavior options 0)).
Proof.
  rewrite (pick_without_angle exampleEpsilon exampleNormalize
             (set__moving true (exampleBehavior options 0)) examplePlane exampleRay
             eq_refl eq_refl).
  assert (H1 : ltb (Rabs (Dot (direction exampleRay) (forward examplePlane))) exampleEpsilon
               = false).
  { apply ltb_false. pose proof example_not_parallel. lra. }
  assert (H2 : ltb (hitParameter examplePlane exampleRay) 0 = false).
  { apply ltb_false. rewrite example_hitParameter. lra. }
  rewrite H1, H2. reflexivity.
Qed.

Lemma pick_returns_intersection_witness :
  let t := hitParameter examplePlane exampleRay in
  let result := add (origin exampleRay) (scale (direction exampleRay) t) in
  _pickWithRayOnDragPlane exampleEpsilon exampleNormalize
    (exampleBehavior emptyOptions 0) (Some exampleRay)
  = Normal (Some result, exampleBehavior emptyOptions 0)
  /\ Dot (subtract result (position examplePlane)) (forward examplePlane) = 0.
Proof.
  apply (pick_returns_intersection exampleEpsilon exampleNormalize
           (exampleBehavior emptyOptions 0) examplePlane exampleRay).
  - unfold exampleEpsilon. lra.
  - reflexivity.
  - reflexivity.
  - exact example_not_parallel.
  - rewrite example_hitParameter. lra.
Defined.



Lemma constructor_throws_iff_both_witness :
  exists this,
    constructor (Some (mkOptions (Some (mkVector3 1 0 0)) None)) = Normal this
    /\ _options this = mkOptions (Some (mkVector3 1 0 0)) None.
Proof.
  apply (constructor_throws_iff_both (Some (mkOptions (Some (mkVector3 1 0 0)) None))).
  intros o Ho. injection Ho as <-. right. reflexivity.
Defined.

Lemma moveDrag_projects_on_axis_witness :
  let options := mkOptions (Some (mkVector3 1 0 0)) None in
  let this := exampleBehavior options 0 in
  let pickedPoint :=
    add (origin exampleRay)
      (scale (direction exampleRay) (hitParameter examplePlane exampleRay)) in
  let worldDragAxis := exampleNormalize (mkVector3 1 0 0) in
  let dragLength := Dot (subtract pickedPoint (mkVector3 0 0 5)) worldDragAxis in
  let dragDelta := scale worldDragAxis dragLength in
  exists this' plane,
    _moveDrag exampleEpsilon exampleNormalize exampleLookAtForward this exampleRay
      = Normal this'
    /\ _dragDelta this' = dragDelta
    /\ (exists k, _dragDelta this' = scale worldDragAxis k)
    /\ _dragPlane this' = Some plane
    /\ onDragObservable this' =
         [ {| dragDistance := dragLength; delta := dragDelta;
              dragPlanePoint := pickedPoint; planeNormal := forward plane;
              pointerId := 7%Z |} ]
    /\ _targetPosition this' = add (mkVector3 0 0 5) dragDelta
    /\ lastDragPosition this' = Some pickedPoint.
Proof.
  intros options this pickedPoint.
  exact (moveDrag_projects_on_axis exampleEpsilon exampleNormalize exampleLookAtForward
           this (set__moving true this) exampleRay (mkVector3 1 0 0) pickedPoint
           (mkVector3 0 0 5) exampleNode eq_refl (example_pick options) eq_refl eq_refl).
Defined.


Lemma moveDrag_free_keeps_offset_witness :
  exists this' last',
    _moveDrag exampleEpsilon exampleNormalize exampleLookAtForward
      (exampleBehavior emptyOptions 0) exampleRay = Normal this'
    /\ lastDragPosition this' = Some last'
    /\ subtract (_targetPosition this') last'
       = subtract (mkVector3 0 0 5) (mkVector3 0 0 5).
Proof.
  destruct (moveDrag_free_keeps_offset exampleEpsilon exampleNormalize exampleLookAtForward
              (exampleBehavior emptyOptions 0) exampleRay exampleNode examplePlane
              (mkVector3 0 0 5) eq_refl eq_refl eq_refl eq_refl)
    as (this' & last' & H1 & _ & H3 & H4 & _).
  exists this', last'. split; [exact H1 | split; [exact H3 | exact H4]].
Defined.

Lemma alternate_point_on_plane_through_mesh_witness :
  exists p this',
    _pickWithRayOnDragPlane exampleEpsilon exampleNormalize (alternateBehavior 1)
      (Some sidewaysRay) = Normal (Some p, this')
    /\ Dot (subtract p (absolutePosition exampleNode)) (forward examplePlane) = 0
    /\ foldedAngle_as_specified examplePlane sidewaysRay = PI / 2.
Proof.
  destruct (alternate_point_on_plane_through_mesh exampleEpsilon exampleNormalize
              (alternateBehavior 1) examplePlane exampleNode sidewaysRay eq_refl eq_refl)
    as (this' & H1 & _ & _ & _ & H5 & H6).
  - cbn. lra.
  - rewrite example_folded_angle. cbn. pose proof PI2_1. lra.
  - reflexivity.
  - eexists. exists this'. split; [exact H1|]. split.
    + apply H5. unfold Dot. cbn. lra.
    + rewrite <- (H6 example_unit_normal example_unit_sideways).
      exact example_folded_angle.
Defined.

Lemma updateDragPlanePosition_follows_mesh_witness :
  exists this' target,
    _updateDragPlanePosition exampleNormalize exampleLookAtForward
      (exampleBehavior emptyOptions 0) exampleRay (mkVector3 1 2 5) = Normal this'
    /\ _dragPlane this'
       = Some (mkDragPlane (mkVector3 0 0 5)
                 (exampleLookAtForward (mkVector3 1 2 5) (add (mkVector3 1 2 5) target))).
Proof.
  destruct (updateDragPlanePosition_follows_mesh exampleNormalize exampleLookAtForward
              (exampleBehavior emptyOptions 0) exampleRay (mkVector3 1 2 5) exampleNode
              examplePlane eq_refl eq_refl)
    as (this' & target & H1 & H2 & _).
  exists this', target. split; [exact H1 | exact H2].
Defined.

Lemma attachedBehavior_unused : unused (newPointerDragBehavior (initialBehavior emptyOptions)).
Proof. repeat split. Qed.

Lemma releaseDrag_settles_witness :
  exists this' reattached,
    releaseDrag attachedBehavior = Normal this'
    /\ dragging this' = false
    /\ effects this' = [] ++ [] ++ reattached
    /\ releaseDrag this' = Normal this'.
Proof.
  destruct (releaseDrag_settles attachedBehavior exampleScene eq_refl)
    as (this' & reattached & H1 & H2 & _ & _ & _ & _ & H7 & _ & H9).
  exists this', reattached. split; [exact H1 | split; [exact H2 | split; [exact H7 | exact H9]]].
Defined.

Lemma drags_start_and_end_in_turn_witness :
  exists this,
    run exampleEpsilon exampleNormalize exampleLookAtForward attachedBehavior exampleGesture
      = Normal this
    /\ alternating true (dragNotifications (effects this))
    /\ dragging this = List.last (dragNotifications (effects this)) false.
Proof.
  destruct (drags_start_and_end_in_turn exampleEpsilon exampleNormalize exampleLookAtForward
              (newPointerDragBehavior (initialBehavior emptyOptions)) exampleNode exampleScene
              (mkDragPlane Zero (mkVector3 0 0 1)) None (fun m => (m =? 1)%Z) exampleGesture
              attachedBehavior_unused)
    as (this & H1 & H2 & H3 & _).
  exists this. split; [exact H1 | split; [exact H2 | exact H3]].
Defined.

Lemma camera_controls_attached_after_detached_witness :
  exists this,
    run exampleEpsilon exampleNormalize exampleLookAtForward attachedBehavior exampleGesture
      = Normal this
    /\ (attachments (effects this) <= detachments (effects this))%nat.
Proof.
  destruct (camera_controls_attached_after_detached exampleEpsilon exampleNormalize
              exampleLookAtForward (newPointerDragBehavior (initialBehavior emptyOptions))
              exampleNode exampleScene (mkDragPlane Zero (mkVector3 0 0 1)) None
              (fun m => (m =? 1)%Z) exampleGesture attachedBehavior_unused)
    as (this & H1 & _ & H3 & _).
  exists this. split; [exact H1 | exact H3].
Defined.

Lemma enabled_notified_on_change_witness :
  exists this,
    run exampleEpsilon exampleNormalize exampleLookAtForward attachedBehavior
      [SetEnabled false; SetEnabled false; SetEnabled true] = Normal this
    /\ alternating false (enabledNotifications (effects this))
    /\ _enabled this = List.last (enabledNotifications (effects this)) true.
Proof.
  exact (enabled_notified_on_change exampleEpsilon exampleNormalize exampleLookAtForward
           (newPointerDragBehavior (initialBehavior emptyOptions)) exampleNode exampleScene
           (mkDragPlane Zero (mkVector3 0 0 1)) None (fun m => (m =? 1)%Z)
           [SetEnabled false; SetEnabled false; SetEnabled true] attachedBehavior_unused).
Defined.

Lemma drag_starts_on_plane_through_mesh_witness :
  exists this' plane',
    _startDrag exampleEpsilon exampleNormalize exampleLookAtForward attachedBehavior 3
      (Some exampleRay) None = Normal this'
    /\ _startDragRay this' = exampleRay
    /\ _dragPlane (members this') = Some plane'
    /\ position plane' = mkVector3 0 0 5.
Proof.
  destruct (drag_starts_on_plane_through_mesh exampleEpsilon exampleNormalize
              exampleLookAtForward attachedBehavior 3 (Some exampleRay) None exampleScene
              exampleCamera exampleNode (mkDragPlane Zero (mkVector3 0 0 1)) Zero)
    as (this' & plane' & H1 & H2 & H3 & H4 & _); try reflexivity.
  - unfold exampleEpsilon. lra.
  - exists this', plane'. split; [exact H1 | split; [exact H2 | split; [exact H3 | exact H4]]].
Defined.

Lemma frames_approach_target_witness :
  exists this' node',
    run exampleEpsilon exampleNormalize exampleLookAtForward
      (update (set__targetPosition (mkVector3 10 0 5))
         (update (set__moving true) attachedBehavior))
      (replicate 2 BeforeRender) = Normal this'
    /\ attachedNode (members this') = Some node'
    /\ subtract (mkVector3 10 0 5) (absolutePosition node')
       = scale (subtract (mkVector3 10 0 5) (mkVector3 0 0 5)) ((1 - 2 / 10) ^ 2).
Proof.
  destruct (frames_approach_target exampleEpsilon exampleNormalize exampleLookAtForward
              (update (set__targetPosition (mkVector3 10 0 5))
                 (update (set__moving true) attachedBehavior))
              exampleNode 2 eq_refl eq_refl eq_refl eq_refl (fun _ => eq_refl))
    as (this' & node' & H1 & H2 & H3 & _ & H5 & _).
  exists this', node'. split; [exact H1 | split; [exact H2|]].
  rewrite H5 in H3. exact H3.
Defined.

Lemma startDrag_replays_last_ray_witness :
  exists this1,
    pointerObserver exampleEpsilon exampleNormalize exampleLookAtForward attachedBehavior
      (pointerAt POINTERMOVE 1 2) = Normal this1
    /\ rayOf (_lastPointerRay this1) 3 = Some (mkRay (mkVector3 1 2 0) (mkVector3 0 0 1)).
Proof.
  destruct (startDrag_replays_last_ray exampleEpsilon exampleNormalize exampleLookAtForward
              attachedBehavior (pointerAt POINTERMOVE 1 2)
              (PickingInfo.mk true (Some 1%Z) (Some (mkVector3 1 2 5))
                 (Some (mkRay (mkVector3 1 2 0) (mkVector3 0 0 1))))
              (mkRay (mkVector3 1 2 0) (mkVector3 0 0 1)) None None
              eq_refl eq_refl eq_refl eq_refl eq_refl eq_refl)
    as (this1 & H1 & _ & _ & _ & H5 & _).
  - discriminate.
  - exists this1. split; [exact H1 | exact H5].
Defined.

Lemma moves_add_up_witness :
  exists this' last',
    moveDrags exampleEpsilon exampleNormalize exampleLookAtForward
      (exampleBehavior emptyOptions 0) [exampleRay; sidewaysRay] = Normal this'
    /\ lastDragPosition this' = Some last'
    /\ _targetPosition this' = add (mkVector3 0 0 5) (subtract last' (mkVector3 0 0 5)).
Proof.
  destruct (moves_add_up exampleEpsilon exampleNormalize exampleLookAtForward
              (exampleBehavior emptyOptions 0) [exampleRay; sidewaysRay] exampleNode
              examplePlane (mkVector3 0 0 5) eq_refl eq_refl eq_refl)
    as (this' & last' & H1 & H2 & _ & H4).
  exists this', last'. split; [exact H1 | split; [exact H2 | exact H4]].
Defined.
End Examples.

End PointerDragFacts.

(* ===================================================================== *)
(** * Properties of thin instances *)
(* ===================================================================== *)

Module ThinInstanceFacts.
Import ThinInstance.
Local Open Scope Z_scope.

Section Properties.

Context {F : Type} {float32 : Float32 F} {kinds : VertexBufferKinds}.

Local Abbreviation Matrix := (@ThinInstance.Matrix F).
Local Abbreviation Mesh := (@ThinInstance.Mesh F).

(** ** Properties of typed arrays *)

Lemma getAt_length (array : list F) (k : Z) :
  is_Some (getAt array k) <-> 0 <= k < Z.of_nat (length array).
Proof.
  unfold getAt. destruct (Z.leb_spec 0 k).
  - rewrite lookup_lt_is_Some. lia.
  - split; [intros [v Hv]; discriminate | lia].
Qed.

Lemma length_writeAt (array : list F) (k : Z) (v : F) :
  length (writeAt array k v) = length array.
Proof. unfold writeAt. destruct (0 <=? k); [apply length_insert | reflexivity]. Qed.

Lemma getAt_writeAt_eq (array : list F) (k : Z) (v : F) :
  0 <= k < Z.of_nat (length array) -> getAt (writeAt array k v) k = Some v.
Proof.
  intros Hk. unfold getAt, writeAt. destruct (Z.leb_spec 0 k); [|lia].
  apply list_lookup_insert_eq. lia.
Qed.

Lemma getAt_writeAt_ne (array : list F) (k k' : Z) (v : F) :
  k <> k' -> getAt (writeAt array k v) k' = getAt array k'.
Proof.
  intros Hne. unfold getAt, writeAt.
  destruct (Z.leb_spec 0 k'); [|reflexivity].
  destruct (Z.leb_spec 0 k); [|reflexivity].
  apply list_lookup_insert_ne. lia.
Qed.

(** A write before the start or past the end is dropped. *)
Lemma writeAt_outside (array : list F) (k : Z) (v : F) :
  k < 0 \/ Z.of_nat (length array) <= k -> writeAt array k v = array.
Proof.
  intros Hk. unfold writeAt. destruct (Z.leb_spec 0 k); [|reflexivity].
  apply list_insert_ge. lia.
Qed.

Lemma copyFirst_S (n : nat) (matrix : Matrix) (array : list F) (offset : Z) :
  copyFirst (S n) matrix array offset =
  writeAt (copyFirst n matrix array offset) (offset + Z.of_nat n) (nth n (_m matrix) zero).
Proof. unfold copyFirst. rewrite seq_S, foldl_app. reflexivity. Qed.

Lemma length_copyFirst (n : nat) (matrix : Matrix) (array : list F) (offset : Z) :
  length (copyFirst n matrix array offset) = length array.
Proof.
  induction n as [|n IH]; [reflexivity|].
  rewrite copyFirst_S, length_writeAt. exact IH.
Qed.

Lemma getAt_copyFirst_outside (n : nat) (matrix : Matrix) (array : list F) (offset k : Z) :
  k < offset \/ offset + Z.of_nat n <= k ->
  getAt (copyFirst n matrix array offset) k = getAt array k.
Proof.
  induction n as [|n IH]; intros Hk; [reflexivity|].
  rewrite copyFirst_S, getAt_writeAt_ne by lia. apply IH. lia.
Qed.

Lemma getAt_copyFirst_inside (n : nat) (matrix : Matrix) (array : list F) (offset : Z)
    (j : nat) :
  (j < n)%nat ->
  0 <= offset + Z.of_nat j < Z.of_nat (length array) ->
  getAt (copyFirst n matrix array offset) (offset + Z.of_nat j)
  = Some (nth j (_m matrix) zero).
Proof.
  induction n as [|n IH]; intros Hj Hin; [lia|].
  rewrite copyFirst_S. destruct (decide (j = n)) as [->|Hne].
  - apply getAt_writeAt_eq. rewrite length_copyFirst. exact Hin.
  - rewrite getAt_writeAt_ne by lia. apply IH; [lia | exact Hin].
Qed.

Lemma copyFirst_outside (n : nat) (matrix : Matrix) (array : list F) (offset : Z) :
  offset + Z.of_nat n <= 0 \/ Z.of_nat (length array) <= offset ->
  copyFirst n matrix array offset = array.
Proof.
  induction n as [|n IH]; intros Hk; [reflexivity|].
  rewrite copyFirst_S, IH by lia. apply writeAt_outside. lia.
Qed.

Lemma length_copyToArray (matrix : Matrix) (array : list F) (offset : Z) :
  length (copyToArray matrix array offset) = length array.
Proof. apply (length_copyFirst 16). Qed.

Lemma getAt_copyToArray_outside (matrix : Matrix) (array : list F) (offset k : Z) :
  k < offset \/ offset + 16 <= k ->
  getAt (copyToArray matrix array offset) k = getAt array k.
Proof. intros Hk. apply (getAt_copyFirst_outside 16). lia. Qed.

Lemma getAt_copyToArray_inside (matrix : Matrix) (array : list F) (offset j : Z) :
  0 <= j < 16 ->
  0 <= offset + j < Z.of_nat (length array) ->
  getAt (copyToArray matrix array offset) (offset + j)
  = Some (nth (Z.to_nat j) (_m matrix) zero).
Proof.
  intros Hj Hin. replace j with (Z.of_nat (Z.to_nat j)) at 1 by lia.
  apply (getAt_copyFirst_inside 16); lia.
Qed.

Lemma copyToArray_outside (matrix : Matrix) (array : list F) (offset : Z) :
  offset + 16 <= 0 \/ Z.of_nat (length array) <= offset ->
  copyToArray matrix array offset = array.
Proof. intros Hk. apply (copyFirst_outside 16). lia. Qed.

(** ** [thinInstanceSetMatrixAt] *)

Lemma copyToArray_writes (matrix : Matrix) (array : list F) (offset : Z) :
  0 <= offset ->
  offset + 16 <= Z.of_nat (length array) ->
  writesMatrixAt array (copyToArray matrix array offset) offset matrix.
Proof.
  intros Hlo Hhi. split; [apply length_copyToArray | split].
  - intros j Hj. apply getAt_copyToArray_inside; lia.
  - intros k Hk. apply getAt_copyToArray_outside; exact Hk.
Qed.

Lemma setMatrixAt_fails (this : Mesh) (index : Z) (matrix : Matrix) (refresh : bool) :
  matrixData (_thinInstanceDataStorage this) = None
  \/ instancesCount (_thinInstanceDataStorage this) <= index ->
  thinInstanceSetMatrixAt this index matrix refresh = (false, this).
Proof.
  intros H. unfold thinInstanceSetMatrixAt.
  destruct (matrixData (_thinInstanceDataStorage this)) as [d|]; [|reflexivity].
  destruct H as [H|H]; [discriminate|].
  destruct (Z.leb_spec (instancesCount (_thinInstanceDataStorage this)) index);
    [reflexivity | lia].
Qed.

Lemma setMatrixAt_succeeds (this : Mesh) (index : Z) (matrix : Matrix) (refresh : bool)
    (before : list F) :
  matrixData (_thinInstanceDataStorage this) = Some before ->
  index < instancesCount (_thinInstanceDataStorage this) ->
  let result := thinInstanceSetMatrixAt this index matrix refresh in
  let storage' := _thinInstanceDataStorage (snd result) in
  fst result = true
  /\ matrixData storage' = Some (copyToArray matrix before (index * 16))
  /\ worldMatrices storage'
     = (fun cache => <[index := matrix]> cache)
         <$> worldMatrices (_thinInstanceDataStorage this)
  /\ instancesCount storage' = instancesCount (_thinInstanceDataStorage this)
  /\ matrixBufferSize storage' = matrixBufferSize (_thinInstanceDataStorage this)
  /\ instancedArrays (snd result) = instancedArrays this.
Proof.
  intros Hd Hlt. unfold thinInstanceSetMatrixAt. rewrite Hd.
  destruct (Z.leb_spec (instancesCount (_thinInstanceDataStorage this)) index); [lia|].
  cbn [_thinInstanceDataStorage update set__thinInstanceDataStorage set_matrixData
       worldMatrices].
  destruct (worldMatrices (_thinInstanceDataStorage this)) as [cache|] eqn:Ew;
    destruct refresh; cbn; destruct (doNotSyncBoundingInfo this); cbn; rewrite ?Ew;
    repeat split.
Qed.

(** C10, as amended.  [thinInstanceSetMatrixAt] always returns.  If there is
    no matrix data or [index >= instancesCount] it returns false and leaves
    the mesh unchanged.  Otherwise it returns true and updates the cached
    world matrix at [index] when the cache exists; when moreover
    [0 <= index] and [(index + 1) * 16 <= matrixData.length] it writes the 16
    floats of the matrix at offset [index * 16] and leaves every other
    element unchanged. *)
Theorem thinInstanceSetMatrixAt_in_range (this : Mesh) (index : Z) (matrix : Matrix)
    (refresh : bool) :
  let storage := _thinInstanceDataStorage this in
  let result := thinInstanceSetMatrixAt this index matrix refresh in
  let storage' := _thinInstanceDataStorage (snd result) in
  (matrixData storage = None \/ instancesCount storage <= index -> result = (false, this))
  /\ (forall before,
        matrixData storage = Some before ->
        index < instancesCount storage ->
        fst result = true
        /\ instancesCount storage' = instancesCount storage
        /\ worldMatrices storage'
           = (fun cache => <[index := matrix]> cache) <$> worldMatrices storage
        /\ (0 <= index ->
            (index + 1) * 16 <= Z.of_nat (length before) ->
            exists after, matrixData storage' = Some after
              /\ writesMatrixAt before after (index * 16) matrix)).
Proof.
  cbv zeta. split.
  - apply setMatrixAt_fails.
  - intros before Hd Hlt.
    destruct (setMatrixAt_succeeds this index matrix refresh before Hd Hlt)
      as (Hr & Hdata & Hcache & Hcount & _).
    split; [exact Hr | split; [exact Hcount | split; [exact Hcache|]]].
    intros Hlo Hhi. exists (copyToArray matrix before (index * 16)).
    split; [exact Hdata | apply copyToArray_writes; lia].
Qed.

(** ** The [thinInstanceCount] accessor *)

Lemma capacity_test (value : Z) (n : nat) :
  Qle_bool (inject_Z value) (inject_Z (Z.of_nat n) / 16) = true
  <-> value * 16 <= Z.of_nat n.
Proof.
  rewrite Qle_bool_iff. unfold Qle, Qdiv, Qmult, Qinv, inject_Z. cbn. lia.
Qed.

Lemma capacity_test_none (value : Z) :
  Qle_bool (inject_Z value) 0 = true <-> value * 16 <= 0.
Proof. rewrite Qle_bool_iff. unfold Qle, inject_Z. cbn. lia. Qed.

Lemma set_thinInstanceCount_cases (this : Mesh) (value : Z) :
  set_thinInstanceCount this value =
  if value * 16 <=? capacityLength this
  then update (set_instancesCount value) this
  else this.
Proof.
  unfold set_thinInstanceCount, capacityLength, capacityData.
  set (d := match matrixData (_thinInstanceDataStorage this) with
            | Some d => Some d
            | None => match source this with
                      | Some source => matrixData source
                      | None => None
                      end
            end).
  destruct d as [d|].
  - destruct (Z.leb_spec (value * 16) (Z.of_nat (length d))) as [H|H].
    + apply capacity_test in H. rewrite H. reflexivity.
    + destruct (Qle_bool _ _) eqn:E; [apply capacity_test in E; lia | reflexivity].
  - destruct (Z.leb_spec (value * 16) 0) as [H|H].
    + apply capacity_test_none in H. rewrite H. reflexivity.
    + destruct (Qle_bool _ _) eqn:E; [apply capacity_test_none in E; lia | reflexivity].
Qed.

(** C9.  The [thinInstanceCount] setter stores [value] exactly when
    [value <= matrixData.length / 16], the capacity being measured on the
    mesh's own matrix data or else on its source's; otherwise, and in
    particular for a positive value when there is no matrix data, the mesh is
    left as it was.  The capacity itself never changes, so
    [instancesCount * 16 <= matrixData.length] is preserved. *)
Theorem thinInstanceCount_within_capacity (this : Mesh) (value : Z) :
  let this' := set_thinInstanceCount this value in
  (value * 16 <= capacityLength this ->
   this' = update (set_instancesCount value) this /\ get_thinInstanceCount this' = value)
  /\ (capacityLength this < value * 16 -> this' = this)
  /\ (capacityData this = None -> 0 < value -> this' = this)
  /\ capacityData this' = capacityData this
  /\ (get_thinInstanceCount this * 16 <= capacityLength this ->
      get_thinInstanceCount this' * 16 <= capacityLength this').
Proof.
  cbv zeta. rewrite set_thinInstanceCount_cases.
  destruct (Z.leb_spec (value * 16) (capacityLength this)) as [H|H].
  - split; [intros _; split; reflexivity|].
    split; [lia|]. split; [|split; [reflexivity | intros _; exact H]].
    intros Hnone Hpos. unfold capacityLength in H. rewrite Hnone in H. lia.
  - split; [lia|]. split; [reflexivity|]. split; [reflexivity|].
    split; [reflexivity | intros Hinv; exact Hinv].
Qed.

(** ** [_thinInstanceUpdateBufferSize] *)

(** The loop, when it ends, has doubled the size the least number of times
    that reaches the wanted size. *)
Lemma growSize_doubles (fuel : nat) (newSize bufferSize r : Z) :
  growSize fuel newSize bufferSize = Some r ->
  exists n : nat,
    r = newSize * 2 ^ Z.of_nat n
    /\ bufferSize <= r
    /\ forall m : nat, (m < n)%nat -> newSize * 2 ^ Z.of_nat m < bufferSize.
Proof.
  revert newSize. induction fuel as [|fuel IH]; intros newSize H; cbn in H.
  - destruct (Z.ltb_spec newSize bufferSize); [discriminate|].
    injection H as <-. exists 0%nat. repeat split; [lia | lia | intros m Hm; lia].
  - destruct (Z.ltb_spec newSize bufferSize) as [Hlt|Hge].
    + destruct (IH _ H) as (n & Hr & Hle & Hmin). exists (S n).
      split; [|split; [exact Hle|]].
      * rewrite Hr, Nat2Z.inj_succ, Z.pow_succ_r by lia. lia.
      * intros [|m] Hm; [cbn; lia|].
        rewrite Nat2Z.inj_succ, Z.pow_succ_r by lia.
        specialize (Hmin m ltac:(lia)). lia.
    + injection H as <-. exists 0%nat. repeat split; [lia | lia | intros m Hm; lia].
Qed.

(** More fuel does not change the outcome of a loop that ended. *)
Lemma growSize_more_fuel (fuel fuel' : nat) (newSize bufferSize r : Z) :
  (fuel <= fuel')%nat ->
  growSize fuel newSize bufferSize = Some r ->
  growSize fuel' newSize bufferSize = Some r.
Proof.
  revert fuel' newSize. induction fuel as [|fuel IH]; intros fuel' newSize Hle H.
  - cbn in H. destruct (Z.ltb_spec newSize bufferSize) as [Hlt|Hge]; [discriminate|].
    destruct fuel'; cbn; destruct (Z.ltb_spec newSize bufferSize); (lia || exact H).
  - destruct fuel' as [|fuel']; [lia|]. cbn in *.
    destruct (newSize <? bufferSize); [|exact H]. apply (IH fuel'); [lia | exact H].
Qed.

(** From a positive size the loop ends. *)
Lemma growSize_ends (fuel : nat) (newSize bufferSize : Z) :
  0 < newSize ->
  (Z.to_nat (bufferSize - newSize) <= fuel)%nat ->
  exists r, growSize fuel newSize bufferSize = Some r.
Proof.
  revert newSize. induction fuel as [|fuel IH]; intros newSize Hpos Hfuel; cbn.
  - destruct (Z.ltb_spec newSize bufferSize); [lia | eauto].
  - destruct (Z.ltb_spec newSize bufferSize); [|eauto]. apply IH; lia.
Qed.

(** From a size that is not positive and too small the loop never ends. *)
Lemma growSize_diverges (fuel : nat) (newSize bufferSize : Z) :
  newSize <= 0 -> newSize < bufferSize -> growSize fuel newSize bufferSize = None.
Proof.
  revert newSize. induction fuel as [|fuel IH]; intros newSize Hle Hlt; cbn.
  - destruct (Z.ltb_spec newSize bufferSize); [reflexivity | lia].
  - destruct (Z.ltb_spec newSize bufferSize); [apply IH; lia | lia].
Qed.

Lemma growSize_same (fuel : nat) (newSize bufferSize r : Z) :
  0 < newSize ->
  growSize fuel newSize bufferSize = Some r ->
  (r = newSize <-> bufferSize <= newSize) /\ newSize <= r.
Proof.
  intros Hpos H. destruct (growSize_doubles _ _ _ _ H) as (n & -> & Hle & Hmin).
  assert (Hpow : 0 < 2 ^ Z.of_nat n) by (apply Z.pow_pos_nonneg; lia).
  split; [|nia]. split.
  - intros Heq. lia.
  - intros Hsuff. destruct n as [|n]; [cbn; lia|].
    specialize (Hmin 0%nat ltac:(lia)). cbn in Hmin. lia.
Qed.

(** Filling a fresh array of [newSize] elements with the old contents. *)
Lemma reallocate_some (d : list F) (newSize : Z) :
  Z.of_nat (length d) <= newSize ->
  reallocate (Some d) newSize
  = Normal (d ++ replicate (Z.to_nat (newSize - Z.of_nat (length d))) zero).
Proof.
  intros Hle. unfold reallocate, newFloat32Array.
  destruct (Z.ltb_spec newSize 0); [lia|]. cbn [bindC]. unfold setArray.
  rewrite length_replicate.
  destruct (Nat.ltb_spec (Z.to_nat newSize) (length d)); [lia|].
  rewrite drop_replicate. do 3 f_equal. lia.
Qed.

Lemma reallocate_none (newSize : Z) :
  0 <= newSize ->
  reallocate None newSize = Normal (replicate (Z.to_nat newSize) zero).
Proof.
  intros Hle. unfold reallocate, newFloat32Array.
  destruct (Z.ltb_spec newSize 0); [lia | reflexivity].
Qed.

Lemma reallocate_grown (data : option (list F)) (currentSize newSize : Z) :
  0 < currentSize -> currentSize <= newSize ->
  (forall d, data = Some d -> Z.of_nat (length d) = currentSize) ->
  reallocate data newSize = Normal (grown data newSize)
  /\ Z.of_nat (length (grown data newSize)) = newSize.
Proof.
  intros Hpos Hle Hlen. destruct data as [d|]; cbn [grown].
  - specialize (Hlen d eq_refl). split; [apply reallocate_some; lia|].
    rewrite length_app, length_replicate. lia.
  - split; [apply reallocate_none; lia|]. rewrite length_replicate. lia.
Qed.

Lemma grown_same (d : list F) : grown (Some d) (Z.of_nat (length d)) = d.
Proof. cbn. rewrite Z.sub_diag. cbn. apply app_nil_r. Qed.

(** One call, once the loop has ended with [newSize]. *)
Lemma updateBufferSize_step (fuel : nat) (this : Mesh) (kind : string)
    (numInstances stride currentSize newSize : Z) :
  let k := aliasKind kind in
  strideOf this k = Some stride ->
  stride <> 0 ->
  sizeOf this k = Some currentSize ->
  0 < currentSize ->
  (forall d, bufferOf this k = Some d -> Z.of_nat (length d) = currentSize) ->
  growSize fuel currentSize
    ((instancesCount (_thinInstanceDataStorage this) + numInstances) * stride) = Some newSize ->
  exists this',
    _thinInstanceUpdateBufferSize fuel this kind numInstances = Some (Normal this')
    /\ (isSet (bufferOf this k) = true -> newSize = currentSize -> this' = this)
    /\ bufferOf this' k = Some (grown (bufferOf this k) newSize)
    /\ sizeOf this' k = Some newSize
    /\ instancesCount (_thinInstanceDataStorage this')
       = instancesCount (_thinInstanceDataStorage this)
    /\ instancedArrays this' = instancedArrays this.
Proof.
  intros k Hstride Hnz Hsize Hpos Hlen Hgrow.
  destruct (growSize_same _ _ _ _ Hpos Hgrow) as [_ Hle].
  destruct (reallocate_grown (bufferOf this k) currentSize newSize Hpos Hle Hlen)
    as [Hrealloc Hnewlen].
  unfold _thinInstanceUpdateBufferSize, bufferOf, sizeOf, strideOf in *.
  cbv zeta. fold k. destruct (String.eqb k "matrix") eqn:Ek.
  - injection Hstride as <-. injection Hsize as <-. rewrite Hgrow.
    destruct (matrixData (_thinInstanceDataStorage this)) as [d|] eqn:Ed; cbn [isSet negb orb].
    + destruct (Z.eqb_spec (matrixBufferSize (_thinInstanceDataStorage this)) newSize)
        as [Heq|Hne]; cbn [negb].
      * exists this. rewrite Ed. subst newSize.
        rewrite <- (Hlen d eq_refl), grown_same. repeat split; congruence.
      * rewrite Hrealloc. cbn [bindC]. eexists. split; [reflexivity|].
        split; [intros _ Heq; congruence|].
        destruct (needsPreviousWorldMatrices _ && _); repeat split.
    + rewrite Hrealloc. cbn [bindC]. eexists. split; [reflexivity|].
      split; [discriminate|].
      destruct (needsPreviousWorldMatrices _ && _); repeat split.
  - destruct (_userThinInstanceBuffersStorage this) as [user|] eqn:Eu; [|discriminate].
    cbn [mbind option_bind] in *. rewrite Hstride, Hsize. cbn [truthy from_option Datatypes.id].
    destruct (Z.eqb_spec stride 0); [contradiction|]. cbn [negb]. rewrite Hgrow.
    destruct (data user !! k) as [d|] eqn:Ed; cbn [isSet negb orb].
    + destruct (Z.eqb_spec currentSize newSize) as [Heq|Hne]; cbn [negb].
      * exists this. rewrite Eu. cbn [mbind option_bind]. rewrite Ed, Hsize. subst newSize.
        rewrite <- (Hlen d eq_refl), grown_same. repeat split; congruence.
      * rewrite Hrealloc. cbn [bindC]. eexists. split; [reflexivity|].
        split; [intros _ Heq; congruence|]. cbn. rewrite !lookup_insert_eq. repeat split.
    + rewrite Hrealloc. cbn [bindC]. eexists. split; [reflexivity|].
      split; [discriminate|]. cbn. rewrite !lookup_insert_eq. repeat split.
Qed.

Lemma updateBufferSize_unregistered (fuel : nat) (this : Mesh) (kind : string)
    (numInstances : Z) :
  truthy (strideOf this (aliasKind kind)) = false ->
  _thinInstanceUpdateBufferSize fuel this kind numInstances = Some (Normal this).
Proof.
  unfold _thinInstanceUpdateBufferSize, strideOf. cbv zeta.
  destruct (String.eqb (aliasKind kind) "matrix"); [discriminate|].
  destruct (_userThinInstanceBuffersStorage this) as [user|]; [|reflexivity].
  cbn [mbind option_bind]. intros ->. reflexivity.
Qed.

(** C5.  For every kind that has a buffer of positive recorded size
    [currentSize] (the size of the data when it exists),
    [_thinInstanceUpdateBufferSize] returns, having doubled [currentSize] the
    least number of times [n] that reaches
    [(instancesCount + numInstances) * stride] (stride 16 for "matrix").  If
    the data exists and the size did not change, the mesh is left untouched;
    otherwise the buffer becomes a new array of the new size whose front is
    the old contents, unchanged, and whose rest is zero.  For a kind without
    a stride there is no buffer and the mesh is left untouched. *)
Theorem updateBufferSize_grows_geometrically (this : Mesh) (kind : string)
    (numInstances : Z) :
  let k := aliasKind kind in
  (forall stride currentSize : Z,
     let bufferSize :=
       (instancesCount (_thinInstanceDataStorage this) + numInstances) * stride in
     strideOf this k = Some stride ->
     stride <> 0 ->
     sizeOf this k = Some currentSize ->
     0 < currentSize ->
     (forall d, bufferOf this k = Some d -> Z.of_nat (length d) = currentSize) ->
     exists (n fuel0 : nat),
       let newSize := currentSize * 2 ^ Z.of_nat n in
       bufferSize <= newSize
       /\ (forall m : nat, (m < n)%nat -> currentSize * 2 ^ Z.of_nat m < bufferSize)
       /\ forall fuel, (fuel0 <= fuel)%nat ->
          exists this',
            _thinInstanceUpdateBufferSize fuel this kind numInstances = Some (Normal this')
            /\ sizeOf this' k = Some newSize
            /\ match bufferOf this k with
               | Some d =>
                 if decide (n = 0%nat) then this' = this
                 else bufferOf this' k
                      = Some (d ++ replicate (Z.to_nat (newSize - currentSize)) zero)
               | None => bufferOf this' k = Some (replicate (Z.to_nat newSize) zero)
               end)
  /\ (strideOf this k = None \/ strideOf this k = Some 0 ->
      forall fuel,
        _thinInstanceUpdateBufferSize fuel this kind numInstances = Some (Normal this)).
Proof.
  intros k. split.
  - intros stride currentSize bufferSize Hstride Hnz Hsize Hpos Hlen.
    set (fuel0 := Z.to_nat (bufferSize - currentSize)).
    destruct (growSize_ends fuel0 currentSize bufferSize Hpos (Nat.le_refl _)) as [r Hr].
    destruct (growSize_doubles _ _ _ _ Hr) as (n & Hn & Hle & Hmin).
    exists n, fuel0. cbv zeta. rewrite <- Hn. split; [exact Hle | split; [exact Hmin|]].
    intros fuel Hfuel.
    pose proof (growSize_more_fuel _ _ _ _ _ Hfuel Hr) as Hgrow.
    destruct (updateBufferSize_step fuel this kind numInstances stride currentSize r
                Hstride Hnz Hsize Hpos Hlen Hgrow)
      as (this' & Hcall & Hsame & Hbuf & Hsz & _).
    exists this'. split; [exact Hcall | split; [exact Hsz|]]. fold k in Hbuf, Hsame.
    destruct (bufferOf this k) as [d|] eqn:Ed.
    + destruct (decide (n = 0%nat)) as [->|Hne].
      * apply Hsame; [reflexivity|]. rewrite Hn. cbn. lia.
      * rewrite Hbuf. cbn [grown]. rewrite (Hlen d eq_refl). reflexivity.
    + exact Hbuf.
  - intros Hnone fuel. apply updateBufferSize_unregistered. fold k.
    destruct Hnone as [-> | ->]; reflexivity.
Qed.

(** ** [thinInstanceAdd] *)

Lemma addEach_writes (matrices : list Matrix) :
  forall (this : Mesh) (i len : Z) (refresh : bool) (d : list F),
  matrixData (_thinInstanceDataStorage this) = Some d ->
  0 <= instancesCount (_thinInstanceDataStorage this) ->
  (instancesCount (_thinInstanceDataStorage this) + Z.of_nat (length matrices)) * 16
    <= Z.of_nat (length d) ->
  let index := instancesCount (_thinInstanceDataStorage this) in
  let storage' := _thinInstanceDataStorage (addEach this matrices i len refresh) in
  exists d',
    matrixData storage' = Some d'
    /\ length d' = length d
    /\ instancesCount storage' = index + Z.of_nat (length matrices)
    /\ (forall k, k < index * 16 -> getAt d' k = getAt d k)
    /\ (forall (p : nat) (matrix : Matrix) (j : Z),
          matrices !! p = Some matrix -> 0 <= j < 16 ->
          getAt d' ((index + Z.of_nat p) * 16 + j)
          = Some (nth (Z.to_nat j) (_m matrix) zero)).
Proof.
  induction matrices as [|matrix rest IH]; intros this i len refresh d Hd Hcount Hcap;
    cbv zeta.
  - exists d. cbn. repeat split; [exact Hd | lia | intros p m j Hp; discriminate].
  - cbn [addEach].
    set (index := instancesCount (_thinInstanceDataStorage this)) in *.
    set (this1 := update (set_instancesCount (index + 1)) this).
    assert (Hd1 : matrixData (_thinInstanceDataStorage this1) = Some d) by exact Hd.
    assert (Hlt : index < instancesCount (_thinInstanceDataStorage this1)) by (cbn; lia).
    destruct (setMatrixAt_succeeds this1 index matrix ((i =? len - 1) && refresh) d Hd1 Hlt)
      as (_ & Hdata & _ & Hcnt & _).
    destruct (thinInstanceSetMatrixAt this1 index matrix ((i =? len - 1) && refresh))
      as [ok this2]. cbn [fst snd] in Hdata, Hcnt.
    change (instancesCount (_thinInstanceDataStorage this1)) with (index + 1) in Hcnt.
    cbn [length] in Hcap. rewrite Nat2Z.inj_succ in Hcap.
    destruct (IH this2 (i + 1) len refresh _ Hdata) as (d' & Hd' & Hlen & Hc' & Hkeep & Hnew).
    + lia.
    + rewrite length_copyToArray, Hcnt. lia.
    + rewrite Hcnt in *. rewrite length_copyToArray in Hlen.
      exists d'. split; [exact Hd' | split; [exact Hlen | split; [|split]]].
      * cbn [length]. lia.
      * intros k Hk. rewrite Hkeep by lia. apply getAt_copyToArray_outside. lia.
      * intros [|p] m j Hp Hj.
        -- injection Hp as <-. rewrite Z.add_0_r, Hkeep by lia.
           apply getAt_copyToArray_inside; lia.
        -- replace ((index + Z.of_nat (S p)) * 16 + j)
             with ((index + 1 + Z.of_nat p) * 16 + j) by lia.
           apply Hnew; [exact Hp | exact Hj].
Qed.

Lemma addEach_single (this : Mesh) (matrix : Matrix) (refresh : bool) :
  let index := instancesCount (_thinInstanceDataStorage this) in
  snd (thinInstanceSetMatrixAt (update (set_instancesCount (index + 1)) this) index matrix
         refresh)
  = addEach this [matrix] 0 1 refresh.
Proof.
  cbv zeta. cbn [addEach]. change ((0 =? 1 - 1) && refresh) with refresh.
  destruct (thinInstanceSetMatrixAt _ _ matrix refresh). reflexivity.
Qed.

(** C4, as amended.  Without instanced arrays [thinInstanceAdd] returns -1
    and leaves the storage as it was.  With them, on a mesh whose matrix
    buffer size is positive and is the length of the matrix data when there
    is some, and whose [instancesCount] is not negative, it returns the
    [instancesCount] held before the call, the count has grown by the number
    of matrices, and the floats of the [i]-th matrix are at offset
    [(returnedIndex + i) * 16] of the matrix data. *)
Theorem thinInstanceAdd_appends (this : Mesh) (matrix : Matrix + list Matrix)
    (refresh : bool) :
  let storage := _thinInstanceDataStorage this in
  let index := instancesCount storage in
  (instancedArrays this = false ->
   forall fuel, exists this',
     thinInstanceAdd fuel this matrix refresh = Some (Normal (-1, this'))
     /\ _thinInstanceDataStorage this' = storage
     /\ _userThinInstanceBuffersStorage this' = _userThinInstanceBuffersStorage this)
  /\ (instancedArrays this = true ->
      ColorKind <> "matrix" ->
      0 < matrixBufferSize storage ->
      0 <= index ->
      (forall d, matrixData storage = Some d -> Z.of_nat (length d) = matrixBufferSize storage) ->
      exists fuel0 : nat, forall fuel, (fuel0 <= fuel)%nat ->
        exists (this' : Mesh) (d' : list F),
          thinInstanceAdd fuel this matrix refresh = Some (Normal (index, this'))
          /\ instancesCount (_thinInstanceDataStorage this')
             = index + Z.of_nat (length (matricesOf matrix))
          /\ matrixData (_thinInstanceDataStorage this') = Some d'
          /\ forall (i : nat) (m : Matrix) (j : Z),
               matricesOf matrix !! i = Some m -> 0 <= j < 16 ->
               getAt d' ((index + Z.of_nat i) * 16 + j)
               = Some (nth (Z.to_nat j) (_m m) zero)).
Proof.
  cbv zeta. split.
  - intros Hcaps fuel. unfold thinInstanceAdd. rewrite Hcaps. cbn [negb].
    eexists. repeat split.
  - intros Hcaps Hcolor Hpos Hcount Hlen.
    set (index := instancesCount (_thinInstanceDataStorage this)) in *.
    set (numInstances := Z.of_nat (length (matricesOf matrix))).
    set (bufferSize := (index + numInstances) * 16).
    set (currentSize := matrixBufferSize (_thinInstanceDataStorage this)) in *.
    assert (Hkind : aliasKind "matrix" = "matrix").
    { unfold aliasKind. destruct (String.eqb_spec "matrix" ColorKind); congruence. }
    set (fuel0 := Z.to_nat (bufferSize - currentSize)).
    destruct (growSize_ends fuel0 currentSize bufferSize Hpos (Nat.le_refl _)) as [r Hr].
    destruct (growSize_doubles _ _ _ _ Hr) as (n & _ & Hle & _).
    exists fuel0. intros fuel Hfuel.
    pose proof (growSize_more_fuel _ _ _ _ _ Hfuel Hr) as Hgrow.
    destruct (growSize_same _ _ _ _ Hpos Hr) as [_ Hge].
    assert (Hlen' : forall d, bufferOf this (aliasKind "matrix") = Some d ->
                              Z.of_nat (length d) = currentSize).
    { rewrite Hkind. exact Hlen. }
    destruct (updateBufferSize_step fuel this "matrix" numInstances 16 currentSize r)
      as (this1 & Hcall & _ & Hbuf & _ & Hcnt1 & _);
      [rewrite Hkind; reflexivity | lia | rewrite Hkind; reflexivity | exact Hpos
       | exact Hlen' | exact Hgrow |].
    destruct (reallocate_grown (bufferOf this (aliasKind "matrix")) currentSize r Hpos Hge Hlen')
      as [_ Hnewlen].
    rewrite Hkind in Hbuf, Hnewlen.
    change (bufferOf this1 "matrix") with (matrixData (_thinInstanceDataStorage this1)) in Hbuf.
    destruct (addEach_writes (matricesOf matrix) this1 0 numInstances refresh _ Hbuf)
      as (d' & Hd' & _ & Hc' & _ & Hnew).
    + rewrite Hcnt1. exact Hcount.
    + rewrite Hcnt1, Hnewlen. exact Hle.
    + rewrite Hcnt1 in Hc', Hnew. fold index in Hc', Hnew.
      exists (addEach this1 (matricesOf matrix) 0 numInstances refresh), d'.
      split; [|split; [exact Hc' | split; [exact Hd' | exact Hnew]]].
      unfold thinInstanceAdd. rewrite Hcaps. cbn [negb].
      assert (Hnum : match matrix with
                     | inl _ => 1
                     | inr matrices => Z.of_nat (length matrices)
                     end = numInstances) by (destruct matrix; reflexivity).
      rewrite Hnum, Hcall. destruct matrix as [m|ms].
      * rewrite addEach_single, Hcnt1. reflexivity.
      * rewrite Hcnt1. reflexivity.
Qed.

(** ** Custom attributes *)

Lemma aliasKind_idem (kind : string) : aliasKind (aliasKind kind) = aliasKind kind.
Proof.
  unfold aliasKind. destruct (String.eqb_spec kind ColorKind) as [->|Hne].
  - destruct (String.eqb ColorInstanceKind ColorKind); reflexivity.
  - destruct (String.eqb_spec kind ColorKind); [contradiction | reflexivity].
Qed.

(** A source that fits behind the offset replaces the elements it covers. *)
Lemma setArrayAt_fits (target source : list F) (offset : Z) :
  0 <= offset ->
  offset + Z.of_nat (length source) <= Z.of_nat (length target) ->
  exists after,
    setArrayAt target source offset = Normal after
    /\ length after = length target
    /\ (forall j : nat, (j < length source)%nat ->
          getAt after (offset + Z.of_nat j) = source !! j)
    /\ (forall p, p < offset \/ offset + Z.of_nat (length source) <= p ->
          getAt after p = getAt target p).
Proof.
  intros Hlo Hhi. unfold setArrayAt.
  destruct (Z.ltb_spec offset 0); [lia|].
  destruct (Z.ltb_spec (Z.of_nat (length target)) (Z.of_nat (length source) + offset)); [lia|].
  cbn [orb]. eexists. split; [reflexivity|].
  assert (Htake : length (take (Z.to_nat offset) target) = Z.to_nat offset)
    by (rewrite length_take; lia).
  split; [|split].
  - rewrite !length_app, Htake, length_drop. lia.
  - intros j Hj. unfold getAt. destruct (Z.leb_spec 0 (offset + Z.of_nat j)); [|lia].
    rewrite lookup_app_r by lia. rewrite Htake.
    rewrite lookup_app_l by lia. f_equal. lia.
  - intros p Hp. unfold getAt. destruct (Z.leb_spec 0 p); [|reflexivity].
    destruct Hp as [Hp|Hp].
    + rewrite lookup_app_l by lia. apply lookup_take_lt. lia.
    + rewrite lookup_app_r by lia. rewrite Htake.
      rewrite lookup_app_r by lia. rewrite lookup_drop. f_equal. lia.
Qed.

Lemma setArrayAt_out_of_range (target source : list F) (offset : Z) :
  offset < 0 \/ Z.of_nat (length target) < offset + Z.of_nat (length source) ->
  setArrayAt target source offset = Throw "RangeError".
Proof.
  intros H. unfold setArrayAt.
  destruct (Z.ltb_spec offset 0); [reflexivity|].
  destruct (Z.ltb_spec (Z.of_nat (length target)) (Z.of_nat (length source) + offset));
    [reflexivity | lia].
Qed.

(** One call for a registered attribute, once the loop has ended: the buffer
    of the kind has grown and nothing else has changed. *)
Lemma updateBufferSize_custom (fuel : nat) (this : Mesh) (kind : string) (numInstances : Z)
    (user : UserStorage) (d : list F) (stride newSize : Z) :
  let k := aliasKind kind in
  k <> "matrix" ->
  _userThinInstanceBuffersStorage this = Some user ->
  data user !! k = Some d ->
  strides user !! k = Some stride ->
  stride <> 0 ->
  sizes user !! k = Some (Z.of_nat (length d)) ->
  growSize fuel (Z.of_nat (length d))
    ((instancesCount (_thinInstanceDataStorage this) + numInstances) * stride) = Some newSize ->
  Z.of_nat (length d) <= newSize ->
  exists this',
    _thinInstanceUpdateBufferSize fuel this kind numInstances = Some (Normal this')
    /\ _thinInstanceDataStorage this' = _thinInstanceDataStorage this
    /\ _userThinInstanceBuffersStorage this'
       = Some (mkUserStorage
                 (<[k := d ++ replicate (Z.to_nat (newSize - Z.of_nat (length d))) zero]>
                    (data user))
                 (<[k := newSize]> (sizes user)) (strides user)).
Proof.
  intros k Hk Hu Hd Hs Hnz Hsz Hgrow Hle.
  unfold _thinInstanceUpdateBufferSize. cbv zeta. fold k.
  destruct (String.eqb_spec k "matrix"); [contradiction|].
  rewrite Hu, Hs. cbn [truthy from_option Datatypes.id].
  destruct (Z.eqb_spec stride 0); [contradiction|]. cbn [negb].
  rewrite Hsz, Hgrow, Hd. cbn [isSet negb orb].
  destruct (Z.eqb_spec (Z.of_nat (length d)) newSize) as [Heq|Hne]; cbn [negb].
  - exists this. split; [reflexivity | split; [reflexivity|]].
    rewrite Hu, <- Heq, Z.sub_diag. cbn [Z.to_nat replicate]. rewrite app_nil_r.
    rewrite !insert_id by assumption. destruct user; reflexivity.
  - rewrite reallocate_some by exact Hle. cbn [bindC].
    eexists. split; [reflexivity | split; reflexivity].
Qed.

(** The write of [thinInstanceSetAttributeAt], once the loop has ended. *)
Lemma setAttributeAt_writes (fuel : nat) (this : Mesh) (kind : string) (index : Z)
    (value : list F) (refresh : bool) (user : UserStorage) (d : list F) (stride newSize : Z) :
  let k := aliasKind kind in
  k <> "matrix" ->
  _userThinInstanceBuffersStorage this = Some user ->
  data user !! k = Some d ->
  strides user !! k = Some stride ->
  sizes user !! k = Some (Z.of_nat (length d)) ->
  0 < stride ->
  0 <= index < instancesCount (_thinInstanceDataStorage this) ->
  Z.of_nat (length value) <= stride ->
  growSize fuel (Z.of_nat (length d))
    (instancesCount (_thinInstanceDataStorage this) * stride) = Some newSize ->
  exists (this' : Mesh) (after : list F),
    thinInstanceSetAttributeAt fuel this kind index value refresh = Some (Normal (true, this'))
    /\ bufferOf this' k = Some after
    /\ Z.of_nat (length after) = newSize
    /\ (forall j : nat, (j < length value)%nat ->
          getAt after (index * stride + Z.of_nat j) = value !! j)
    /\ (forall p, p < Z.of_nat (length d) ->
          p < index * stride \/ index * stride + Z.of_nat (length value) <= p ->
          getAt after p = getAt d p)
    /\ (forall k', k' <> k -> k' <> "matrix" -> bufferOf this' k' = bufferOf this k')
    /\ strideOf this' k = Some stride
    /\ _thinInstanceDataStorage this' = _thinInstanceDataStorage this.
Proof.
  intros k Hk Hu Hd Hs Hsz Hstride Hindex Hvalue Hgrow.
  destruct (growSize_doubles _ _ _ _ Hgrow) as (n & Hn & Hneeded & _).
  assert (Hpow : 0 < 2 ^ Z.of_nat n) by (apply Z.pow_pos_nonneg; lia).
  assert (Hle : Z.of_nat (length d) <= newSize) by nia.
  assert (Hkk : aliasKind k = k) by apply aliasKind_idem.
  pose proof (updateBufferSize_custom fuel this k 0 user d stride newSize) as Hupd.
  cbv zeta in Hupd. rewrite Hkk, Z.add_0_r in Hupd.
  destruct (Hupd Hk Hu Hd Hs ltac:(lia) Hsz Hgrow Hle) as (this1 & Hcall & Hst1 & Hu1).
  clear Hupd.
  set (grownData := d ++ replicate (Z.to_nat (newSize - Z.of_nat (length d))) zero) in *.
  assert (Hlen1 : Z.of_nat (length grownData) = newSize).
  { subst grownData. rewrite length_app, length_replicate. lia. }
  destruct (setArrayAt_fits grownData value (index * stride))
    as (after & Hset & Hlen & Hin & Hout); [nia | nia |].
  unfold thinInstanceSetAttributeAt. cbv zeta. fold k. rewrite Hu, Hd. cbn [isSet negb orb].
  destruct (Z.leb_spec (instancesCount (_thinInstanceDataStorage this)) index); [lia|].
  rewrite Hcall, Hu1. cbn [bindC defined data strides sizes].
  rewrite lookup_insert_eq, Hs. cbn [bindC defined]. rewrite Hset. cbn [bindC].
  eexists. exists after. split; [reflexivity|].
  assert (Hbuf : forall (m : Mesh) (k' : string),
            bufferOf (if refresh then call (BufferUpdated k) m else m) k' = bufferOf m k')
    by (intros m k'; destruct refresh; reflexivity).
  assert (Hstr : forall (m : Mesh) (k' : string),
            strideOf (if refresh then call (BufferUpdated k) m else m) k' = strideOf m k')
    by (intros m k'; destruct refresh; reflexivity).
  split; [|split; [lia | split; [exact Hin | split; [|split; [|split]]]]].
  - rewrite Hbuf. unfold bufferOf. destruct (String.eqb_spec k "matrix"); [contradiction|].
    cbn. apply lookup_insert_eq.
  - intros p Hp Hrange. rewrite Hout by exact Hrange. unfold getAt.
    destruct (Z.leb_spec 0 p); [|reflexivity]. subst grownData. apply lookup_app_l. lia.
  - intros k' Hne Hm. rewrite Hbuf. unfold bufferOf.
    destruct (String.eqb_spec k' "matrix"); [contradiction|].
    cbn. rewrite Hu. cbn. rewrite !lookup_insert_ne by congruence. reflexivity.
  - rewrite Hstr. unfold strideOf. destruct (String.eqb_spec k "matrix"); [contradiction|].
    cbn. exact Hs.
  - destruct refresh; cbn; exact Hst1.
Qed.

(** X1.  Writing the value of a registered attribute.  For a kind whose buffer
    has a positive recorded size, which is its length, and a positive stride,
    [thinInstanceSetAttributeAt] at an index between 0 and the instance count,
    with a value no longer than the stride, returns true: the buffer has been
    grown to hold every counted instance, the value stands at offset [index *
    stride], every other element the buffer had is unchanged, and neither the
    matrices nor the other attributes have changed. *)
Theorem thinInstanceSetAttributeAt_stores (this : Mesh) (kind : string) (index : Z)
    (value : list F) (refresh : bool) (d : list F) (stride : Z) :
  let k := aliasKind kind in
  k <> "matrix" ->
  bufferOf this k = Some d ->
  strideOf this k = Some stride ->
  sizeOf this k = Some (Z.of_nat (length d)) ->
  (0 < length d)%nat ->
  0 < stride ->
  0 <= index < instancesCount (_thinInstanceDataStorage this) ->
  Z.of_nat (length value) <= stride ->
  exists fuel0 : nat, forall fuel, (fuel0 <= fuel)%nat ->
    exists (this' : Mesh) (after : list F),
      thinInstanceSetAttributeAt fuel this kind index value refresh
        = Some (Normal (true, this'))
      /\ bufferOf this' k = Some after
      /\ instancesCount (_thinInstanceDataStorage this) * stride <= Z.of_nat (length after)
      /\ (forall j : nat, (j < length value)%nat ->
            getAt after (index * stride + Z.of_nat j) = value !! j)
      /\ (forall p, p < Z.of_nat (length d) ->
            p < index * stride \/ index * stride + Z.of_nat (length value) <= p ->
            getAt after p = getAt d p)
      /\ (forall k', k' <> k -> k' <> "matrix" -> bufferOf this' k' = bufferOf this k')
      /\ _thinInstanceDataStorage this' = _thinInstanceDataStorage this.
Proof.
  intros k Hk Hd Hs Hsz Hpos Hstride Hindex Hvalue.
  unfold bufferOf, strideOf, sizeOf in Hd, Hs, Hsz.
  destruct (String.eqb_spec k "matrix"); [contradiction|].
  destruct (_userThinInstanceBuffersStorage this) as [user|] eqn:Hu; [|discriminate].
  cbn [mbind option_bind] in Hd, Hs, Hsz.
  set (bufferSize := instancesCount (_thinInstanceDataStorage this) * stride).
  set (fuel0 := Z.to_nat (bufferSize - Z.of_nat (length d))).
  destruct (growSize_ends fuel0 (Z.of_nat (length d)) bufferSize ltac:(lia) (Nat.le_refl _))
    as [newSize Hr].
  destruct (growSize_doubles _ _ _ _ Hr) as (_ & _ & Hneeded & _).
  exists fuel0. intros fuel Hfuel.
  pose proof (growSize_more_fuel _ _ _ _ _ Hfuel Hr) as Hgrow.
  destruct (setAttributeAt_writes fuel this kind index value refresh user d stride newSize
              Hk Hu Hd Hs Hsz Hstride Hindex Hvalue Hgrow)
    as (this' & after & H1 & H2 & H3 & H4 & H5 & H6 & _ & H8).
  exists this', after. repeat split; try assumption. lia.
Qed.

(** X2.  What [thinInstanceSetAttributeAt] refuses.  Without user storage,
    for a kind that has no buffer and is no name inherited from
    [Object.prototype], and for an index at or above the instance count it
    returns false and leaves the mesh as it was, without entering the loop.
    For an inherited name such as [toString] that has no buffer, on a mesh
    with user storage and an index below the count, it throws a type error:
    the inherited member passes the test and has no [set].  For a negative
    index on a registered attribute it throws the range error of the typed
    array, where [thinInstanceSetMatrixAt] drops the write. *)
Theorem thinInstanceSetAttributeAt_refuses (this : Mesh) (kind : string) (index : Z)
    (value : list F) (refresh : bool) :
  let k := aliasKind kind in
  (k <> "matrix" ->
   _userThinInstanceBuffersStorage this = None
   \/ (bufferOf this k = None /\ inherited k = false)
   \/ instancesCount (_thinInstanceDataStorage this) <= index ->
   forall fuel,
     thinInstanceSetAttributeAt fuel this kind index value refresh
       = Some (Normal (false, this)))
  /\ (k <> "matrix" ->
      inherited k = true ->
      _userThinInstanceBuffersStorage this <> None ->
      bufferOf this k = None ->
      strideOf this k = None ->
      index < instancesCount (_thinInstanceDataStorage this) ->
      forall fuel,
        thinInstanceSetAttributeAt fuel this kind index value refresh
          = Some (Throw TypeError))
  /\ (forall (d : list F) (stride : Z),
        k <> "matrix" ->
        bufferOf this k = Some d ->
        strideOf this k = Some stride ->
        sizeOf this k = Some (Z.of_nat (length d)) ->
        (0 < length d)%nat ->
        0 < stride ->
        index < 0 ->
        index < instancesCount (_thinInstanceDataStorage this) ->
        exists fuel0 : nat, forall fuel, (fuel0 <= fuel)%nat ->
          thinInstanceSetAttributeAt fuel this kind index value refresh
            = Some (Throw "RangeError")).
Proof.
  intros k. split; [|split].
  - intros Hk Hcase fuel. unfold thinInstanceSetAttributeAt. cbv zeta. fold k.
    unfold bufferOf in Hcase. destruct (String.eqb_spec k "matrix"); [contradiction|].
    destruct (_userThinInstanceBuffersStorage this) as [user|]; [|reflexivity].
    cbn [mbind option_bind] in Hcase.
    destruct Hcase as [Hnone | [[-> ->] | Hge]]; [discriminate | reflexivity|].
    destruct (Z.leb_spec (instancesCount (_thinInstanceDataStorage this)) index); [|lia].
    rewrite orb_true_r. reflexivity.
  - intros Hk Hin Hstorage Hd Hs Hindex fuel.
    assert (Hkk : aliasKind k = k) by apply aliasKind_idem.
    assert (Hupd : _thinInstanceUpdateBufferSize fuel this k 0 = Some (Normal this)).
    { apply updateBufferSize_unregistered. rewrite Hkk, Hs. reflexivity. }
    unfold bufferOf in Hd. destruct (String.eqb_spec k "matrix"); [contradiction|].
    unfold thinInstanceSetAttributeAt. cbv zeta. fold k.
    destruct (_userThinInstanceBuffersStorage this) as [user|] eqn:Hu; [|contradiction].
    cbn [mbind option_bind] in Hd. rewrite Hd, Hin. cbn [isSet negb orb].
    destruct (Z.leb_spec (instancesCount (_thinInstanceDataStorage this)) index); [lia|].
    rewrite Hupd, Hu. cbn [bindC defined]. rewrite Hd. reflexivity.
  - intros d stride Hk Hd Hs Hsz Hpos Hstride Hneg Hindex.
    unfold bufferOf, strideOf, sizeOf in Hd, Hs, Hsz.
    destruct (String.eqb_spec k "matrix"); [contradiction|].
    destruct (_userThinInstanceBuffersStorage this) as [user|] eqn:Hu; [|discriminate].
    cbn [mbind option_bind] in Hd, Hs, Hsz.
    set (bufferSize := (instancesCount (_thinInstanceDataStorage this) + 0) * stride).
    set (fuel0 := Z.to_nat (bufferSize - Z.of_nat (length d))).
    destruct (growSize_ends fuel0 (Z.of_nat (length d)) bufferSize ltac:(lia) (Nat.le_refl _))
      as [newSize Hr].
    destruct (growSize_doubles _ _ _ _ Hr) as (e & He & _ & _).
    assert (Hpow : 0 < 2 ^ Z.of_nat e) by (apply Z.pow_pos_nonneg; lia).
    exists fuel0. intros fuel Hfuel.
    pose proof (growSize_more_fuel _ _ _ _ _ Hfuel Hr) as Hgrow.
    assert (Hkk : aliasKind k = k) by apply aliasKind_idem.
    pose proof (updateBufferSize_custom fuel this k 0 user d stride newSize) as Hupd.
    cbv zeta in Hupd. rewrite Hkk in Hupd.
    destruct (Hupd Hk Hu Hd Hs ltac:(lia) Hsz Hgrow ltac:(nia)) as (this1 & Hcall & _ & Hu1).
    clear Hupd.
    unfold thinInstanceSetAttributeAt. cbv zeta. fold k. rewrite Hu, Hd. cbn [isSet negb orb].
    destruct (Z.leb_spec (instancesCount (_thinInstanceDataStorage this)) index); [lia|].
    rewrite Hcall, Hu1. cbn [bindC defined data strides sizes].
    rewrite lookup_insert_eq, Hs. cbn [bindC defined].
    rewrite setArrayAt_out_of_range by (left; nia). reflexivity.
Qed.




(** *** What [thinInstanceAdd] keeps *)

Lemma updateBufferSize_matrix_frame (fuel : nat) (this this' : Mesh) (numInstances : Z) :
  ColorKind <> "matrix" ->
  _thinInstanceUpdateBufferSize fuel this "matrix" numInstances = Some (Normal this') ->
  _userThinInstanceBuffersStorage this' = _userThinInstanceBuffersStorage this
  /\ worldMatrices (_thinInstanceDataStorage this')
     = worldMatrices (_thinInstanceDataStorage this).
Proof.
  intros Hcolor. unfold _thinInstanceUpdateBufferSize, aliasKind. cbv zeta.
  destruct (String.eqb_spec "matrix" ColorKind); [congruence|]. cbn [String.eqb Ascii.eqb].
  change (String.eqb "matrix" "matrix") with true. cbn iota.
  destruct (growSize _ _ _); [|discriminate].
  destruct (negb _ || negb _); [|intros H; injection H as <-; split; reflexivity].
  destruct (reallocate _ _); cbn [bindC]; [|discriminate].
  destruct (needsPreviousWorldMatrices _ && _); intros H; injection H as <-; split; reflexivity.
Qed.

Lemma setMatrixAt_user (this : Mesh) (index : Z) (matrix : Matrix) (refresh : bool) :
  _userThinInstanceBuffersStorage (snd (thinInstanceSetMatrixAt this index matrix refresh))
  = _userThinInstanceBuffersStorage this.
Proof.
  unfold thinInstanceSetMatrixAt.
  destruct (matrixData (_thinInstanceDataStorage this)); [|reflexivity].
  destruct (_ <=? _); [reflexivity|]. cbn.
  destruct (worldMatrices (_thinInstanceDataStorage this)); destruct refresh; cbn;
    try destruct (doNotSyncBoundingInfo this); reflexivity.
Qed.

(** The loop of [thinInstanceAdd] leaves the custom attributes and the cached
    matrices of the earlier instances alone. *)
Lemma addEach_frame (matrices : list Matrix) :
  forall (this : Mesh) (i len : Z) (refresh : bool) (d : list F),
  matrixData (_thinInstanceDataStorage this) = Some d ->
  let index := instancesCount (_thinInstanceDataStorage this) in
  let this' := addEach this matrices i len refresh in
  _userThinInstanceBuffersStorage this' = _userThinInstanceBuffersStorage this
  /\ forall p cache cache',
       p < index ->
       worldMatrices (_thinInstanceDataStorage this) = Some cache ->
       worldMatrices (_thinInstanceDataStorage this') = Some cache' ->
       cache' !! p = cache !! p.
Proof.
  induction matrices as [|matrix rest IH]; intros this i len refresh d Hd; cbv zeta.
  - cbn. split; [reflexivity|]. intros p cache cache' _ H1 H2. congruence.
  - cbn [addEach].
    set (index := instancesCount (_thinInstanceDataStorage this)) in *.
    set (this1 := update (set_instancesCount (index + 1)) this).
    assert (Hd1 : matrixData (_thinInstanceDataStorage this1) = Some d) by exact Hd.
    assert (Hlt : index < instancesCount (_thinInstanceDataStorage this1)) by (cbn; lia).
    destruct (setMatrixAt_succeeds this1 index matrix ((i =? len - 1) && refresh) d Hd1 Hlt)
      as (_ & Hdata & Hcache & Hcnt & _).
    pose proof (setMatrixAt_user this1 index matrix ((i =? len - 1) && refresh)) as Huser.
    destruct (thinInstanceSetMatrixAt this1 index matrix ((i =? len - 1) && refresh))
      as [ok this2]. cbn [fst snd] in Hdata, Hcache, Hcnt, Huser.
    change (instancesCount (_thinInstanceDataStorage this1)) with (index + 1) in Hcnt.
    change (worldMatrices (_thinInstanceDataStorage this1))
      with (worldMatrices (_thinInstanceDataStorage this)) in Hcache.
    destruct (IH this2 (i + 1) len refresh _ Hdata) as (Hu' & Hkeep).
    split; [rewrite Hu', Huser; reflexivity|].
    intros p cache cache' Hp Hc Hc'. rewrite Hc in Hcache. cbn in Hcache.
    rewrite (Hkeep p _ cache' ltac:(lia) Hcache Hc').
    apply lookup_insert_ne. lia.
Qed.

(** X4.  [thinInstanceAdd] keeps what is there.  On a mesh whose matrix data
    has the recorded size, the floats of the instances counted before the call
    are unchanged in the matrix data after it, whether or not the buffer was
    reallocated; their cached world matrices, when there is a cache, are
    unchanged; and the buffers of the custom attributes are left alone (they
    are not grown). *)
Theorem thinInstanceAdd_keeps_earlier_instances (this : Mesh)
    (matrix : Matrix + list Matrix) (refresh : bool) (d : list F) :
  let storage := _thinInstanceDataStorage this in
  let index := instancesCount storage in
  instancedArrays this = true ->
  ColorKind <> "matrix" ->
  matrixData storage = Some d ->
  matrixBufferSize storage = Z.of_nat (length d) ->
  (0 < length d)%nat ->
  0 <= index ->
  exists fuel0 : nat, forall fuel, (fuel0 <= fuel)%nat ->
    exists (this' : Mesh) (d' : list F),
      thinInstanceAdd fuel this matrix refresh = Some (Normal (index, this'))
      /\ matrixData (_thinInstanceDataStorage this') = Some d'
      /\ (length d <= length d')%nat
      /\ (forall p, p < index * 16 -> p < Z.of_nat (length d) -> getAt d' p = getAt d p)
      /\ (forall p cache cache',
            p < index ->
            worldMatrices storage = Some cache ->
            worldMatrices (_thinInstanceDataStorage this') = Some cache' ->
            cache' !! p = cache !! p)
      /\ _userThinInstanceBuffersStorage this' = _userThinInstanceBuffersStorage this.
Proof.
  cbv zeta. intros Hcaps Hcolor Hd Hsize Hpos Hcount.
  set (index := instancesCount (_thinInstanceDataStorage this)) in *.
  set (numInstances := Z.of_nat (length (matricesOf matrix))).
  set (bufferSize := (index + numInstances) * 16).
  set (currentSize := matrixBufferSize (_thinInstanceDataStorage this)) in *.
  assert (Hcur : 0 < currentSize) by lia.
  assert (Hkind : aliasKind "matrix" = "matrix").
  { unfold aliasKind. destruct (String.eqb_spec "matrix" ColorKind); congruence. }
  set (fuel0 := Z.to_nat (bufferSize - currentSize)).
  destruct (growSize_ends fuel0 currentSize bufferSize Hcur (Nat.le_refl _)) as [r Hr].
  destruct (growSize_doubles _ _ _ _ Hr) as (e & _ & Hle & _).
  exists fuel0. intros fuel Hfuel.
  pose proof (growSize_more_fuel _ _ _ _ _ Hfuel Hr) as Hgrow.
  destruct (growSize_same _ _ _ _ Hcur Hr) as [_ Hge].
  assert (Hlen' : forall d0, bufferOf this (aliasKind "matrix") = Some d0 ->
                             Z.of_nat (length d0) = currentSize).
  { rewrite Hkind. intros d0 Hd0. unfold bufferOf in Hd0. cbn in Hd0. congruence. }
  destruct (updateBufferSize_step fuel this "matrix" numInstances 16 currentSize r)
    as (this1 & Hcall & _ & Hbuf & _ & Hcnt1 & _);
    [rewrite Hkind; reflexivity | lia | rewrite Hkind; reflexivity | exact Hcur
     | exact Hlen' | exact Hgrow |].
  destruct (updateBufferSize_matrix_frame fuel this this1 numInstances Hcolor Hcall)
    as [Huser1 Hcache1].
  destruct (reallocate_grown (bufferOf this (aliasKind "matrix")) currentSize r Hcur Hge Hlen')
    as [_ Hnewlen].
  rewrite Hkind in Hbuf, Hnewlen.
  change (bufferOf this1 "matrix") with (matrixData (_thinInstanceDataStorage this1)) in Hbuf.
  change (bufferOf this "matrix") with (matrixData (_thinInstanceDataStorage this))
    in Hbuf, Hnewlen.
  rewrite Hd in Hbuf, Hnewlen. cbn [grown] in Hbuf, Hnewlen.
  destruct (addEach_writes (matricesOf matrix) this1 0 numInstances refresh _ Hbuf)
    as (d' & Hd' & Hlend' & _ & Hkeep & _).
  { rewrite Hcnt1. exact Hcount. }
  { rewrite Hcnt1, Hnewlen. exact Hle. }
  destruct (addEach_frame (matricesOf matrix) this1 0 numInstances refresh _ Hbuf)
    as (Huser' & Hcache').
  rewrite Hcnt1 in Hkeep, Hcache'. fold index in Hkeep, Hcache'.
  exists (addEach this1 (matricesOf matrix) 0 numInstances refresh), d'.
  split; [|split; [exact Hd' | split; [|split; [|split]]]].
  - unfold thinInstanceAdd. rewrite Hcaps. cbn [negb].
    assert (Hnum : match matrix with
                   | inl _ => 1
                   | inr matrices => Z.of_nat (length matrices)
                   end = numInstances) by (destruct matrix; reflexivity).
    rewrite Hnum, Hcall. destruct matrix as [m|ms].
    + rewrite addEach_single, Hcnt1. reflexivity.
    + rewrite Hcnt1. reflexivity.
  - rewrite Hlend', length_app. lia.
  - intros p Hp Hin. rewrite Hkeep by exact Hp. unfold getAt.
    destruct (Z.leb_spec 0 p); [|reflexivity]. apply lookup_app_l. lia.
  - intros p cache cache' Hp Hc Hc'. apply (Hcache' p cache cache' Hp); [|exact Hc'].
    rewrite Hcache1. exact Hc.
  - rewrite Huser', Huser1. reflexivity.
Qed.

(** ** [thinInstanceSetBuffer] *)

(** X5.  Setting the matrix buffer.  With a stride of at least 16 (16 when
    none is given) that divides the length of the buffer, the buffer becomes
    the matrix data, the cache of world matrices is dropped and the instance
    count times the stride is the length, so that [thinInstanceSetMatrixAt] at
    every index from 0 up to the count writes its sixteen floats inside the
    buffer.  Setting [null] leaves no instance, and [thinInstanceSetMatrixAt]
    then returns false at every index. *)
Theorem thinInstanceSetBuffer_matrix (this : Mesh) (buffer : list F) (stride : Z) :
  let stride' := if stride =? 0 then 16 else stride in
  (16 <= stride' ->
   Z.of_nat (length buffer) mod stride' = 0 ->
   exists this' : Mesh,
     thinInstanceSetBuffer this "matrix" (Some buffer) stride = Some this'
     /\ matrixData (_thinInstanceDataStorage this') = Some buffer
     /\ matrixBufferSize (_thinInstanceDataStorage this') = Z.of_nat (length buffer)
     /\ worldMatrices (_thinInstanceDataStorage this') = None
     /\ get_thinInstanceCount this' * stride' = Z.of_nat (length buffer)
     /\ forall (index : Z) (matrix : Matrix) (refresh : bool),
          0 <= index < get_thinInstanceCount this' ->
          let result := thinInstanceSetMatrixAt this' index matrix refresh in
          fst result = true
          /\ exists after,
               matrixData (_thinInstanceDataStorage (snd result)) = Some after
               /\ writesMatrixAt buffer after (index * 16) matrix)
  /\ exists this0 : Mesh,
       thinInstanceSetBuffer this "matrix" None stride = Some this0
       /\ get_thinInstanceCount this0 = 0
       /\ matrixData (_thinInstanceDataStorage this0) = None
       /\ matrixBufferSize (_thinInstanceDataStorage this0) = 32 * stride'
       /\ forall (index : Z) (matrix : Matrix) (refresh : bool),
            thinInstanceSetMatrixAt this0 index matrix refresh = (false, this0).
Proof.
  intros stride'. split.
  - intros Hstride Hmod. unfold thinInstanceSetBuffer. cbv zeta.
    change (String.eqb "matrix" "matrix") with true. cbn iota. fold stride'.
    destruct (Z.eqb_spec (Z.of_nat (length buffer) mod stride') 0) as [_|Hne];
      [|contradiction].
    eexists. split; [reflexivity|].
    assert (Hcount : Z.of_nat (length buffer) / stride' * stride' = Z.of_nat (length buffer)).
    { pose proof (Z_div_mod_eq_full (Z.of_nat (length buffer)) stride') as Hdiv. lia. }
    assert (Hfields :
      forall m : Mesh,
        _thinInstanceDataStorage
          (if negb (doNotSyncBoundingInfo m) then call RefreshBoundingInfo m else m)
        = _thinInstanceDataStorage m)
      by (intros m; destruct (doNotSyncBoundingInfo m); reflexivity).
    unfold get_thinInstanceCount. rewrite !Hfields. cbn.
    split; [reflexivity | split; [reflexivity | split; [reflexivity | split; [exact Hcount|]]]].
    intros index matrix refresh Hindex.
    match goal with
    | |- context [thinInstanceSetMatrixAt ?m _ _ _] => set (this' := m)
    end.
    assert (Hd : matrixData (_thinInstanceDataStorage this') = Some buffer)
      by (subst this'; destruct (doNotSyncBoundingInfo this); reflexivity).
    assert (Hc : instancesCount (_thinInstanceDataStorage this')
                 = Z.of_nat (length buffer) / stride')
      by (subst this'; destruct (doNotSyncBoundingInfo this); reflexivity).
    destruct (setMatrixAt_succeeds this' index matrix refresh buffer Hd ltac:(lia))
      as (Hr & Hdata & _).
    split; [exact Hr|]. eexists. split; [exact Hdata|].
    apply copyToArray_writes; nia.
  - unfold thinInstanceSetBuffer. cbv zeta.
    change (String.eqb "matrix" "matrix") with true. cbn iota. fold stride'.
    eexists. split; [reflexivity|].
    assert (Hfields :
      forall m : Mesh,
        _thinInstanceDataStorage
          (if negb (doNotSyncBoundingInfo m) then call RefreshMeshBoundingInfo m else m)
        = _thinInstanceDataStorage m)
      by (intros m; destruct (doNotSyncBoundingInfo m); reflexivity).
    unfold get_thinInstanceCount. rewrite !Hfields. cbn.
    split; [reflexivity | split; [reflexivity | split; [reflexivity|]]].
    intros index matrix refresh. apply setMatrixAt_fails. left.
    destruct (doNotSyncBoundingInfo this); reflexivity.
Qed.



(** ** The cache of world matrices *)

Section Cache.

Variable NaN : F.

Local Abbreviation FromArray := (ThinInstance.FromArray NaN).
Local Abbreviation inOrder := (storageInOrder NaN).
Local Abbreviation getWorldMatrices := (thinInstanceGetWorldMatrices NaN).

(** The matrix read at an offset depends on the sixteen elements there. *)
Lemma FromArray_ext (a b : list F) (offset : Z) :
  (forall j, 0 <= j < 16 -> getAt a (offset + j) = getAt b (offset + j)) ->
  FromArray a offset = FromArray b offset.
Proof.
  intros H. unfold ThinInstance.FromArray. f_equal. apply map_ext_in.
  intros i Hi. apply in_seq in Hi. rewrite H by lia. reflexivity.
Qed.

(** Reading back a matrix of sixteen floats that was copied into the array. *)
Lemma FromArray_copyToArray (matrix : Matrix) (array : list F) (offset : Z) :
  length (_m matrix) = 16%nat ->
  0 <= offset ->
  offset + 16 <= Z.of_nat (length array) ->
  FromArray (copyToArray matrix array offset) offset = matrix.
Proof.
  intros Hlen Hlo Hhi. destruct matrix as [l]. cbn [_m] in Hlen.
  unfold ThinInstance.FromArray. f_equal.
  transitivity (map (fun i => nth i l zero) (seq 0 16)).
  - apply map_ext_in. intros i Hi. apply in_seq in Hi.
    rewrite (getAt_copyToArray_inside (mkMatrix l) array offset (Z.of_nat i)) by lia.
    cbn. rewrite Nat2Z.id. reflexivity.
  - do 17 (destruct l as [|? l]; try discriminate Hlen). reflexivity.
Qed.

Lemma buildWorldMatrices_lookup (d : list F) (count i : Z) :
  buildWorldMatrices NaN d count !! i
  = if decide (0 <= i < count) then Some (FromArray d (i * 16)) else None.
Proof.
  unfold buildWorldMatrices.
  assert (H : forall n : nat,
            foldl (fun (worldMatrices : gmap Z Matrix) (i : nat) =>
                     <[Z.of_nat i := FromArray d (Z.of_nat i * 16)]> worldMatrices)
                  ∅ (seq 0 n) !! i
            = if decide (0 <= i < Z.of_nat n) then Some (FromArray d (i * 16)) else None).
  { induction n as [|n IH].
    - cbn. rewrite lookup_empty. destruct (decide _); [lia | reflexivity].
    - rewrite seq_S, foldl_app. cbn [foldl Nat.add].
      destruct (decide (i = Z.of_nat n)) as [->|Hne].
      + clear IH. rewrite lookup_insert_eq. destruct (decide _); [reflexivity | lia].
      + rewrite lookup_insert_ne by congruence. rewrite IH.
        destruct (decide _), (decide _); (reflexivity || lia). }
  rewrite H. destruct (decide _), (decide _); (reflexivity || lia).
Qed.

Lemma getWorldMatrices_inOrder (this : Mesh) (matrixBuffer : bool) :
  inOrder this -> inOrder (snd (getWorldMatrices this matrixBuffer)).
Proof.
  intros Hinv. unfold thinInstanceGetWorldMatrices.
  destruct (matrixData (_thinInstanceDataStorage this)) as [d|] eqn:Hd; [|exact Hinv].
  destruct matrixBuffer; [|exact Hinv]. cbn [negb snd].
  destruct (worldMatrices (_thinInstanceDataStorage this)) as [cache|] eqn:Hc;
    cbn [isSet negb]; [exact Hinv|].
  destruct Hinv as (Hcount & Hsize & Hdata). rewrite Hd in Hdata.
  destruct Hdata as (Hlen & Hcap & _).
  unfold storageInOrder. cbn. rewrite Hd. repeat split; try assumption.
  intros cache Hcache i Hi. injection Hcache as <-.
  rewrite buildWorldMatrices_lookup. destruct (decide _); [reflexivity | lia].
Qed.

Lemma getWorldMatrices_result (this : Mesh) (d : list F) :
  inOrder this ->
  matrixData (_thinInstanceDataStorage this) = Some d ->
  forall i, 0 <= i < instancesCount (_thinInstanceDataStorage this) ->
    fst (getWorldMatrices this true) !! i = Some (FromArray d (i * 16)).
Proof.
  intros Hinv Hd i Hi. pose proof (getWorldMatrices_inOrder this true Hinv) as Hinv'.
  unfold thinInstanceGetWorldMatrices in *. rewrite Hd in *. cbn [negb fst snd] in *.
  destruct (worldMatrices (_thinInstanceDataStorage this)) as [cache|] eqn:Hc;
    cbn [isSet negb] in *.
  - rewrite Hc. cbn. destruct Hinv as (_ & _ & Hdata). rewrite Hd in Hdata.
    apply Hdata; [exact Hc | exact Hi].
  - cbn. rewrite buildWorldMatrices_lookup. destruct (decide _); [reflexivity | lia].
Qed.

Lemma setMatrixAt_inOrder (this : Mesh) (index : Z) (matrix : Matrix) (refresh : bool) :
  length (_m matrix) = 16%nat ->
  inOrder this -> inOrder (snd (thinInstanceSetMatrixAt this index matrix refresh)).
Proof.
  intros Hm Hinv.
  destruct (matrixData (_thinInstanceDataStorage this)) as [d|] eqn:Hd;
    [|rewrite setMatrixAt_fails by (left; exact Hd); exact Hinv].
  destruct (Z.le_gt_cases (instancesCount (_thinInstanceDataStorage this)) index) as [Hge|Hlt];
    [rewrite setMatrixAt_fails by (right; exact Hge); exact Hinv|].
  destruct (setMatrixAt_succeeds this index matrix refresh d Hd Hlt)
    as (_ & Hdata & Hcache & Hcnt & Hsz & _).
  destruct Hinv as (Hcount & Hsize & Hin). rewrite Hd in Hin.
  destruct Hin as (Hlen & Hcap & Hcoh).
  unfold storageInOrder. cbv zeta. rewrite Hdata, Hcnt, Hsz, length_copyToArray.
  split; [exact Hcount | split; [exact Hsize | split; [exact Hlen | split; [exact Hcap|]]]].
  intros cache' Hc' i Hi. rewrite Hc' in Hcache.
  destruct (worldMatrices (_thinInstanceDataStorage this)) as [cache|] eqn:Hc;
    [|discriminate]. cbn in Hcache. injection Hcache as ->.
  destruct (decide (i = index)) as [->|Hne].
  - rewrite lookup_insert_eq. f_equal. symmetry. apply FromArray_copyToArray; [exact Hm|lia|lia].
  - rewrite lookup_insert_ne by congruence. rewrite (Hcoh cache eq_refl i Hi). f_equal.
    apply FromArray_ext. intros j Hj. symmetry. apply getAt_copyToArray_outside. lia.
Qed.

(** The loop of [thinInstanceAdd] on a buffer that has room. *)
Lemma addEach_coherent (matrices : list Matrix) :
  forall (this : Mesh) (i len : Z) (refresh : bool) (d : list F),
  matrixData (_thinInstanceDataStorage this) = Some d ->
  0 <= instancesCount (_thinInstanceDataStorage this) ->
  (instancesCount (_thinInstanceDataStorage this) + Z.of_nat (length matrices)) * 16
    <= Z.of_nat (length d) ->
  (forall m, In m matrices -> length (_m m) = 16%nat) ->
  (forall cache, worldMatrices (_thinInstanceDataStorage this) = Some cache ->
     forall p, 0 <= p < instancesCount (_thinInstanceDataStorage this) ->
       cache !! p = Some (FromArray d (p * 16))) ->
  let storage' := _thinInstanceDataStorage (addEach this matrices i len refresh) in
  exists d',
    matrixData storage' = Some d'
    /\ length d' = length d
    /\ instancesCount storage'
       = instancesCount (_thinInstanceDataStorage this) + Z.of_nat (length matrices)
    /\ matrixBufferSize storage' = matrixBufferSize (_thinInstanceDataStorage this)
    /\ forall cache', worldMatrices storage' = Some cache' ->
         forall p, 0 <= p < instancesCount storage' ->
           cache' !! p = Some (FromArray d' (p * 16)).
Proof.
  induction matrices as [|matrix rest IH];
    intros this i len refresh d Hd Hcount Hcap Hms Hcoh; cbv zeta.
  - exists d. cbn. rewrite Z.add_0_r. repeat split; [exact Hd | exact Hcoh].
  - cbn [addEach].
    set (index := instancesCount (_thinInstanceDataStorage this)) in *.
    set (this1 := update (set_instancesCount (index + 1)) this).
    assert (Hd1 : matrixData (_thinInstanceDataStorage this1) = Some d) by exact Hd.
    assert (Hlt : index < instancesCount (_thinInstanceDataStorage this1)) by (cbn; lia).
    destruct (setMatrixAt_succeeds this1 index matrix ((i =? len - 1) && refresh) d Hd1 Hlt)
      as (_ & Hdata & Hcache & Hcnt & Hsz & _).
    destruct (thinInstanceSetMatrixAt this1 index matrix ((i =? len - 1) && refresh))
      as [ok this2]. cbn [fst snd] in Hdata, Hcache, Hcnt, Hsz.
    change (instancesCount (_thinInstanceDataStorage this1)) with (index + 1) in Hcnt.
    change (worldMatrices (_thinInstanceDataStorage this1))
      with (worldMatrices (_thinInstanceDataStorage this)) in Hcache.
    change (matrixBufferSize (_thinInstanceDataStorage this1))
      with (matrixBufferSize (_thinInstanceDataStorage this)) in Hsz.
    cbn [length] in Hcap. rewrite Nat2Z.inj_succ in Hcap.
    assert (Hm : length (_m matrix) = 16%nat) by (apply Hms; now left).
    destruct (IH this2 (i + 1) len refresh _ Hdata) as (d' & Hd' & Hlen & Hc' & Hsz' & Hcoh').
    + lia.
    + rewrite length_copyToArray, Hcnt. lia.
    + intros m Hin. apply Hms. now right.
    + intros cache' Hcache' p Hp. rewrite Hcache' in Hcache. rewrite Hcnt in Hp.
      destruct (worldMatrices (_thinInstanceDataStorage this)) as [cache|] eqn:Hc;
        [|discriminate]. cbn in Hcache. injection Hcache as ->.
      destruct (decide (p = index)) as [->|Hne].
      * rewrite lookup_insert_eq. f_equal. symmetry.
        apply FromArray_copyToArray; [exact Hm | lia | lia].
      * rewrite lookup_insert_ne by congruence.
        rewrite (Hcoh cache eq_refl p ltac:(lia)). f_equal.
        apply FromArray_ext. intros j Hj. symmetry. apply getAt_copyToArray_outside. lia.
    + exists d'. rewrite length_copyToArray in Hlen. rewrite Hcnt in Hc'.
      split; [exact Hd' | split; [exact Hlen | split; [|split; [congruence | exact Hcoh']]]].
      cbn [length]. lia.
Qed.

Lemma thinInstanceAdd_inOrder (this : Mesh) (matrix : Matrix + list Matrix)
    (refresh : bool) :
  ColorKind <> "matrix" ->
  (forall m, In m (matricesOf matrix) -> length (_m m) = 16%nat) ->
  inOrder this ->
  exists fuel0 : nat, forall fuel, (fuel0 <= fuel)%nat ->
    exists (r : Z) (this' : Mesh),
      thinInstanceAdd fuel this matrix refresh = Some (Normal (r, this'))
      /\ inOrder this'.
Proof.
  intros Hcolor Hms Hinv.
  destruct (instancedArrays this) eqn:Hcaps.
  2:{ exists 0%nat. intros fuel _. unfold thinInstanceAdd. rewrite Hcaps. cbn [negb].
      do 2 eexists. split; [reflexivity | exact Hinv]. }
  destruct Hinv as (Hcount & Hsize & Hin).
  set (index := instancesCount (_thinInstanceDataStorage this)) in *.
  set (numInstances := Z.of_nat (length (matricesOf matrix))).
  set (bufferSize := (index + numInstances) * 16).
  set (currentSize := matrixBufferSize (_thinInstanceDataStorage this)) in *.
  assert (Hkind : aliasKind "matrix" = "matrix").
  { unfold aliasKind. destruct (String.eqb_spec "matrix" ColorKind); congruence. }
  set (fuel0 := Z.to_nat (bufferSize - currentSize)).
  destruct (growSize_ends fuel0 currentSize bufferSize Hsize (Nat.le_refl _)) as [r Hr].
  destruct (growSize_doubles _ _ _ _ Hr) as (e & _ & Hle & _).
  exists fuel0. intros fuel Hfuel.
  pose proof (growSize_more_fuel _ _ _ _ _ Hfuel Hr) as Hgrow.
  destruct (growSize_same _ _ _ _ Hsize Hr) as [_ Hge].
  assert (Hlen' : forall d0, bufferOf this (aliasKind "matrix") = Some d0 ->
                             Z.of_nat (length d0) = currentSize).
  { rewrite Hkind. intros d0 Hd0. unfold bufferOf in Hd0. cbn in Hd0.
    rewrite Hd0 in Hin. apply Hin. }
  destruct (updateBufferSize_step fuel this "matrix" numInstances 16 currentSize r)
    as (this1 & Hcall & _ & Hbuf & Hsz1 & Hcnt1 & _);
    [rewrite Hkind; reflexivity | lia | rewrite Hkind; reflexivity | exact Hsize
     | exact Hlen' | exact Hgrow |].
  destruct (updateBufferSize_matrix_frame fuel this this1 numInstances Hcolor Hcall)
    as [_ Hcache1].
  destruct (reallocate_grown (bufferOf this (aliasKind "matrix")) currentSize r Hsize Hge Hlen')
    as [_ Hnewlen].
  rewrite Hkind in Hbuf, Hnewlen, Hsz1.
  change (bufferOf this1 "matrix") with (matrixData (_thinInstanceDataStorage this1)) in Hbuf.
  change (bufferOf this "matrix") with (matrixData (_thinInstanceDataStorage this))
    in Hbuf, Hnewlen.
  change (sizeOf this1 "matrix") with (Some (matrixBufferSize (_thinInstanceDataStorage this1)))
    in Hsz1.
  injection Hsz1 as Hsz1.
  destruct (addEach_coherent (matricesOf matrix) this1 0 numInstances refresh _ Hbuf)
    as (d' & Hd' & Hlend' & Hc' & Hsz' & Hcoh').
  { rewrite Hcnt1. exact Hcount. }
  { rewrite Hcnt1, Hnewlen. exact Hle. }
  { exact Hms. }
  { intros cache Hc p Hp. rewrite Hcache1 in Hc. rewrite Hcnt1 in Hp. fold index in Hp.
    destruct (matrixData (_thinInstanceDataStorage this)) as [d|] eqn:Hd;
      [|rewrite Hin in Hc; discriminate].
    destruct Hin as (Hlen & Hcap & Hcoh). rewrite (Hcoh cache Hc p Hp). f_equal.
    apply FromArray_ext. intros j Hj. cbn [grown]. unfold getAt.
    destruct (Z.leb_spec 0 (p * 16 + j)); [|lia]. symmetry. apply lookup_app_l. lia. }
  exists index, (addEach this1 (matricesOf matrix) 0 numInstances refresh). split.
  - unfold thinInstanceAdd. rewrite Hcaps. cbn [negb].
    assert (Hnum : match matrix with
                   | inl _ => 1
                   | inr matrices => Z.of_nat (length matrices)
                   end = numInstances) by (destruct matrix; reflexivity).
    rewrite Hnum, Hcall. destruct matrix as [m|ms].
    + rewrite addEach_single, Hcnt1. reflexivity.
    + rewrite Hcnt1. reflexivity.
  - unfold storageInOrder. cbv zeta. rewrite Hd', Hc', Hsz', Hsz1, Hcnt1. fold index.
    assert (Hr0 : 0 < r) by lia.
    split; [lia | split; [exact Hr0 | split; [|split]]].
    + rewrite Hlend'. exact Hnewlen.
    + rewrite Hlend', Hnewlen. exact Hle.
    + intros cache' Hcache' p Hp. apply (Hcoh' cache' Hcache').
      rewrite Hc', Hcnt1. exact Hp.
Qed.

Lemma set_thinInstanceCount_inOrder (this : Mesh) (value : Z) :
  0 <= value <= instancesCount (_thinInstanceDataStorage this) ->
  inOrder this -> inOrder (set_thinInstanceCount this value).
Proof.
  intros Hvalue Hinv. rewrite set_thinInstanceCount_cases.
  destruct (_ <=? _); [|exact Hinv].
  destruct Hinv as (Hcount & Hsize & Hin). unfold storageInOrder. cbn.
  split; [lia | split; [exact Hsize|]].
  destruct (matrixData (_thinInstanceDataStorage this)) as [d|]; [|exact Hin].
  destruct Hin as (Hlen & Hcap & Hcoh).
  split; [exact Hlen | split; [lia|]].
  intros cache Hc i Hi. apply (Hcoh cache Hc). lia.
Qed.

(** X8.  The storage stays in order.  A storage in order (count not negative,
    positive buffer size equal to the length of the matrix data, every counted
    instance inside the data, cache equal to the matrices of the data when it
    exists) is still in order after [thinInstanceGetWorldMatrices], after
    [thinInstanceSetMatrixAt] with a matrix of sixteen floats at any index,
    after [thinInstanceAdd] of matrices of sixteen floats, which returns, and
    after the [thinInstanceCount] setter lowers the count. *)
Theorem storage_stays_in_order (this : Mesh) :
  inOrder this ->
  (forall matrixBuffer, inOrder (snd (getWorldMatrices this matrixBuffer)))
  /\ (forall index matrix refresh,
        length (_m matrix) = 16%nat ->
        inOrder (snd (thinInstanceSetMatrixAt this index matrix refresh)))
  /\ (forall matrix refresh,
        ColorKind <> "matrix" ->
        (forall m, In m (matricesOf matrix) -> length (_m m) = 16%nat) ->
        exists fuel0 : nat, forall fuel, (fuel0 <= fuel)%nat ->
          exists (r : Z) (this' : Mesh),
            thinInstanceAdd fuel this matrix refresh = Some (Normal (r, this'))
            /\ inOrder this')
  /\ (forall value,
        0 <= value <= instancesCount (_thinInstanceDataStorage this) ->
        inOrder (set_thinInstanceCount this value)).
Proof.
  intros Hinv. split; [|split; [|split]].
  - intros matrixBuffer. apply getWorldMatrices_inOrder. exact Hinv.
  - intros index matrix refresh Hm. apply setMatrixAt_inOrder; assumption.
  - intros matrix refresh Hcolor Hms. apply thinInstanceAdd_inOrder; assumption.
  - intros value Hvalue. apply set_thinInstanceCount_inOrder; assumption.
Qed.

(** X9.  What [thinInstanceGetWorldMatrices] returns.  Without matrix data or
    without the GPU buffer it returns an empty array and changes nothing.
    Otherwise, on a storage in order, the array holds at every index from 0 up
    to the count the matrix made of the sixteen floats of that instance,
    whether the cache existed or was computed by the call; the storage then
    has a cache, and a second call returns the same array and changes nothing
    more. *)
Theorem thinInstanceGetWorldMatrices_returns (this : Mesh) :
  (matrixData (_thinInstanceDataStorage this) = None ->
   forall matrixBuffer, getWorldMatrices this matrixBuffer = (∅, this))
  /\ getWorldMatrices this false = (∅, this)
  /\ (inOrder this ->
      forall d, matrixData (_thinInstanceDataStorage this) = Some d ->
        let result := getWorldMatrices this true in
        (forall i, 0 <= i < instancesCount (_thinInstanceDataStorage this) ->
           fst result !! i = Some (FromArray d (i * 16)))
        /\ worldMatrices (_thinInstanceDataStorage (snd result)) = Some (fst result)
        /\ getWorldMatrices (snd result) true = result).
Proof.
  split; [|split].
  - intros Hd matrixBuffer. unfold thinInstanceGetWorldMatrices. rewrite Hd. reflexivity.
  - unfold thinInstanceGetWorldMatrices.
    destruct (matrixData (_thinInstanceDataStorage this)); reflexivity.
  - intros Hinv d Hd. cbv zeta. split; [apply getWorldMatrices_result; assumption|].
    unfold thinInstanceGetWorldMatrices. rewrite Hd. cbn [negb].
    destruct (worldMatrices (_thinInstanceDataStorage this)) as [cache|] eqn:Hc;
      cbn [isSet negb fst snd].
    + rewrite Hc, Hd. cbn [negb default from_option Datatypes.id isSet]. rewrite Hc.
      split; reflexivity.
    + cbn. rewrite Hd. cbn. split; reflexivity.
Qed.

End Cache.

End Properties.

(** ** The theorems on a concrete mesh *)

Section Examples.

#[local] Existing Instances float32_Z exampleKinds.

Example negativeCountMesh_count :
  instancesCount (_thinInstanceDataStorage negativeCountMesh) = -1.
Proof. reflexivity. Qed.

Example emptyBufferMesh_reached :
  _thinInstanceDataStorage <$> thinInstanceSetBuffer exampleMesh "matrix" (Some []) 0
  = Some (_thinInstanceDataStorage emptyBufferMesh).
Proof. reflexivity. Qed.

Example overcountedMesh_reached :
  _thinInstanceDataStorage <$> thinInstanceSetBuffer exampleMesh "matrix" (Some zeros) 8
  = Some (_thinInstanceDataStorage overcountedMesh).
Proof. reflexivity. Qed.

Example thinInstanceAdd_example :
  (fun r => (fst r, matrixData (_thinInstanceDataStorage (snd r))))
    <$> (thinInstanceAdd 10 exampleMesh (inl ones) true ≫= fun c =>
         match c with Normal r => Some r | Throw _ => None end)
  = Some (1, Some (zeros ++ replicate 16 1)).
Proof. reflexivity. Qed.

(** C10 as stated fails.  With one instance, index -1 passes the bound test:
    the call returns true and the sixteen writes fall before the start of
    the array.  With two instances counted in a buffer of sixteen floats,
    index 1 passes the test as well and the writes fall past its end. *)
Lemma thinInstanceSetMatrixAt_not_for_every_index :
  (thinInstanceSetMatrixAt exampleMesh (-1) ones false = (true, exampleMesh)
   /\ ~ setMatrixAt_as_specified exampleMesh (-1) ones false)
  /\ (thinInstanceSetMatrixAt overcountedMesh 1 ones false = (true, overcountedMesh)
      /\ ~ setMatrixAt_as_specified overcountedMesh 1 ones false).
Proof.
  split; (split; [reflexivity|]); unfold setMatrixAt_as_specified; cbn;
    intros (_ & (after & Hafter & _ & Hwrite & _) & _);
    specialize (Hwrite 0 ltac:(lia)).
  - discriminate Hwrite.
  - injection Hafter as <-. discriminate Hwrite.
Qed.

Lemma thinInstanceSetMatrixAt_in_range_witness :
  thinInstanceSetMatrixAt exampleMesh 5 ones true = (false, exampleMesh)
  /\ exists after,
       matrixData (_thinInstanceDataStorage
                     (snd (thinInstanceSetMatrixAt exampleMesh 0 ones true))) = Some after
       /\ writesMatrixAt zeros after (0 * 16) ones.
Proof.
  split.
  - apply (thinInstanceSetMatrixAt_in_range exampleMesh 5 ones true).
    right. cbn. lia.
  - destruct (thinInstanceSetMatrixAt_in_range exampleMesh 0 ones true) as [_ H].
    destruct (H zeros eq_refl ltac:(cbn; lia)) as (_ & _ & _ & Hwrite).
    apply Hwrite; cbn; lia.
Defined.

Lemma thinInstanceCount_within_capacity_witness :
  set_thinInstanceCount exampleMesh 1 = update (set_instancesCount 1) exampleMesh
  /\ get_thinInstanceCount (set_thinInstanceCount exampleMesh 1) = 1.
Proof.
  apply (thinInstanceCount_within_capacity exampleMesh 1). cbn. lia.
Defined.

Lemma updateBufferSize_grows_geometrically_witness :
  exists (n fuel0 : nat),
    let newSize := 16 * 2 ^ Z.of_nat n in
    (1 + 3) * 16 <= newSize
    /\ (forall m : nat, (m < n)%nat -> 16 * 2 ^ Z.of_nat m < (1 + 3) * 16)
    /\ forall fuel, (fuel0 <= fuel)%nat ->
       exists this',
         _thinInstanceUpdateBufferSize fuel exampleMesh "matrix" 3
           = Some (Normal this')
         /\ sizeOf this' "matrix" = Some newSize
         /\ if decide (n = 0%nat) then this' = exampleMesh
            else bufferOf this' "matrix"
                 = Some (zeros ++ replicate (Z.to_nat (newSize - 16)) 0).
Proof.
  refine (proj1 (updateBufferSize_grows_geometrically exampleMesh "matrix" 3) 16 16 _ _ _ _ _).
  - reflexivity.
  - lia.
  - reflexivity.
  - lia.
  - intros d Hd. injection Hd as <-. reflexivity.
Defined.

(** After [thinInstanceCount = -1] the call returns -1, the count held
    before, and the matrix is written before the start of the array, that
    is, nowhere. *)
Lemma thinInstanceAdd_negative_count (fuel : nat) :
  thinInstanceAdd fuel negativeCountMesh (inl ones) false
  = Some (Normal (-1, set_thinInstanceCount exampleMesh 0)).
Proof. destruct fuel; reflexivity. Qed.

(** On a mesh whose matrix buffer is empty the doubling loop starts from
    zero and [thinInstanceAdd] never returns, whatever the fuel. *)
Lemma thinInstanceAdd_empty_buffer_never_returns (fuel : nat) :
  thinInstanceAdd fuel emptyBufferMesh (inl ones) true = None.
Proof.
  unfold thinInstanceAdd, _thinInstanceUpdateBufferSize. cbn.
  rewrite growSize_diverges by lia. reflexivity.
Qed.

(** C4 as stated fails on both meshes, whose engine supports instanced
    arrays. *)
Lemma thinInstanceAdd_not_for_every_mesh :
  (instancedArrays negativeCountMesh = true
   /\ ~ add_as_specified negativeCountMesh (inl ones) false)
  /\ (instancedArrays emptyBufferMesh = true
      /\ ~ add_as_specified emptyBufferMesh (inl ones) true).
Proof.
  split; (split; [reflexivity|]); intros (fuel & this' & d' & Hcall & _ & Hdata & Hwrite).
  - rewrite thinInstanceAdd_negative_count in Hcall. injection Hcall as <-.
    specialize (Hwrite 0%nat ones 0 eq_refl ltac:(lia)).
    cbn in Hwrite. discriminate Hwrite.
  - rewrite thinInstanceAdd_empty_buffer_never_returns in Hcall. discriminate Hcall.
Qed.

Lemma thinInstanceAdd_appends_witness :
  exists fuel0 : nat, forall fuel, (fuel0 <= fuel)%nat ->
    exists (this' : Mesh) (d' : list Z),
      thinInstanceAdd fuel exampleMesh (inr [ones; ones]) true
      = Some (Normal (1, this'))
      /\ instancesCount (_thinInstanceDataStorage this') = 1 + 2
      /\ matrixData (_thinInstanceDataStorage this') = Some d'
      /\ forall (i : nat) (m : Matrix) (j : Z),
           [ones; ones] !! i = Some m -> 0 <= j < 16 ->
           getAt d' ((1 + Z.of_nat i) * 16 + j) = Some (nth (Z.to_nat j) (_m m) 0).
Proof.
  refine (proj2 (thinInstanceAdd_appends exampleMesh (inr [ones; ones]) true) _ _ _ _ _).
  - reflexivity.
  - discriminate.
  - cbn. lia.
  - cbn. lia.
  - intros d Hd. injection Hd as <-. reflexivity.
Defined.

Example colouredMesh_reached :
  thinInstanceRegisterAttribute exampleMesh "color" 4 = Normal colouredMesh.
Proof. reflexivity. Qed.

Lemma thinInstanceSetAttributeAt_stores_witness :
  exists fuel0 : nat, forall fuel, (fuel0 <= fuel)%nat ->
    exists (this' : Mesh) (after : list Z),
      thinInstanceSetAttributeAt fuel colouredMesh "color" 0 [1; 2; 3; 4] true
        = Some (Normal (true, this'))
      /\ bufferOf this' "instanceColor" = Some after
      /\ 1 * 4 <= Z.of_nat (length after)
      /\ (forall j : nat, (j < 4)%nat -> getAt after (0 * 4 + Z.of_nat j) = [1; 2; 3; 4] !! j)
      /\ (forall p, p < 128 -> p < 0 * 4 \/ 0 * 4 + 4 <= p ->
            getAt after p = getAt (replicate 128 0) p)
      /\ (forall k', k' <> "instanceColor" -> k' <> "matrix" ->
            bufferOf this' k' = bufferOf colouredMesh k')
      /\ _thinInstanceDataStorage this' = _thinInstanceDataStorage colouredMesh.
Proof.
  refine (thinInstanceSetAttributeAt_stores colouredMesh "color" 0 [1; 2; 3; 4] true
            (replicate 128 0) 4 _ _ _ _ _ _ _ _).
  - discriminate.
  - reflexivity.
  - reflexivity.
  - reflexivity.
  - cbn. lia.
  - lia.
  - cbn. lia.
  - cbn. lia.
Defined.

Lemma thinInstanceSetAttributeAt_refuses_witness :
  (forall fuel,
     thinInstanceSetAttributeAt fuel colouredMesh "color" 5 [1] true
       = Some (Normal (false, colouredMesh)))
  /\ (forall fuel,
        thinInstanceSetAttributeAt fuel colouredMesh "normal" 0 [1] true
          = Some (Normal (false, colouredMesh)))
  /\ (forall fuel,
        thinInstanceSetAttributeAt fuel colouredMesh "toString" 0 [1] true
          = Some (Throw TypeError))
  /\ exists fuel0 : nat, forall fuel, (fuel0 <= fuel)%nat ->
       thinInstanceSetAttributeAt fuel colouredMesh "color" (-1) [1] true
         = Some (Throw "RangeError").
Proof.
  split; [|split; [|split]].
  - apply (proj1 (thinInstanceSetAttributeAt_refuses colouredMesh "color" 5 [1] true)).
    + discriminate.
    + right. right. cbn. lia.
  - apply (proj1 (thinInstanceSetAttributeAt_refuses colouredMesh "normal" 0 [1] true)).
    + discriminate.
    + right. left. split; reflexivity.
  - apply (proj1 (proj2 (thinInstanceSetAttributeAt_refuses colouredMesh "toString" 0 [1]
                           true))).
    + discriminate.
    + reflexivity.
    + discriminate.
    + reflexivity.
    + reflexivity.
    + cbn. lia.
  - apply (proj2 (proj2 (thinInstanceSetAttributeAt_refuses colouredMesh "color" (-1) [1]
                           true))
             (replicate 128 0) 4).
    + discriminate.
    + reflexivity.
    + reflexivity.
    + reflexivity.
    + cbn. lia.
    + lia.
    + lia.
    + cbn. lia.
Defined.


Lemma thinInstanceAdd_keeps_earlier_instances_witness :
  exists fuel0 : nat, forall fuel, (fuel0 <= fuel)%nat ->
    exists (this' : Mesh) (d' : list Z),
      thinInstanceAdd fuel exampleMesh (inr [ones; ones]) true = Some (Normal (1, this'))
      /\ matrixData (_thinInstanceDataStorage this') = Some d'
      /\ (16 <= length d')%nat
      /\ (forall p, p < 1 * 16 -> p < 16 -> getAt d' p = getAt zeros p)
      /\ _userThinInstanceBuffersStorage this' = None.
Proof.
  destruct (thinInstanceAdd_keeps_earlier_instances exampleMesh (inr [ones; ones]) true zeros)
    as [fuel0 H]; [reflexivity | discriminate | reflexivity | reflexivity | cbn; lia
                   | cbn; lia |].
  exists fuel0. intros fuel Hfuel.
  destruct (H fuel Hfuel) as (this' & d' & H1 & H2 & H3 & H4 & _ & H6).
  exists this', d'. repeat split; assumption.
Defined.

Lemma thinInstanceSetBuffer_matrix_witness :
  exists this' : Mesh,
    thinInstanceSetBuffer exampleMesh "matrix" (Some (zeros ++ zeros)) 0 = Some this'
    /\ get_thinInstanceCount this' * 16 = 32
    /\ forall (index : Z) (matrix : Matrix) (refresh : bool),
         0 <= index < get_thinInstanceCount this' ->
         exists after,
           matrixData (_thinInstanceDataStorage
                         (snd (thinInstanceSetMatrixAt this' index matrix refresh)))
             = Some after
           /\ writesMatrixAt (zeros ++ zeros) after (index * 16) matrix.
Proof.
  destruct (proj1 (thinInstanceSetBuffer_matrix exampleMesh (zeros ++ zeros) 0))
    as (this' & Hcall & _ & _ & _ & Hcount & Hset); [cbn; lia | reflexivity |].
  exists this'. split; [exact Hcall | split; [exact Hcount|]].
  intros index matrix refresh Hindex.
  destruct (Hset index matrix refresh Hindex) as [_ Hafter]. exact Hafter.
Defined.



Lemma exampleMesh_inOrder : storageInOrder 0 exampleMesh.
Proof.
  unfold storageInOrder. cbn. repeat split; try lia. intros cache H. discriminate H.
Qed.

Lemma storage_stays_in_order_witness :
  storageInOrder 0 (snd (thinInstanceGetWorldMatrices 0 exampleMesh true))
  /\ storageInOrder 0 (snd (thinInstanceSetMatrixAt exampleMesh 0 ones true))
  /\ (exists fuel0 : nat, forall fuel, (fuel0 <= fuel)%nat ->
        exists (r : Z) (this' : Mesh),
          thinInstanceAdd fuel exampleMesh (inl ones) true = Some (Normal (r, this'))
          /\ storageInOrder 0 this')
  /\ storageInOrder 0 (set_thinInstanceCount exampleMesh 0).
Proof.
  destruct (storage_stays_in_order 0 exampleMesh exampleMesh_inOrder)
    as (Hget & Hset & Hadd & Hcount).
  split; [apply Hget | split; [apply Hset; reflexivity | split; [|apply Hcount; cbn; lia]]].
  apply Hadd; [discriminate|]. intros m [<-|[]]. reflexivity.
Defined.

Lemma thinInstanceGetWorldMatrices_returns_witness :
  fst (thinInstanceGetWorldMatrices 0 exampleMesh true) !! 0
  = Some (FromArray 0 zeros (0 * 16))
  /\ thinInstanceGetWorldMatrices 0 exampleMesh false = (∅, exampleMesh).
Proof.
  destruct (thinInstanceGetWorldMatrices_returns 0 exampleMesh) as (_ & Hno & Hyes).
  split; [|exact Hno].
  destruct (Hyes exampleMesh_inOrder zeros eq_refl) as (Hat & _).
  apply Hat. cbn. lia.
Defined.

End Examples.

End ThinInstanceFacts.

(* ===================================================================== *)
(** * Properties of WebXR hand tracking *)
(* ===================================================================== *)

Module HandTrackingFacts.
Import HandTracking.

(** ** Dictionaries *)

Lemma lookup_assign_eq (key : string) (v : WebXRHand) (d : Dictionary) :
  lookup key (assign key v d) = Some v.
Proof.
  induction d as [|[k w] d IH]; cbn.
  - rewrite String.eqb_refl. reflexivity.
  - destruct (String.eqb k key) eqn:E; cbn; rewrite E; [reflexivity | exact IH].
Qed.

Lemma lookup_assign_ne (key key' : string) (v : WebXRHand) (d : Dictionary) :
  key <> key' -> lookup key' (assign key v d) = lookup key' d.
Proof.
  intros Hne. induction d as [|[k w] d IH]; cbn.
  - destruct (String.eqb_spec key key'); [contradiction | reflexivity].
  - destruct (String.eqb_spec k key) as [->|Hk]; cbn.
    + destruct (String.eqb_spec key key'); [contradiction | reflexivity].
    + destruct (String.eqb k key'); [reflexivity | exact IH].
Qed.

Lemma lookup_remove_eq (key : string) (d : Dictionary) : lookup key (remove key d) = None.
Proof.
  induction d as [|[k w] d IH]; cbn; [reflexivity|].
  destruct (String.eqb k key) eqn:E; cbn; [exact IH | rewrite E; exact IH].
Qed.

Lemma lookup_remove_ne (key key' : string) (d : Dictionary) :
  key <> key' -> lookup key' (remove key d) = lookup key' d.
Proof.
  intros Hne. induction d as [|[k w] d IH]; cbn; [reflexivity|].
  destruct (String.eqb_spec k key) as [->|Hk]; cbn.
  - destruct (String.eqb_spec key key'); [contradiction | exact IH].
  - destruct (String.eqb k key'); [reflexivity | exact IH].
Qed.

Lemma lookup_keys (key : string) (d : Dictionary) :
  In key (keys d) <-> lookup key d <> None.
Proof.
  induction d as [|[k w] d IH]; cbn; [tauto|].
  destruct (String.eqb_spec k key) as [->|Hk].
  - split; [discriminate | auto].
  - rewrite <- IH. tauto.
Qed.


Lemma tracked_track_eq (h : XRHandedness) (v : option WebXRHand) (t : TrackingHands) :
  h <> handNone -> tracked h (track h v t) = v.
Proof. destruct h; [contradiction | reflexivity | reflexivity]. Qed.

Lemma tracked_track_ne (h h' : XRHandedness) (v : option WebXRHand) (t : TrackingHands) :
  h <> h' -> tracked h' (track h v t) = tracked h' t.
Proof. destruct h, h', t; cbn; congruence. Qed.

(** ** [_attachHand] *)

Lemma eligible_handedness (c : WebXRInputSource) :
  eligible c = true -> handedness (inputSource c) <> handNone.
Proof.
  unfold eligible. intros H Hn. rewrite Hn in H. cbn in H.
  rewrite andb_false_r in H. discriminate.
Qed.

Lemma attachHand_eligible (this : WebXRHandTracking) (c : WebXRInputSource)
    (joints : Resource) :
  jointMeshes (_handResources this) = Some joints ->
  eligible c = true ->
  _attachHand this c =
  emit (HandAdded (newHand this c))
    (set__trackingHands
       (track (handedness (inputSource c)) (Some (newHand this c)) (_trackingHands this))
       (set__attachedHands (assign (uniqueId c) (newHand this c) (_attachedHands this))
          (set_constructed (S (constructed this)) this))).
Proof.
  intros Hj He. unfold _attachHand. rewrite Hj. unfold eligible in He.
  apply andb_true_iff in He as [Hh Hn]. rewrite Hh. apply negb_true_iff in Hn.
  rewrite Hn. reflexivity.
Qed.

Lemma attachHand_ineligible (this : WebXRHandTracking) (c : WebXRInputSource) :
  eligible c = false -> _attachHand this c = this.
Proof.
  intros He. unfold _attachHand, eligible in *.
  destruct (jointMeshes (_handResources this)); [|reflexivity].
  destruct (hand (inputSource c)); cbn in *; [|reflexivity].
  apply negb_false_iff in He. rewrite He. reflexivity.
Qed.

Lemma attachHand_without_joints (this : WebXRHandTracking) (c : WebXRInputSource) :
  jointMeshes (_handResources this) = None -> _attachHand this c = this.
Proof. intros Hj. unfold _attachHand. rewrite Hj. reflexivity. Qed.

Lemma attachHand_resources (this : WebXRHandTracking) (c : WebXRInputSource) :
  _handResources (_attachHand this c) = _handResources this
  /\ options (_attachHand this c) = options this
  /\ attachObservers (_attachHand this c) = attachObservers this
  /\ defaultMeshesRequested (_attachHand this c) = defaultMeshesRequested this.
Proof.
  unfold _attachHand. destruct (jointMeshes (_handResources this)); [|repeat split].
  destruct (_ || _); repeat split.
Qed.


(** ** [attach] *)

Lemma attach_unfold (this : WebXRHandTracking) :
  attach this true =
  (true,
   _addNewAttachObserver onControllerRemovedObservable detachHandCallback
     (_addNewAttachObserver onControllerAddedObservable attachHandCallback
        (foldl _attachHand (withResources this) (xrInput_controllers (options this))))).
Proof.
  unfold attach, withResources. cbn [negb].
  destruct (negb (isSet (jointMeshes (_handResources this))));
    destruct (negb (isSet (customMeshes (options _))) && _); reflexivity.
Qed.

Lemma withResources_frame (this : WebXRHandTracking) :
  jointMeshes (_handResources (withResources this)) <> None
  /\ _attachedHands (withResources this) = _attachedHands this
  /\ _trackingHands (withResources this) = _trackingHands this
  /\ options (withResources this) = options this
  /\ attachObservers (withResources this) = attachObservers this
  /\ effects (withResources this) = effects this
  /\ constructed (withResources this) = constructed this.
Proof.
  unfold withResources.
  destruct (jointMeshes (_handResources this)) eqn:Ej; cbn [isSet negb];
    destruct (negb (isSet (customMeshes (options _))) && _); cbn; rewrite ?Ej;
    repeat split; discriminate.
Qed.

Lemma attachAll_resources (cs : list WebXRInputSource) (this : WebXRHandTracking) :
  _handResources (foldl _attachHand this cs) = _handResources this
  /\ options (foldl _attachHand this cs) = options this
  /\ attachObservers (foldl _attachHand this cs) = attachObservers this
  /\ defaultMeshesRequested (foldl _attachHand this cs) = defaultMeshesRequested this.
Proof.
  revert this. induction cs as [|c cs IH]; intros this; cbn [foldl]; [repeat split|].
  destruct (IH (_attachHand this c)) as (-> & -> & -> & ->). apply attachHand_resources.
Qed.




Lemma addObservers_getters (this : WebXRHandTracking) (o : Observable) (cb : Callback) :
  (forall id, getHandByControllerId (_addNewAttachObserver o cb this) id
              = getHandByControllerId this id)
  /\ (forall h, getHandByHandedness (_addNewAttachObserver o cb this) h
                = getHandByHandedness this h).
Proof. split; reflexivity. Qed.



(** ** Consistency of the registries *)

Section Invariant.

(** The controllers the session knows. *)
Variable known : list WebXRInputSource.
Hypothesis known_distinct : distinctIds known.

Local Abbreviation invariant := (HandTracking.invariant known).

Lemma invariant_ext (this this' : WebXRHandTracking) :
  options this' = options this ->
  _attachedHands this' = _attachedHands this ->
  _trackingHands this' = _trackingHands this ->
  invariant this -> invariant this'.
Proof. unfold invariant. intros -> -> ->. exact (fun H => H). Qed.

Lemma attachHand_invariant (this : WebXRHandTracking) (c : WebXRInputSource) :
  In c known -> invariant this -> invariant (_attachHand this c).
Proof.
  intros Hc Hinv.
  destruct (eligible c) eqn:He; [|rewrite (attachHand_ineligible this c He); exact Hinv].
  destruct (jointMeshes (_handResources this)) as [joints|] eqn:Hj;
    [|rewrite (attachHand_without_joints this c Hj); exact Hinv].
  destruct Hinv as (Hopt & Hatt & Htr).
  rewrite (attachHand_eligible this c joints Hj He).
  pose proof (eligible_handedness c He) as Hn.
  split; [exact Hopt | split]; cbn.
  - intros id hd Hl. destruct (String.eqb_spec (uniqueId c) id) as [<-|Hne].
    + rewrite lookup_assign_eq in Hl. injection Hl as <-. cbn. now repeat split.
    + rewrite lookup_assign_ne in Hl by exact Hne. apply Hatt. exact Hl.
  - intros h t Ht.
    assert (Hreg : forall t', lookup (uniqueId (xrController t')) (_attachedHands this) <> None ->
                   lookup (uniqueId (xrController t'))
                     (assign (uniqueId c) (newHand this c) (_attachedHands this))
                   <> None).
    { intros t' Hl. destruct (String.eqb_spec (uniqueId c) (uniqueId (xrController t')))
        as [<-|Hne].
      - rewrite lookup_assign_eq. discriminate.
      - rewrite lookup_assign_ne by exact Hne. exact Hl. }
    destruct (decide (handedness (inputSource c) = h)) as [<-|Hne].
    + rewrite tracked_track_eq in Ht by exact Hn. injection Ht as <-. cbn.
      repeat split; [exact Hc|]. rewrite lookup_assign_eq. discriminate.
    + rewrite tracked_track_ne in Ht by exact Hne.
      destruct (Htr h t Ht) as (H1 & H2 & H3). repeat split; auto.
Qed.

Lemma detachHandById_invariant (this : WebXRHandTracking) (id : string) (d : bool) :
  invariant this -> invariant (_detachHandById this id d).
Proof.
  intros Hinv. unfold _detachHandById, getHandByControllerId.
  destruct (lookup id (_attachedHands this)) as [hnd|] eqn:Hl; [|exact Hinv].
  destruct Hinv as (Hopt & Hatt & Htr).
  destruct (Hatt id hnd Hl) as (Hid & Hin & Hel).
  pose proof (eligible_handedness _ Hel) as Hn.
  set (hd := if handedness_eqb (handedness (inputSource (xrController hnd))) handLeft
             then handLeft else handRight).
  assert (Hhd : hd = handedness (inputSource (xrController hnd))).
  { subst hd. destruct (handedness (inputSource (xrController hnd)));
      [contradiction | reflexivity | reflexivity]. }
  assert (Hhdn : hd <> handNone) by (rewrite Hhd; exact Hn).
  set (this1 := match tracked hd (_trackingHands this) with
                | Some t =>
                  if String.eqb (uniqueId (xrController t)) id
                  then set__trackingHands (track hd None (_trackingHands this)) this
                  else this
                | None => this
                end).
  assert (Htr1 : forall h t, tracked h (_trackingHands this1) = Some t ->
                 tracked h (_trackingHands this) = Some t
                 /\ (h = hd -> uniqueId (xrController t) <> id)).
  { intros h t Ht. subst this1.
    destruct (tracked hd (_trackingHands this)) as [t0|] eqn:E0.
    - destruct (String.eqb_spec (uniqueId (xrController t0)) id) as [Heq|Hne].
      + cbn in Ht. destruct (decide (hd = h)) as [<-|Hneq].
        * rewrite tracked_track_eq in Ht by exact Hhdn. discriminate.
        * rewrite tracked_track_ne in Ht by exact Hneq. split; [exact Ht | congruence].
      + split; [exact Ht|]. intros ->. rewrite E0 in Ht. injection Ht as <-. exact Hne.
    - split; [exact Ht|]. intros ->. rewrite E0 in Ht. discriminate. }
  assert (Hatt1 : _attachedHands this1 = _attachedHands this).
  { subst this1. destruct (tracked hd (_trackingHands this)); [|reflexivity].
    destruct (String.eqb _ id); reflexivity. }
  assert (Hopt1 : options this1 = options this).
  { subst this1. destruct (tracked hd (_trackingHands this)); [|reflexivity].
    destruct (String.eqb _ id); reflexivity. }
  split; [|split]; cbn -[remove lookup].
  - rewrite Hopt1. exact Hopt.
  - intros id' x Hx. rewrite Hatt1 in Hx.
    destruct (String.eqb_spec id id') as [<-|Hne].
    + rewrite lookup_remove_eq in Hx. discriminate.
    + rewrite lookup_remove_ne in Hx by exact Hne. apply Hatt. exact Hx.
  - intros h t Ht. destruct (Htr1 h t Ht) as [Ht0 Hfresh].
    destruct (Htr h t Ht0) as (H1 & H2 & H3). repeat split; [exact H1 | exact H2|].
    rewrite Hatt1. rewrite lookup_remove_ne; [exact H3|].
    intros Heq. apply Hfresh; [|now symmetry].
    assert (Hsame : xrController t = xrController hnd).
    { apply known_distinct; [exact H2 | exact Hin | congruence]. }
    rewrite Hhd, <- Hsame. now symmetry.
Qed.

Lemma detachHand_invariant (this : WebXRHandTracking) (c : WebXRInputSource) :
  invariant this -> invariant (_detachHand this c).
Proof. apply detachHandById_invariant. Qed.

Lemma detachHandById_options (this : WebXRHandTracking) (id : string) (d : bool) :
  options (_detachHandById this id d) = options this.
Proof.
  unfold _detachHandById. destruct (getHandByControllerId this id); [|reflexivity].
  cbn. destruct (tracked _ _); [|reflexivity]. destruct (String.eqb _ id); reflexivity.
Qed.

Lemma attachAll_invariant (cs : list WebXRInputSource) (this : WebXRHandTracking) :
  incl cs known -> invariant this -> invariant (foldl _attachHand this cs).
Proof.
  revert this. induction cs as [|c cs IH]; intros this Hcs Hinv; cbn [foldl]; [exact Hinv|].
  apply IH; [intros x Hx; apply Hcs; now right|].
  apply attachHand_invariant; [apply Hcs; now left | exact Hinv].
Qed.

Lemma detachAll_invariant (ids : list string) (this : WebXRHandTracking) :
  invariant this ->
  invariant (foldl (fun this uniqueId =>
                      _detachHandById this uniqueId (disposeOnSessionEnd (options this)))
                   this ids).
Proof.
  revert this. induction ids as [|id ids IH]; intros this Hinv; cbn [foldl]; [exact Hinv|].
  apply IH. apply detachHandById_invariant. exact Hinv.
Qed.

Lemma attach_invariant (this : WebXRHandTracking) (superAttach : bool) :
  invariant this -> invariant (snd (attach this superAttach)).
Proof.
  intros Hinv. destruct superAttach; [|exact Hinv].
  rewrite attach_unfold. cbn [snd].
  destruct (withResources_frame this) as (_ & Ha & Ht & Ho & _).
  assert (Hw : invariant (withResources this))
    by (apply (invariant_ext this); assumption).
  apply (invariant_ext (foldl _attachHand (withResources this)
                          (xrInput_controllers (options this)))); try reflexivity.
  apply attachAll_invariant; [|exact Hw]. destruct Hinv as (Hopt & _). exact Hopt.
Qed.

Lemma detach_invariant (this : WebXRHandTracking) (superDetach : bool) :
  invariant this -> invariant (snd (detach this superDetach)).
Proof.
  intros Hinv. destruct superDetach; [|exact Hinv]. unfold detach. cbn [negb snd].
  set (s := foldl _ _ _).
  assert (Hs : invariant s).
  { subst s. apply detachAll_invariant. apply (invariant_ext this); try reflexivity.
    exact Hinv. }
  destruct (disposeOnSessionEnd (options s)); [|exact Hs].
  apply (invariant_ext s); try reflexivity. exact Hs.
Qed.

Lemma notifyObservers_invariant (o : Observable) (this : WebXRHandTracking)
    (c : WebXRInputSource) :
  In c known -> invariant this -> invariant (notifyObservers o this c).
Proof.
  intros Hc. unfold notifyObservers. generalize (attachObservers this) as observers.
  intros observers. revert this.
  induction observers as [|[o' cb] observers IH]; intros this Hinv; cbn [foldl];
    [exact Hinv|].
  apply IH. cbn [fst snd]. destruct (observable_eqb o' o); [|exact Hinv].
  destruct cb; cbn [runCallback];
    [apply attachHand_invariant | apply detachHand_invariant]; assumption.
Qed.

Lemma defaultHandMeshesLoaded_invariant (this : WebXRHandTracking) :
  invariant this -> invariant (defaultHandMeshesLoaded this).
Proof.
  intros Hinv. unfold defaultHandMeshesLoaded.
  destruct (defaultMeshesRequested this); [|exact Hinv].
  apply (invariant_ext this); try reflexivity. exact Hinv.
Qed.

Lemma run_invariant (events : list Event) (this : WebXRHandTracking) :
  incl (controllersOf events) known -> invariant this -> invariant (run this events).
Proof.
  unfold run. revert this.
  induction events as [|e events IH]; intros this Hcs Hinv; cbn [foldl]; [exact Hinv|].
  apply IH; [intros x Hx; apply Hcs; cbn; apply in_or_app; now right|].
  assert (Hc : forall c, e = ControllerAdded c \/ e = ControllerRemoved c -> In c known).
  { intros c [-> | ->]; apply Hcs; cbn; now left. }
  destruct e; cbn [step].
  - apply attach_invariant. exact Hinv.
  - apply detach_invariant. exact Hinv.
  - apply notifyObservers_invariant; [apply Hc; now left | exact Hinv].
  - apply notifyObservers_invariant; [apply Hc; now right | exact Hinv].
  - apply defaultHandMeshesLoaded_invariant. exact Hinv.
Qed.

Lemma invariant_consistent (this : WebXRHandTracking) : invariant this -> consistent this.
Proof.
  intros (_ & _ & Htr) h t Ht. apply lookup_keys. apply (Htr h t Ht).
Qed.

End Invariant.

Lemma constructor_invariant (options : IWebXRHandTrackingOptions)
    (known : list WebXRInputSource) :
  incl (xrInput_controllers options) known ->
  HandTracking.invariant known (constructor options).
Proof.
  intros Hopt. split; [exact Hopt | split]; cbn.
  - intros id hd H. discriminate.
  - intros [| |] t H; discriminate.
Qed.

(** ** [_detachHandById] *)

Lemma detachHandById_registered (this : WebXRHandTracking) (id : string) (d : bool)
    (hnd : WebXRHand) :
  getHandByControllerId this id = Some hnd ->
  let this' := _detachHandById this id d in
  getHandByControllerId this' id = None
  /\ effects this' = effects this ++ [HandRemoved hnd; HandDisposed hnd d]
  /\ (uniqueId (xrController hnd) = id ->
      forall h, getHandByHandedness this h = Some hnd ->
                h = handedness (inputSource (xrController hnd)) ->
                getHandByHandedness this' h = None).
Proof.
  intros Hl. cbv zeta. unfold _detachHandById. rewrite Hl.
  set (hd := if handedness_eqb (handedness (inputSource (xrController hnd))) handLeft
             then handLeft else handRight).
  split; [|split].
  - unfold getHandByControllerId. cbn -[remove lookup]. apply lookup_remove_eq.
  - cbn. destruct (tracked hd (_trackingHands this)) as [t|]; cbn;
      [destruct (String.eqb _ id); cbn|]; rewrite <- app_assoc; reflexivity.
  - intros Hid h Hh Hhd. unfold getHandByHandedness in *. cbn.
    destruct (handedness_eqb h handNone) eqn:En; [reflexivity|].
    assert (Heq : hd = h).
    { subst hd. rewrite <- Hhd. destruct h; [discriminate | reflexivity | reflexivity]. }
    rewrite Heq, Hh, Hid, String.eqb_refl. cbn.
    apply tracked_track_eq. intros ->. discriminate.
Qed.

(** C7.  The registries stay consistent: in every state reached from the
    constructor by [attach], [detach], reported and removed controllers and
    the arrival of the default meshes, each tracked hand belongs to a
    controller whose [uniqueId] is a key of [_attachedHands], the controllers
    being told apart by their [uniqueId].  [getHandByHandedness("none")] is
    always null.  After [_detachHandById(id)] on a registered id,
    [getHandByControllerId(id)] finds nothing, the hand is no longer tracked
    if it was the tracked hand of its handedness, and the observers of
    [onHandRemovedObservable] were notified before the hand was disposed. *)
Theorem registries_stay_consistent :
  (forall (options : IWebXRHandTrackingOptions) (events : list Event),
     distinctIds (xrInput_controllers options ++ controllersOf events) ->
     consistent (run (constructor options) events))
  /\ (forall this, getHandByHandedness this handNone = None)
  /\ (forall (this : WebXRHandTracking) (id : string) (disposeMesh : bool) (hnd : WebXRHand),
        getHandByControllerId this id = Some hnd ->
        uniqueId (xrController hnd) = id ->
        let this' := _detachHandById this id disposeMesh in
        getHandByControllerId this' id = None
        /\ (getHandByHandedness this (handedness (inputSource (xrController hnd))) = Some hnd ->
            getHandByHandedness this' (handedness (inputSource (xrController hnd))) = None)
        /\ effects this' = effects this ++ [HandRemoved hnd; HandDisposed hnd disposeMesh]).
Proof.
  split; [|split].
  - intros options events Hdistinct.
    apply (invariant_consistent (xrInput_controllers options ++ controllersOf events)).
    apply run_invariant.
    + exact Hdistinct.
    + apply incl_appr, incl_refl.
    + apply constructor_invariant. apply incl_appl, incl_refl.
  - intros this. reflexivity.
  - intros this id disposeMesh hnd Hl Hid.
    destruct (detachHandById_registered this id disposeMesh hnd Hl) as (H1 & H2 & H3).
    split; [exact H1 | split; [|exact H2]].
    intros Ht. apply (H3 Hid); [exact Ht | reflexivity].
Qed.

(** ** The joints of a hand *)

(** Evaluates the index of a joint in the table. *)
Ltac joint_index :=
  repeat match goal with
  | |- context [indexOf HandJointReferenceArray ?j] =>
    let v := eval vm_compute in (indexOf HandJointReferenceArray j) in
    change (indexOf HandJointReferenceArray j) with v
  end.

Section Joints.

Context {AbstractMesh : Type}.

(** X10.  The table of the joints.  Every joint has one index in
    [HandJointReferenceArray], between 0 and 24, at which the table holds it,
    and [getJointMesh] returns the mesh [_jointMeshes] holds at that index: a
    mesh when the hand was constructed with 25 meshes, and for two joints
    never the same element. *)
Theorem getJointMesh_by_table (_jointMeshes : list AbstractMesh)
    (joint : WebXRHandJoint.t) :
  let index := indexOf HandJointReferenceArray joint in
  (0 <= index < 25)%Z
  /\ HandJointReferenceArray !! Z.to_nat index = Some joint
  /\ getJointMesh _jointMeshes joint = _jointMeshes !! Z.to_nat index
  /\ (length _jointMeshes = 25%nat -> is_Some (getJointMesh _jointMeshes joint))
  /\ (forall joint', indexOf HandJointReferenceArray joint' = index -> joint' = joint).
Proof.
  cbv zeta. unfold getJointMesh, element.
  destruct joint; joint_index;
    (split; [lia | split; [reflexivity | split; [reflexivity | split]]]);
    try (intros Hlen; apply lookup_lt_is_Some; rewrite Hlen; cbn; lia);
    intros joint'; destruct joint'; vm_compute; congruence.
Qed.

(** X11.  The parts of a hand.  The joints of the wrist, the thumb and the
    four fingers, taken in this order, are the joints of the table, each once
    and in the order of the table; so the meshes that [getHandPartMeshes]
    returns for the six parts of a hand constructed with 25 meshes are these
    meshes, each once and in their order. *)
Theorem getHandPartMeshes_partition (_jointMeshes : list AbstractMesh) :
  let parts := [HandPart.WRIST; HandPart.THUMB; HandPart.INDEX; HandPart.MIDDLE;
                HandPart.RING; HandPart.LITTLE] in
  concat (map HandPartsDefinition parts) = HandJointReferenceArray
  /\ (length _jointMeshes = 25%nat ->
      concat (map (getHandPartMeshes _jointMeshes) parts) = map Some _jointMeshes).
Proof.
  cbv zeta. split; [reflexivity|]. intros Hlen.
  do 26 (destruct _jointMeshes as [|? _jointMeshes]; try discriminate Hlen).
  reflexivity.
Qed.

End Joints.

(** ** Rig mappings *)

(** The names of the joints are pairwise different. *)
Lemma joint_value_inj (j1 j2 : WebXRHandJoint.t) :
  WebXRHandJoint.value j1 = WebXRHandJoint.value j2 -> j1 = j2.
Proof. destruct j1, j2; cbn; intros H; first [reflexivity | discriminate H]. Qed.

(** X12.  The default rig mapping.  For each handedness it names a bone for
    every joint, two joints never get the same bone, and no bone of the left
    hand is a bone of the right hand; a handedness that is not "right" gets
    the bones of the left hand. *)
Theorem default_rig_mapping_tells_joints_apart :
  (forall h joint,
     is_Some (_GenerateDefaultHandMeshRigMapping h !! WebXRHandJoint.value joint))
  /\ (forall h j1 j2 bone,
        _GenerateDefaultHandMeshRigMapping h !! WebXRHandJoint.value j1 = Some bone ->
        _GenerateDefaultHandMeshRigMapping h !! WebXRHandJoint.value j2 = Some bone ->
        j1 = j2)
  /\ (forall j1 j2 bone,
        _GenerateDefaultHandMeshRigMapping handLeft !! WebXRHandJoint.value j1 = Some bone ->
        _GenerateDefaultHandMeshRigMapping handRight !! WebXRHandJoint.value j2 = Some bone ->
        False)
  /\ _GenerateDefaultHandMeshRigMapping handNone = _GenerateDefaultHandMeshRigMapping handLeft.
Proof.
  split; [|split; [|split]].
  - intros h joint. destruct h, joint; vm_compute; eexists; reflexivity.
  - intros h j1 j2 bone. destruct h, j1, j2; vm_compute; intros H1 H2;
      first [reflexivity | congruence].
  - intros j1 j2 bone. destruct j1, j2; vm_compute; intros H1 H2; congruence.
  - reflexivity.
Qed.

(** The key the constructor writes a legacy bone name under. *)
Local Abbreviation legacyKey index :=
  (match element HandJointReferenceArray (Z.of_nat index) with
   | Some joint => WebXRHandJoint.value joint
   | None => "undefined"
   end).

Lemma legacyKey_other (joint : WebXRHandJoint.t) (index : nat) :
  index <> Z.to_nat (indexOf HandJointReferenceArray joint) ->
  legacyKey index <> WebXRHandJoint.value joint.
Proof.
  destruct joint; joint_index; intros Hne;
    do 25 (destruct index as [|index];
           [first [exfalso; apply Hne; reflexivity | vm_compute; congruence]|]);
    unfold element; (destruct (Z.ltb_spec (Z.of_nat (25 + index)) 0); [lia|]);
    rewrite Nat2Z.id; cbn; discriminate.
Qed.

Lemma legacyKey_joint (joint : WebXRHandJoint.t) :
  legacyKey (Z.to_nat (indexOf HandJointReferenceArray joint)) = WebXRHandJoint.value joint.
Proof. destruct joint; reflexivity. Qed.

Lemma convertLegacyFrom_lookup (joint : WebXRHandJoint.t) (legacyRigMapping : list string) :
  forall (index : nat) (rigMapping : XRHandMeshRigMapping),
  let n := Z.to_nat (indexOf HandJointReferenceArray joint) in
  convertLegacyFrom index legacyRigMapping rigMapping !! WebXRHandJoint.value joint
  = if decide (index <= n < index + length legacyRigMapping)
    then legacyRigMapping !! (n - index)
    else rigMapping !! WebXRHandJoint.value joint.
Proof.
  induction legacyRigMapping as [|name rest IH]; intros index rigMapping n.
  - cbn. destruct (decide _); [lia | reflexivity].
  - cbn [convertLegacyFrom length]. rewrite IH. fold n.
    destruct (decide (index = n)) as [->|Hne].
    + destruct (decide (S n <= n < _)); [lia|].
      destruct (decide (n <= n < _)); [|lia].
      rewrite Nat.sub_diag. cbn [lookup list_lookup]. subst n.
      rewrite legacyKey_joint. apply lookup_insert_eq.
    + destruct (decide (S index <= n < _)) as [Hin|Hout].
      * destruct (decide (index <= n < _)); [|lia].
        replace (n - index) with (S (n - S index)) by lia. reflexivity.
      * destruct (decide (index <= n < _)); [lia|].
        apply lookup_insert_ne. apply legacyKey_other. exact Hne.
Qed.

(** X13.  The legacy rig mapping.  The constructor turns an array of bone
    names into a mapping that gives each joint the name the array holds at the
    index of the joint in [HandJointReferenceArray], and no name to a joint
    the array is too short for. *)
Theorem legacy_rig_mapping_by_table (legacyRigMapping : list string)
    (joint : WebXRHandJoint.t) :
  convertLegacyRigMapping legacyRigMapping !! WebXRHandJoint.value joint
  = legacyRigMapping !! Z.to_nat (indexOf HandJointReferenceArray joint).
Proof.
  unfold convertLegacyRigMapping. rewrite convertLegacyFrom_lookup.
  rewrite Nat.sub_0_r. destruct (decide _) as [|Hout]; [reflexivity|].
  rewrite lookup_empty. symmetry. apply lookup_ge_None. lia.
Qed.

(** ** The hands announced to the observers *)

Lemma addedHands_app (e1 e2 : list Effect) :
  addedHands (e1 ++ e2) = addedHands e1 ++ addedHands e2.
Proof. apply flat_map_app. Qed.

Lemma removedHands_app (e1 e2 : list Effect) :
  removedHands (e1 ++ e2) = removedHands e1 ++ removedHands e2.
Proof. apply flat_map_app. Qed.

Lemma disposedHands_app (e1 e2 : list Effect) :
  disposedHands (e1 ++ e2) = disposedHands e1 ++ disposedHands e2.
Proof. apply flat_map_app. Qed.

Lemma accounted_ext (this this' : WebXRHandTracking) :
  effects this' = effects this ->
  constructed this' = constructed this ->
  _attachedHands this' = _attachedHands this ->
  accounted this -> accounted this'.
Proof. unfold accounted. intros -> -> ->. exact (fun H => H). Qed.

Lemma attachHand_accounted (this : WebXRHandTracking) (c : WebXRInputSource) :
  accounted this -> accounted (_attachHand this c).
Proof.
  intros Hacc.
  destruct (eligible c) eqn:He; [|rewrite (attachHand_ineligible this c He); exact Hacc].
  destruct (jointMeshes (_handResources this)) as [joints|] eqn:Hj;
    [|rewrite (attachHand_without_joints this c Hj); exact Hacc].
  rewrite (attachHand_eligible this c joints Hj He).
  destruct Hacc as (Hadd & Hrem & Hincl & Hdisp & Hserial & Hreg).
  assert (Hfresh : ~ In (newHand this c) (addedHands (effects this))).
  { intros Hin. apply Hserial in Hin. cbn in Hin. lia. }
  unfold accounted. cbn [effects emit set__trackingHands set__attachedHands set_constructed
                         constructed _attachedHands].
  rewrite addedHands_app, removedHands_app, disposedHands_app. cbn. rewrite !app_nil_r.
  split; [|split; [exact Hrem | split; [|split; [exact Hdisp | split]]]].
  - apply NoDup_ListNoDup. apply NoDup_ListNoDup in Hadd.
    apply NoDup_app. split; [exact Hadd | split; [|apply NoDup_singleton]].
    intros x Hx Hx'. apply list_elem_of_singleton in Hx'. subst x.
    apply Hfresh. apply list_elem_of_In. exact Hx.
  - intros x Hx. apply in_or_app. left. apply Hincl. exact Hx.
  - intros h Hh. apply in_app_or in Hh as [Hh|[<-|[]]]; [apply Hserial in Hh; lia | cbn; lia].
  - intros id h Hl. destruct (String.eqb_spec (uniqueId c) id) as [<-|Hne].
    + rewrite lookup_assign_eq in Hl. injection Hl as <-.
      split; [reflexivity | split; [apply in_or_app; right; now left|]].
      intros Hin. apply Hfresh. apply Hincl. exact Hin.
    + rewrite lookup_assign_ne in Hl by exact Hne.
      destruct (Hreg id h Hl) as (H1 & H2 & H3).
      split; [exact H1 | split; [apply in_or_app; now left | exact H3]].
Qed.

Lemma detachHandById_attachedHands (this : WebXRHandTracking) (id : string) (d : bool) :
  _attachedHands (_detachHandById this id d)
  = match getHandByControllerId this id with
    | Some _ => remove id (_attachedHands this)
    | None => _attachedHands this
    end.
Proof.
  unfold _detachHandById. destruct (getHandByControllerId this id); [|reflexivity].
  cbn -[remove]. destruct (tracked _ _); [|reflexivity].
  destruct (String.eqb _ id); reflexivity.
Qed.

Lemma detachHandById_constructed (this : WebXRHandTracking) (id : string) (d : bool) :
  constructed (_detachHandById this id d) = constructed this.
Proof.
  unfold _detachHandById. destruct (getHandByControllerId this id); [|reflexivity].
  cbn. destruct (tracked _ _); [|reflexivity]. destruct (String.eqb _ id); reflexivity.
Qed.

Lemma detachHandById_accounted (this : WebXRHandTracking) (id : string) (d : bool) :
  accounted this -> accounted (_detachHandById this id d).
Proof.
  intros Hacc.
  destruct (getHandByControllerId this id) as [hnd|] eqn:Hl.
  2:{ unfold _detachHandById. rewrite Hl. exact Hacc. }
  destruct (detachHandById_registered this id d hnd Hl) as (_ & Heff & _).
  pose proof (detachHandById_attachedHands this id d) as Hatt. rewrite Hl in Hatt.
  pose proof (detachHandById_constructed this id d) as Hcon.
  destruct Hacc as (Hadd & Hrem & Hincl & Hdisp & Hserial & Hreg).
  destruct (Hreg id hnd Hl) as (Hid & Hin & Hnot).
  unfold accounted. rewrite Heff, Hatt, Hcon.
  rewrite addedHands_app, removedHands_app, disposedHands_app. cbn. rewrite !app_nil_r.
  split; [exact Hadd | split; [|split; [|split; [|split; [exact Hserial|]]]]].
  - apply NoDup_ListNoDup. apply NoDup_ListNoDup in Hrem.
    apply NoDup_app. split; [exact Hrem | split; [|apply NoDup_singleton]].
    intros x Hx Hx'. apply list_elem_of_singleton in Hx'. subst x.
    apply Hnot. apply list_elem_of_In. exact Hx.
  - intros x Hx. apply in_app_or in Hx as [Hx|[<-|[]]]; [apply Hincl; exact Hx | exact Hin].
  - rewrite Hdisp. reflexivity.
  - intros id' h Hl'. destruct (String.eqb_spec id id') as [<-|Hne].
    + rewrite lookup_remove_eq in Hl'. discriminate.
    + rewrite lookup_remove_ne in Hl' by exact Hne.
      destruct (Hreg id' h Hl') as (H1 & H2 & H3).
      split; [exact H1 | split; [exact H2|]].
      intros Hx. apply in_app_or in Hx as [Hx|[<-|[]]]; [contradiction | congruence].
Qed.

Lemma attachAll_accounted (cs : list WebXRInputSource) (this : WebXRHandTracking) :
  accounted this -> accounted (foldl _attachHand this cs).
Proof.
  revert this. induction cs as [|c cs IH]; intros this Hacc; cbn [foldl]; [exact Hacc|].
  apply IH. apply attachHand_accounted. exact Hacc.
Qed.

Lemma detachAll_accounted (ids : list string) (this : WebXRHandTracking) :
  accounted this ->
  accounted (foldl (fun this uniqueId =>
                      _detachHandById this uniqueId (disposeOnSessionEnd (options this)))
                   this ids).
Proof.
  revert this. induction ids as [|id ids IH]; intros this Hacc; cbn [foldl]; [exact Hacc|].
  apply IH. apply detachHandById_accounted. exact Hacc.
Qed.

Lemma attach_accounted (this : WebXRHandTracking) (superAttach : bool) :
  accounted this -> accounted (snd (attach this superAttach)).
Proof.
  intros Hacc. destruct superAttach; [|exact Hacc].
  rewrite attach_unfold. cbn [snd].
  destruct (withResources_frame this) as (_ & Ha & _ & _ & _ & He & Hc).
  apply (accounted_ext (foldl _attachHand (withResources this)
                          (xrInput_controllers (options this)))); try reflexivity.
  apply attachAll_accounted. apply (accounted_ext this); assumption.
Qed.

Lemma detach_accounted (this : WebXRHandTracking) (superDetach : bool) :
  accounted this -> accounted (snd (detach this superDetach)).
Proof.
  intros Hacc. destruct superDetach; [|exact Hacc]. unfold detach. cbn [negb snd].
  set (s := foldl _ _ _).
  assert (Hs : accounted s).
  { subst s. apply detachAll_accounted. apply (accounted_ext this); try reflexivity.
    exact Hacc. }
  destruct (disposeOnSessionEnd (options s)); [|exact Hs].
  destruct Hs as (H1 & H2 & H3 & H4 & H5 & H6). unfold accounted.
  cbn [effects emit set__handResources constructed _attachedHands].
  rewrite addedHands_app, removedHands_app, disposedHands_app.
  cbn [addedHands removedHands disposedHands flat_map app]. rewrite !app_nil_r.
  split; [exact H1 | split; [exact H2 | split; [exact H3 | split; [exact H4|]]]].
  split; [exact H5 | exact H6].
Qed.

Lemma notifyObservers_accounted (o : Observable) (this : WebXRHandTracking)
    (c : WebXRInputSource) :
  accounted this -> accounted (notifyObservers o this c).
Proof.
  unfold notifyObservers. generalize (attachObservers this) as observers.
  intros observers. revert this.
  induction observers as [|[o' cb] observers IH]; intros this Hacc; cbn [foldl];
    [exact Hacc|].
  apply IH. cbn [fst snd]. destruct (observable_eqb o' o); [|exact Hacc].
  destruct cb; cbn [runCallback];
    [apply attachHand_accounted | apply detachHandById_accounted]; assumption.
Qed.

Lemma run_accounted (events : list Event) (this : WebXRHandTracking) :
  accounted this -> accounted (run this events).
Proof.
  unfold run. revert this.
  induction events as [|e events IH]; intros this Hacc; cbn [foldl]; [exact Hacc|].
  apply IH. destruct e; cbn [step].
  - apply attach_accounted. exact Hacc.
  - apply detach_accounted. exact Hacc.
  - apply notifyObservers_accounted. exact Hacc.
  - apply notifyObservers_accounted. exact Hacc.
  - unfold defaultHandMeshesLoaded. destruct (defaultMeshesRequested this); [|exact Hacc].
    apply (accounted_ext this); try reflexivity. exact Hacc.
Qed.

(** X14.  No hand is removed twice.  In every state reached from the
    constructor by [attach], [detach], reported and removed controllers and
    the arrival of the default meshes, the hands announced to
    [onHandAddedObservable] are pairwise different, so are the hands announced
    to [onHandRemovedObservable], each removed hand was added before, the
    hands disposed are the hands removed, in that order, and a hand found by
    [getHandByControllerId] was added and not removed. *)
Theorem hands_removed_once (options : IWebXRHandTrackingOptions) (events : list Event) :
  let this := run (constructor options) events in
  let added := addedHands (effects this) in
  let removed := removedHands (effects this) in
  List.NoDup added
  /\ List.NoDup removed
  /\ incl removed added
  /\ disposedHands (effects this) = removed
  /\ forall id h, getHandByControllerId this id = Some h -> In h added /\ ~ In h removed.
Proof.
  cbv zeta.
  assert (Hinit : accounted (constructor options)).
  { unfold accounted. cbn. repeat split; try apply List.NoDup_nil; easy. }
  destruct (run_accounted events _ Hinit) as (H1 & H2 & H3 & H4 & _ & H6).
  split; [exact H1 | split; [exact H2 | split; [exact H3 | split; [exact H4|]]]].
  intros id h Hl. destruct (H6 id h Hl) as (_ & Ha & Hr). split; assumption.
Qed.

(** ** [detach] *)

Local Abbreviation uniqueKeys this := (List.NoDup (keys (_attachedHands this))).

Lemma assign_NoDup (key : string) (v : WebXRHand) (d : Dictionary) :
  List.NoDup (keys d) -> List.NoDup (keys (assign key v d)).
Proof.
  induction d as [|[k w] d IH]; intros Hd; cbn.
  - constructor; [intros [] | constructor].
  - inversion Hd as [|? ? Hk Hd']; subst. destruct (String.eqb_spec k key) as [->|Hne]; cbn.
    + constructor; assumption.
    + constructor; [|apply IH; exact Hd'].
      intros Hin. apply Hk. apply lookup_keys. apply lookup_keys in Hin.
      rewrite lookup_assign_ne in Hin by congruence. exact Hin.
Qed.

Lemma remove_cons (key k : string) (w : WebXRHand) (d : Dictionary) :
  remove key ((k, w) :: d)
  = if String.eqb k key then remove key d else (k, w) :: remove key d.
Proof. unfold remove. cbn. destruct (String.eqb k key); reflexivity. Qed.

Lemma remove_NoDup (key : string) (d : Dictionary) :
  List.NoDup (keys d) -> List.NoDup (keys (remove key d)).
Proof.
  induction d as [|[k w] d IH]; intros Hd; [constructor|]. rewrite remove_cons.
  inversion Hd as [|? ? Hk Hd']; subst.
  destruct (String.eqb_spec k key) as [->|Hne]; [apply IH; exact Hd'|].
  cbn [keys map fst]. constructor; [|apply IH; exact Hd'].
  intros Hin. apply Hk. apply lookup_keys. apply lookup_keys in Hin.
  rewrite lookup_remove_ne in Hin by congruence. exact Hin.
Qed.

Lemma remove_absent (key : string) (d : Dictionary) :
  ~ In key (keys d) -> remove key d = d.
Proof.
  induction d as [|[k w] d IH]; intros Hk; [reflexivity|]. rewrite remove_cons.
  destruct (String.eqb_spec k key) as [->|Hne].
  - exfalso. apply Hk. now left.
  - f_equal. apply IH. intros Hin. apply Hk. now right.
Qed.

Lemma attachHand_uniqueKeys (this : WebXRHandTracking) (c : WebXRInputSource) :
  uniqueKeys this -> uniqueKeys (_attachHand this c).
Proof.
  intros Hu. unfold _attachHand. destruct (jointMeshes (_handResources this)); [|exact Hu].
  destruct (_ || _); [exact Hu|]. cbn. apply assign_NoDup. exact Hu.
Qed.

Lemma detachHandById_uniqueKeys (this : WebXRHandTracking) (id : string) (d : bool) :
  uniqueKeys this -> uniqueKeys (_detachHandById this id d).
Proof.
  intros Hu. rewrite detachHandById_attachedHands.
  destruct (getHandByControllerId this id); [apply remove_NoDup|]; exact Hu.
Qed.

Lemma notifyObservers_uniqueKeys (o : Observable) (this : WebXRHandTracking)
    (c : WebXRInputSource) :
  uniqueKeys this -> uniqueKeys (notifyObservers o this c).
Proof.
  unfold notifyObservers. generalize (attachObservers this) as observers.
  intros observers. revert this.
  induction observers as [|[o' cb] observers IH]; intros this Hu; cbn [foldl]; [exact Hu|].
  apply IH. cbn [fst snd]. destruct (observable_eqb o' o); [|exact Hu].
  destruct cb; cbn [runCallback];
    [apply attachHand_uniqueKeys | apply detachHandById_uniqueKeys]; exact Hu.
Qed.

(** Detaching the hands under all the keys, in the order of the keys. *)
Lemma detachAll_empties (dictionary : Dictionary) :
  forall this : WebXRHandTracking,
  _attachedHands this = dictionary ->
  List.NoDup (keys dictionary) ->
  let this' :=
    foldl (fun this uniqueId =>
             _detachHandById this uniqueId (disposeOnSessionEnd (options this)))
          this (keys dictionary) in
  _attachedHands this' = []
  /\ options this' = options this
  /\ attachObservers this' = attachObservers this
  /\ _handResources this' = _handResources this
  /\ effects this'
     = effects this
       ++ flat_map (fun entry => [HandRemoved (snd entry);
                                  HandDisposed (snd entry) (disposeOnSessionEnd (options this))])
            dictionary.
Proof.
  induction dictionary as [|[k h] rest IH]; intros this Hd Hkeys; cbv zeta.
  - cbn. rewrite app_nil_r. repeat split. exact Hd.
  - cbn [keys map fst foldl]. inversion Hkeys as [|? ? Hk Hrest]; subst.
    set (disposeMesh := disposeOnSessionEnd (options this)).
    assert (Hl : getHandByControllerId this k = Some h).
    { unfold getHandByControllerId. rewrite Hd. cbn. rewrite String.eqb_refl. reflexivity. }
    destruct (detachHandById_registered this k disposeMesh h Hl) as (_ & Heff & _).
    pose proof (detachHandById_attachedHands this k disposeMesh) as Hatt.
    rewrite Hl, Hd, remove_cons, String.eqb_refl, (remove_absent k rest Hk) in Hatt.
    pose proof (detachHandById_options this k disposeMesh) as Hopt.
    destruct (IH (_detachHandById this k disposeMesh) Hatt Hrest)
      as (H1 & H2 & H3 & H4 & H5).
    assert (Hobs : attachObservers (_detachHandById this k disposeMesh) = attachObservers this
                   /\ _handResources (_detachHandById this k disposeMesh)
                      = _handResources this).
    { unfold _detachHandById. rewrite Hl. cbn.
      destruct (tracked _ _); [|split; reflexivity].
      destruct (String.eqb _ k); split; reflexivity. }
    destruct Hobs as [Hobs Hres].
    split; [exact H1|].
    split; [exact (eq_trans H2 Hopt)|].
    split; [exact (eq_trans H3 Hobs)|].
    split; [exact (eq_trans H4 Hres)|].
    etransitivity; [exact H5|]. rewrite Heff, Hopt, <- app_assoc. reflexivity.
Qed.

Lemma detach_attachedHands (this : WebXRHandTracking) :
  uniqueKeys this -> _attachedHands (snd (detach this true)) = [].
Proof.
  intros Hu.
  destruct (detachAll_empties (_attachedHands this) (set_attachObservers [] this) eq_refl Hu)
    as (Hempty & _).
  unfold detach. cbn [negb snd].
  match goal with
  | |- context [if ?c then _ else _] => destruct c
  end; cbn [_attachedHands emit set__handResources]; exact Hempty.
Qed.

Lemma run_uniqueKeys (events : list Event) (this : WebXRHandTracking) :
  uniqueKeys this -> uniqueKeys (run this events).
Proof.
  unfold run. revert this.
  induction events as [|e events IH]; intros this Hu; cbn [foldl]; [exact Hu|].
  apply IH. destruct e as [[|]|[|]|c|c|]; cbn [step]; try exact Hu.
  - rewrite attach_unfold. cbn [snd].
    destruct (withResources_frame this) as (_ & Ha & _).
    cbn [_addNewAttachObserver set_attachObservers _attachedHands].
    generalize (xrInput_controllers (options this)) as cs.
    assert (Hw : uniqueKeys (withResources this)) by (rewrite Ha; exact Hu).
    revert Hw. generalize (withResources this) as s. intros s Hs cs. revert s Hs.
    induction cs as [|c cs IHcs]; intros s Hs; cbn [foldl]; [exact Hs|].
    apply IHcs. apply attachHand_uniqueKeys. exact Hs.
  - rewrite detach_attachedHands by exact Hu. constructor.
  - apply notifyObservers_uniqueKeys. exact Hu.
  - apply notifyObservers_uniqueKeys. exact Hu.
  - unfold defaultHandMeshesLoaded. destruct (defaultMeshesRequested this); exact Hu.
Qed.

Lemma notifyObservers_options (o : Observable) (this : WebXRHandTracking)
    (c : WebXRInputSource) :
  options (notifyObservers o this c) = options this.
Proof.
  unfold notifyObservers. generalize (attachObservers this) as observers.
  intros observers. revert this.
  induction observers as [|[o' cb] observers IH]; intros this; cbn [foldl]; [reflexivity|].
  rewrite IH. cbn [fst snd]. destruct (observable_eqb o' o); [|reflexivity].
  destruct cb; cbn [runCallback];
    [apply attachHand_resources | apply detachHandById_options].
Qed.

Lemma detachAll_options (ids : list string) (this : WebXRHandTracking) :
  options (foldl (fun this uniqueId =>
                    _detachHandById this uniqueId (disposeOnSessionEnd (options this)))
                 this ids)
  = options this.
Proof.
  revert this. induction ids as [|id ids IH]; intros this; cbn [foldl]; [reflexivity|].
  rewrite IH. apply detachHandById_options.
Qed.

Lemma run_options (events : list Event) (this : WebXRHandTracking) :
  options (run this events) = options this.
Proof.
  unfold run. revert this.
  induction events as [|e events IH]; intros this; cbn [foldl]; [reflexivity|].
  rewrite IH. destruct e as [[|]|[|]|c|c|]; cbn [step]; try reflexivity.
  - rewrite attach_unfold. cbn [snd _addNewAttachObserver set_attachObservers options].
    destruct (attachAll_resources (xrInput_controllers (options this)) (withResources this))
      as (_ & -> & _).
    apply withResources_frame.
  - unfold detach. cbn [negb snd].
    match goal with
    | |- context [if ?c then _ else _] => destruct c
    end; cbn [options emit set__handResources]; rewrite detachAll_options; reflexivity.
  - apply notifyObservers_options.
  - apply notifyObservers_options.
  - unfold defaultHandMeshesLoaded. destruct (defaultMeshesRequested this); reflexivity.
Qed.

(** X15.  [detach] leaves no hand.  In every state reached from the
    constructor, the controllers being told apart by their [uniqueId], a
    [detach] that the base class lets through announces every registered hand
    to [onHandRemovedObservable] and disposes of it, once each and in the
    order of the keys of [_attachedHands]; after it both registries are empty
    and the observers of the controllers are gone. *)
Theorem detach_leaves_no_hand (options0 : IWebXRHandTrackingOptions)
    (events : list Event) :
  distinctIds (xrInput_controllers options0 ++ controllersOf events) ->
  let this := run (constructor options0) events in
  let this' := snd (detach this true) in
  let disposeMesh := disposeOnSessionEnd options0 in
  fst (detach this true) = true
  /\ _attachedHands this' = []
  /\ _trackingHands this' = mkTrackingHands None None
  /\ attachObservers this' = []
  /\ effects this'
     = effects this
       ++ flat_map (fun entry => [HandRemoved (snd entry);
                                  HandDisposed (snd entry) disposeMesh])
            (_attachedHands this)
       ++ (if disposeMesh then [ResourcesDisposed] else []).
Proof.
  intros Hdistinct. cbv zeta.
  set (known := xrInput_controllers options0 ++ controllersOf events) in *.
  set (this := run (constructor options0) events).
  assert (Hinv : HandTracking.invariant known this).
  { apply run_invariant; [exact Hdistinct | apply incl_appr, incl_refl|].
    apply constructor_invariant. apply incl_appl, incl_refl. }
  pose proof (detach_invariant known Hdistinct this true Hinv) as Hinv'.
  assert (Hu : uniqueKeys this) by (apply run_uniqueKeys; constructor).
  assert (Hopt : options this = options0) by apply run_options.
  destruct (detachAll_empties (_attachedHands this) (set_attachObservers [] this) eq_refl Hu)
    as (Hempty & Hopt' & Hobs & _ & Heff).
  cbn [options set_attachObservers attachObservers effects] in Hopt', Hobs, Heff.
  pose proof (detach_attachedHands this Hu) as Hatt.
  split; [reflexivity | split; [exact Hatt | split; [|split]]].
  - destruct Hinv' as (_ & _ & Htr). rewrite Hatt in Htr.
    destruct (_trackingHands (snd (detach this true))) as [[l|] [r|]]; try reflexivity;
      exfalso.
    + destruct (Htr handLeft l eq_refl) as (_ & _ & H). apply H. reflexivity.
    + destruct (Htr handLeft l eq_refl) as (_ & _ & H). apply H. reflexivity.
    + destruct (Htr handRight r eq_refl) as (_ & _ & H). apply H. reflexivity.
  - unfold detach. cbn [negb snd].
    match goal with
    | |- context [if ?c then _ else _] => destruct c
    end; cbn [attachObservers emit set__handResources]; exact Hobs.
  - unfold detach. cbn [negb snd]. set (s := foldl _ _ _).
    assert (Hs1 : options s = options this) by exact Hopt'.
    assert (Hs2 : effects s
                  = effects this
                    ++ flat_map (fun entry => [HandRemoved (snd entry);
                                               HandDisposed (snd entry)
                                                 (disposeOnSessionEnd (options this))])
                         (_attachedHands this)) by exact Heff.
    rewrite Hs1, Hopt. rewrite Hopt in Hs2.
    destruct (disposeOnSessionEnd options0) eqn:E;
      cbn [effects emit set__handResources]; rewrite Hs2, ?E, ?app_nil_r, <- ?app_assoc;
      reflexivity.
Qed.

(** ** The theorems on a concrete session *)

Section Examples.

Example attach_example :
  keys (_attachedHands attachedFeature) = [uniqueId leftController]
  /\ option_map xrController (getHandByHandedness attachedFeature handLeft)
     = Some leftController
  /\ getHandByHandedness attachedFeature handRight = None
  /\ List.length (effects attachedFeature) = 1%nat.
Proof. repeat split. Qed.

Example session_example :
  let this := run exampleFeature [Attach true; ControllerAdded rightController;
                                  ControllerAdded gaze; ControllerRemoved leftController] in
  keys (_attachedHands this) = [uniqueId rightController]
  /\ getHandByHandedness this handLeft = None
  /\ option_map xrController (getHandByHandedness this handRight) = Some rightController.
Proof. repeat split. Qed.

Example detach_example :
  let this := run exampleFeature exampleEvents in
  _attachedHands this = [] /\ _trackingHands this = mkTrackingHands None None.
Proof. split; reflexivity. Qed.

Lemma example_distinctIds :
  distinctIds (xrInput_controllers exampleOptions ++ controllersOf exampleEvents).
Proof.
  intros c1 c2 H1 H2 Hid. cbn in H1, H2.
  repeat (destruct H1 as [<-|H1]; [|]); try contradiction;
    repeat (destruct H2 as [<-|H2]; [|]); try contradiction;
    first [reflexivity | discriminate Hid].
Qed.


Lemma registries_stay_consistent_witness :
  consistent (run (constructor exampleOptions) exampleEvents)
  /\ (getHandByControllerId (_detachHandById attachedFeature (uniqueId leftController) false)
        (uniqueId leftController) = None
      /\ getHandByHandedness
           (_detachHandById attachedFeature (uniqueId leftController) false) handLeft = None).
Proof.
  destruct registries_stay_consistent as (H1 & _ & H3). split.
  - apply H1. exact example_distinctIds.
  - destruct (H3 attachedFeature (uniqueId leftController) false
                (newHand (withResources exampleFeature) leftController)
                eq_refl eq_refl) as (Ha & Hb & _).
    split; [exact Ha | apply Hb; reflexivity].
Defined.

Lemma getJointMesh_by_table_witness :
  getJointMesh (seq 0 25) WebXRHandJoint.INDEX_FINGER_TIP = Some 9
  /\ is_Some (getJointMesh (seq 0 25) WebXRHandJoint.INDEX_FINGER_TIP).
Proof.
  destruct (getJointMesh_by_table (seq 0 25) WebXRHandJoint.INDEX_FINGER_TIP)
    as (_ & _ & H3 & H4 & _).
  split; [exact H3 | apply H4; reflexivity].
Defined.

Lemma getHandPartMeshes_partition_witness :
  concat (map (getHandPartMeshes (seq 0 25))
            [HandPart.WRIST; HandPart.THUMB; HandPart.INDEX; HandPart.MIDDLE;
             HandPart.RING; HandPart.LITTLE])
  = map Some (seq 0 25).
Proof.
  apply (proj2 (getHandPartMeshes_partition (seq 0 25))). reflexivity.
Defined.

Lemma session_distinctIds :
  distinctIds (xrInput_controllers exampleOptions
               ++ controllersOf [Attach true; ControllerAdded rightController]).
Proof.
  intros c1 c2 H1 H2 Hid. cbn in H1, H2.
  repeat (destruct H1 as [<-|H1]; [|]); try contradiction;
    repeat (destruct H2 as [<-|H2]; [|]); try contradiction;
    first [reflexivity | discriminate Hid].
Qed.

Lemma detach_leaves_no_hand_witness :
  let this := run (constructor exampleOptions) [Attach true; ControllerAdded rightController] in
  let this' := snd (detach this true) in
  _attachedHands this' = []
  /\ _trackingHands this' = mkTrackingHands None None
  /\ effects this'
     = effects this
       ++ flat_map (fun entry => [HandRemoved (snd entry); HandDisposed (snd entry) false])
            (_attachedHands this)
       ++ [].
Proof.
  destruct (detach_leaves_no_hand exampleOptions [Attach true; ControllerAdded rightController]
              session_distinctIds) as (_ & H2 & H3 & _ & H5).
  split; [exact H2 | split; [exact H3 | exact H5]].
Defined.

End Examples.

End HandTrackingFacts.
